(** * DataOrcid: the ORCID synchronisation engine

    A shallow embedding of the synchronisation core of the application
    ([app/services/orcid_service.py], [app/services/ror_service.py],
    [app/services/cache_service.py]) and of the two run-log writers
    ([app/commands.py], [app/blueprints/cache_control.py]).

    Python values are modelled by one inductive type of JSON-like values,
    exceptions by a result type, the database and the clock by explicit
    state passing, and the upstream HTTP services by a function from
    requests and attempt numbers to outcomes. *)

From Stdlib Require Import List String Ascii Bool Arith ZArith Lia Permutation.
Import ListNotations.
Local Open Scope string_scope.
Local Open Scope list_scope.
Local Open Scope nat_scope.
Set Warnings "-register-all".

(* ================================================================= *)
(** ** Python values *)

Module Py.

(** The values that [json.loads] produces, which are also the values the
    services hand around.  A [JDict] keeps its items in insertion order, as
    a Python [dict] does; its keys are pairwise distinct.  Numbers are
    integers: the code tests them and stores them, it never computes with
    them. *)
Inductive json : Type :=
| JNull
| JBool (b : bool)
| JNum (n : Z)
| JStr (s : string)
| JList (l : list json)
| JDict (d : list (string * json)).

(** Python truthiness: [None], [False], [0], the empty string, list and dict are
    falsy. *)
Definition truthy (v : json) : bool :=
  match v with
  | JNull => false
  | JBool b => b
  | JNum n => negb (Z.eqb n 0)
  | JStr s => negb (String.eqb s EmptyString)
  | JList l => match l with [] => false | _ => true end
  | JDict d => match d with [] => false | _ => true end
  end.

(** [v or dflt]. *)
Definition py_or (v dflt : json) : json := if truthy v then v else dflt.

Definition type_name (v : json) : string :=
  match v with
  | JNull => "NoneType"
  | JBool _ => "bool"
  | JNum _ => "int"
  | JStr _ => "str"
  | JList _ => "list"
  | JDict _ => "dict"
  end.

(** The exceptions the modelled code can meet; each carries [str(exc)]. *)
Inductive exn : Type :=
| AttributeError (text : string)
| TypeError (text : string)
| KeyError (text : string)
| IndexError (text : string)
| ValueError (text : string)
| SQLAlchemyError (text : string).

Definition str_exn (e : exn) : string :=
  match e with
  | AttributeError t | TypeError t | KeyError t | IndexError t | ValueError t
  | SQLAlchemyError t => t
  end.

(** A computation either returns or raises. *)
Inductive res (A : Type) : Type :=
| Ok (a : A)
| Raise (e : exn).
Arguments Ok {A} a.
Arguments Raise {A} e.

Definition bind {A B} (c : res A) (k : A -> res B) : res B :=
  match c with
  | Ok a => k a
  | Raise e => Raise e
  end.

Definition is_ok {A} (c : res A) : bool :=
  match c with Ok _ => true | Raise _ => false end.

Definition no_attribute (v : json) (attr : string) : exn :=
  AttributeError
    ("'" ++ type_name v ++ "' object has no attribute '" ++ attr ++ "'")%string.

Definition not_iterable (v : json) : exn :=
  TypeError ("'" ++ type_name v ++ "' object is not iterable")%string.

Fixpoint assoc (k : string) (d : list (string * json)) : option json :=
  match d with
  | [] => None
  | (k', v) :: d' => if String.eqb k k' then Some v else assoc k d'
  end.

(** [k in d] for a dict. *)
Definition has_key (k : string) (d : list (string * json)) : bool :=
  match assoc k d with Some _ => true | None => false end.

(** [o.get(k, dflt)]: only a dict has [get]. *)
Definition py_get_or (o : json) (k : string) (dflt : json) : res json :=
  match o with
  | JDict d => Ok (match assoc k d with Some v => v | None => dflt end)
  | _ => Raise (no_attribute o "get")
  end.

(** [o.get(k)]. *)
Definition py_get (o : json) (k : string) : res json := py_get_or o k JNull.

(** What [for x in v] runs over: the items of a list, the keys of a dict,
    the characters of a string; the other values are not iterable. *)
Definition py_iter (v : json) : res (list json) :=
  match v with
  | JList l => Ok l
  | JDict d => Ok (map (fun kv => JStr (fst kv)) d)
  | JStr s => Ok (map (fun c => JStr (String c EmptyString)) (list_ascii_of_string s))
  | _ => Raise (not_iterable v)
  end.

(** [d[k] = v] on an insertion-ordered dict: an existing key keeps its place
    and takes the new value, a new key goes to the end. *)
Fixpoint dict_set (k : string) (v : json) (d : list (string * json))
  : list (string * json) :=
  match d with
  | [] => [(k, v)]
  | (k', v') :: d' =>
    if String.eqb k k' then (k, v) :: d' else (k', v') :: dict_set k v d'
  end.

(** [list(d.values())] and [list(d.keys())]. *)
Definition values (d : list (string * json)) : list json := map snd d.
Definition keys (d : list (string * json)) : list string := map fst d.

(** Truthiness of a string ([None] and the empty string are both falsy, and
    the code only ever tests a string before using it). *)
Definition str_truthy (s : string) : bool := negb (String.eqb s EmptyString).

Definition opt_truthy (s : option string) : bool :=
  match s with Some t => str_truthy t | None => false end.

(** [str.isspace] on one ASCII character: tab to carriage return, the four
    separators 28 to 31, and the space. *)
Definition is_space (c : ascii) : bool :=
  let n := nat_of_ascii c in
  ((9 <=? n) && (n <=? 13)) || ((28 <=? n) && (n <=? 32)).

Fixpoint lstrip (s : string) : string :=
  match s with
  | EmptyString => EmptyString
  | String c r => if is_space c then lstrip r else s
  end.

Fixpoint rstrip (s : string) : string :=
  match s with
  | EmptyString => EmptyString
  | String c r =>
    match rstrip r with
    | EmptyString => if is_space c then EmptyString else String c EmptyString
    | r' => String c r'
    end
  end.

(** [s.strip()]. *)
Definition strip (s : string) : string := rstrip (lstrip s).

Definition lower_ascii (c : ascii) : ascii :=
  let n := nat_of_ascii c in
  if (65 <=? n) && (n <=? 90) then ascii_of_nat (n + 32) else c.

(** [s.lower()] on ASCII text. *)
Fixpoint lower (s : string) : string :=
  match s with
  | EmptyString => EmptyString
  | String c r => String (lower_ascii c) (lower r)
  end.

Fixpoint starts_with (p s : string) : bool :=
  match p, s with
  | EmptyString, _ => true
  | String a p', String b s' => Ascii.eqb a b && starts_with p' s'
  | String _ _, EmptyString => false
  end.

(** [p in s] for two strings. *)
Fixpoint substring_in (p s : string) : bool :=
  starts_with p s ||
  match s with
  | EmptyString => false
  | String _ s' => substring_in p s'
  end.

(** [v == s] for a string literal [s]. *)
Definition eq_str (v : json) (s : string) : bool :=
  match v with
  | JStr s' => String.eqb s' s
  | _ => false
  end.

(** [v in ids] for a list of strings [ids]. *)
Definition in_strs (v : json) (ids : list string) : bool :=
  existsb (eq_str v) ids.

End Py.
Import Py.

Declare Scope res_scope.
Delimit Scope res_scope with res.
Notation "x <- c ;; k" := (bind c (fun x => k))
  (at level 61, c at next level, right associativity) : res_scope.
Local Open Scope res_scope.

(* ================================================================= *)
(** ** The resilient fetcher ([safe_get]) *)

Module Fetcher.

(** What [requests.get] hands back: a status code and the decoded body
    ([response.json()], [None] when the payload does not decode). *)
Record response : Type := mkResponse {
  status_code : nat;
  body : option json
}.

(** One attempt either yields a response or raises a
    [requests.exceptions.RequestException]. *)
Inductive outcome : Type :=
| Resp (r : response)
| RequestException (text : string).

(** What the fetcher does, in order: the attempts it issues and the pauses it
    takes (in milliseconds: [2 * attempt] seconds is [2000 * attempt],
    [0.5 * attempt] seconds is [500 * attempt]). *)
Inductive event : Type :=
| Get (attempt : nat)
| Sleep (millis : nat).

Definition default_retries : nat := 3.

(** The body of [for attempt in range(1, retries + 1)], with [remaining]
    iterations left; [server attempt] is what the attempt meets.  The headers
    the function prepares and the timeout it passes go into the request and
    have no part in what follows the answer. *)
Fixpoint safe_get_loop (server : nat -> outcome) (retries remaining attempt : nat)
  : option response * list event :=
  match remaining with
  | 0 => (None, [])
  | S remaining' =>
    let next := safe_get_loop server retries remaining' (S attempt) in
    let pause := if attempt <? retries then [Sleep (500 * attempt)] else [] in
    match server attempt with
    | Resp response =>
      if status_code response =? 200 then (Some response, [Get attempt])
      else if status_code response =? 429 then
        (fst next, Get attempt :: Sleep (2 * attempt * 1000) :: snd next)
      else if status_code response =? 404 then (Some response, [Get attempt])
      else if (status_code response =? 401) || (status_code response =? 403) then
        (None, [Get attempt])
      else (fst next, Get attempt :: pause ++ snd next)
    | RequestException _ => (fst next, Get attempt :: pause ++ snd next)
    end
  end.

Definition safe_get (server : nat -> outcome) (retries : nat)
  : option response * list event :=
  safe_get_loop server retries retries 1.

Definition is_get (e : event) : bool :=
  match e with Get _ => true | Sleep _ => false end.

(** The number of requests a trace issued. *)
Definition requests (t : list event) : nat := List.length (filter is_get t).



End Fetcher.
Import Fetcher.

(* ================================================================= *)
(** ** The upstream services *)

Module Upstream.

(** One clause of the search query: [ror-org-id:...] or [grid-org-id:...].
    The query text is the clauses joined by [" OR "]. *)
Inductive clause : Type :=
| RorClause (ror_id : string)
| GridClause (grid_id : json).

(** The resources the services ask for.  A request stands for the URL the
    code formats from its parts. *)
Inductive request : Type :=
| SearchRequest (search_url : string) (query : list clause) (start rows : nat)
| RecordRequest (base_url : string) (orcid_id : string)
| RorRequest (ror_id : string).

(** What a run sees of the application configuration and of the network.
    [token] is what [get_client_credentials_token()] returns during the run;
    [token_failure], when set, is the exception that leaves the call the
    bulk fetcher makes, in place of a token (the function catches nothing
    but [requests.exceptions.RequestException]);
    [http q attempt] is what the [attempt]-th try of one fetch of [q] meets. *)
Record Env : Type := mkEnv {
  config_search_url : option string;      (* ORCID_SEARCH_URL *)
  config_member_url : option string;      (* ORCID_MEMBER_URL *)
  config_base_url_member : option string; (* ORCID_BASE_URL_MEMBER *)
  config_client_id : option string;       (* ORCID_CLIENT_ID *)
  token : option string;
  token_failure : option exn;
  http : request -> nat -> outcome
}.

(** The call [get_client_credentials_token()] of the bulk fetcher, made
    outside any [try]: the token, or [None], or the exception. *)
Definition client_credentials_token (env : Env) : res (option string) :=
  match token_failure env with
  | Some e => Raise e
  | None => Ok (token env)
  end.

End Upstream.
Import Upstream.

(* ================================================================= *)
(** ** Registry search ([list_orcids_for_institution]) *)

Module RegistrySearch.

(** [(record.get('orcid-id') or '').strip()]. *)
Definition record_key (record : json) : res string :=
  v <- py_get record "orcid-id" ;;
  match py_or v (JStr EmptyString) with
  | JStr s => Ok (strip s)
  | other => Raise (no_attribute other "strip")
  end.

(** The loop [for record in chunk] over the items it runs through.  The dict
    is updated in place, so when a record raises the entries stored before it
    stay. *)
Fixpoint store_records (records : list json) (unique_results : list (string * json))
  : list (string * json) * option exn :=
  match records with
  | [] => (unique_results, None)
  | record :: rest =>
    match record_key record with
    | Raise e => (unique_results, Some e)
    | Ok orcid_id =>
      store_records rest
        (if str_truthy orcid_id then dict_set orcid_id record unique_results
         else unique_results)
    end
  end.

(** [len(chunk)]. *)
Definition py_len (v : json) : res nat :=
  match v with
  | JList l => Ok (List.length l)
  | JDict d => Ok (List.length d)
  | JStr s => Ok (String.length s)
  | _ => Raise (TypeError ("object of type '" ++ type_name v ++ "' has no len()")%string)
  end.

(** One pass through the body of the [try] once a 200 response is in hand.
    The boolean tells whether the loop goes on to the next page; any
    exception is caught by the [except Exception] clause, which breaks. *)
Definition page_step (response : response) (rows : nat)
  (unique_results : list (string * json)) : list (string * json) * bool :=
  match body response with
  | None => (unique_results, false)
  | Some data =>
    match py_get_or data "expanded-result" (JList []) with
    | Raise _ => (unique_results, false)
    | Ok found =>
      let chunk := py_or found (JList []) in
      if negb (truthy chunk) then (unique_results, false)
      else
        match py_iter chunk with
        | Raise _ => (unique_results, false)
        | Ok records =>
          match store_records records unique_results with
          | (stored, Some _) => (stored, false)
          | (stored, None) =>
            match py_len chunk with
            | Raise _ => (stored, false)
            | Ok n => if n <? rows then (stored, false) else (stored, true)
            end
          end
        end
    end
  end.

(** The [while True] pagination loop; [fuel] bounds the number of pages. *)
Fixpoint paginate (fuel : nat) (env : Env) (search_url : string)
  (query : list clause) (rows start : nat) (unique_results : list (string * json))
  : option (list (string * json)) :=
  match fuel with
  | 0 => None
  | S fuel' =>
    match fst (safe_get (http env (SearchRequest search_url query start rows))
                 default_retries) with
    | None => Some unique_results
    | Some response =>
      if negb (status_code response =? 200) then Some unique_results
      else
        match page_step response rows unique_results with
        | (stored, false) => Some stored
        | (stored, true) => paginate fuel' env search_url query rows (start + rows) stored
        end
    end
  end.

(** The Lucene query: one clause per identifier that is present. *)
Definition build_query (ror_id : string) (grid_id : json) : list clause :=
  (if str_truthy ror_id then [RorClause ror_id] else [])
  ++ (if truthy grid_id then [GridClause grid_id] else []).

Definition default_rows : nat := 1000.

(** [list_orcids_for_institution(ror_id, grid_id, base_url, headers, rows)];
    [None] when the pagination loop has not stopped within [fuel] pages.  An
    absent [ror_id] is the empty string: the code only tests it.  The token
    the function asks for before the loop goes into the headers only; the
    search is given for the runs in which that call returns. *)
Definition list_orcids_for_institution (fuel : nat) (env : Env) (ror_id : string)
  (grid_id : json) (base_url : option string) (rows : nat) : option (list json) :=
  let search_url :=
    if opt_truthy (config_search_url env) then config_search_url env else base_url in
  match search_url with
  | None => Some []
  | Some url =>
    if negb (str_truthy url) then Some []
    else
      match build_query ror_id grid_id with
      | [] => Some []
      | query => option_map values (paginate fuel env url query rows 0 [])
      end
  end.

(** *** The population, said from the outside

    The entries the search stores, page after page, in the order it meets
    them, and the list the deduplication is meant to produce from them. *)

(** The entries of one chunk, up to the first record that raises. *)
Fixpoint chunk_entries (records : list json) : list (string * json) :=
  match records with
  | [] => []
  | record :: rest =>
    match record_key record with
    | Raise _ => []
    | Ok orcid_id =>
      if str_truthy orcid_id then (orcid_id, record) :: chunk_entries rest
      else chunk_entries rest
    end
  end.

(** The value of the last entry with key [k], if any. *)
Fixpoint last_with_key (k : string) (entries : list (string * json)) : option json :=
  match entries with
  | [] => None
  | (k', v) :: rest =>
    match last_with_key k rest with
    | Some v' => Some v'
    | None => if String.eqb k k' then Some v else None
    end
  end.

(** The keys of [l], each at its first occurrence. *)
Fixpoint first_occurrences (seen l : list string) : list string :=
  match l with
  | [] => []
  | k :: rest =>
    if existsb (String.eqb k) seen then first_occurrences seen rest
    else k :: first_occurrences (seen ++ [k]) rest
  end.

(** One record per identifier: identifiers in first-occurrence order, each
    with the record of its last occurrence. *)
Definition merged_population (entries : list (string * json)) : list json :=
  flat_map (fun k => match last_with_key k entries with Some v => [v] | None => [] end)
           (first_occurrences [] (map fst entries)).

(** The records of a 200 response, as the loop runs through them; none when
    the payload cannot be read. *)
Definition response_records (response : response) : list json :=
  match body response with
  | Some data =>
    match py_get_or data "expanded-result" (JList []) with
    | Ok found =>
      match py_iter (py_or found (JList [])) with
      | Ok records => records
      | Raise _ => []
      end
    | Raise _ => []
    end
  | None => []
  end.

(** The records of the page at offset [start]; none when the page cannot be
    had. *)
Definition page_records (env : Env) (search_url : string) (query : list clause)
  (rows start : nat) : list json :=
  match fst (safe_get (http env (SearchRequest search_url query start rows))
               default_retries) with
  | Some response =>
    if status_code response =? 200 then response_records response else []
  | None => []
  end.

(** A page after which a further page is asked for: it is not empty, every
    record of it could be read, and it has no fewer than [rows] records. *)
Definition page_goes_on (records : list json) (rows : nat) : bool :=
  match records with
  | [] => false
  | _ => forallb (fun r => is_ok (record_key r)) records
         && (rows <=? List.length records)
  end.

(** The entries of the pages at offsets [start], [start + rows], ... up to
    the first page that does not go on. *)
Fixpoint visited_entries (fuel : nat) (env : Env) (search_url : string)
  (query : list clause) (rows start : nat) : list (string * json) :=
  match fuel with
  | 0 => []
  | S fuel' =>
    let records := page_records env search_url query rows start in
    chunk_entries records
    ++ (if page_goes_on records rows
        then visited_entries fuel' env search_url query rows (start + rows)
        else [])
  end.

(** The endpoint and the query of a search, when it gets as far as asking. *)
Definition search_target (env : Env) (ror_id : string) (grid_id : json)
  (base_url : option string) : option (string * list clause) :=
  match (if opt_truthy (config_search_url env) then config_search_url env
         else base_url) with
  | None => None
  | Some url =>
    if negb (str_truthy url) then None
    else
      match build_query ror_id grid_id with
      | [] => None
      | query => Some (url, query)
      end
  end.

(** The entries a search meets. *)
Definition search_entries (fuel : nat) (env : Env) (ror_id : string) (grid_id : json)
  (base_url : option string) (rows : nat) : list (string * json) :=
  match search_target env ror_id grid_id base_url with
  | None => []
  | Some (url, query) => visited_entries fuel env url query rows 0
  end.

(** An entry filed under the stripped identifier of its record, that
    identifier being not empty. *)
Definition filed (e : string * json) : Prop :=
  record_key (snd e) = Ok (fst e) /\ str_truthy (fst e) = true.

(** The search stops at its [n]-th page (counted from 0) at the latest. *)
Definition search_stops_at (env : Env) (ror_id : string) (grid_id : json)
  (base_url : option string) (rows n : nat) : bool :=
  match search_target env ror_id grid_id base_url with
  | None => true
  | Some (url, query) =>
    negb (page_goes_on (page_records env url query rows (n * rows)) rows)
  end.

End RegistrySearch.
Import RegistrySearch.

(* ================================================================= *)
(** ** Profile fetching ([fetch_single_profile],
       [get_all_profiles_concurrently]) *)

Module Profiles.

(** ['activities-summary' in data]: key membership for a dict, item
    membership for a list, substring test for a string. *)
Definition py_contains (k : string) (data : json) : res bool :=
  match data with
  | JDict d => Ok (has_key k d)
  | JList l => Ok (existsb (fun x => eq_str x k) l)
  | JStr s => Ok (substring_in k s)
  | _ => Raise (TypeError ("argument of type '" ++ type_name data ++ "' is not iterable")%string)
  end.

(** [data[k]] for a string key. *)
Definition py_item (data : json) (k : string) : res json :=
  match data with
  | JDict d =>
    match assoc k d with
    | Some v => Ok v
    | None => Raise (KeyError ("'" ++ k ++ "'")%string)
    end
  | JList _ => Raise (TypeError "list indices must be integers or slices, not str")
  | JStr _ => Raise (TypeError "string indices must be integers, not 'str'")
  | _ => Raise (TypeError ("'" ++ type_name data ++ "' object is not subscriptable")%string)
  end.

(** [data[k] = v] for a string key. *)
Definition py_setitem (data : json) (k : string) (v : json) : res json :=
  match data with
  | JDict d => Ok (JDict (dict_set k v d))
  | JList _ => Raise (TypeError "list indices must be integers or slices, not str")
  | _ => Raise (TypeError ("'" ++ type_name data ++ "' object does not support item assignment")%string)
  end.

(** The worker: one fetch through [safe_get]; the empty dict on failure.  It
    raises when the payload does not decode or is not a container. *)
Definition fetch_single_profile (env : Env) (orcid_id base_url : string) : res json :=
  match fst (safe_get (http env (RecordRequest base_url orcid_id)) default_retries) with
  | Some response =>
    if status_code response =? 200 then
      match body response with
      | None => Raise (ValueError "Expecting value")
      | Some data =>
        present <- py_contains "activities-summary" data ;;
        if present then
          v <- py_item data "activities-summary" ;;
          py_setitem data "activities" v
        else Ok data
      end
    else Ok (JDict [])
  | None => Ok (JDict [])
  end.

Fixpoint remove_nth {A} (i : nat) (l : list A) : list A :=
  match l, i with
  | [], _ => []
  | _ :: r, 0 => r
  | x :: r, S i' => x :: remove_nth i' r
  end.

(** [as_completed]: the submitted tasks in the order they finish.  The order
    is not fixed by the code; [picks] chooses, at each step, which of the
    pending tasks finishes next. *)
Fixpoint as_completed {A} (picks : list nat) (n : nat) (pending : list A) : list A :=
  match n, pending with
  | S n', x :: _ =>
    let i := Nat.modulo (hd 0 picks) (List.length pending) in
    nth i pending x :: as_completed (tl picks) n' (remove_nth i pending)
  | _, _ => []
  end.

(** What the loop over the finished futures does for one of them. *)
Definition collect (env : Env) (member_url : string)
  (results : list (string * json)) (oid : string) : list (string * json) :=
  match fetch_single_profile env oid member_url with
  | Ok profile_data =>
    if truthy profile_data then dict_set oid profile_data results else results
  | Raise _ => results
  end.

(** [get_all_profiles_concurrently(orcid_ids, max_workers)].  The pool
    constructor refuses a width of zero. *)
Definition get_all_profiles_concurrently (env : Env) (picks : list nat)
  (orcid_ids : list string) (max_workers : nat) : res (list (string * json)) :=
  token <- client_credentials_token env ;;
  match config_member_url env, token with
  | Some member_url, Some tok =>
    if negb (str_truthy member_url) || negb (str_truthy tok) then Ok []
    else if max_workers =? 0 then
      Raise (ValueError "max_workers must be greater than 0")
    else
      Ok (fold_left (collect env member_url)
            (as_completed picks (List.length orcid_ids) orcid_ids) [])
  | _, _ => Ok []
  end.

(** Whether the fetch of [oid] hands a non-empty document to the caller. *)
Definition fetched (env : Env) (member_url oid : string) : bool :=
  match fetch_single_profile env oid member_url with
  | Ok profile_data => truthy profile_data
  | Raise _ => false
  end.

(** The base URL the workers are given, when the pool is started at all:
    both the member URL and the token have to be there. *)
Definition pool_url (env : Env) : option string :=
  match config_member_url env, token env with
  | Some member_url, Some tok =>
    if str_truthy member_url && str_truthy tok then Some member_url else None
  | _, _ => None
  end.

(** The map the fetcher builds when the workers finish in the order chosen
    by [picks]. *)
Definition profiles_map (env : Env) (picks : list nat) (orcid_ids : list string)
  : list (string * json) :=
  match pool_url env with
  | Some url =>
    fold_left (collect env url)
      (as_completed picks (List.length orcid_ids) orcid_ids) []
  | None => []
  end.

End Profiles.
Import Profiles.

(* ================================================================= *)
(** ** Affiliation classifier ([_extract_status_from_profile]) *)

Module Classifier.

Definition sections_to_check : list string :=
  ["employments"; "educations"; "qualifications";
   "invited-positions"; "distinctions"; "memberships"; "services"].

(** A loop that sets a flag and breaks on the first hit. *)
Fixpoint any_res {A} (f : A -> res bool) (l : list A) : res bool :=
  match l with
  | [] => Ok false
  | x :: rest => hit <- f x ;; if hit then Ok true else any_res f rest
  end.

(** [summary.values()]. *)
Definition py_values (v : json) : res (list json) :=
  match v with
  | JDict d => Ok (values d)
  | _ => Raise (no_attribute v "values")
  end.

(** [isinstance(val, dict) and 'source' in val]. *)
Definition carries_source (val : json) : bool :=
  match val with
  | JDict d => has_key "source" d
  | _ => false
  end.

(** [next((val for val in summary.values() if ...), None)]. *)
Definition item_of (summary : json) : res json :=
  vals <- py_values summary ;;
  Ok (match find carries_source vals with Some val => val | None => JNull end).

(** [(source.get('source-client-id') or {}).get('path')] of an item. *)
Definition client_path (item_data : json) : res json :=
  src <- py_get item_data "source" ;;
  cid <- py_get (py_or src (JDict [])) "source-client-id" ;;
  py_get (py_or cid (JDict [])) "path".

(** The body of the innermost loop: does this summary set the flag? *)
Definition summary_is_managed (trusted_ids : list string) (summary : json) : res bool :=
  item_data <- item_of summary ;;
  if negb (truthy item_data) then Ok false
  else
    source_client_path <- client_path item_data ;;
    Ok (truthy source_client_path && in_strs source_client_path trusted_ids).

Definition group_is_managed (trusted_ids : list string) (group : json) : res bool :=
  v <- py_get_or group "summaries" (JList []) ;;
  summaries <- py_iter v ;;
  any_res (summary_is_managed trusted_ids) summaries.

Definition section_is_managed (trusted_ids : list string) (activities : json)
  (section : string) : res bool :=
  sd <- py_get activities section ;;
  g <- py_get_or (py_or sd (JDict [])) "affiliation-group" (JList []) ;;
  groups <- py_iter g ;;
  any_res (group_is_managed trusted_ids) groups.

(** The flag [is_managed] at the end of the three nested loops. *)
Definition is_managed (profile_data : json) (trusted_ids : list string) : res bool :=
  a <- py_get profile_data "activities-summary" ;;
  any_res (section_is_managed trusted_ids (py_or a (JDict []))) sections_to_check.

(** *** The classification, said from the outside *)

(** [o[k]] read leniently: [None] for a missing key or a value that is not a
    dict. *)
Definition field (o : json) (k : string) : json :=
  match o with
  | JDict d => match assoc k d with Some v => v | None => JNull end
  | _ => JNull
  end.

(** The items of a list; nothing for any other value. *)
Definition elements (v : json) : list json :=
  match v with
  | JList l => l
  | _ => []
  end.

(** The affiliation groups of a section of a profile, and the summaries of a
    group. *)
Definition groups_of (profile : json) (section : string) : list json :=
  elements (field (field (field profile "activities-summary") section)
                  "affiliation-group").

Definition summaries_of (group : json) : list json :=
  elements (field group "summaries").

(** Some summary, within some affiliation group of one of the seven
    sections, satisfies [P]. *)
Definition some_summary (P : json -> Prop) (profile : json) : Prop :=
  exists section group summary,
    In section sections_to_check
    /\ In group (groups_of profile section)
    /\ In summary (summaries_of group)
    /\ P summary.

(** The source-client-id path of a nested object. *)
Definition source_path (item : json) : json :=
  field (field (field item "source") "source-client-id") "path".

(** The path of the object is a non-empty member of the trusted ids. *)
Definition trusted_path (trusted_ids : list string) (item : json) : Prop :=
  exists p, source_path item = JStr p /\ p <> EmptyString /\ In p trusted_ids.

(** The summary contains a nested object with a ['source'] field whose path
    is trusted. *)
Definition some_source_trusted (trusted_ids : list string) (summary : json) : Prop :=
  exists d item,
    summary = JDict d /\ In item (values d) /\ carries_source item = true
    /\ trusted_path trusted_ids item.

(** The first nested object with a ['source'] field, in the order of the
    summary's items, has a trusted path. *)
Definition first_source_trusted (trusted_ids : list string) (summary : json) : Prop :=
  exists d item,
    summary = JDict d /\ find carries_source (values d) = Some item
    /\ trusted_path trusted_ids item.

(** *** Documents of the expected shape

    Each value the classifier reaches is of the type the code expects of it,
    or absent, or falsy where the code writes [or {}]. *)

Definition dict_or_falsy (v : json) : bool :=
  match v with
  | JDict _ => true
  | _ => negb (truthy v)
  end.

Definition list_of (ok : json -> bool) (v : json) : bool :=
  match v with
  | JList l => forallb ok l
  | _ => false
  end.

Definition well_shaped_item (item : json) : bool :=
  dict_or_falsy (field item "source")
  && dict_or_falsy (field (field item "source") "source-client-id").

Definition well_shaped_summary (summary : json) : bool :=
  match summary with
  | JDict d =>
    match find carries_source (values d) with
    | Some item => well_shaped_item item
    | None => true
    end
  | _ => false
  end.

Definition well_shaped_group (group : json) : bool :=
  match group with
  | JDict d =>
    match assoc "summaries" d with
    | Some v => list_of well_shaped_summary v
    | None => true
    end
  | _ => false
  end.

Definition well_shaped_section (section_data : json) : bool :=
  match section_data with
  | JDict d =>
    match assoc "affiliation-group" d with
    | Some v => list_of well_shaped_group v
    | None => true
    end
  | _ => negb (truthy section_data)
  end.

Definition well_shaped (profile : json) : bool :=
  match profile with
  | JDict _ =>
    match field profile "activities-summary" with
    | JDict a =>
      forallb (fun section => well_shaped_section (field (JDict a) section))
              sections_to_check
    | other => negb (truthy other)
    end
  | _ => false
  end.

End Classifier.
Import Classifier.

(* ================================================================= *)
(** ** Storage *)

Module Storage.

(** The [User] columns the engine reads and writes.  [grid_id] holds the
    Python value last assigned to it ([JNull] for [NULL]). *)
Record User : Type := mkUser {
  u_ror_id : option string;
  u_grid_id : json;
  u_am_client_id : option string
}.

(** A [WorkCache] row.  The text of [other_external_ids] is the items joined
    by ["; "], each item being a type, a colon and a value; the row keeps the
    items. *)
Record WorkCache : Type := mkWorkCache {
  w_ror_id : string;
  w_orcid : string;
  w_title : json;
  w_type : json;
  w_put_code : json;
  w_journal_title : json;
  w_pub_year : json;
  w_pub_month : json;
  w_pub_day : json;
  w_doi : json;
  w_issn : json;
  w_other_external_ids : option (list (string * json));
  w_source : json;
  w_url : json;
  w_visibility : json
}.

Record FundingCache : Type := mkFundingCache {
  f_ror_id : string;
  f_orcid : string;
  f_title : json;
  f_type : json;
  f_org_name : json;
  f_city : json;
  f_country : json;
  f_start_y : json;
  f_start_m : json;
  f_start_d : json;
  f_end_y : json;
  f_end_m : json;
  f_end_d : json;
  f_grant_number : json;
  f_currency : json;
  f_amount : json;
  f_source : json;
  f_visibility : json;
  f_url : json
}.

Record ResearcherStatus : Type := mkResearcherStatus {
  s_ror_id : string;
  s_orcid : string;
  s_is_managed_by_am : bool
}.

(** A row of [work_cache_run] or [funding_cache_run]. *)
Record CacheRun : Type := mkCacheRun {
  r_ror_id : string;
  r_status : string;
  r_rows_count : nat;
  r_error : option string;
  r_started_at : option nat;
  r_finished_at : option nat
}.

Record Db : Type := mkDb {
  users : list User;
  work_cache : list WorkCache;
  researcher_status : list ResearcherStatus;
  funding_cache : list FundingCache;
  work_cache_run : list CacheRun;
  funding_cache_run : list CacheRun
}.

(** What one [db.session.commit()] meets. *)
Inductive commit_outcome : Type :=
| Committed
| Failed (text : string).

(** The state a run threads: the database, what the coming commits will
    meet (every commit succeeds once the list is used up), the finishing
    orders of the coming worker pools, and the clock. *)
Record World : Type := mkWorld {
  db : Db;
  commits : list commit_outcome;
  schedules : list (list nat);
  clock : nat
}.

Definition with_db (f : Db -> Db) (w : World) : World :=
  mkWorld (f (db w)) (commits w) (schedules w) (clock w).

Definition commit (w : World) : commit_outcome * World :=
  match commits w with
  | [] => (Committed, w)
  | o :: rest => (o, mkWorld (db w) rest (schedules w) (clock w))
  end.

Definition next_schedule (w : World) : list nat * World :=
  match schedules w with
  | [] => ([], w)
  | p :: rest => (p, mkWorld (db w) (commits w) rest (clock w))
  end.

(** [dt.datetime.utcnow()]: two readings never agree. *)
Definition utcnow (w : World) : nat * World :=
  (clock w, mkWorld (db w) (commits w) (schedules w) (S (clock w))).

Definition set_users (us : list User) (d : Db) : Db :=
  mkDb us (work_cache d) (researcher_status d) (funding_cache d)
       (work_cache_run d) (funding_cache_run d).

Definition set_work_cache (rows : list WorkCache) (d : Db) : Db :=
  mkDb (users d) rows (researcher_status d) (funding_cache d)
       (work_cache_run d) (funding_cache_run d).

Definition set_researcher_status (rows : list ResearcherStatus) (d : Db) : Db :=
  mkDb (users d) (work_cache d) rows (funding_cache d)
       (work_cache_run d) (funding_cache_run d).

Definition set_funding_cache (rows : list FundingCache) (d : Db) : Db :=
  mkDb (users d) (work_cache d) (researcher_status d) rows
       (work_cache_run d) (funding_cache_run d).

(** [bulk_save_objects] on each table. *)
Definition insert_works (rows : list WorkCache) (d : Db) : Db :=
  set_work_cache (work_cache d ++ rows) d.

Definition insert_statuses (rows : list ResearcherStatus) (d : Db) : Db :=
  set_researcher_status (researcher_status d ++ rows) d.

Definition insert_fundings (rows : list FundingCache) (d : Db) : Db :=
  set_funding_cache (funding_cache d ++ rows) d.

(** The rows of an institution. *)
Definition works_of (ror_id : string) (d : Db) : list WorkCache :=
  filter (fun r => String.eqb (w_ror_id r) ror_id) (work_cache d).

Definition fundings_of (ror_id : string) (d : Db) : list FundingCache :=
  filter (fun r => String.eqb (f_ror_id r) ror_id) (funding_cache d).

Definition statuses_of (ror_id : string) (d : Db) : list ResearcherStatus :=
  filter (fun r => String.eqb (s_ror_id r) ror_id) (researcher_status d).

(** [_flush_bulk(bulk, model_name)]: the count it returns, the list as it
    leaves it (cleared only after a commit that went through), the state. *)
Definition _flush_bulk {R} (insert : list R -> Db -> Db) (bulk : list R) (w : World)
  : nat * list R * World :=
  match bulk with
  | [] => (0, bulk, w)
  | _ =>
    match commit w with
    | (Committed, w1) => (List.length bulk, [], with_db (insert bulk) w1)
    | (Failed _, w1) => (0, bulk, w1)
    end
  end.

End Storage.
Import Storage.

(* ================================================================= *)
(** ** Identifier healer ([fetch_grid_from_ror],
       [ensure_and_heal_grid_for_ror]) *)

Module Healer.

(** [v[0]]. *)
Definition py_first (v : json) : res json :=
  match v with
  | JList (x :: _) => Ok x
  | JList [] => Raise (IndexError "list index out of range")
  | JStr (String c _) => Ok (JStr (String c EmptyString))
  | JStr EmptyString => Raise (IndexError "string index out of range")
  | JDict _ => Raise (KeyError "0")
  | _ => Raise (TypeError ("'" ++ type_name v ++ "' object is not subscriptable")%string)
  end.

(** [x.get('preferred') or (x.get('all') and x['all'][0])]. *)
Definition preferred_or_first (x : json) : res json :=
  p <- py_get x "preferred" ;;
  if truthy p then Ok p
  else
    a <- py_get x "all" ;;
    if negb (truthy a) then Ok a
    else
      al <- py_item x "all" ;;
      py_first al.

(** The loop over a list-shaped [external_ids]: the first entry of type
    ['grid'] decides. *)
Fixpoint first_grid (identifiers : list json) : res json :=
  match identifiers with
  | [] => Ok JNull
  | identifier :: rest =>
    t <- py_get identifier "type" ;;
    if eq_str t "grid" then preferred_or_first identifier else first_grid rest
  end.

(** The parsing of a 200 response. *)
Definition parse_grid (data : json) : res json :=
  external_ids <- py_get_or data "external_ids" (JList []) ;;
  match external_ids with
  | JList identifiers => first_grid identifiers
  | JDict _ =>
    grid_data <- py_get_or external_ids "GRID" (JDict []) ;;
    preferred_or_first grid_data
  | _ => Ok JNull
  end.

(** [fetch_grid_from_ror(ror_id)]: one plain request for the institution
    (the cleaning of the identifier goes into the URL), every exception
    caught. *)
Definition fetch_grid_from_ror (env : Env) (ror_id : string) : json :=
  if negb (str_truthy ror_id) then JNull
  else
    match http env (RorRequest ror_id) 1 with
    | Resp response =>
      if status_code response =? 200 then
        match body response with
        | None => JNull
        | Some data =>
          match parse_grid data with
          | Ok grid => grid
          | Raise _ => JNull
          end
        end
      else if status_code response =? 404 then JNull
      else JNull
    | RequestException _ => JNull
    end.

(** [User.ror_id == ror_id]. *)
Definition of_ror (ror_id : string) (u : User) : bool :=
  match u_ror_id u with
  | Some r => String.eqb r ror_id
  | None => false
  end.

(** [grid_id IS NULL OR grid_id = ''] on a user row. *)
Definition lacks_grid (u : User) : bool :=
  match u_grid_id u with
  | JNull => true
  | JStr EmptyString => true
  | _ => false
  end.

Definition set_grid (grid_id : json) (u : User) : User :=
  mkUser (u_ror_id u) grid_id (u_am_client_id u).

(** [ensure_and_heal_grid_for_ror(ror_id)]. *)
Definition ensure_and_heal_grid_for_ror (env : Env) (ror_id : string) (w : World)
  : json * World :=
  if negb (str_truthy ror_id) then (JNull, w)
  else
    let existing :=
      find (fun u => of_ror ror_id u && negb (lacks_grid u)) (users (db w)) in
    let local := match existing with Some u => u_grid_id u | None => JNull end in
    let grid_id := if negb (truthy local) then fetch_grid_from_ror env ror_id else local in
    if truthy grid_id then
      let needs := fun u => of_ror ror_id u && lacks_grid u in
      match filter needs (users (db w)) with
      | [] => (grid_id, w)
      | _ =>
        match commit w with
        | (Committed, w1) =>
          (grid_id,
           with_db (fun d => set_users
                      (map (fun u => if needs u then set_grid grid_id u else u) (users d)) d)
                   w1)
        | (Failed _, w1) => (grid_id, w1)
        end
      end
    else (grid_id, w).


End Healer.
Import Healer.

(* ================================================================= *)
(** ** Cache rebuild ([build_works_cache_for_ror],
       [build_fundings_cache_for_ror]) *)

Module Rebuild.

Fixpoint map_res {A B} (f : A -> res B) (l : list A) : res (list B) :=
  match l with
  | [] => Ok []
  | x :: rest => y <- f x ;; ys <- map_res f rest ;; Ok (y :: ys)
  end.

Fixpoint fold_res {A B} (f : B -> A -> res B) (l : list A) (acc : B) : res B :=
  match l with
  | [] => Ok acc
  | x :: rest => acc' <- f acc x ;; fold_res f rest acc'
  end.

(** [(o.get(k) or {}).get('value')]. *)
Definition value_of (o : json) (k : string) : res json :=
  v <- py_get o k ;;
  py_get (py_or v (JDict [])) "value".

(** [(v or '').lower()]. *)
Definition lower_or_empty (v : json) : res string :=
  match py_or v (JStr EmptyString) with
  | JStr s => Ok (lower s)
  | other => Raise (no_attribute other "lower")
  end.

(** One turn of the loop over the external ids of a work: the first DOI,
    the first ISSN, the rest aside. *)
Definition scan_external_id (acc : json * json * list (string * json)) (eid : json)
  : res (json * json * list (string * json)) :=
  let '(doi, issn, others) := acc in
  t <- py_get eid "external-id-type" ;;
  id_type <- lower_or_empty t ;;
  id_val <- py_get eid "external-id-value" ;;
  if String.eqb id_type "doi" && negb (truthy doi) then Ok (id_val, issn, others)
  else if String.eqb id_type "issn" && negb (truthy issn) then Ok (doi, id_val, others)
  else if truthy id_val then Ok (doi, issn, others ++ [(id_type, id_val)])
  else Ok (doi, issn, others).

(** [(o.get('external-ids') or {}).get('external-id') or []], as the items
    the loop runs through. *)
Definition external_ids_of (o : json) : res (list json) :=
  e <- py_get o "external-ids" ;;
  l <- py_get (py_or e (JDict [])) "external-id" ;;
  py_iter (py_or l (JList [])).

(** The row built from one work summary. *)
Definition work_row (ror_id orcid_id : string) (work : json) : res WorkCache :=
  t <- py_get work "title" ;;
  let title_node := py_or t (JDict []) in
  p <- py_get work "publication-date" ;;
  let pub_date := py_or p (JDict []) in
  external_ids <- external_ids_of work ;;
  ids <- fold_res scan_external_id external_ids (JNull, JNull, []) ;;
  let '(doi, issn, others) := ids in
  title <- value_of title_node "title" ;;
  type <- py_get work "type" ;;
  put_code <- py_get work "put-code" ;;
  journal_title <- value_of work "journal-title" ;;
  pub_year <- value_of pub_date "year" ;;
  pub_month <- value_of pub_date "month" ;;
  pub_day <- value_of pub_date "day" ;;
  src <- py_get_or work "source" (JDict []) ;;
  source <- value_of src "source-name" ;;
  url <- value_of work "url" ;;
  visibility <- py_get work "visibility" ;;
  Ok (mkWorkCache ror_id orcid_id title type put_code journal_title
        pub_year pub_month pub_day doi issn
        (match others with [] => None | _ => Some others end)
        source url visibility).

(** The rows of one profile, in the order the loops append them. *)
Definition profile_works (ror_id orcid_id : string) (profile : json)
  : res (list WorkCache) :=
  a <- py_get profile "activities-summary" ;;
  wc <- py_get (py_or a (JDict [])) "works" ;;
  g <- py_get_or (py_or wc (JDict [])) "group" (JList []) ;;
  groups <- py_iter g ;;
  rows <- map_res (fun group =>
            ws <- py_get group "work-summary" ;;
            works <- py_iter (py_or ws (JList [])) ;;
            map_res (work_row ror_id orcid_id) works) groups ;;
  Ok (List.concat rows).

(** [_extract_status_from_profile(profile_data, ror_id, orcid, trusted_ids)]. *)
Definition _extract_status_from_profile (profile_data : json) (ror_id orcid : string)
  (trusted_ids : list string) : res ResearcherStatus :=
  managed <- is_managed profile_data trusted_ids ;;
  Ok (mkResearcherStatus ror_id orcid managed).

(** The generator behind [grant_id]: the value of the first external id
    whose lower-cased type contains ["grant"]. *)
Fixpoint grant_id_of (external_ids : list json) : res json :=
  match external_ids with
  | [] => Ok JNull
  | eid :: rest =>
    t <- py_get eid "external-id-type" ;;
    id_type <- lower_or_empty t ;;
    if substring_in "grant" id_type then py_get eid "external-id-value"
    else grant_id_of rest
  end.

(** The row built from one funding summary. *)
Definition funding_row (ror_id orcid_id : string) (summary : json) : res FundingCache :=
  o <- py_get summary "organization" ;;
  let org := py_or o (JDict []) in
  ad <- py_get org "address" ;;
  let address := py_or ad (JDict []) in
  sd <- py_get summary "start-date" ;;
  let start_date := py_or sd (JDict []) in
  ed <- py_get summary "end-date" ;;
  let end_date := py_or ed (JDict []) in
  am <- py_get summary "amount" ;;
  let amount_node := py_or am (JDict []) in
  external_ids <- external_ids_of summary ;;
  grant_id <- grant_id_of external_ids ;;
  tn <- py_get_or summary "title" (JDict []) ;;
  title <- value_of tn "title" ;;
  type <- py_get summary "type" ;;
  org_name <- py_get org "name" ;;
  city <- py_get address "city" ;;
  country <- py_get address "country" ;;
  start_y <- value_of start_date "year" ;;
  start_m <- value_of start_date "month" ;;
  start_d <- value_of start_date "day" ;;
  end_y <- value_of end_date "year" ;;
  end_m <- value_of end_date "month" ;;
  end_d <- value_of end_date "day" ;;
  currency <- py_get amount_node "currency-code" ;;
  amount <- py_get amount_node "value" ;;
  src <- py_get_or summary "source" (JDict []) ;;
  source <- value_of src "source-name" ;;
  visibility <- py_get summary "visibility" ;;
  url <- value_of summary "url" ;;
  Ok (mkFundingCache ror_id orcid_id title type org_name city country
        start_y start_m start_d end_y end_m end_d grant_id currency amount
        source visibility url).

Definition profile_fundings (ror_id orcid_id : string) (profile : json)
  : res (list FundingCache) :=
  a <- py_get profile "activities-summary" ;;
  fc <- py_get (py_or a (JDict [])) "fundings" ;;
  g <- py_get_or (py_or fc (JDict [])) "group" (JList []) ;;
  groups <- py_iter g ;;
  rows <- map_res (fun group =>
            fs <- py_get group "funding-summary" ;;
            summaries <- py_iter (py_or fs (JList [])) ;;
            map_res (funding_row ror_id orcid_id) summaries) groups ;;
  Ok (List.concat rows).

(** [r.get('orcid-id')] of a search record, when it is a non-empty string.
    The records come from the search, which keeps only dicts with such an
    identifier, so nothing is lost. *)
Definition orcid_id_of (r : json) : option string :=
  match py_get r "orcid-id" with
  | Ok (JStr s) => if str_truthy s then Some s else None
  | _ => None
  end.

(** [[r.get('orcid-id') for r in researchers if r.get('orcid-id')]]. *)
Definition orcid_ids_of (researchers : list json) : list string :=
  flat_map (fun r => match orcid_id_of r with Some s => [s] | None => [] end)
           researchers.

(** The trusted client ids: the system one, then the institution's
    Affiliation Manager one. *)
Definition trusted_ids_for (env : Env) (ror_id : string) (d : Db) : list string :=
  (match config_client_id env with
   | Some system_client_id =>
     if str_truthy system_client_id then [system_client_id] else []
   | None => []
   end)
  ++
  match find (fun u => of_ror ror_id u
                       && match u_am_client_id u with Some _ => true | None => false end)
             (users d) with
  | Some manager_user =>
    match u_am_client_id manager_user with
    | Some am => if str_truthy am then [am] else []
    | None => []
    end
  | None => []
  end.

(** The purge of the Publications rebuild: both deletes, one commit; a
    commit that fails raises out of the rebuild. *)
Definition purge_works (ror_id : string) (w : World) : res unit * World :=
  match commit w with
  | (Committed, w1) =>
    (Ok tt,
     with_db (fun d =>
       set_researcher_status
         (filter (fun r => negb (String.eqb (s_ror_id r) ror_id)) (researcher_status d))
         (set_work_cache
            (filter (fun r => negb (String.eqb (w_ror_id r) ror_id)) (work_cache d)) d))
       w1)
  | (Failed text, w1) => (Raise (SQLAlchemyError text), w1)
  end.

Definition purge_fundings (ror_id : string) (w : World) : res unit * World :=
  match commit w with
  | (Committed, w1) =>
    (Ok tt,
     with_db (fun d =>
       set_funding_cache
         (filter (fun r => negb (String.eqb (f_ror_id r) ror_id)) (funding_cache d)) d)
       w1)
  | (Failed text, w1) => (Raise (SQLAlchemyError text), w1)
  end.

(** The variables of the Publications loop. *)
Record works_state : Type := mkWorksState {
  total_works_cached : nat;
  works_buffer : list WorkCache;
  status_buffer : list ResearcherStatus
}.

(** The loop [for orcid_id, profile in profiles_map.items()] of the
    Publications rebuild.  An exception leaves the loop with the state as
    the flushes so far made it. *)
Fixpoint process_works (ror_id : string) (trusted_ids : list string)
  (items : list (string * json)) (st : works_state) (w : World)
  : res works_state * World :=
  match items with
  | [] => (Ok st, w)
  | (orcid_id, profile) :: rest =>
    if negb (truthy profile) then process_works ror_id trusted_ids rest st w
    else
      match _extract_status_from_profile profile ror_id orcid_id trusted_ids with
      | Raise e => (Raise e, w)
      | Ok status =>
        match profile_works ror_id orcid_id profile with
        | Raise e => (Raise e, w)
        | Ok rows =>
          let total := total_works_cached st + List.length rows in
          let statuses := status_buffer st ++ [status] in
          let works := works_buffer st ++ rows in
          let '(_, works, w) :=
            if 2000 <=? List.length works then _flush_bulk insert_works works w
            else (0, works, w) in
          let '(_, statuses, w) :=
            if 1000 <=? List.length statuses then _flush_bulk insert_statuses statuses w
            else (0, statuses, w) in
          process_works ror_id trusted_ids rest (mkWorksState total works statuses) w
        end
      end
  end.

(** [build_works_cache_for_ror(ror_id, base_url, headers)]; [None] when the
    search has not stopped within [fuel] pages. *)
Definition build_works_cache_for_ror (fuel : nat) (env : Env) (ror_id : string)
  (base_url : option string) (w : World) : option (res nat * World) :=
  let (grid_id, w) := ensure_and_heal_grid_for_ror env ror_id w in
  match list_orcids_for_institution fuel env ror_id grid_id base_url default_rows with
  | None => None
  | Some [] => Some (Ok 0, w)
  | Some researchers =>
    let trusted_ids := trusted_ids_for env ror_id (db w) in
    let orcid_ids := orcid_ids_of researchers in
    match purge_works ror_id w with
    | (Raise e, w) => Some (Raise e, w)
    | (Ok _, w) =>
      let (picks, w) := next_schedule w in
      match get_all_profiles_concurrently env picks orcid_ids 10 with
      | Raise e => Some (Raise e, w)
      | Ok profiles_map =>
        match process_works ror_id trusted_ids profiles_map (mkWorksState 0 [] []) w with
        | (Raise e, w) => Some (Raise e, w)
        | (Ok st, w) =>
          let '(_, _, w) := _flush_bulk insert_works (works_buffer st) w in
          let '(_, _, w) := _flush_bulk insert_statuses (status_buffer st) w in
          Some (Ok (total_works_cached st), w)
        end
      end
    end
  end.

(** The variables of the Grants loop. *)
Record fundings_state : Type := mkFundingsState {
  total_fundings_cached : nat;
  funding_buffer : list FundingCache
}.

Fixpoint process_fundings (ror_id : string) (items : list (string * json))
  (st : fundings_state) (w : World) : res fundings_state * World :=
  match items with
  | [] => (Ok st, w)
  | (orcid_id, profile) :: rest =>
    if negb (truthy profile) then process_fundings ror_id rest st w
    else
      match profile_fundings ror_id orcid_id profile with
      | Raise e => (Raise e, w)
      | Ok rows =>
        let total := total_fundings_cached st + List.length rows in
        let fundings := funding_buffer st ++ rows in
        let '(_, fundings, w) :=
          if 2000 <=? List.length fundings then _flush_bulk insert_fundings fundings w
          else (0, fundings, w) in
        process_fundings ror_id rest (mkFundingsState total fundings) w
      end
  end.

(** [build_fundings_cache_for_ror(ror_id, base_url, headers)]. *)
Definition build_fundings_cache_for_ror (fuel : nat) (env : Env) (ror_id : string)
  (base_url : option string) (w : World) : option (res nat * World) :=
  let (grid_id, w) := ensure_and_heal_grid_for_ror env ror_id w in
  match list_orcids_for_institution fuel env ror_id grid_id base_url default_rows with
  | None => None
  | Some [] => Some (Ok 0, w)
  | Some researchers =>
    let orcid_ids := orcid_ids_of researchers in
    match purge_fundings ror_id w with
    | (Raise e, w) => Some (Raise e, w)
    | (Ok _, w) =>
      let (picks, w) := next_schedule w in
      match get_all_profiles_concurrently env picks orcid_ids 10 with
      | Raise e => Some (Raise e, w)
      | Ok profiles_map =>
        match process_fundings ror_id profiles_map (mkFundingsState 0 []) w with
        | (Raise e, w) => Some (Raise e, w)
        | (Ok st, w) =>
          let '(_, _, w) := _flush_bulk insert_fundings (funding_buffer st) w in
          Some (Ok (total_fundings_cached st), w)
        end
      end
    end
  end.

(** *** The rebuild, said from the outside *)

(** What one item of the profile map adds to the buffers of the Publications
    loop. *)
Definition profile_rows (ror_id : string) (trusted_ids : list string)
  (item : string * json) : res (list ResearcherStatus * list WorkCache) :=
  let (orcid_id, profile) := item in
  if negb (truthy profile) then Ok ([], [])
  else
    status <- _extract_status_from_profile profile ror_id orcid_id trusted_ids ;;
    rows <- profile_works ror_id orcid_id profile ;;
    Ok ([status], rows).

(** What one item adds to the buffer of the Grants loop. *)
Definition profile_grants (ror_id : string) (item : string * json)
  : res (list FundingCache) :=
  let (orcid_id, profile) := item in
  if negb (truthy profile) then Ok [] else profile_fundings ror_id orcid_id profile.

(** Every commit to come goes through. *)
Definition all_committed (w : World) : Prop :=
  Forall (fun o => o = Committed) (commits w).

(** The two run-log tables. *)
Definition runs_of (w : World) : list CacheRun * list CacheRun :=
  (work_cache_run (db w), funding_cache_run (db w)).

(** The three cache tables. *)
Definition caches_of (w : World)
  : list WorkCache * list ResearcherStatus * list FundingCache :=
  (work_cache (db w), researcher_status (db w), funding_cache (db w)).

End Rebuild.
Import Rebuild.

(* ================================================================= *)
(** ** The run log and its two writers ([_log_execution_run] of the
       [rebuild-caches] command, [_log_run_web] of the cache-control
       blueprint) *)

Module RunLog.

Inductive model_class : Type :=
| WorkCacheRun
| FundingCacheRun.

Definition run_table (m : model_class) (d : Db) : list CacheRun :=
  match m with
  | WorkCacheRun => work_cache_run d
  | FundingCacheRun => funding_cache_run d
  end.

(** [db.session.add(run)], once committed. *)
Definition add_run (m : model_class) (run : CacheRun) (d : Db) : Db :=
  match m with
  | WorkCacheRun =>
    mkDb (users d) (work_cache d) (researcher_status d) (funding_cache d)
         (work_cache_run d ++ [run]) (funding_cache_run d)
  | FundingCacheRun =>
    mkDb (users d) (work_cache d) (researcher_status d) (funding_cache d)
         (work_cache_run d) (funding_cache_run d ++ [run])
  end.

(** [_log_execution_run(model_class, ror_id, status, count, error_msg)]: a
    commit that fails is rolled back and only echoed. *)
Definition _log_execution_run (m : model_class) (ror_id status : string) (count : nat)
  (error_msg : option string) (w : World) : World :=
  if negb (str_truthy ror_id) then w
  else
    let (execution_time, w) := utcnow w in
    let run_log :=
      mkCacheRun ror_id status count error_msg
                 (Some execution_time) (Some execution_time) in
    match commit w with
    | (Committed, w1) => with_db (add_run m run_log) w1
    | (Failed _, w1) => w1
    end.

(** [_log_run_web(model_class, ror_id, status, count, error_msg)]. *)
Definition _log_run_web (m : model_class) (ror_id status : string) (count : nat)
  (error_msg : option string) (w : World) : World :=
  let (execution_time, w) := utcnow w in
  let run :=
    mkCacheRun ror_id status count error_msg
               (Some execution_time) (Some execution_time) in
  match commit w with
  | (Committed, w1) => with_db (add_run m run) w1
  | (Failed _, w1) => w1
  end.

Inductive cli_target : Type :=
| TargetWorks
| TargetFundings
| TargetBoth.

Definition wants_works (t : cli_target) : bool :=
  match t with TargetWorks | TargetBoth => true | TargetFundings => false end.

Definition wants_fundings (t : cli_target) : bool :=
  match t with TargetFundings | TargetBoth => true | TargetWorks => false end.

(** One [try ... except Exception] of the command: the rebuild, then the
    one call of the writer. *)
Definition logged_rebuild_cli (m : model_class)
  (build : World -> option (res nat * World)) (current_ror : string) (w : World)
  : option World :=
  match build w with
  | None => None
  | Some (Ok count, w1) =>
    Some (_log_execution_run m current_ror "success" count None w1)
  | Some (Raise exc, w1) =>
    Some (_log_execution_run m current_ror "failed" 0 (Some (str_exn exc)) w1)
  end.

(** The body of the loop over the institutions. *)
Definition sync_institution (fuel : nat) (env : Env) (target : cli_target)
  (member_url : string) (ror : string) (w : World) : option World :=
  let current_ror := strip ror in
  match
    (if wants_works target then
       logged_rebuild_cli WorkCacheRun
         (build_works_cache_for_ror fuel env current_ror (Some member_url))
         current_ror w
     else Some w)
  with
  | None => None
  | Some w1 =>
    if wants_fundings target then
      logged_rebuild_cli FundingCacheRun
        (build_fundings_cache_for_ror fuel env current_ror (Some member_url))
        current_ror w1
    else Some w1
  end.

Fixpoint sync_institutions (fuel : nat) (env : Env) (target : cli_target)
  (member_url : string) (ror_list : list string) (w : World) : option World :=
  match ror_list with
  | [] => Some w
  | ror :: rest =>
    match sync_institution fuel env target member_url ror w with
    | None => None
    | Some w1 => sync_institutions fuel env target member_url rest w1
    end
  end.

(** The distinct, non-empty [ror_id]s of the [User] table, here in the order
    of their first account; the query ([SELECT DISTINCT] without
    [ORDER BY]) fixes no order. *)
Definition active_rors (d : Db) : list string :=
  first_occurrences []
    (flat_map (fun u => match u_ror_id u with
                        | Some r => if str_truthy r then [r] else []
                        | None => []
                        end) (users d)).

(** The command [rebuild-caches --ror ROR --target TARGET]. *)
Definition rebuild_caches (fuel : nat) (env : Env) (ror : option string)
  (target : cli_target) (w : World) : option World :=
  match config_member_url env with
  | None => Some w
  | Some member_url =>
    if negb (str_truthy member_url) then Some w
    else if negb (opt_truthy (token env)) then Some w
    else
      let ror_list :=
        match ror with
        | Some r => if str_truthy r then [r] else active_rors (db w)
        | None => active_rors (db w)
        end in
      sync_institutions fuel env target member_url ror_list w
  end.

(** What the route reads of the session. *)
Record Session : Type := mkSession {
  is_admin : bool;
  is_manager : bool;
  admin_selected_ror : option string;
  session_ror_id : option string
}.

(** The base URL of [_get_api_context()]; [None] when no token comes. *)
Definition _get_api_context (env : Env) : option string :=
  if opt_truthy (token env) then
    Some (match config_base_url_member env with
          | Some u => if str_truthy u then u else "https://api.orcid.org/v3.0/"
          | None => "https://api.orcid.org/v3.0/"
          end)
  else None.

(** The route [POST /cache-control/rebuild/<target>], as far as the state
    goes. *)
Definition rebuild_cache (fuel : nat) (env : Env) (session : Session)
  (target : string) (w : World) : option World :=
  if negb (is_admin session || is_manager session) then Some w
  else
    let ror :=
      if opt_truthy (admin_selected_ror session) then admin_selected_ror session
      else session_ror_id session in
    match ror with
    | None => Some w
    | Some ror_id =>
      if negb (str_truthy ror_id) then Some w
      else
        match _get_api_context env with
        | None => Some w
        | Some base_url =>
          let log_model :=
            if String.eqb target "works" then WorkCacheRun else FundingCacheRun in
          let run := fun m build =>
            match build w with
            | None => None
            | Some (Ok count, w1) => Some (_log_run_web m ror_id "success" count None w1)
            | Some (Raise exc, w1) =>
              Some (_log_run_web log_model ror_id "failed" 0 (Some (str_exn exc)) w1)
            end in
          if String.eqb target "works" then
            run WorkCacheRun (build_works_cache_for_ror fuel env ror_id (Some base_url))
          else if String.eqb target "fundings" then
            run FundingCacheRun (build_fundings_cache_for_ror fuel env ror_id (Some base_url))
          else Some w
        end
    end.

(** A row as both writers leave it: one reading of the clock for both
    timestamps, and a final status. *)
Definition closed_run (r : CacheRun) : Prop :=
  r_started_at r = r_finished_at r
  /\ (r_status r = "success" \/ r_status r = "failed").

(** The institution and the base URL of a request that gets as far as the
    rebuild: a manager or an admin, an institution in the session, a token. *)
Definition web_context (env : Env) (session : Session) : option (string * string) :=
  if negb (is_admin session || is_manager session) then None
  else
    match (if opt_truthy (admin_selected_ror session) then admin_selected_ror session
           else session_ror_id session) with
    | None => None
    | Some ror_id =>
      if negb (str_truthy ror_id) then None
      else
        match _get_api_context env with
        | None => None
        | Some base_url => Some (ror_id, base_url)
        end
    end.

(** From [w] to [w'] the two run-log tables only grew, and by closed rows. *)
Definition logged_closed_runs (w w' : World) : Prop :=
  exists new_works new_fundings,
    work_cache_run (db w') = work_cache_run (db w) ++ new_works
    /\ funding_cache_run (db w') = funding_cache_run (db w) ++ new_fundings
    /\ Forall closed_run new_works
    /\ Forall closed_run new_fundings.

(** The row a writer makes of a rebuild that raised [exc], the clock
    reading [t]. *)
Definition failed_run (ror_id : string) (exc : exn) (t : nat) : CacheRun :=
  mkCacheRun ror_id "failed" 0 (Some (str_exn exc)) (Some t) (Some t).

End RunLog.
Import RunLog.


(* ================================================================= *)
(** ** Sample documents and services *)

Module Samples.

(** A nested object with the given client id as the path of its source. *)
Definition item_from (client_id : string) : json :=
  JDict [("source", JDict [("source-client-id", JDict [("path", JStr client_id)])])].

(** A profile with one employment summary holding the given items. *)
Definition profile_with (items : list (string * json)) : json :=
  JDict [("activities-summary",
          JDict [("employments",
                  JDict [("affiliation-group",
                          JList [JDict [("summaries", JList [JDict items])]])])])].

(** An employment written by the trusted client. *)
Definition managed_profile : json :=
  profile_with [("employment-summary", item_from "APP-TRUSTED")].

(** A summary holding two nested objects with a source: the first written by
    another client, the second by the trusted one. *)
Definition two_sources_profile : json :=
  profile_with [("employment-summary", item_from "APP-OTHER");
                ("extra", item_from "APP-TRUSTED")].

(** An employment written by the trusted client, followed by what the
    classifier cannot read: a summary that is a number, a group that is a
    string and a section that is a string. *)
Definition hit_then_unreadable_profile : json :=
  JDict [("activities-summary",
          JDict [("employments",
                  JDict [("affiliation-group",
                          JList [JDict [("summaries",
                                         JList [JDict [("employment-summary",
                                                        item_from "APP-TRUSTED")];
                                                JNum 7])];
                                 JStr "not a group"])]);
                 ("educations", JStr "not a section")])].

Definition ok_json (v : json) : outcome := Resp (mkResponse 200 (Some v)).

Definition not_found : outcome := Resp (mkResponse 404 None).

Definition search_record (orcid given : string) : json :=
  JDict [("orcid-id", JStr orcid); ("given-names", JStr given)].

Definition valued (s : string) : json := JDict [("value", JStr s)].

Definition sample_work : json :=
  JDict [("title", JDict [("title", valued "On maps")]);
         ("external-ids",
          JDict [("external-id",
                  JList [JDict [("external-id-type", JStr "DOI");
                                ("external-id-value", JStr "10.1000/1")]])])].

Definition sample_funding : json :=
  JDict [("title", JDict [("title", valued "A grant")])].

(** A profile with one work and one grant. *)
Definition one_work_profile : json :=
  JDict [("activities-summary",
          JDict [("works",
                  JDict [("group",
                          JList [JDict [("work-summary", JList [sample_work])]])]);
                 ("fundings",
                  JDict [("group",
                          JList [JDict [("funding-summary",
                                         JList [sample_funding])]])])])].

(** A profile whose list of work groups is [null]. *)
Definition broken_profile : json :=
  JDict [("activities-summary",
          JDict [("works", JDict [("group", JNull)]);
                 ("fundings", JDict [("group", JNull)])])].

(** An upstream with one researcher, found on the first page of any search,
    whose record is [profile]; the secondary registry knows no institution. *)
Definition http_with (profile : json) (q : request) (attempt : nat) : outcome :=
  match q with
  | SearchRequest _ _ 0 _ =>
    ok_json (JDict [("expanded-result", JList [search_record "0000-0001" "Ada"])])
  | SearchRequest _ _ _ _ => ok_json (JDict [("expanded-result", JList [])])
  | RecordRequest _ oid =>
    if String.eqb oid "0000-0001" then ok_json profile else not_found
  | RorRequest _ => not_found
  end.

Definition env_with (profile : json) : Env :=
  mkEnv (Some "https://pub.orcid.org/v3.0") (Some "https://api.orcid.org/v3.0")
        None (Some "APP-TRUSTED") (Some "token") None (http_with profile).

Definition sample_env : Env := env_with one_work_profile.

Definition broken_env : Env := env_with broken_profile.

(** An upstream whose search has two pages of two rows: the second page
    repeats, with another content, the first identifier of the first. *)
Definition paged_http (q : request) (attempt : nat) : outcome :=
  match q with
  | SearchRequest _ _ 0 _ =>
    ok_json (JDict [("expanded-result",
                     JList [search_record "0000-0001" "Ada";
                            search_record "0000-0002" "Bob"])])
  | SearchRequest _ _ 2 _ =>
    ok_json (JDict [("expanded-result",
                     JList [search_record " 0000-0001" "Ada L."])])
  | _ => not_found
  end.

Definition paged_env : Env :=
  mkEnv (Some "https://pub.orcid.org/v3.0") None None None (Some "token") None paged_http.



Definition empty_db : Db := mkDb [] [] [] [] [] [].

(** A world whose every commit goes through. *)
Definition fresh_world : World := mkWorld empty_db [] [] 0.

(** A world whose second commit fails: the purge goes through, the flush of
    the rows does not. *)
Definition failing_flush_world : World :=
  mkWorld empty_db [Committed; Failed "database is locked"] [] 0.


(** An upstream that answers nothing but not-found. *)
Definition silent_env : Env :=
  mkEnv (Some "https://pub.orcid.org/v3.0") (Some "https://api.orcid.org/v3.0")
        None (Some "APP-TRUSTED") (Some "token") None (fun _ _ => not_found).

Definition old_work : WorkCache :=
  mkWorkCache "02ap3w078" "0000-0009" (JStr "An old work") JNull JNull JNull
              JNull JNull JNull JNull JNull None JNull JNull JNull.

Definition old_status : ResearcherStatus :=
  mkResearcherStatus "02ap3w078" "0000-0009" true.

Definition old_funding : FundingCache :=
  mkFundingCache "02ap3w078" "0000-0009" (JStr "An old grant") JNull JNull JNull
                 JNull JNull JNull JNull JNull JNull JNull JNull JNull JNull
                 JNull JNull JNull.

(** A world whose caches hold rows of an earlier rebuild, and whose next
    commit would fail. *)
Definition stocked_world : World :=
  mkWorld (mkDb [] [old_work] [old_status] [old_funding] [] [])
          [Failed "database is locked"] [] 0.

Definition admin_session : Session :=
  mkSession true false None (Some "02ap3w078").

(** A world in which the purge is committed and the commit after it, the one
    of the run log, fails. *)
Definition failing_log_world : World :=
  mkWorld empty_db [Committed; Failed "database is locked"] [] 7.

End Samples.
Import Samples.
(* ================================================================= *)
(** ** Further sample states *)

Module Fixtures.

Definition other_work : WorkCache :=
  mkWorkCache "05abc1234" "0000-0007" (JStr "A work elsewhere") JNull JNull JNull
              JNull JNull JNull JNull JNull None JNull JNull JNull.

Definition other_status : ResearcherStatus :=
  mkResearcherStatus "05abc1234" "0000-0007" false.

Definition other_funding : FundingCache :=
  mkFundingCache "05abc1234" "0000-0007" (JStr "A grant elsewhere") JNull JNull
                 JNull JNull JNull JNull JNull JNull JNull JNull JNull JNull
                 JNull JNull JNull JNull.

(** The caches of two institutions side by side. *)
Definition shared_db : Db :=
  mkDb [] [old_work; other_work] [old_status; other_status]
       [old_funding; other_funding] [] [].

(** Every commit goes through. *)
Definition shared_world : World := mkWorld shared_db [] [] 0.

(** The purge goes through, the flush after it does not. *)
Definition shared_failing_world : World :=
  mkWorld shared_db [Committed; Failed "database is locked"] [] 0.

End Fixtures.
Import Fixtures.

Module HealerFixtures.

(** Three accounts: two of one institution, the second of which has its
    legacy identifier, and one of another institution that has none. *)
Definition staff : list User :=
  [mkUser (Some "02ap3w078") JNull None;
   mkUser (Some "02ap3w078") (JStr "grid.424112.0") (Some "APP-MANAGER");
   mkUser (Some "05abc1234") JNull None].

Definition staffed_world : World :=
  mkWorld (mkDb staff [] [] [] [] []) [] [] 0.

Definition isni_entry : json :=
  JDict [("type", JStr "isni"); ("all", JList [JStr "0000 0001"])].

Definition grid_entry : json :=
  JDict [("type", JStr "grid"); ("preferred", JNull);
         ("all", JList [JStr "grid.7.1"; JStr "grid.7.2"])].

(** The registry of institutions answers with the modern schema. *)
Definition ror_document : json :=
  JDict [("id", JStr "https://ror.org/05abc1234");
         ("external_ids", JList [isni_entry; grid_entry])].

(** The same entry in the legacy schema. *)
Definition legacy_ror_document : json :=
  JDict [("external_ids", JDict [("GRID", grid_entry)])].

Definition ror_http (document : json) (q : request) (attempt : nat) : outcome :=
  match q with
  | RorRequest _ => ok_json document
  | _ => not_found
  end.

Definition ror_env : Env :=
  mkEnv (Some "https://pub.orcid.org/v3.0") (Some "https://api.orcid.org/v3.0")
        None (Some "APP-TRUSTED") (Some "token") None (ror_http ror_document).

Definition legacy_ror_env : Env :=
  mkEnv (Some "https://pub.orcid.org/v3.0") (Some "https://api.orcid.org/v3.0")
        None (Some "APP-TRUSTED") (Some "token") None (ror_http legacy_ror_document).

End HealerFixtures.
Import HealerFixtures.

(* ================================================================= *)
(** ** The address of the registry of institutions
       ([fetch_grid_from_ror], input sanitization) *)

Module RorAddress.

(** [s.rstrip('/')]. *)
Fixpoint rstrip_slashes (s : string) : string :=
  match s with
  | EmptyString => EmptyString
  | String c r =>
    match rstrip_slashes r with
    | EmptyString => if Ascii.eqb c "/" then EmptyString else String c EmptyString
    | r' => String c r'
    end
  end.

(** ['/' in s]. *)
Fixpoint has_slash (s : string) : bool :=
  match s with
  | EmptyString => false
  | String c r => Ascii.eqb c "/" || has_slash r
  end.

(** [s.split('/')[-1]]: what follows the last slash, the whole of [s] when
    it has none. *)
Fixpoint last_segment (s : string) : string :=
  match s with
  | EmptyString => EmptyString
  | String c r =>
    if has_slash r then last_segment r
    else if Ascii.eqb c "/" then r else s
  end.

(** [clean_ror = ror_id.strip().rstrip('/').split('/')[-1]]. *)
Definition clean_ror (ror_id : string) : string :=
  last_segment (rstrip_slashes (strip ror_id)).

(** [api_url], the address a [RorRequest] stands for. *)
Definition api_url (ror_id : string) : string :=
  ("https://api.ror.org/organizations/https://ror.org/" ++ clean_ror ror_id)%string.

End RorAddress.
Import RorAddress.

(* ================================================================= *)
(** ** What a fetch costs *)

Module Trace.

(** The time a trace spent in [time.sleep], in milliseconds. *)
Fixpoint slept (t : list event) : nat :=
  match t with
  | [] => 0
  | Sleep millis :: rest => millis + slept rest
  | Get _ :: rest => slept rest
  end.

(** The attempts a trace issued, in order. *)
Fixpoint attempts (t : list event) : list nat :=
  match t with
  | [] => []
  | Get attempt :: rest => attempt :: attempts rest
  | Sleep _ :: rest => attempts rest
  end.

End Trace.
Import Trace.

(* ================================================================= *)
(** ** The headers of a fetch ([safe_get], header preparation) *)

Module Headers.

(** A dict of headers as the callers build it: names to strings, in
    insertion order. *)
Definition headers : Type := list (string * string).

(** [h.get(k)]. *)
Fixpoint header (k : string) (h : headers) : option string :=
  match h with
  | [] => None
  | (k', v) :: h' => if String.eqb k k' then Some v else header k h'
  end.

(** [h[k] = v]. *)
Fixpoint set_header (k v : string) (h : headers) : headers :=
  match h with
  | [] => [(k, v)]
  | (k', v') :: h' =>
    if String.eqb k k' then (k, v) :: h' else (k', v') :: set_header k v h'
  end.

(** [(headers or {}).copy()]. *)
Definition copy_or_empty (hdrs : option headers) : headers :=
  match hdrs with
  | Some h => h
  | None => []
  end.

(** The headers [safe_get] sends: the caller's, with the registry's media
    type when the caller names none, and with the scheme put before an
    [Authorization] value that does not begin with it. *)
Definition prepare_headers (hdrs : option headers) : headers :=
  let req_headers := copy_or_empty hdrs in
  let req_headers :=
    match header "Accept" req_headers with
    | None => set_header "Accept" "application/vnd.orcid+json" req_headers
    | Some _ => req_headers
    end in
  match header "Authorization" req_headers with
  | Some v =>
    let auth_val := strip v in
    if negb (starts_with "bearer " (lower auth_val))
    then set_header "Authorization" ("Bearer " ++ auth_val)%string req_headers
    else req_headers
  | None => req_headers
  end.

(** The headers [fetch_single_profile] passes. *)
Definition profile_headers (token : string) : headers :=
  [("Accept", "application/json");
   ("Authorization", ("Bearer " ++ token)%string)].

(** [h.update(extra)]. *)
Definition update_headers (extra h : headers) : headers :=
  fold_left (fun acc kv => set_header (fst kv) (snd kv) acc) extra h.

(** The headers [list_orcids_for_institution] hands to the fetcher: its own
    [Accept], the caller's headers over it, and the cached token when the
    caller gives no [Authorization]. *)
Definition search_headers (hdrs : option headers) (token : option string)
  : headers :=
  let search_headers := [("Accept", "application/json")] in
  let search_headers :=
    match hdrs with
    | Some (kv :: extra) => update_headers (kv :: extra) search_headers
    | _ => search_headers
    end in
  match token with
  | Some tok =>
    if str_truthy tok
       && negb (match header "Authorization" search_headers with
                | Some _ => true
                | None => false
                end)
    then set_header "Authorization" ("Bearer " ++ tok)%string search_headers
    else search_headers
  | None => search_headers
  end.

(** The headers [_get_api_context()] builds from a token. *)
Definition context_headers (token : string) : headers :=
  let token :=
    if starts_with "Bearer " token then token else ("Bearer " ++ token)%string in
  [("Accept", "application/json"); ("Authorization", token)].

End Headers.
Import Headers.

(* ================================================================= *)
(** ** The token cache ([get_client_credentials_token]) *)

Module TokenCache.

Local Open Scope Z_scope.

(** The two globals [_CACHED_TOKEN] and [_TOKEN_EXPIRY].  Readings of
    [time.time()] and the expiry are counted in microseconds. *)
Record TokenState : Type := mkTokenState {
  cached_token : json;
  token_expiry : Z
}.

(** The globals as the module sets them at import. *)
Definition no_token : TokenState := mkTokenState JNull 0.

Definition second : Z := 1000000.

(** [ORCID_TOKEN_URL], [ORCID_CLIENT_ID] and [ORCID_CLIENT_SECRET]. *)
Record Credentials : Type := mkCredentials {
  token_url : option string;
  client_id : option string;
  client_secret : option string
}.

(** What the three calls [requests.post], [raise_for_status] and
    [response.json] come to: a decoded payload, a
    [requests.exceptions.RequestException], or another exception. *)
Inductive exchange : Type :=
| Answer (data : json)
| RequestFailure (text : string)
| OtherFailure (e : exn).

(** [_CACHED_TOKEN and time.time() < _TOKEN_EXPIRY]. *)
Definition fresh (st : TokenState) (now : Z) : bool :=
  truthy (cached_token st) && (now <? token_expiry st).

(** [time.time() + expires_in - 60]: the sum is defined for a number (a
    boolean counts as 0 or 1). *)
Definition expiry_after (now : Z) (expires_in : json) : res Z :=
  match expires_in with
  | JNum n => Ok (now + n * second - 60 * second)
  | JBool b => Ok (now + (if b then 1 else 0) * second - 60 * second)
  | other =>
    Raise (TypeError ("unsupported operand type(s) for +: 'float' and '"
                      ++ type_name other ++ "'")%string)
  end.

(** [get_client_credentials_token()], one thread at a time.  [t1], [t2] and
    [t3] are the readings of the clock at the fast path, under the lock and
    after the exchange, should they be taken; the boolean tells whether the
    exchange was asked for. *)
Definition get_client_credentials_token (conf : Credentials) (post : exchange)
  (t1 t2 t3 : Z) (st : TokenState) : res json * TokenState * bool :=
  if fresh st t1 then (Ok (cached_token st), st, false)
  else if fresh st t2 then (Ok (cached_token st), st, false)
  else if negb (opt_truthy (token_url conf) && opt_truthy (client_id conf)
                && opt_truthy (client_secret conf))
  then (Ok JNull, st, false)
  else
    match post with
    | Answer data =>
      match py_get data "access_token" with
      | Raise e => (Raise e, st, true)
      | Ok token =>
        match py_get_or data "expires_in" (JNum 6300) with
        | Raise e => (Raise e, st, true)
        | Ok expires_in =>
          if truthy token then
            match expiry_after t3 expires_in with
            | Ok expiry => (Ok token, mkTokenState token expiry, true)
            | Raise e => (Raise e, mkTokenState token (token_expiry st), true)
            end
          else (Ok JNull, st, true)
        end
      end
    | RequestFailure _ => (Ok JNull, st, true)
    | OtherFailure e => (Raise e, st, true)
    end.

(** A configuration with the three settings, and a token answer. *)
Definition sample_credentials : Credentials :=
  mkCredentials (Some "https://orcid.org/oauth/token") (Some "APP-TRUSTED")
                (Some "secret").

Definition token_answer : exchange :=
  Answer (JDict [("access_token", JStr "abc"); ("expires_in", JNum 3600)]).

End TokenCache.
Import TokenCache.

Module TokenFixtures.

(** A token endpoint that answers with the lifetime in a string, the
    exception the token function raises on that answer, and a run in which
    the bulk fetcher meets it. *)
Definition text_lifetime_answer : exchange :=
  Answer (JDict [("access_token", JStr "abc"); ("expires_in", JStr "3600")]).

Definition text_lifetime_failure : exn :=
  TypeError "unsupported operand type(s) for +: 'float' and 'str'".

Definition unread_token_env : Env :=
  mkEnv (Some "https://pub.orcid.org/v3.0") (Some "https://api.orcid.org/v3.0")
        None (Some "APP-TRUSTED") None (Some text_lifetime_failure)
        (http_with one_work_profile).

End TokenFixtures.
Import TokenFixtures.

Module SearchFixtures.



End SearchFixtures.
Import SearchFixtures.

(* ================================================================= *)
(** ** Reading the run log *)

Module Audit.

(** A row of the run log that tells how a rebuild ended: a success without
    an error text, or a failure with one and a count of zero; one reading of
    the clock for both timestamps. *)
Definition audit_row (r : CacheRun) : Prop :=
  r_started_at r = r_finished_at r
  /\ ((r_status r = "success" /\ r_error r = None)
      \/ (r_status r = "failed" /\ r_rows_count r = 0
          /\ exists text, r_error r = Some text)).

(** The institutions the command [rebuild-caches] runs through. *)
Definition cli_ror_list (ror : option string) (d : Db) : list string :=
  match ror with
  | Some r => if str_truthy r then [r] else active_rors d
  | None => active_rors d
  end.

(** The lists the command may run through: the institution given, or else
    the rows of the query over the accounts, whose [SELECT DISTINCT] has no
    [ORDER BY] and so fixes no order. *)
Definition cli_order (ror : option string) (d : Db) (ror_list : list string)
  : Prop :=
  match ror with
  | Some r => if str_truthy r then ror_list = [r]
              else Permutation ror_list (active_rors d)
  | None => Permutation ror_list (active_rors d)
  end.

End Audit.
Import Audit.

(* ================================================================= *)
(** ** The cache of names ([build_researcher_names_cache],
       [sync-researcher-names]) *)

Module NamesCache.

(** A row of [researcher_cache]; [orcid] is its primary key.  The column
    [updated_at], which the database maintains, is left out. *)
Record ResearcherCache : Type := mkResearcherCache {
  c_orcid : string;
  c_given_names : json;
  c_family_name : json;
  c_credit_name : json;
  c_email : json
}.

(** What the session holds until the next commit: a new object, added with
    its three names set, or the three names set on an object loaded from the
    table. *)
Inductive change : Type :=
| Insert (row : ResearcherCache)
| Update (orcid : string) (given family credit : json).

(** The table and the session. *)
Record Names : Type := mkNames {
  researcher_cache : list ResearcherCache;
  pending : list change
}.

Definition set_names (given family credit : json) (r : ResearcherCache)
  : ResearcherCache :=
  mkResearcherCache (c_orcid r) given family credit (c_email r).

Definition apply_change (rows : list ResearcherCache) (c : change)
  : list ResearcherCache :=
  match c with
  | Insert row => rows ++ [row]
  | Update orcid given family credit =>
    map (fun r => if String.eqb (c_orcid r) orcid
                  then set_names given family credit r else r) rows
  end.

(** The table as a query of the session sees it: what is pending is flushed
    before the query runs. *)
Definition visible (n : Names) : list ResearcherCache :=
  fold_left apply_change (pending n) (researcher_cache n).

(** [db.session.commit()] with the [rollback()] of the [except] clause: what
    is pending is written, or dropped. *)
Definition commit_names (w : World) (n : Names) : World * Names :=
  match commit w with
  | (Committed, w1) => (w1, mkNames (visible n) [])
  | (Failed _, w1) => (w1, mkNames (researcher_cache n) [])
  end.

(** The three names of a profile, in the order the code reads them. *)
Definition names_of (profile : json) : res (json * json * json) :=
  person <- py_get_or profile "person" (JDict []) ;;
  name <- py_get_or person "name" (JDict []) ;;
  given <- value_of name "given-names" ;;
  family <- value_of name "family-name" ;;
  credit <- value_of name "credit-name" ;;
  Ok (given, family, credit).

(** The change one profile brings: an update when the prefetched objects
    hold its identifier, a new object otherwise. *)
Definition change_for (existing_researchers : list string) (orcid : string)
  (names : json * json * json) : change :=
  let '(given, family, credit) := names in
  if existsb (String.eqb orcid) existing_researchers
  then Update orcid given family credit
  else Insert (mkResearcherCache orcid given family credit JNull).

(** The loop [for orcid, profile in profiles_map.items()]. *)
Fixpoint process_names (existing_researchers : list string)
  (items : list (string * json)) (updated_count : nat) (w : World) (n : Names)
  : res nat * World * Names :=
  match items with
  | [] => (Ok updated_count, w, n)
  | (orcid, profile) :: rest =>
    if negb (truthy profile)
    then process_names existing_researchers rest updated_count w n
    else
      match names_of profile with
      | Raise e => (Raise e, w, n)
      | Ok names =>
        let n := mkNames (researcher_cache n)
                         (pending n ++ [change_for existing_researchers orcid names]) in
        let updated_count := S updated_count in
        let (w, n) :=
          if Nat.modulo updated_count 500 =? 0 then commit_names w n else (w, n) in
        process_names existing_researchers rest updated_count w n
      end
  end.

(** The distinct identifiers of the institution in the two caches. *)
Definition all_orcids (ror_id : string) (d : Db) : list string :=
  first_occurrences []
    (map w_orcid (works_of ror_id d) ++ map f_orcid (fundings_of ror_id d)).

(** The keys of the prefetched objects: the rows whose identifier is one of
    [all_orcids]. *)
Definition prefetched (orcids : list string) (n : Names) : list string :=
  map c_orcid (filter (fun r => existsb (String.eqb (c_orcid r)) orcids) (visible n)).

(** [build_researcher_names_cache(ror_id)]. *)
Definition build_researcher_names_cache (env : Env) (ror_id : string)
  (w : World) (n : Names) : res nat * World * Names :=
  let orcids := all_orcids ror_id (db w) in
  if List.length orcids =? 0 then (Ok 0, w, n)
  else
    let (picks, w) := next_schedule w in
    match get_all_profiles_concurrently env picks orcids 10 with
    | Raise e => (Raise e, w, n)
    | Ok profiles_map =>
      let existing_researchers := prefetched orcids n in
      match process_names existing_researchers profiles_map 0 w n with
      | (Raise e, w, n) => (Raise e, w, n)
      | (Ok updated_count, w, n) =>
        let (w, n) := commit_names w n in
        (Ok updated_count, w, n)
      end
    end.

(** The loop of the command [sync-researcher-names]: an institution whose
    synchronisation raises is reported and the loop goes on. *)
Fixpoint sync_names (env : Env) (ror_list : list string) (w : World) (n : Names)
  : World * Names :=
  match ror_list with
  | [] => (w, n)
  | current_ror :: rest =>
    let '(_, w, n) := build_researcher_names_cache env current_ror w n in
    sync_names env rest w n
  end.

(** The command [sync-researcher-names --ror ROR]. *)
Definition sync_researcher_names (env : Env) (ror : option string)
  (w : World) (n : Names) : World * Names :=
  sync_names env (cli_ror_list ror (db w)) w n.

(** The identifier a change is about. *)
Definition touched (c : change) : string :=
  match c with
  | Insert row => c_orcid row
  | Update orcid _ _ _ => orcid
  end.

(** A profile with the three names of a person. *)
Definition named_profile (given family : string) : json :=
  JDict [("person",
          JDict [("name",
                  JDict [("given-names", valued given);
                         ("family-name", valued family);
                         ("credit-name", JNull)])])].

(** An upstream that knows the names of one person. *)
Definition names_env : Env :=
  mkEnv (Some "https://pub.orcid.org/v3.0") (Some "https://api.orcid.org/v3.0")
        None (Some "APP-TRUSTED") (Some "token") None
        (fun q _ => match q with
                    | RecordRequest _ oid =>
                      if String.eqb oid "0000-0009"
                      then ok_json (named_profile "Ada" "Lovelace")
                      else not_found
                    | _ => not_found
                    end).

(** A table with a row of the person and a row of somebody else. *)
Definition sample_names : Names :=
  mkNames [mkResearcherCache "0000-0009" JNull JNull JNull (JStr "ada@example.org");
           mkResearcherCache "0000-0007" (JStr "Bob") JNull JNull JNull] [].

End NamesCache.
Import NamesCache.

(* ================================================================= *)
(** ** The Grants build view ([cache_fundings_build] of [blueprints/works.py]) *)

Module FundingRoute.












End FundingRoute.
Import FundingRoute.

(* ================================================================= *)
(** ** The single-record view ([get_full_orcid_profile]) *)

Module SingleRecord.


End SingleRecord.
Import SingleRecord.


(* ================================================================= *)
(** * Properties *)

(** ** The resilient fetcher *)



(** ** Registry search *)

Section DictFacts.

Local Abbreviation upsert :=
  (fun (d : list (string * json)) (e : string * json) => dict_set (fst e) (snd e) d).

Lemma keys_dict_set k v d :
  keys (dict_set k v d)
  = if existsb (String.eqb k) (keys d) then keys d else keys d ++ [k].
Proof.
  induction d as [|[k' v'] d IH]; [reflexivity|].
  cbn [dict_set keys map fst existsb] in *.
  destruct (String.eqb_spec k k') as [->|Hne]; cbn [orb map fst].
  - reflexivity.
  - unfold keys in IH. rewrite IH.
    destruct (existsb (String.eqb k) (map fst d)); reflexivity.
Qed.

Lemma assoc_dict_set k' k v d :
  assoc k' (dict_set k v d) = if String.eqb k' k then Some v else assoc k' d.
Proof.
  induction d as [|[k0 v0] d IH]; cbn [dict_set assoc].
  - reflexivity.
  - destruct (String.eqb_spec k k0) as [->|Hne]; cbn [assoc].
    + destruct (String.eqb k' k0); reflexivity.
    + rewrite IH. destruct (String.eqb_spec k' k0) as [->|Hne'];
        [|reflexivity].
      destruct (String.eqb_spec k0 k) as [->|_]; [contradiction|reflexivity].
Qed.

Lemma existsb_eqb_In k l : existsb (String.eqb k) l = true <-> In k l.
Proof.
  rewrite existsb_exists. split.
  - intros [x [Hin Heq]]. apply String.eqb_eq in Heq. now subst.
  - intros Hin. exists k. split; [exact Hin|apply String.eqb_refl].
Qed.

Lemma NoDup_keys_dict_set k v d : NoDup (keys d) -> NoDup (keys (dict_set k v d)).
Proof.
  intros Hnd. rewrite keys_dict_set.
  destruct (existsb (String.eqb k) (keys d)) eqn:Hex; [exact Hnd|].
  apply NoDup_app; [exact Hnd|repeat constructor; intros []|].
  intros x Hx [<-|[]].
  apply existsb_eqb_In in Hx. congruence.
Qed.

Lemma keys_upserts entries d :
  keys (fold_left upsert entries d)
  = keys d ++ first_occurrences (keys d) (map fst entries).
Proof.
  revert d. induction entries as [|[k v] entries IH]; intros d.
  - cbn. now rewrite app_nil_r.
  - cbn [fold_left map fst snd first_occurrences]. rewrite IH.
    rewrite keys_dict_set.
    destruct (existsb (String.eqb k) (keys d)); [reflexivity|].
    now rewrite <- app_assoc.
Qed.

Lemma assoc_upserts k entries d :
  assoc k (fold_left upsert entries d)
  = match last_with_key k entries with
    | Some v => Some v
    | None => assoc k d
    end.
Proof.
  revert d. induction entries as [|[k' v'] entries IH]; intros d;
    [reflexivity|].
  cbn [fold_left last_with_key]. rewrite IH.
  destruct (last_with_key k entries); [reflexivity|].
  cbn [fst snd]. rewrite assoc_dict_set.
  destruct (String.eqb k k'); reflexivity.
Qed.

Lemma NoDup_keys_upserts entries d :
  NoDup (keys d) -> NoDup (keys (fold_left upsert entries d)).
Proof.
  revert d. induction entries as [|e entries IH]; intros d Hnd; [exact Hnd|].
  cbn [fold_left]. apply IH. now apply NoDup_keys_dict_set.
Qed.

Lemma flat_map_ext_In {A B} (f g : A -> list B) l :
  (forall x, In x l -> f x = g x) -> flat_map f l = flat_map g l.
Proof.
  induction l as [|x l IH]; intros Hext; [reflexivity|].
  cbn. rewrite (Hext x (or_introl eq_refl)), IH; [reflexivity|].
  intros y Hy. apply Hext. now right.
Qed.

Lemma values_by_key d :
  NoDup (keys d) ->
  values d
  = flat_map (fun k => match assoc k d with Some v => [v] | None => [] end)
             (keys d).
Proof.
  induction d as [|[k v] d IH]; intros Hnd; [reflexivity|].
  cbn [values keys map fst snd flat_map assoc] in *.
  inversion Hnd as [|? ? Hnotin Hnd']; subst.
  rewrite String.eqb_refl. cbn [app]. f_equal.
  unfold values, keys in IH. rewrite (IH Hnd').
  apply flat_map_ext_In. intros k' Hin.
  destruct (String.eqb_spec k' k) as [->|_]; [contradiction|reflexivity].
Qed.

Lemma first_occurrences_occur seen l k :
  In k (first_occurrences seen l) -> In k l.
Proof.
  revert seen. induction l as [|x l IH]; intros seen Hin; [exact Hin|].
  cbn [first_occurrences] in Hin.
  destruct (existsb (String.eqb x) seen).
  - right. eapply IH, Hin.
  - destruct Hin as [<-|Hin]; [now left|right; eapply IH, Hin].
Qed.

Lemma last_with_key_occurs k entries :
  In k (map fst entries) -> exists v, last_with_key k entries = Some v.
Proof.
  induction entries as [|[k' v'] entries IH]; intros Hin; [destruct Hin|].
  cbn [last_with_key]. destruct (last_with_key k entries) as [v|] eqn:Hl;
    [now exists v|].
  destruct Hin as [Heq|Hin]; cbn [fst] in *.
  - subst k'. rewrite String.eqb_refl. now exists v'.
  - destruct (IH Hin) as [v Hv]. discriminate.
Qed.

(** The values of the dict after the upserts are the merged population. *)
Lemma values_upserts entries :
  values (fold_left upsert entries []) = merged_population entries.
Proof.
  rewrite values_by_key by (apply NoDup_keys_upserts; constructor).
  rewrite keys_upserts. cbn [keys map app].
  unfold merged_population. apply flat_map_ext_In. intros k Hin.
  rewrite assoc_upserts.
  apply first_occurrences_occur, last_with_key_occurs in Hin.
  destruct Hin as [v ->]. reflexivity.
Qed.

End DictFacts.

Section SearchFacts.

Local Abbreviation upserts entries d :=
  (fold_left (fun (d : list (string * json)) (e : string * json) =>
                dict_set (fst e) (snd e) d) entries d).

Local Abbreviation readable records :=
  (forallb (fun r => is_ok (record_key r)) records).

Lemma store_records_entries records d :
  fst (store_records records d) = upserts (chunk_entries records) d
  /\ (snd (store_records records d) = None <-> readable records = true).
Proof.
  revert d. induction records as [|record rest IH]; intros d.
  - cbn. tauto.
  - cbn [store_records chunk_entries forallb].
    destruct (record_key record) as [k|e]; cbn [is_ok andb].
    + destruct (str_truthy k); cbn [fold_left fst snd]; apply IH.
    + cbn. split; [reflexivity|]. split; discriminate.
Qed.

Lemma page_step_entries response rows d :
  page_step response rows d
  = (upserts (chunk_entries (response_records response)) d,
     page_goes_on (response_records response) rows).
Proof.
  unfold page_step, response_records.
  destruct (body response) as [data|]; [|reflexivity].
  destruct (py_get_or data "expanded-result" (JList [])) as [found|e];
    [|reflexivity].
  unfold py_or. destruct (truthy found) eqn:Htruthy; [|reflexivity].
  rewrite Htruthy. cbn [negb].
  destruct (py_iter found) as [records|e] eqn:Hiter; [|reflexivity].
  destruct (store_records_entries records d) as [Hfst Hsnd].
  destruct (store_records records d) as [stored [e|]] eqn:Hstore;
    cbn [fst snd] in *; subst stored.
  - f_equal. unfold page_goes_on.
    destruct (readable records) eqn:Hr.
    + destruct Hsnd as [_ Hsnd]. specialize (Hsnd eq_refl). discriminate.
    + destruct records; reflexivity.
  - assert (Hr : readable records = true) by now apply Hsnd.
    destruct found as [| | |s|l|dd]; try discriminate.
    + destruct s as [|c s]; [discriminate|].
      cbn in Hiter. injection Hiter as <-. cbn in Hr. discriminate.
    + cbn in Hiter. injection Hiter as <-. cbn [py_len].
      destruct l as [|x l]; [discriminate|].
      unfold page_goes_on. rewrite Hr. cbn [andb].
      destruct (Nat.ltb_spec (List.length (x :: l)) rows) as [Hlt|Hge];
        destruct (Nat.leb_spec rows (List.length (x :: l))) as [Hle|Hgt];
        try lia; reflexivity.
    + destruct dd as [|[k v] dd]; [discriminate|].
      cbn in Hiter. injection Hiter as <-. cbn in Hr. discriminate.
Qed.

Lemma paginate_entries fuel env url query rows start d d' :
  paginate fuel env url query rows start d = Some d' ->
  d' = upserts (visited_entries fuel env url query rows start) d.
Proof.
  revert start d. induction fuel as [|fuel IH]; intros start d Hp;
    [discriminate|].
  cbn [paginate visited_entries] in *. unfold page_records.
  destruct (fst (safe_get (http env (SearchRequest url query start rows))
                   default_retries)) as [response|].
  - destruct (status_code response =? 200); cbn [negb] in *.
    + rewrite page_step_entries in Hp.
      rewrite fold_left_app.
      destruct (page_goes_on (response_records response) rows).
      * now apply IH.
      * injection Hp as <-. reflexivity.
    + injection Hp as <-. reflexivity.
  - injection Hp as <-. reflexivity.
Qed.

Lemma paginate_stops env url query rows n :
  forall fuel start d,
    n < fuel ->
    page_goes_on (page_records env url query rows (start + n * rows)) rows = false ->
    paginate fuel env url query rows start d <> None.
Proof.
  induction n as [|n IH]; intros fuel start d Hlt Hstop;
    (destruct fuel as [|fuel]; [lia|]);
    cbn [paginate]; unfold page_records in Hstop.
  - rewrite Nat.add_0_r in Hstop.
    destruct (fst (safe_get (http env (SearchRequest url query start rows))
                     default_retries)) as [response|]; [|discriminate].
    destruct (status_code response =? 200); [|discriminate].
    cbn [negb]. rewrite page_step_entries, Hstop. discriminate.
  - destruct (fst (safe_get (http env (SearchRequest url query start rows))
                     default_retries)) as [response|]; [|discriminate].
    destruct (status_code response =? 200); [|discriminate].
    cbn [negb]. rewrite page_step_entries.
    destruct (page_goes_on (response_records response) rows); [|discriminate].
    apply IH; [lia|]. unfold page_records.
    replace (start + rows + n * rows) with (start + S n * rows) by lia.
    exact Hstop.
Qed.

Lemma chunk_entries_filed records : Forall filed (chunk_entries records).
Proof.
  induction records as [|record rest IH]; [constructor|].
  cbn [chunk_entries].
  destruct (record_key record) as [k|e] eqn:Hk; [|constructor].
  destruct (str_truthy k) eqn:Ht; [|exact IH].
  constructor; [now split|exact IH].
Qed.

Lemma visited_entries_filed fuel env url query rows start :
  Forall filed (visited_entries fuel env url query rows start).
Proof.
  revert start. induction fuel as [|fuel IH]; intros start; [constructor|].
  cbn [visited_entries]. apply Forall_app. split.
  - apply chunk_entries_filed.
  - destruct (page_goes_on _ rows); [apply IH|constructor].
Qed.

Lemma dict_set_filed k v d :
  filed (k, v) -> Forall filed d -> Forall filed (dict_set k v d).
Proof.
  intros Hkv. induction d as [|[k' v'] d IH]; intros Hd; cbn [dict_set].
  - constructor; [exact Hkv|constructor].
  - inversion Hd; subst.
    destruct (String.eqb k k'); constructor; auto.
Qed.

Lemma upserts_filed entries d :
  Forall filed entries -> Forall filed d -> Forall filed (upserts entries d).
Proof.
  revert d. induction entries as [|[k v] entries IH]; intros d He Hd;
    [exact Hd|].
  inversion He; subst. cbn [fold_left fst snd].
  apply IH; [assumption|]. now apply dict_set_filed.
Qed.

Lemma filed_values_keys d :
  Forall filed d -> Forall2 (fun r k => record_key r = Ok k) (values d) (keys d).
Proof.
  induction 1 as [|[k v] d [Hk _] _ IH]; cbn; constructor; assumption.
Qed.

(** What the rebuilds read off a stored record is its identifier as it came,
    a non-empty string whose stripped form is the key it is filed under. *)
Lemma filed_has_id e :
  filed e -> exists s, orcid_id_of (snd e) = Some s /\ strip s = fst e.
Proof.
  destruct e as [k r]. unfold filed, record_key, orcid_id_of. cbn [fst snd].
  intros [Hkey Hk].
  destruct (py_get r "orcid-id") as [v|e]; cbn [bind] in *; [|discriminate].
  unfold py_or in Hkey. destruct (truthy v) eqn:Ht.
  - destruct v as [| | |s| |]; try discriminate.
    injection Hkey as <-. cbn in Ht. unfold str_truthy. rewrite Ht. now exists s.
  - cbn in Hkey. injection Hkey as <-. discriminate.
Qed.

Lemma stored_ids d :
  Forall filed d -> map strip (orcid_ids_of (values d)) = keys d.
Proof.
  induction 1 as [|[k r] d Hf _ IH]; [reflexivity|].
  destruct (filed_has_id _ Hf) as [s [Hs Hk]]. cbn [fst snd] in *.
  cbn [values keys map orcid_ids_of flat_map fst snd]. rewrite Hs. cbn [app map].
  unfold values, keys, orcid_ids_of in IH. now rewrite IH, Hk.
Qed.

(** The identifiers a rebuild hands to the fetcher are one per record of the
    population, and pairwise distinct. *)
Lemma search_population_ids fuel env ror_id grid_id base_url rows population :
  list_orcids_for_institution fuel env ror_id grid_id base_url rows = Some population ->
  List.length (orcid_ids_of population) = List.length population
  /\ NoDup (orcid_ids_of population).
Proof.
  unfold list_orcids_for_institution.
  assert (Hnil : List.length (orcid_ids_of []) = List.length (@nil json)
                 /\ NoDup (orcid_ids_of [])) by (split; [reflexivity|constructor]).
  destruct (if opt_truthy (config_search_url env) then config_search_url env
            else base_url) as [url|]; [|now intros [= <-]].
  destruct (negb (str_truthy url)); [now intros [= <-]|].
  destruct (build_query ror_id grid_id) as [|c query]; [now intros [= <-]|].
  destruct (paginate fuel env url (c :: query) rows 0 []) as [d|] eqn:Hp;
    [|discriminate].
  intros [= <-]. apply paginate_entries in Hp.
  assert (Hfiled : Forall filed d)
    by (subst d; apply upserts_filed; [apply visited_entries_filed|constructor]).
  assert (Hnd : NoDup (keys d))
    by (subst d; apply NoDup_keys_upserts; constructor).
  pose proof (stored_ids d Hfiled) as Hids. split.
  - rewrite <- (length_map strip), Hids. unfold keys, values. now rewrite !length_map.
  - apply (NoDup_map_inv strip). now rewrite Hids.
Qed.

End SearchFacts.

(** C3.  The population the registry search returns has one record per
    identifier: it is the merge of the entries met on the pages (asked for
    from offset 0 in steps of [rows], up to the first page that is short,
    empty or unreadable), the identifiers standing in the order of their
    first occurrence and each carrying the record of its last occurrence;
    the stripped identifiers of the returned records are pairwise distinct.
    The search returns as soon as some page stops it. *)
Theorem search_population_deduplicated env ror_id grid_id base_url rows :
  (forall fuel population,
      list_orcids_for_institution fuel env ror_id grid_id base_url rows
      = Some population ->
      population
      = merged_population (search_entries fuel env ror_id grid_id base_url rows)
      /\ exists ids,
          Forall2 (fun r k => record_key r = Ok k) population ids /\ NoDup ids)
  /\ (forall n fuel,
      n < fuel ->
      search_stops_at env ror_id grid_id base_url rows n = true ->
      exists population,
        list_orcids_for_institution fuel env ror_id grid_id base_url rows
        = Some population).
Proof.
  unfold list_orcids_for_institution, search_entries, search_stops_at, search_target.
  set (target := if opt_truthy (config_search_url env)
                 then config_search_url env else base_url).
  assert (Hnone : merged_population [] = []) by reflexivity.
  assert (Hempty : exists ids : list string,
             Forall2 (fun r k => record_key r = Ok k) [] ids /\ NoDup ids)
    by (exists []; split; constructor).
  split.
  - intros fuel population Hret.
    destruct target as [url|]; [|injection Hret as <-; now split].
    destruct (str_truthy url); cbn [negb] in *;
      [|injection Hret as <-; now split].
    destruct (build_query ror_id grid_id) as [|c query];
      [injection Hret as <-; now split|].
    destruct (paginate fuel env url (c :: query) rows 0 []) as [d|] eqn:Hp;
      [|discriminate].
    injection Hret as <-. apply paginate_entries in Hp. subst d. split.
    + apply values_upserts.
    + eexists. split.
      * apply filed_values_keys, upserts_filed;
          [apply visited_entries_filed|constructor].
      * apply NoDup_keys_upserts. constructor.
  - intros n fuel Hlt Hstop.
    destruct target as [url|]; [|now eexists].
    destruct (str_truthy url); cbn [negb] in *; [|now eexists].
    destruct (build_query ror_id grid_id) as [|c query]; [now eexists|].
    apply negb_true_iff in Hstop.
    destruct (paginate fuel env url (c :: query) rows 0 []) as [d|] eqn:Hp;
      [now eexists|].
    exfalso. revert Hp. apply (paginate_stops env url (c :: query) rows n);
      [exact Hlt|exact Hstop].
Qed.

(** ** Affiliation classifier *)

Section ClassifierFacts.

Lemma py_get_field o k r : py_get o k = Ok r -> field o k = r.
Proof.
  destruct o; cbn; try discriminate. now intros [= <-].
Qed.

Lemma falsy_field v k : truthy v = false -> field v k = JNull.
Proof.
  destruct v as [| | | | |d]; try reflexivity.
  destruct d; [reflexivity|discriminate].
Qed.

(** [(v or {}).get(k)], when it does not raise, reads [v[k]]. *)
Lemma py_get_or_empty_field v k r :
  py_get (py_or v (JDict [])) k = Ok r -> field v k = r.
Proof.
  unfold py_or. destruct (truthy v) eqn:Ht.
  - apply py_get_field.
  - cbn. intros [= <-]. now apply falsy_field.
Qed.

Lemma any_res_true {A} (f : A -> res bool) l :
  any_res f l = Ok true -> exists x, In x l /\ f x = Ok true.
Proof.
  induction l as [|x l IH]; cbn [any_res]; [discriminate|].
  destruct (f x) as [[|]|e] eqn:Hx; cbn [bind]; try discriminate.
  - intros _. exists x. split; [now left|exact Hx].
  - intros H. destruct (IH H) as [y [Hin Hy]]. exists y. split; [now right|exact Hy].
Qed.

Lemma any_res_false {A} (f : A -> res bool) l :
  any_res f l = Ok false -> forall x, In x l -> f x = Ok false.
Proof.
  induction l as [|x l IH]; cbn [any_res]; [intros _ y []|].
  destruct (f x) as [[|]|e] eqn:Hx; cbn [bind]; try discriminate.
  intros H y [<-|Hin]; [exact Hx|now apply IH].
Qed.

Lemma any_res_short_circuit {A} (f : A -> res bool) before hit after :
  Forall (fun x => f x = Ok false) before ->
  f hit = Ok true ->
  any_res f (before ++ hit :: after) = Ok true.
Proof.
  intros Hbefore Hhit. induction Hbefore as [|x before Hx _ IH]; cbn [app any_res].
  - now rewrite Hhit.
  - rewrite Hx. exact IH.
Qed.

(** A loop over [o.get(k, [])] that ends without raising ran over the items
    of a list (or over nothing), provided its body raises on a string. *)
Lemma scanned_elements o k (f : json -> res bool) b :
  (forall s, exists e, f (JStr s) = Raise e) ->
  (g <- py_get_or o k (JList []) ;; l <- py_iter g ;; any_res f l) = Ok b ->
  any_res f (elements (field o k)) = Ok b.
Proof.
  intros Hstr. destruct o as [| | | | |d]; cbn [py_get_or bind field];
    try discriminate.
  destruct (assoc k d) as [g|]; [|now cbn].
  destruct g as [| | |s|l|dd]; cbn [py_iter bind elements]; try discriminate.
  - destruct s as [|c s]; cbn [list_ascii_of_string map any_res]; [tauto|].
    destruct (Hstr (String c EmptyString)) as [e ->]. discriminate.
  - tauto.
  - destruct dd as [|[k' v'] dd]; cbn [map any_res fst]; [tauto|].
    destruct (Hstr k') as [e ->]. discriminate.
Qed.

Lemma in_strs_spec path trusted_ids :
  truthy path && in_strs path trusted_ids = true
  <-> exists p, path = JStr p /\ p <> EmptyString /\ In p trusted_ids.
Proof.
  unfold in_strs. split.
  - intros H. apply andb_true_iff in H. destruct H as [Ht Hin].
    apply existsb_exists in Hin. destruct Hin as [s [Hs Heq]].
    destruct path as [| | |p| |]; try discriminate.
    cbn in Heq. apply String.eqb_eq in Heq. subst s.
    exists p. repeat split; [|exact Hs].
    intros ->. discriminate.
  - intros [p [-> [Hne Hin]]]. apply andb_true_iff. split.
    + cbn. destruct (String.eqb_spec p EmptyString); [contradiction|reflexivity].
    + apply existsb_exists. exists p. split; [exact Hin|].
      cbn. apply String.eqb_refl.
Qed.

Lemma client_path_source_path item path :
  client_path item = Ok path -> source_path item = path.
Proof.
  unfold client_path, source_path.
  destruct (py_get item "source") as [src|e] eqn:Hsrc; cbn [bind]; [|discriminate].
  apply py_get_field in Hsrc. rewrite Hsrc.
  destruct (py_get (py_or src (JDict [])) "source-client-id") as [cid|e] eqn:Hcid;
    cbn [bind]; [|discriminate].
  apply py_get_or_empty_field in Hcid. rewrite Hcid.
  apply py_get_or_empty_field.
Qed.

Lemma carries_source_truthy item : carries_source item = true -> truthy item = true.
Proof.
  destruct item as [| | | | |d]; try discriminate.
  destruct d; [discriminate|reflexivity].
Qed.

Lemma summary_is_managed_spec trusted_ids summary b :
  summary_is_managed trusted_ids summary = Ok b ->
  (b = true <-> first_source_trusted trusted_ids summary).
Proof.
  unfold summary_is_managed, item_of, first_source_trusted.
  destruct summary as [| | | | |d]; cbn [py_values bind]; try discriminate.
  destruct (find carries_source (values d)) as [item|] eqn:Hfind.
  - assert (Ht : truthy item = true)
      by (apply find_some in Hfind; now apply carries_source_truthy).
    rewrite Ht. cbn [negb].
    destruct (client_path item) as [path|e] eqn:Hpath; cbn [bind]; [|discriminate].
    apply client_path_source_path in Hpath.
    intros [= <-]. rewrite in_strs_spec. unfold trusted_path. split.
    + intros Hp. exists d, item. rewrite Hpath. now repeat split.
    + intros [d' [item' [Hd [Hf Hp]]]]. injection Hd as <-.
      rewrite Hfind in Hf. injection Hf as <-. now rewrite Hpath in Hp.
  - cbn. intros [= <-]. split; [discriminate|].
    intros [d' [item' [Hd [Hf _]]]]. injection Hd as <-.
    rewrite Hfind in Hf. discriminate.
Qed.

Lemma summary_raises_on_str trusted_ids s :
  exists e, summary_is_managed trusted_ids (JStr s) = Raise e.
Proof. eexists. reflexivity. Qed.

Lemma group_raises_on_str trusted_ids s :
  exists e, group_is_managed trusted_ids (JStr s) = Raise e.
Proof. eexists. reflexivity. Qed.

Lemma group_is_managed_scan trusted_ids group b :
  group_is_managed trusted_ids group = Ok b ->
  any_res (summary_is_managed trusted_ids) (summaries_of group) = Ok b.
Proof.
  apply scanned_elements, summary_raises_on_str.
Qed.

Lemma section_is_managed_scan trusted_ids profile a section b :
  py_get profile "activities-summary" = Ok a ->
  section_is_managed trusted_ids (py_or a (JDict [])) section = Ok b ->
  any_res (group_is_managed trusted_ids) (groups_of profile section) = Ok b.
Proof.
  intros Ha. unfold section_is_managed, groups_of.
  apply py_get_field in Ha. rewrite Ha.
  destruct (py_get (py_or a (JDict [])) section) as [sd|e] eqn:Hsd; cbn [bind];
    [|discriminate].
  apply py_get_or_empty_field in Hsd. rewrite Hsd.
  unfold py_or. destruct (truthy sd) eqn:Ht.
  - apply scanned_elements, group_raises_on_str.
  - cbn [py_get_or assoc bind py_iter any_res]. intros [= <-].
    now rewrite (falsy_field sd _ Ht).
Qed.

Lemma is_managed_spec profile trusted_ids b :
  is_managed profile trusted_ids = Ok b ->
  (b = true <-> some_summary (first_source_trusted trusted_ids) profile).
Proof.
  unfold is_managed.
  destruct (py_get profile "activities-summary") as [a|e] eqn:Ha; cbn [bind];
    [|discriminate].
  intros Hscan. destruct b.
  - split; [intros _|reflexivity].
    apply any_res_true in Hscan. destruct Hscan as [section [Hsec Hs]].
    apply (section_is_managed_scan _ profile) in Hs; [|exact Ha].
    apply any_res_true in Hs. destruct Hs as [group [Hgroup Hg]].
    apply group_is_managed_scan, any_res_true in Hg.
    destruct Hg as [summary [Hsum Hm]].
    exists section, group, summary. repeat split; try assumption.
    now apply (summary_is_managed_spec _ _ true).
  - split; [discriminate|].
    intros [section [group [summary [Hsec [Hgroup [Hsum Hfirst]]]]]].
    pose proof (any_res_false _ _ Hscan section Hsec) as Hs.
    apply (section_is_managed_scan _ profile) in Hs; [|exact Ha].
    pose proof (any_res_false _ _ Hs group Hgroup) as Hg.
    apply group_is_managed_scan in Hg.
    pose proof (any_res_false _ _ Hg summary Hsum) as Hm.
    apply summary_is_managed_spec in Hm. destruct Hm as [_ Hm].
    specialize (Hm Hfirst). discriminate.
Qed.

Lemma any_res_total {A} (f : A -> res bool) l :
  Forall (fun x => exists b, f x = Ok b) l -> exists b, any_res f l = Ok b.
Proof.
  induction 1 as [|x l [b Hx] _ [b' IH]]; cbn [any_res]; [now eexists|].
  rewrite Hx. cbn [bind]. destruct b; [now eexists|]. now exists b'.
Qed.

Lemma dict_or_falsy_get v k :
  dict_or_falsy v = true -> py_get (py_or v (JDict [])) k = Ok (field v k).
Proof.
  unfold py_or, dict_or_falsy. destruct v as [|b|n|s|l|d]; intros H;
    try (apply negb_true_iff in H; rewrite H; reflexivity).
  destruct d; reflexivity.
Qed.

Lemma list_of_Forall ok v :
  list_of ok v = true -> exists l, v = JList l /\ Forall (fun x => ok x = true) l.
Proof.
  destruct v as [| | | |l|]; try discriminate. cbn. intros H.
  exists l. split; [reflexivity|].
  apply Forall_forall. now apply forallb_forall.
Qed.

Lemma well_shaped_summary_total trusted_ids summary :
  well_shaped_summary summary = true ->
  exists b, summary_is_managed trusted_ids summary = Ok b.
Proof.
  destruct summary as [| | | | |d]; try discriminate.
  unfold well_shaped_summary, summary_is_managed, item_of. cbn [py_values bind].
  destruct (find carries_source (values d)) as [item|] eqn:Hfind; [|now eexists].
  apply find_some in Hfind. destruct Hfind as [_ Hcarries].
  rewrite (carries_source_truthy _ Hcarries). cbn [negb].
  unfold well_shaped_item, client_path. intros Hshape.
  apply andb_true_iff in Hshape. destruct Hshape as [Hsrc Hcid].
  destruct item as [| | | | |di]; try discriminate.
  change (py_get (JDict di) "source") with (Ok (field (JDict di) "source")).
  cbn [bind]. rewrite (dict_or_falsy_get _ _ Hsrc). cbn [bind].
  rewrite (dict_or_falsy_get _ _ Hcid). cbn [bind]. now eexists.
Qed.

Lemma well_shaped_group_total trusted_ids group :
  well_shaped_group group = true ->
  exists b, group_is_managed trusted_ids group = Ok b.
Proof.
  destruct group as [| | | | |d]; try discriminate.
  unfold well_shaped_group, group_is_managed. cbn [py_get_or bind].
  destruct (assoc "summaries" d) as [v|]; [|now eexists].
  intros Hlist. apply list_of_Forall in Hlist. destruct Hlist as [l [-> Hl]].
  cbn [py_iter bind]. apply any_res_total.
  eapply Forall_impl; [|exact Hl]. intros s. apply well_shaped_summary_total.
Qed.

Lemma well_shaped_section_total trusted_ids a section :
  well_shaped_section (field (JDict a) section) = true ->
  exists b, section_is_managed trusted_ids (JDict a) section = Ok b.
Proof.
  unfold section_is_managed.
  change (py_get (JDict a) section) with (Ok (field (JDict a) section)).
  cbn [bind]. generalize (field (JDict a) section). intros sd Hshape.
  unfold py_or. destruct (truthy sd) eqn:Ht; [|now eexists].
  destruct sd as [| | | | |d]; cbn [well_shaped_section] in Hshape;
    try (unfold negb in Hshape; rewrite Ht in Hshape; discriminate).
  cbn [py_get_or bind].
  destruct (assoc "affiliation-group" d) as [v|]; [|now eexists].
  apply list_of_Forall in Hshape. destruct Hshape as [l [-> Hl]].
  cbn [py_iter bind]. apply any_res_total.
  eapply Forall_impl; [|exact Hl]. intros g. apply well_shaped_group_total.
Qed.

Lemma well_shaped_total profile trusted_ids :
  well_shaped profile = true -> exists b, is_managed profile trusted_ids = Ok b.
Proof.
  destruct profile as [| | | | |dp]; try discriminate.
  unfold well_shaped, is_managed.
  change (py_get (JDict dp) "activities-summary")
    with (Ok (field (JDict dp) "activities-summary")).
  cbn [bind]. generalize (field (JDict dp) "activities-summary"). intros a Hshape.
  assert (Hempty : exists b,
             any_res (section_is_managed trusted_ids (JDict [])) sections_to_check
             = Ok b) by (now eexists).
  unfold py_or. destruct (truthy a) eqn:Ht; [|exact Hempty].
  destruct a as [| | | | |da];
    try (unfold negb in Hshape; rewrite Ht in Hshape; discriminate).
  apply any_res_total. apply Forall_forall. intros section Hin.
  apply well_shaped_section_total.
  eapply forallb_forall in Hshape; [exact Hshape|exact Hin].
Qed.

Lemma first_source_managed trusted_ids summary :
  first_source_trusted trusted_ids summary ->
  summary_is_managed trusted_ids summary = Ok true.
Proof.
  intros [d [item [-> [Hfind Htrusted]]]].
  unfold summary_is_managed, item_of. cbn [py_values bind]. rewrite Hfind.
  assert (Hcarries : carries_source item = true)
    by (now apply find_some in Hfind).
  rewrite (carries_source_truthy _ Hcarries). cbn [negb].
  assert (Hpath : client_path item = Ok (source_path item)).
  { destruct Htrusted as [p [Hp _]]. revert Hp. unfold client_path, source_path.
    destruct item as [| | | | |di]; try discriminate.
    cbn [py_get py_get_or bind field].
    destruct (match assoc "source" di with Some v => v | None => JNull end)
      as [| | | | |ds]; try discriminate.
    destruct ds as [|kv ds]; [discriminate|].
    unfold py_or. cbn [truthy py_get py_get_or bind field].
    destruct (match assoc "source-client-id" (kv :: ds) with
              | Some v => v | None => JNull end)
      as [| | | | |dc]; try discriminate.
    destruct dc as [|kv' dc]; [discriminate|]. reflexivity. }
  rewrite Hpath. cbn [bind]. f_equal. now apply in_strs_spec.
Qed.

Lemma classifier_stops_at_hit dp da dsec dg trusted_ids ror_id orcid
  earlier section later before after before_s summary after_s :
  assoc "activities-summary" dp = Some (JDict da) ->
  sections_to_check = earlier ++ section :: later ->
  Forall (fun s => section_is_managed trusted_ids (JDict da) s = Ok false) earlier ->
  assoc section da = Some (JDict dsec) ->
  assoc "affiliation-group" dsec = Some (JList (before ++ JDict dg :: after)) ->
  Forall (fun g => group_is_managed trusted_ids g = Ok false) before ->
  assoc "summaries" dg = Some (JList (before_s ++ summary :: after_s)) ->
  Forall (fun s => summary_is_managed trusted_ids s = Ok false) before_s ->
  first_source_trusted trusted_ids summary ->
  _extract_status_from_profile (JDict dp) ror_id orcid trusted_ids
  = Ok (mkResearcherStatus ror_id orcid true).
Proof.
  intros Ha Hsections Hearlier Hsec Hgroups Hbefore Hsummaries Hbefore_s Hhit.
  unfold _extract_status_from_profile, is_managed.
  cbn [py_get py_get_or bind]. rewrite Ha, Hsections.
  assert (Hda : py_or (JDict da) (JDict []) = JDict da)
    by (destruct da; [discriminate|reflexivity]).
  rewrite Hda.
  rewrite (any_res_short_circuit _ earlier section later Hearlier); [reflexivity|].
  unfold section_is_managed. cbn [py_get py_get_or bind]. rewrite Hsec.
  assert (Hdsec : py_or (JDict dsec) (JDict []) = JDict dsec)
    by (destruct dsec; [discriminate|reflexivity]).
  rewrite Hdsec. cbn [py_get_or bind]. rewrite Hgroups. cbn [py_iter bind].
  apply any_res_short_circuit; [exact Hbefore|].
  unfold group_is_managed. cbn [py_get_or bind]. rewrite Hsummaries.
  cbn [py_iter bind].
  apply any_res_short_circuit; [exact Hbefore_s|].
  now apply first_source_managed.
Qed.

End ClassifierFacts.

(** C4 (as amended).  Whenever the classifier returns, the flag it sets is true
    exactly when some summary, within some affiliation group of one of the
    seven sections, has as its FIRST nested object with a ['source'] field one
    whose source-client-id path is a non-empty member of the trusted ids.  The
    classifier stops at the first hit: when the sections, the groups and the
    summaries scanned before a summary of that kind are non-matches, it
    returns true, whatever the summaries, the groups and the sections after
    the hit hold, be it values on which the scan would raise.  A falsy or
    absent activities object, section, group list, summary list, nested
    object or path field gives a non-match and no error, and on every
    document of the expected shape the classifier returns. *)
Theorem affiliation_classifier_first_source :
  (forall profile ror_id orcid trusted_ids,
      well_shaped profile = true ->
      exists status,
        _extract_status_from_profile profile ror_id orcid trusted_ids = Ok status)
  /\ (forall profile ror_id orcid trusted_ids status,
      _extract_status_from_profile profile ror_id orcid trusted_ids = Ok status ->
      s_ror_id status = ror_id /\ s_orcid status = orcid
      /\ (s_is_managed_by_am status = true
          <-> some_summary (first_source_trusted trusted_ids) profile))
  /\ (forall dp da dsec dg trusted_ids ror_id orcid
             earlier section later before after before_s summary after_s,
      assoc "activities-summary" dp = Some (JDict da) ->
      sections_to_check = earlier ++ section :: later ->
      Forall (fun s => section_is_managed trusted_ids (JDict da) s = Ok false)
             earlier ->
      assoc section da = Some (JDict dsec) ->
      assoc "affiliation-group" dsec = Some (JList (before ++ JDict dg :: after)) ->
      Forall (fun g => group_is_managed trusted_ids g = Ok false) before ->
      assoc "summaries" dg = Some (JList (before_s ++ summary :: after_s)) ->
      Forall (fun s => summary_is_managed trusted_ids s = Ok false) before_s ->
      first_source_trusted trusted_ids summary ->
      _extract_status_from_profile (JDict dp) ror_id orcid trusted_ids
      = Ok (mkResearcherStatus ror_id orcid true))
  /\ (forall d ror_id orcid trusted_ids,
      truthy (field (JDict d) "activities-summary") = false ->
      _extract_status_from_profile (JDict d) ror_id orcid trusted_ids
      = Ok (mkResearcherStatus ror_id orcid false))
  /\ (forall d trusted_ids section,
      truthy (field (JDict d) section) = false
      \/ (exists sd, field (JDict d) section = JDict sd
                     /\ assoc "affiliation-group" sd = None) ->
      section_is_managed trusted_ids (JDict d) section = Ok false)
  /\ (forall d trusted_ids,
      assoc "summaries" d = None ->
      group_is_managed trusted_ids (JDict d) = Ok false)
  /\ (forall d trusted_ids,
      find carries_source (values d) = None ->
      summary_is_managed trusted_ids (JDict d) = Ok false)
  /\ (forall d item trusted_ids,
      find carries_source (values d) = Some item ->
      truthy (field item "source") = false
      \/ (exists ds, field item "source" = JDict ds
           /\ (truthy (field (JDict ds) "source-client-id") = false
               \/ exists dc, field (JDict ds) "source-client-id" = JDict dc
                             /\ truthy (field (JDict dc) "path") = false)) ->
      summary_is_managed trusted_ids (JDict d) = Ok false).
Proof.
  split; [|split; [|split; [|split; [|split; [|split; [|split]]]]]].
  - intros profile ror_id orcid trusted_ids Hshape.
    unfold _extract_status_from_profile.
    destruct (well_shaped_total profile trusted_ids Hshape) as [b ->].
    now eexists.
  - intros profile ror_id orcid trusted_ids status.
    unfold _extract_status_from_profile.
    destruct (is_managed profile trusted_ids) as [b|e] eqn:Hm; cbn [bind];
      [|discriminate].
    intros [= <-]. cbn. repeat split; try reflexivity;
      now apply is_managed_spec.
  - exact classifier_stops_at_hit.
  - intros d ror_id orcid trusted_ids Hfalsy.
    unfold _extract_status_from_profile, is_managed.
    cbn [py_get py_get_or bind]. cbn [field] in Hfalsy.
    unfold py_or. rewrite Hfalsy. reflexivity.
  - intros d trusted_ids section Hmissing.
    unfold section_is_managed. cbn [py_get py_get_or bind]. cbn [field] in Hmissing.
    unfold py_or. destruct Hmissing as [Hfalsy|[sd [Hsd Hnone]]].
    + rewrite Hfalsy. reflexivity.
    + rewrite Hsd. destruct (truthy (JDict sd)); [|reflexivity].
      cbn [py_get py_get_or]. rewrite Hnone. reflexivity.
  - intros d trusted_ids Hnone.
    unfold group_is_managed. cbn [py_get_or]. rewrite Hnone. reflexivity.
  - intros d trusted_ids Hnone.
    unfold summary_is_managed, item_of. cbn [py_values bind]. rewrite Hnone.
    reflexivity.
  - intros d item trusted_ids Hfind Hmissing.
    unfold summary_is_managed, item_of. cbn [py_values bind]. rewrite Hfind.
    apply find_some in Hfind. destruct Hfind as [_ Hcarries].
    rewrite (carries_source_truthy _ Hcarries). cbn [negb].
    destruct item as [| | | | |di]; try discriminate.
    unfold client_path. cbn [py_get py_get_or bind field] in *.
    unfold py_or.
    destruct Hmissing as [Hfalsy|[ds [Hds Hrest]]].
    + rewrite Hfalsy. reflexivity.
    + rewrite Hds. destruct (truthy (JDict ds)); [|reflexivity].
      cbn [py_get py_get_or bind].
      destruct Hrest as [Hfalsy|[dc [Hdc Hpath]]].
      * rewrite Hfalsy. reflexivity.
      * rewrite Hdc. destruct (truthy (JDict dc)); [|reflexivity].
        cbn [py_get py_get_or bind]. rewrite Hpath. reflexivity.
Qed.

(** The reading of C4 that counts any nested object with a source fails: in
    [two_sources_profile] the trusted client wrote the second nested object
    of the summary, and the classifier, which looks at the first one only,
    says unmanaged. *)
Lemma classifier_looks_at_first_source_only :
  _extract_status_from_profile two_sources_profile "02ap3w078" "0000-0001"
    ["APP-TRUSTED"]
  = Ok (mkResearcherStatus "02ap3w078" "0000-0001" false)
  /\ some_summary (some_source_trusted ["APP-TRUSTED"]) two_sources_profile.
Proof.
  split; [reflexivity|].
  exists "employments".
  exists (JDict [("summaries",
                  JList [JDict [("employment-summary", item_from "APP-OTHER");
                                ("extra", item_from "APP-TRUSTED")]])]).
  exists (JDict [("employment-summary", item_from "APP-OTHER");
                 ("extra", item_from "APP-TRUSTED")]).
  repeat split.
  - now left.
  - now left.
  - now left.
  - eexists. exists (item_from "APP-TRUSTED"). repeat split.
    + right. now left.
    + exists "APP-TRUSTED". repeat split; [discriminate|now left].
Qed.

Lemma affiliation_classifier_witness :
  some_summary (first_source_trusted ["APP-TRUSTED"]) managed_profile
  /\ _extract_status_from_profile hit_then_unreadable_profile "02ap3w078"
       "0000-0001" ["APP-TRUSTED"]
     = Ok (mkResearcherStatus "02ap3w078" "0000-0001" true)
  /\ (exists e,
        _extract_status_from_profile hit_then_unreadable_profile "02ap3w078"
          "0000-0001" ["APP-OTHER"] = Raise e).
Proof.
  destruct affiliation_classifier_first_source as [_ [Hiff [Hstops _]]].
  split; [|split].
  - apply (Hiff managed_profile "02ap3w078" "0000-0001" ["APP-TRUSTED"]
             (mkResearcherStatus "02ap3w078" "0000-0001" true) eq_refl).
    reflexivity.
  - unfold hit_then_unreadable_profile.
    eapply (Hstops _ _ _ _ _ _ _ [] "employments" _ [] _ [] _ _);
      try reflexivity; try constructor.
    exists [("employment-summary", item_from "APP-TRUSTED")], (item_from "APP-TRUSTED").
    split; [reflexivity|]. split; [reflexivity|].
    exists "APP-TRUSTED". split; [reflexivity|]. split; [discriminate|now left].
  - eexists. reflexivity.
Defined.

(** ** Concurrent profile fetcher *)

Section ProfilesFacts.

Lemma nth_remove_nth_perm {A} (l : list A) : forall i d,
  i < List.length l -> Permutation l (nth i l d :: remove_nth i l).
Proof.
  induction l as [|x l IH]; intros i d Hi; [cbn in Hi; lia|].
  destruct i as [|i]; cbn [nth remove_nth]; [reflexivity|].
  cbn in Hi. rewrite perm_swap. constructor. apply IH. lia.
Qed.

Lemma remove_nth_length {A} (l : list A) : forall i,
  i < List.length l -> List.length (remove_nth i l) = pred (List.length l).
Proof.
  induction l as [|x l IH]; intros i Hi; [cbn in Hi; lia|].
  destruct i as [|i]; cbn [remove_nth List.length]; [reflexivity|].
  cbn in Hi. rewrite IH by lia. lia.
Qed.

(** Whatever the finishing order, every submitted task finishes once. *)
Lemma as_completed_perm {A} n : forall picks (pending : list A),
  n = List.length pending -> Permutation pending (as_completed picks n pending).
Proof.
  induction n as [|n IH]; intros picks pending Hn.
  - destruct pending; [constructor|discriminate].
  - destruct pending as [|x r]; [discriminate|].
    cbn [as_completed].
    set (i := Nat.modulo (hd 0 picks) (List.length (x :: r))).
    assert (Hi : i < List.length (x :: r))
      by (apply Nat.mod_upper_bound; discriminate).
    etransitivity; [apply (nth_remove_nth_perm _ i x Hi)|].
    constructor. apply IH. rewrite remove_nth_length by exact Hi.
    cbn [List.length] in *. lia.
Qed.

Lemma In_keys_dict_set x k v d :
  In x (keys (dict_set k v d)) <-> x = k \/ In x (keys d).
Proof.
  rewrite keys_dict_set.
  destruct (existsb (String.eqb k) (keys d)) eqn:Hex.
  - apply existsb_eqb_In in Hex. split; [now right|].
    intros [->|H]; assumption.
  - rewrite in_app_iff. cbn. split.
    + intros [H|[<-|[]]]; [now right|now left].
    + intros [->|H]; [right; now left|now left].
Qed.

Lemma In_dict_set x y k v d :
  In (x, y) (dict_set k v d) -> (x = k /\ y = v) \/ In (x, y) d.
Proof.
  induction d as [|[k' v'] d IH]; cbn [dict_set].
  - intros [[= <- <-]|[]]. now left.
  - destruct (String.eqb k k').
    + intros [[= <- <-]|H]; [now left|right; now right].
    + intros [H|H]; [right; now left|].
      destruct (IH H) as [H'|H']; [now left|right; now right].
Qed.

Lemma collected_keys env url completed : forall results oid,
  In oid (keys (fold_left (collect env url) completed results))
  <-> In oid (keys results) \/ (In oid completed /\ fetched env url oid = true).
Proof.
  induction completed as [|o completed IH]; intros results oid; cbn [fold_left].
  - cbn. tauto.
  - rewrite IH. unfold collect.
    assert (Hfo : fetched env url o
                  = match fetch_single_profile env o url with
                    | Ok p => truthy p
                    | Raise _ => false
                    end) by reflexivity.
    destruct (fetch_single_profile env o url) as [profile_data|e].
    + destruct (truthy profile_data) eqn:Ht.
      * rewrite In_keys_dict_set. cbn [In]. split.
        -- intros [[->|H]|[H1 H2]]; tauto.
        -- intros [H|[[<-|H1] H2]]; tauto.
      * cbn [In]. split; [tauto|].
        intros [H|[[<-|H1] H2]]; try tauto. congruence.
    + cbn [In]. split; [tauto|].
      intros [H|[[<-|H1] H2]]; try tauto. congruence.
Qed.

Lemma collected_values env url completed : forall results,
  (forall oid profile, In (oid, profile) results ->
     fetch_single_profile env oid url = Ok profile /\ truthy profile = true) ->
  forall oid profile,
    In (oid, profile) (fold_left (collect env url) completed results) ->
    fetch_single_profile env oid url = Ok profile /\ truthy profile = true.
Proof.
  induction completed as [|o completed IH]; intros results Hres; cbn [fold_left];
    [exact Hres|].
  apply IH. intros oid profile. unfold collect.
  destruct (fetch_single_profile env o url) as [profile_data|e] eqn:Hfetch;
    [|apply Hres].
  destruct (truthy profile_data) eqn:Ht; [|apply Hres].
  intros Hin. apply In_dict_set in Hin.
  destruct Hin as [[-> ->]|Hin]; [now split|now apply Hres].
Qed.

Lemma collected_NoDup env url completed : forall results,
  NoDup (keys results) ->
  NoDup (keys (fold_left (collect env url) completed results)).
Proof.
  induction completed as [|o completed IH]; intros results Hnd; cbn [fold_left];
    [exact Hnd|].
  apply IH. unfold collect.
  destruct (fetch_single_profile env o url) as [profile_data|e]; [|exact Hnd].
  destruct (truthy profile_data); [|exact Hnd].
  now apply NoDup_keys_dict_set.
Qed.

Lemma get_all_profiles_pool env picks orcid_ids max_workers :
  token_failure env = None ->
  0 < max_workers ->
  get_all_profiles_concurrently env picks orcid_ids max_workers
  = Ok (profiles_map env picks orcid_ids).
Proof.
  intros Htoken Hw.
  unfold get_all_profiles_concurrently, client_credentials_token, profiles_map, pool_url.
  rewrite Htoken. cbn [bind].
  destruct (config_member_url env) as [member_url|]; [|reflexivity].
  destruct (token env) as [tok|]; [|reflexivity].
  destruct (str_truthy member_url), (str_truthy tok); cbn [negb orb andb];
    try reflexivity.
  destruct (Nat.eqb_spec max_workers 0); [lia|reflexivity].
Qed.

Lemma get_all_profiles_raised env picks orcid_ids max_workers e :
  token_failure env = Some e ->
  get_all_profiles_concurrently env picks orcid_ids max_workers = Raise e.
Proof.
  intros Htoken. unfold get_all_profiles_concurrently, client_credentials_token.
  now rewrite Htoken.
Qed.

End ProfilesFacts.

(** C7 (the code at the input where it departs from the claim).  The fetcher
    asks for the access token before anything else and outside any [try].
    A token endpoint that answers with the lifetime in a string makes the
    token function raise after the exchange, and the fetcher raises with it
    and returns no map; so it does whenever that call raises.  When the
    call returns, the fetcher, with a pool of positive width, returns a map,
    whatever the order in which the workers finish: without the member URL
    or the token no fetch is made and the map is empty; otherwise its keys,
    which are pairwise distinct, are exactly the submitted identifiers whose
    fetch handed back a non-empty document (an identifier whose fetch gave
    nothing or raised is absent), and each key maps to the document fetched
    for it. *)
Theorem profiles_map_unless_token_call_raises :
  (fst (fst (get_client_credentials_token sample_credentials text_lifetime_answer
               10%Z 11%Z 12%Z no_token))
   = Raise text_lifetime_failure
   /\ client_credentials_token unread_token_env = Raise text_lifetime_failure
   /\ get_all_profiles_concurrently unread_token_env [1; 0]
        ["0000-0404"; "0000-0001"] 10
      = Raise text_lifetime_failure)
  /\ (forall env picks orcid_ids max_workers e,
        client_credentials_token env = Raise e ->
        get_all_profiles_concurrently env picks orcid_ids max_workers = Raise e)
  /\ (forall env picks orcid_ids max_workers tok,
        client_credentials_token env = Ok tok ->
        0 < max_workers ->
        exists results,
          get_all_profiles_concurrently env picks orcid_ids max_workers = Ok results
          /\ NoDup (keys results)
          /\ match pool_url env with
             | None => results = []
             | Some url =>
               (forall oid,
                   In oid (keys results)
                   <-> In oid orcid_ids /\ fetched env url oid = true)
               /\ (forall oid profile,
                      In (oid, profile) results ->
                      fetch_single_profile env oid url = Ok profile)
             end).
Proof.
  split; [now repeat split|]. split.
  - intros env picks orcid_ids max_workers e.
    unfold get_all_profiles_concurrently. now intros ->.
  - intros env picks orcid_ids max_workers tok Hcall Hw.
    assert (Htoken : token_failure env = None).
    { unfold client_credentials_token in Hcall.
      now destruct (token_failure env). }
    eexists. split; [now apply get_all_profiles_pool|].
    unfold profiles_map.
    destruct (pool_url env) as [url|]; [|split; [constructor|reflexivity]].
    split; [apply collected_NoDup; constructor|]. split.
    + intros oid. rewrite collected_keys. cbn [keys map In].
      assert (Hperm := as_completed_perm (List.length orcid_ids) picks orcid_ids eq_refl).
      split.
      * intros [[]|[Hin Hf]]. split; [|exact Hf].
        eapply Permutation_in; [symmetry; exact Hperm|exact Hin].
      * intros [Hin Hf]. right. split; [|exact Hf].
        eapply Permutation_in; [exact Hperm|exact Hin].
    + intros oid profile Hin.
      eapply collected_values in Hin; [apply Hin|].
      intros ? ? [].
Qed.

(** ** Storage and the healer *)

Section FrameFacts.

Lemma bind_ok {A B} (c : res A) (k : A -> res B) r :
  bind c k = Ok r -> exists a, c = Ok a /\ k a = Ok r.
Proof.
  destruct c as [a|e]; cbn; [|discriminate]. intros H. now exists a.
Qed.

Lemma commit_frame w :
  db (snd (commit w)) = db w
  /\ schedules (snd (commit w)) = schedules w
  /\ clock (snd (commit w)) = clock w.
Proof.
  unfold commit. destruct (commits w); cbn; auto.
Qed.

Lemma commit_all_committed w :
  all_committed w ->
  fst (commit w) = Committed /\ all_committed (snd (commit w)).
Proof.
  unfold all_committed, commit. intros Hall.
  destruct (commits w) as [|o rest] eqn:Hc; cbn.
  - split; [reflexivity|]. rewrite Hc. constructor.
  - inversion Hall; subst. split; [reflexivity|assumption].
Qed.

Lemma flush_runs {R} (insert : list R -> Db -> Db) bulk w :
  (forall rows d, work_cache_run (insert rows d) = work_cache_run d
                  /\ funding_cache_run (insert rows d) = funding_cache_run d) ->
  runs_of (snd (_flush_bulk insert bulk w)) = runs_of w.
Proof.
  intros Hins. unfold _flush_bulk, runs_of.
  destruct bulk as [|x bulk]; [reflexivity|].
  destruct (commit_frame w) as [Hdb _].
  destruct (commit w) as [[|text] w1]; cbn [snd db with_db] in *.
  - destruct (Hins (x :: bulk) (db w1)) as [-> ->]. now rewrite Hdb.
  - now rewrite Hdb.
Qed.

Lemma insert_works_runs rows d :
  work_cache_run (insert_works rows d) = work_cache_run d
  /\ funding_cache_run (insert_works rows d) = funding_cache_run d.
Proof. now split. Qed.

Lemma insert_statuses_runs rows d :
  work_cache_run (insert_statuses rows d) = work_cache_run d
  /\ funding_cache_run (insert_statuses rows d) = funding_cache_run d.
Proof. now split. Qed.

Lemma insert_fundings_runs rows d :
  work_cache_run (insert_fundings rows d) = work_cache_run d
  /\ funding_cache_run (insert_fundings rows d) = funding_cache_run d.
Proof. now split. Qed.

(** The healer writes to the [User] table only, and takes no reading of the
    clock. *)
Lemma ensure_frame env ror_id w :
  let w' := snd (ensure_and_heal_grid_for_ror env ror_id w) in
  runs_of w' = runs_of w /\ caches_of w' = caches_of w
  /\ schedules w' = schedules w /\ clock w' = clock w
  /\ map u_ror_id (users (db w')) = map u_ror_id (users (db w))
  /\ map u_am_client_id (users (db w')) = map u_am_client_id (users (db w)).
Proof.
  unfold ensure_and_heal_grid_for_ror.
  destruct (negb (str_truthy ror_id)); [cbn; auto 10|].
  match goal with |- context [if truthy ?g then _ else _] =>
    destruct (truthy g); [|cbn; auto 10] end.
  match goal with |- context [match filter ?p ?l with _ => _ end] =>
    destruct (filter p l); [cbn; auto 10|] end.
  destruct (commit_frame w) as [Hdb [Hs Hc]].
  destruct (commit w) as [[|text] w1]; cbn [snd fst] in *;
    unfold runs_of, caches_of; cbn; rewrite ?Hdb, ?Hs, ?Hc; [|auto 10].
  repeat split; rewrite map_map; apply map_ext; intros usr;
    match goal with |- context [if ?b then _ else _] => destruct b end;
    reflexivity.
Qed.

End FrameFacts.

(** ** The rebuild loops *)

Section LoopFacts.

Variable ror_id : string.
Variable trusted_ids : list string.

(** A flush that may or may not be due leaves the run log alone. *)
Lemma due_flush_runs {R} (insert : list R -> Db -> Db) (due : bool) bulk w :
  (forall rows d, work_cache_run (insert rows d) = work_cache_run d
                  /\ funding_cache_run (insert rows d) = funding_cache_run d) ->
  runs_of (snd (if due then _flush_bulk insert bulk w else (0, bulk, w)))
  = runs_of w.
Proof.
  intros Hins. destruct due; [now apply flush_runs|reflexivity].
Qed.

Lemma process_works_runs items : forall st w,
  runs_of (snd (process_works ror_id trusted_ids items st w)) = runs_of w.
Proof.
  induction items as [|[orcid_id profile] items IH]; intros st w;
    cbn [process_works]; [reflexivity|].
  destruct (negb (truthy profile)); [apply IH|].
  destruct (_extract_status_from_profile profile ror_id orcid_id trusted_ids)
    as [status|e]; [|reflexivity].
  destruct (profile_works ror_id orcid_id profile) as [rows|e]; [|reflexivity].
  match goal with |- context [if ?b then _flush_bulk insert_works ?bulk w else _] =>
    pose proof (due_flush_runs insert_works b bulk w insert_works_runs) as H1;
    destruct (if b then _flush_bulk insert_works bulk w else (0, bulk, w))
      as [[c1 works] w1] end.
  match goal with |- context [if ?b then _flush_bulk insert_statuses ?bulk w1 else _] =>
    pose proof (due_flush_runs insert_statuses b bulk w1 insert_statuses_runs) as H2;
    destruct (if b then _flush_bulk insert_statuses bulk w1 else (0, bulk, w1))
      as [[c2 statuses] w2] end.
  cbn [snd] in *. rewrite IH. congruence.
Qed.

Lemma process_fundings_runs items : forall st w,
  runs_of (snd (process_fundings ror_id items st w)) = runs_of w.
Proof.
  induction items as [|[orcid_id profile] items IH]; intros st w;
    cbn [process_fundings]; [reflexivity|].
  destruct (negb (truthy profile)); [apply IH|].
  destruct (profile_fundings ror_id orcid_id profile) as [rows|e]; [|reflexivity].
  match goal with |- context [if ?b then _flush_bulk insert_fundings ?bulk w else _] =>
    pose proof (due_flush_runs insert_fundings b bulk w insert_fundings_runs) as H1;
    destruct (if b then _flush_bulk insert_fundings bulk w else (0, bulk, w))
      as [[c1 fundings] w1] end.
  cbn [snd] in *. rewrite IH. congruence.
Qed.

(** When the commits go through, a flush that may or may not be due moves
    the buffer into the table or leaves both as they are. *)
Lemma due_flush_works (due : bool) bulk w :
  all_committed w ->
  let r := if due then _flush_bulk insert_works bulk w else (0, bulk, w) in
  all_committed (snd r)
  /\ users (db (snd r)) = users (db w)
  /\ work_cache (db (snd r)) ++ snd (fst r) = work_cache (db w) ++ bulk
  /\ researcher_status (db (snd r)) = researcher_status (db w).
Proof.
  intros Hall. destruct due; cbn zeta; [|now repeat split].
  unfold _flush_bulk. destruct bulk as [|x bulk];
    [cbn; now repeat split|].
  destruct (commit_all_committed w Hall) as [Hok Hall'].
  destruct (commit_frame w) as [Hdb _].
  destruct (commit w) as [o w1]. cbn [fst snd] in *. subst o.
  cbn. rewrite Hdb, app_nil_r. now repeat split.
Qed.

Lemma due_flush_statuses (due : bool) bulk w :
  all_committed w ->
  let r := if due then _flush_bulk insert_statuses bulk w else (0, bulk, w) in
  all_committed (snd r)
  /\ users (db (snd r)) = users (db w)
  /\ researcher_status (db (snd r)) ++ snd (fst r) = researcher_status (db w) ++ bulk
  /\ work_cache (db (snd r)) = work_cache (db w).
Proof.
  intros Hall. destruct due; cbn zeta; [|now repeat split].
  unfold _flush_bulk. destruct bulk as [|x bulk];
    [cbn; now repeat split|].
  destruct (commit_all_committed w Hall) as [Hok Hall'].
  destruct (commit_frame w) as [Hdb _].
  destruct (commit w) as [o w1]. cbn [fst snd] in *. subst o.
  cbn. rewrite Hdb, app_nil_r. now repeat split.
Qed.

(** A loop that ends without raising has read every item. *)
Lemma process_works_read items : forall st w st' w',
  process_works ror_id trusted_ids items st w = (Ok st', w') ->
  exists results, map_res (profile_rows ror_id trusted_ids) items = Ok results.
Proof.
  induction items as [|[orcid_id profile] items IH]; intros st w st' w' Hrun;
    cbn [process_works map_res profile_rows] in *; [now eexists|].
  destruct (negb (truthy profile)).
  - destruct (IH _ _ _ _ Hrun) as [results ->]. now eexists.
  - destruct (_extract_status_from_profile profile ror_id orcid_id trusted_ids)
      as [status|e]; [|discriminate].
    destruct (profile_works ror_id orcid_id profile) as [rows|e]; [|discriminate].
    cbn [bind].
    match type of Hrun with context [if ?b then _flush_bulk insert_works ?bulk w else _] =>
      destruct (if b then _flush_bulk insert_works bulk w else (0, bulk, w))
        as [[c1 works] w1] end.
    match type of Hrun with context [if ?b then _flush_bulk insert_statuses ?bulk w1 else _] =>
      destruct (if b then _flush_bulk insert_statuses bulk w1 else (0, bulk, w1))
        as [[c2 statuses] w2] end.
    destruct (IH _ _ _ _ Hrun) as [results ->]. now eexists.
Qed.

(** When the commits go through and every item can be read, the loop ends
    with the count of the rows read, and table and buffer together hold
    what they held plus those rows. *)
Lemma process_works_committed items : forall results st w,
  all_committed w ->
  map_res (profile_rows ror_id trusted_ids) items = Ok results ->
  exists st' w',
    process_works ror_id trusted_ids items st w = (Ok st', w')
    /\ all_committed w'
    /\ users (db w') = users (db w)
    /\ total_works_cached st'
       = total_works_cached st + List.length (List.concat (map snd results))
    /\ work_cache (db w') ++ works_buffer st'
       = work_cache (db w) ++ works_buffer st ++ List.concat (map snd results)
    /\ researcher_status (db w') ++ status_buffer st'
       = researcher_status (db w) ++ status_buffer st
         ++ List.concat (map fst results).
Proof.
  induction items as [|[orcid_id profile] items IH]; intros results st w Hall Hread;
    cbn [process_works map_res profile_rows] in *.
  - injection Hread as <-. exists st, w. cbn. rewrite !app_nil_r, Nat.add_0_r.
    now repeat split.
  - destruct (negb (truthy profile)).
    + cbn [bind] in Hread. apply bind_ok in Hread.
      destruct Hread as [rest [Hrest [= <-]]].
      destruct (IH rest st w Hall Hrest) as [st' [w' H]].
      exists st', w'. cbn [map fst snd List.concat app]. exact H.
    + destruct (_extract_status_from_profile profile ror_id orcid_id trusted_ids)
        as [status|e]; [|discriminate].
      destruct (profile_works ror_id orcid_id profile) as [rows|e]; [|discriminate].
      cbn [bind] in Hread. apply bind_ok in Hread.
      destruct Hread as [rest [Hrest [= <-]]].
      match goal with |- context [if ?b then _flush_bulk insert_works ?bulk w else _] =>
        pose proof (due_flush_works b bulk w Hall) as H1;
        destruct (if b then _flush_bulk insert_works bulk w else (0, bulk, w))
          as [[c1 works] w1] end.
      cbn [fst snd] in H1. destruct H1 as [Hall1 [Hu1 [Hw1 Hs1]]].
      match goal with |- context [if ?b then _flush_bulk insert_statuses ?bulk w1 else _] =>
        pose proof (due_flush_statuses b bulk w1 Hall1) as H2;
        destruct (if b then _flush_bulk insert_statuses bulk w1 else (0, bulk, w1))
          as [[c2 statuses] w2] end.
      cbn [fst snd] in H2. destruct H2 as [Hall2 [Hu2 [Hs2 Hw2]]].
      destruct (IH rest (mkWorksState
                           (total_works_cached st + List.length rows) works statuses)
                   w2 Hall2 Hrest)
        as [st' [w' [Hrun [Hall' [Hu' [Ht' [Hw' Hs']]]]]]].
      exists st', w'. cbn [total_works_cached works_buffer status_buffer] in *.
      cbn [map fst snd List.concat].
      repeat split; try assumption.
      * congruence.
      * rewrite Ht', length_app. lia.
      * rewrite Hw', Hw2, app_assoc, Hw1, <- !app_assoc. reflexivity.
      * rewrite Hs', app_assoc, Hs2, Hs1, <- !app_assoc. reflexivity.
Qed.

End LoopFacts.

(** ** The healer, called again *)

Section HealerFacts.

Variable ror_id : string.
Variable grid_id : json.
Hypothesis grid_truthy : truthy grid_id = true.

Local Abbreviation has_grid := (fun u => of_ror ror_id u && negb (lacks_grid u)).
Local Abbreviation needs := (fun u => of_ror ror_id u && lacks_grid u).
Local Abbreviation heal := (fun u => if needs u then set_grid grid_id u else u).
Local Abbreviation local_grid l :=
  (match find has_grid l with Some u => u_grid_id u | None => JNull end).

Lemma healed_has_grid u : lacks_grid (set_grid grid_id u) = false.
Proof.
  unfold lacks_grid. cbn. destruct grid_id as [| | |s| |]; try reflexivity.
  - discriminate.
  - destruct s; [discriminate|reflexivity].
Qed.

Lemma heal_needs_nothing l : filter needs (map heal l) = [].
Proof.
  induction l as [|u l IH]; [reflexivity|].
  cbn [map filter]. destruct (of_ror ror_id u) eqn:Hror; cbn [andb].
  - destruct (lacks_grid u) eqn:Hl.
    + assert (Hror' : of_ror ror_id (set_grid grid_id u) = true) by exact Hror.
      rewrite Hror', healed_has_grid. exact IH.
    + rewrite Hror, Hl. exact IH.
  - rewrite Hror. exact IH.
Qed.

Lemma heal_local_grid l :
  local_grid (map heal l) = grid_id \/ local_grid (map heal l) = local_grid l.
Proof.
  induction l as [|u l IH]; [now right|].
  cbn [map find]. destruct (of_ror ror_id u) eqn:Hror; cbn [andb].
  - destruct (lacks_grid u) eqn:Hl; cbn [negb].
    + assert (Hror' : of_ror ror_id (set_grid grid_id u) = true) by exact Hror.
      rewrite Hror', healed_has_grid. now left.
    + rewrite Hror, Hl. now right.
  - rewrite Hror. exact IH.
Qed.

End HealerFacts.

(** Once the healer has run with its commit going through, running it again
    on the same users gives the same identifier and writes nothing. *)
Lemma ensure_stable env ror_id w w1 :
  all_committed w ->
  users (db w1) = users (db (snd (ensure_and_heal_grid_for_ror env ror_id w))) ->
  ensure_and_heal_grid_for_ror env ror_id w1
  = (fst (ensure_and_heal_grid_for_ror env ror_id w), w1).
Proof.
  intros Hall. unfold ensure_and_heal_grid_for_ror.
  destruct (negb (str_truthy ror_id)); [reflexivity|].
  set (has_grid := fun u => of_ror ror_id u && negb (lacks_grid u)).
  set (needs := fun u => of_ror ror_id u && lacks_grid u).
  set (local := match find has_grid (users (db w)) with
                | Some u => u_grid_id u
                | None => JNull
                end).
  set (g := if negb (truthy local) then fetch_grid_from_ror env ror_id else local).
  destruct (truthy g) eqn:Hg.
  - destruct (filter needs (users (db w))) as [|u0 us] eqn:Hneeds.
    + cbn [fst snd]. intros ->. fold local. fold g. rewrite Hg.
      fold needs. rewrite Hneeds. reflexivity.
    + destruct (commit_all_committed w Hall) as [Hok _].
      destruct (commit_frame w) as [Hdb _].
      destruct (commit w) as [o w']. cbn [fst snd] in *. subst o.
      cbn [fst snd with_db db users set_users]. rewrite Hdb. intros ->.
      pose proof (heal_local_grid ror_id g Hg (users (db w))) as Hlocal.
      pose proof (heal_needs_nothing ror_id g Hg (users (db w))) as Hnone.
      subst needs has_grid. cbv beta in *. rewrite Hnone.
      destruct Hlocal as [->| ->].
      * rewrite Hg. cbn [negb]. now rewrite Hg.
      * fold local. fold g. now rewrite Hg.
  - cbn [fst snd]. intros ->. fold local. fold g. now rewrite Hg.
Qed.

(** ** Rows, orders and counts *)

Section OrderFacts.

Lemma map_res_perm {A B} (f : A -> res B) l1 l2 :
  Permutation l1 l2 ->
  forall r1, map_res f l1 = Ok r1 ->
  exists r2, map_res f l2 = Ok r2 /\ Permutation r1 r2.
Proof.
  induction 1 as [|x l1 l2 _ IH|x y l|l1 l2 l3 _ IH12 _ IH23]; intros r1 Hr.
  - exists r1. now split.
  - cbn [map_res] in *. apply bind_ok in Hr. destruct Hr as [y [Hy Hr]].
    apply bind_ok in Hr. destruct Hr as [ys [Hys [= <-]]].
    destruct (IH _ Hys) as [r2 [Hr2 Hp]].
    exists (y :: r2). rewrite Hy, Hr2. split; [reflexivity|now constructor].
  - cbn [map_res] in *. apply bind_ok in Hr. destruct Hr as [b [Hb Hr]].
    apply bind_ok in Hr. destruct Hr as [r' [Hr' [= <-]]].
    apply bind_ok in Hr'. destruct Hr' as [a [Ha Hr']].
    apply bind_ok in Hr'. destruct Hr' as [r [Hrest [= <-]]].
    exists (a :: b :: r). rewrite Ha, Hb, Hrest. split; [reflexivity|constructor].
  - destruct (IH12 _ Hr) as [r2 [Hr2 Hp12]].
    destruct (IH23 _ Hr2) as [r3 [Hr3 Hp23]].
    exists r3. split; [exact Hr3|now transitivity r2].
Qed.

Lemma concat_length_perm {A B} (g : A -> list B) l1 l2 :
  Permutation l1 l2 ->
  List.length (List.concat (map g l1)) = List.length (List.concat (map g l2)).
Proof.
  induction 1; cbn [map List.concat]; rewrite ?length_app; lia.
Qed.

(** The order in which the workers finish permutes the map and no more. *)
Lemma profiles_map_perm env picks1 picks2 orcid_ids :
  Permutation (profiles_map env picks1 orcid_ids)
              (profiles_map env picks2 orcid_ids).
Proof.
  unfold profiles_map. destruct (pool_url env) as [url|]; [|constructor].
  set (c1 := as_completed picks1 (List.length orcid_ids) orcid_ids).
  set (c2 := as_completed picks2 (List.length orcid_ids) orcid_ids).
  assert (Hc : forall oid, In oid c1 <-> In oid c2).
  { intros oid.
    pose proof (as_completed_perm (List.length orcid_ids) picks1 orcid_ids eq_refl) as H1.
    pose proof (as_completed_perm (List.length orcid_ids) picks2 orcid_ids eq_refl) as H2.
    fold c1 in H1. fold c2 in H2.
    split; intros Hin.
    - eapply Permutation_in; [exact H2|].
      eapply Permutation_in; [symmetry; exact H1|exact Hin].
    - eapply Permutation_in; [exact H1|].
      eapply Permutation_in; [symmetry; exact H2|exact Hin]. }
  assert (Hsub : forall ca cb, (forall oid, In oid ca <-> In oid cb) ->
             forall x, In x (fold_left (collect env url) ca []) ->
                       In x (fold_left (collect env url) cb [])).
  { intros ca cb Hab [oid profile] Hin.
    assert (Hfetch : fetch_single_profile env oid url = Ok profile)
      by (eapply collected_values in Hin; [apply Hin|intros ? ? []]).
    assert (Hkey : In oid (keys (fold_left (collect env url) cb []))).
    { apply collected_keys. right.
      apply (in_map fst) in Hin. apply collected_keys in Hin.
      destruct Hin as [[]|[Hin Hf]]. split; [now apply Hab|exact Hf]. }
    apply in_map_iff in Hkey. destruct Hkey as [[oid' profile'] [Heq Hin']].
    cbn in Heq. subst oid'.
    assert (Hfetch' : fetch_single_profile env oid url = Ok profile')
      by (eapply collected_values in Hin'; [apply Hin'|intros ? ? []]).
    congruence. }
  apply NoDup_Permutation.
  - eapply NoDup_map_inv, collected_NoDup. constructor.
  - eapply NoDup_map_inv, collected_NoDup. constructor.
  - intros x. split; apply Hsub; [exact Hc|]. intros oid. symmetry. apply Hc.
Qed.

Lemma map_res_Forall {A B} (f : A -> res B) (P : B -> Prop) l :
  (forall x y, f x = Ok y -> P y) ->
  forall r, map_res f l = Ok r -> Forall P r.
Proof.
  intros Hf. induction l as [|x l IH]; intros r Hr; cbn [map_res] in Hr.
  - injection Hr as <-. constructor.
  - apply bind_ok in Hr. destruct Hr as [y [Hy Hr]].
    apply bind_ok in Hr. destruct Hr as [ys [Hys [= <-]]].
    constructor; [eapply Hf, Hy|now apply IH].
Qed.

Lemma work_row_ror ror_id orcid_id work row :
  work_row ror_id orcid_id work = Ok row -> w_ror_id row = ror_id.
Proof.
  unfold work_row. intros H.
  do 4 (apply bind_ok in H; destruct H as [? [_ H]]).
  destruct x2 as [[doi issn] others].
  do 11 (apply bind_ok in H; destruct H as [? [_ H]]).
  injection H as <-. reflexivity.
Qed.

Lemma profile_works_ror ror_id orcid_id profile rows :
  profile_works ror_id orcid_id profile = Ok rows ->
  Forall (fun row => w_ror_id row = ror_id) rows.
Proof.
  unfold profile_works. intros H.
  do 4 (apply bind_ok in H; destruct H as [? [_ H]]).
  apply bind_ok in H. destruct H as [groups [Hgroups [= <-]]].
  apply Forall_concat.
  eapply map_res_Forall; [|exact Hgroups].
  intros group rows H. cbv beta in H.
  do 2 (apply bind_ok in H; destruct H as [? [_ H]]).
  eapply map_res_Forall; [|exact H].
  intros work row. apply work_row_ror.
Qed.

Lemma profile_rows_ror ror_id trusted_ids results :
  forall items,
    map_res (profile_rows ror_id trusted_ids) items = Ok results ->
    Forall (fun row => w_ror_id row = ror_id) (List.concat (map snd results)).
Proof.
  intros items H. apply Forall_concat. apply Forall_map.
  eapply map_res_Forall; [|exact H].
  intros [orcid_id profile] [statuses rows]. unfold profile_rows.
  destruct (negb (truthy profile)); [intros [= <- <-]; constructor|].
  intros Hr. apply bind_ok in Hr. destruct Hr as [status [_ Hr]].
  apply bind_ok in Hr. destruct Hr as [rows' [Hrows [= <- <-]]].
  cbn [snd]. eapply profile_works_ror, Hrows.
Qed.

Lemma filter_all {A} (p : A -> bool) l :
  Forall (fun x => p x = true) l -> filter p l = l.
Proof.
  induction 1 as [|x l Hx _ IH]; cbn; [reflexivity|]. now rewrite Hx, IH.
Qed.

Lemma filter_none {A} (p : A -> bool) l :
  Forall (fun x => p x = false) l -> filter p l = [].
Proof.
  induction 1 as [|x l Hx _ IH]; cbn; [reflexivity|]. now rewrite Hx, IH.
Qed.

Lemma filter_negb_filter {A} (p : A -> bool) l :
  filter p (filter (fun x => negb (p x)) l) = [].
Proof.
  apply filter_none. apply Forall_forall. intros x Hx.
  apply filter_In in Hx. destruct Hx as [_ Hx]. now apply negb_true_iff.
Qed.

End OrderFacts.

(** ** One Publications rebuild whose commits go through *)

Section RebuildFacts.

Lemma ensure_committed env ror_id w :
  all_committed w ->
  all_committed (snd (ensure_and_heal_grid_for_ror env ror_id w)).
Proof.
  intros Hall. unfold ensure_and_heal_grid_for_ror.
  destruct (negb (str_truthy ror_id)); [exact Hall|].
  match goal with |- context [if truthy ?g then _ else _] =>
    destruct (truthy g); [|exact Hall] end.
  match goal with |- context [match filter ?p ?l with _ => _ end] =>
    destruct (filter p l); [exact Hall|] end.
  destruct (commit_all_committed w Hall) as [_ Hall'].
  destruct (commit w) as [[|text] w1]; exact Hall'.
Qed.

Lemma purge_works_committed ror_id w :
  all_committed w ->
  exists wb,
    purge_works ror_id w = (Ok tt, wb)
    /\ all_committed wb
    /\ users (db wb) = users (db w)
    /\ schedules wb = schedules w
    /\ works_of ror_id (db wb) = []
    /\ runs_of wb = runs_of w.
Proof.
  intros Hall. unfold purge_works.
  destruct (commit_all_committed w Hall) as [Hok Hall'].
  destruct (commit_frame w) as [Hdb [Hs _]].
  destruct (commit w) as [o w1]. cbn [fst snd] in *. subst o.
  eexists. split; [reflexivity|]. unfold works_of, runs_of. cbn.
  rewrite Hdb. repeat split; try assumption.
  apply (filter_negb_filter (fun r => String.eqb (w_ror_id r) ror_id)).
Qed.

Lemma flush_works_committed bulk w :
  all_committed w ->
  exists w',
    _flush_bulk insert_works bulk w = (List.length bulk, [], w')
    /\ all_committed w'
    /\ users (db w') = users (db w)
    /\ work_cache (db w') = work_cache (db w) ++ bulk.
Proof.
  intros Hall. unfold _flush_bulk. destruct bulk as [|x bulk].
  - exists w. rewrite app_nil_r. now repeat split.
  - destruct (commit_all_committed w Hall) as [Hok Hall'].
    destruct (commit_frame w) as [Hdb _].
    destruct (commit w) as [o w1]. cbn [fst snd] in *. subst o.
    eexists. split; [reflexivity|]. cbn. rewrite Hdb. now repeat split.
Qed.

Lemma process_works_raises ror_id trusted_ids items st w e :
  map_res (profile_rows ror_id trusted_ids) items = Raise e ->
  exists e' w', process_works ror_id trusted_ids items st w = (Raise e', w').
Proof.
  intros Hraise.
  destruct (process_works ror_id trusted_ids items st w) as [[st'|e'] w'] eqn:Hrun.
  - apply process_works_read in Hrun. destruct Hrun as [results Hres]. congruence.
  - now exists e', w'.
Qed.

Lemma build_works_asks_token fuel env ror_id base_url w r rs n w' :
  list_orcids_for_institution fuel env ror_id
    (fst (ensure_and_heal_grid_for_ror env ror_id w)) base_url default_rows
  = Some (r :: rs) ->
  build_works_cache_for_ror fuel env ror_id base_url w = Some (Ok n, w') ->
  token_failure env = None.
Proof.
  intros Hsearch Hrun. destruct (token_failure env) as [e|] eqn:Htoken; [|reflexivity].
  exfalso. revert Hrun. unfold build_works_cache_for_ror.
  destruct (ensure_and_heal_grid_for_ror env ror_id w) as [g wa].
  cbn [fst] in Hsearch. rewrite Hsearch.
  destruct (purge_works ror_id wa) as [[?|?] wb]; [|discriminate].
  destruct (next_schedule wb) as [picks wc].
  rewrite (get_all_profiles_raised _ _ _ _ _ Htoken). discriminate.
Qed.

Lemma build_works_committed fuel env ror_id base_url w r rs :
  all_committed w ->
  token_failure env = None ->
  list_orcids_for_institution fuel env ror_id
    (fst (ensure_and_heal_grid_for_ror env ror_id w)) base_url default_rows
  = Some (r :: rs) ->
  match map_res (profile_rows ror_id
                   (trusted_ids_for env ror_id
                      (db (snd (ensure_and_heal_grid_for_ror env ror_id w)))))
                (profiles_map env (hd [] (schedules w)) (orcid_ids_of (r :: rs)))
  with
  | Ok results =>
    exists w',
      build_works_cache_for_ror fuel env ror_id base_url w
      = Some (Ok (List.length (List.concat (map snd results))), w')
      /\ all_committed w'
      /\ users (db w')
         = users (db (snd (ensure_and_heal_grid_for_ror env ror_id w)))
      /\ works_of ror_id (db w') = List.concat (map snd results)
  | Raise _ =>
    exists e w',
      build_works_cache_for_ror fuel env ror_id base_url w = Some (Raise e, w')
  end.
Proof.
  intros Hall Htoken Hsearch. unfold build_works_cache_for_ror.
  pose proof (ensure_committed env ror_id w Hall) as Halla.
  destruct (ensure_frame env ror_id w) as [_ [_ [Hsched _]]].
  destruct (ensure_and_heal_grid_for_ror env ror_id w) as [g wa].
  cbn [fst snd] in *. rewrite Hsearch.
  destruct (purge_works_committed ror_id wa Halla)
    as [wb [-> [Hallb [Hub [Hsb [Hwb _]]]]]].
  unfold next_schedule.
  assert (Hpicks : exists wc,
             (match schedules wb with
              | [] => ([], wb)
              | p :: rest => (p, mkWorld (db wb) (commits wb) rest (clock wb))
              end) = (hd [] (schedules w), wc)
             /\ db wc = db wb /\ commits wc = commits wb).
  { rewrite Hsb, Hsched. destruct (schedules w); eexists; split; reflexivity || (now split). }
  destruct Hpicks as [wc [-> [Hdbc Hcc]]].
  rewrite (get_all_profiles_pool _ _ _ _ Htoken) by lia.
  assert (Hallc : all_committed wc) by (unfold all_committed; now rewrite Hcc).
  set (trusted := trusted_ids_for env ror_id (db wa)).
  set (items := profiles_map env (hd [] (schedules w)) (orcid_ids_of (r :: rs))).
  destruct (map_res (profile_rows ror_id trusted) items) as [results|e] eqn:Hread.
  - destruct (process_works_committed ror_id trusted items results
                (mkWorksState 0 [] []) wc Hallc Hread)
      as [st' [wd [-> [Halld [Hud [Ht [Hw Hs]]]]]]].
    cbn [total_works_cached works_buffer status_buffer app] in *.
    destruct (flush_works_committed (works_buffer st') wd Halld)
      as [we [-> [Halle [Hue Hwe]]]].
    pose proof (due_flush_statuses true (status_buffer st') we Halle) as H2.
    cbn zeta in H2. cbv iota in H2.
    destruct (_flush_bulk insert_statuses (status_buffer st') we) as [[c2 b2] wf].
    cbn [fst snd] in H2. destruct H2 as [Hallf [Huf [_ Hwf]]].
    exists wf. rewrite Ht. repeat split; try assumption.
    + congruence.
    + unfold works_of in *.
      rewrite Hwf, Hwe, Hw, Hdbc, filter_app, Hwb. cbn [app].
      apply filter_all.
      eapply Forall_impl; [|eapply profile_rows_ror, Hread].
      intros row ->. apply String.eqb_refl.
  - destruct (process_works_raises ror_id trusted items (mkWorksState 0 [] []) wc e Hread)
      as [e' [w' ->]].
    now exists e', w'.
Qed.

End RebuildFacts.

(** C5.  With the upstream fixed and every commit going through, a second
    Publications rebuild for the same institution, run right after a first
    one that returned [n], returns [n] again, in whatever order the workers
    of either run finish.  When the search finds anybody, the institution's
    Publication rows after each run are exactly the [n] rows of that run:
    the earlier rows were purged, not added to. *)
Theorem works_rebuild_twice fuel env ror_id base_url w0 n w1 :
  all_committed w0 ->
  build_works_cache_for_ror fuel env ror_id base_url w0 = Some (Ok n, w1) ->
  exists w2,
    build_works_cache_for_ror fuel env ror_id base_url w1 = Some (Ok n, w2)
    /\ (list_orcids_for_institution fuel env ror_id
          (fst (ensure_and_heal_grid_for_ror env ror_id w0)) base_url default_rows
        <> Some [] ->
        List.length (works_of ror_id (db w1)) = n
        /\ List.length (works_of ror_id (db w2)) = n).
Proof.
  intros Hall Hrun1.
  destruct (list_orcids_for_institution fuel env ror_id
              (fst (ensure_and_heal_grid_for_ror env ror_id w0)) base_url default_rows)
    as [[|r rs]|] eqn:Hsearch.
  - (* nobody found: both runs stop before the purge *)
    unfold build_works_cache_for_ror in Hrun1 |- *.
    assert (Hstable := ensure_stable env ror_id w0 w1 Hall).
    destruct (ensure_and_heal_grid_for_ror env ror_id w0) as [g wa].
    cbn [fst snd] in *. rewrite Hsearch in Hrun1. injection Hrun1 as <- <-.
    rewrite (Hstable eq_refl), Hsearch.
    exists wa. split; [reflexivity|]. intros Hne. now contradiction Hne.
  - pose proof (build_works_asks_token _ _ _ _ _ _ _ _ _ Hsearch Hrun1) as Htoken.
    pose proof (build_works_committed fuel env ror_id base_url w0 r rs Hall Htoken Hsearch)
      as Hfirst.
    destruct (map_res _ (profiles_map env (hd [] (schedules w0)) (orcid_ids_of (r :: rs))))
      as [results1|e] eqn:Hread1.
    + destruct Hfirst as [w1' [Hrun1' [Hall1 [Hu1 Hw1]]]].
      rewrite Hrun1 in Hrun1'. injection Hrun1' as -> <-.
      pose proof (ensure_stable env ror_id w0 w1 Hall Hu1) as Hstable.
      assert (Hsearch2 :
                list_orcids_for_institution fuel env ror_id
                  (fst (ensure_and_heal_grid_for_ror env ror_id w1)) base_url
                  default_rows = Some (r :: rs))
        by (rewrite Hstable; exact Hsearch).
      pose proof (build_works_committed fuel env ror_id base_url w1 r rs Hall1 Htoken Hsearch2)
        as Hsecond.
      rewrite Hstable in Hsecond. cbn [snd] in Hsecond.
      assert (Htrusted :
                trusted_ids_for env ror_id (db w1)
                = trusted_ids_for env ror_id
                    (db (snd (ensure_and_heal_grid_for_ror env ror_id w0))))
        by (unfold trusted_ids_for; now rewrite Hu1).
      rewrite Htrusted in Hsecond.
      destruct (map_res_perm _ _ _
                  (profiles_map_perm env (hd [] (schedules w0)) (hd [] (schedules w1))
                     (orcid_ids_of (r :: rs))) _ Hread1)
        as [results2 [Hread2 Hperm]].
      rewrite Hread2 in Hsecond.
      destruct Hsecond as [w2 [Hrun2 [_ [_ Hw2]]]].
      rewrite <- (concat_length_perm snd _ _ Hperm) in Hrun2.
      exists w2. split; [exact Hrun2|]. intros _.
      rewrite Hw1, Hw2. split; [reflexivity|].
      symmetry. apply (concat_length_perm snd _ _ Hperm).
    + destruct Hfirst as [e' [w' Hraise]]. congruence.
  - unfold build_works_cache_for_ror in Hrun1.
    destruct (ensure_and_heal_grid_for_ror env ror_id w0) as [g wa].
    cbn [fst] in Hsearch. rewrite Hsearch in Hrun1. discriminate.
Qed.

Lemma works_rebuild_twice_witness :
  exists w1 w2,
    build_works_cache_for_ror 1 sample_env "02ap3w078" None fresh_world
    = Some (Ok 1, w1)
    /\ build_works_cache_for_ror 1 sample_env "02ap3w078" None w1 = Some (Ok 1, w2)
    /\ List.length (works_of "02ap3w078" (db w1)) = 1
    /\ List.length (works_of "02ap3w078" (db w2)) = 1.
Proof.
  eexists.
  destruct (works_rebuild_twice 1 sample_env "02ap3w078" None fresh_world 1 _
              (Forall_nil _) eq_refl) as [w2 [Hrun2 Hrows]].
  exists w2. split; [reflexivity|]. split; [exact Hrun2|].
  apply Hrows. vm_compute. discriminate.
Defined.

(** The count a Publications loop ends with is the number of rows it read,
    whatever became of the flushes. *)
Lemma process_works_counts_rows ror_id trusted_ids items :
  forall results st w st' w',
    map_res (profile_rows ror_id trusted_ids) items = Ok results ->
    process_works ror_id trusted_ids items st w = (Ok st', w') ->
    total_works_cached st'
    = total_works_cached st + List.length (List.concat (map snd results)).
Proof.
  induction items as [|[orcid_id profile] items IH]; intros results st w st' w' Hread Hrun;
    cbn [process_works map_res profile_rows] in *.
  - injection Hread as <-. injection Hrun as <- <-. cbn. lia.
  - destruct (negb (truthy profile)).
    + cbn [bind] in Hread. apply bind_ok in Hread.
      destruct Hread as [rest [Hrest [= <-]]].
      apply (IH _ _ _ _ _ Hrest Hrun).
    + destruct (_extract_status_from_profile profile ror_id orcid_id trusted_ids)
        as [status|e]; [|discriminate].
      destruct (profile_works ror_id orcid_id profile) as [rows|e]; [|discriminate].
      cbn [bind] in Hread. apply bind_ok in Hread.
      destruct Hread as [rest [Hrest [= <-]]].
      match type of Hrun with context [if ?b then _flush_bulk insert_works ?bulk w else _] =>
        destruct (if b then _flush_bulk insert_works bulk w else (0, bulk, w))
          as [[c1 works] w1] end.
      match type of Hrun with context [if ?b then _flush_bulk insert_statuses ?bulk w1 else _] =>
        destruct (if b then _flush_bulk insert_statuses bulk w1 else (0, bulk, w1))
          as [[c2 statuses] w2] end.
      rewrite (IH _ _ _ _ _ Hrest Hrun).
      cbn [total_works_cached map snd List.concat]. rewrite length_app. lia.
Qed.

(** C1 (the code at the input where it departs from the claim).  A flush whose
    commit fails reports 0 rows saved and stores nothing.  Yet with one
    researcher holding one work and one grant, and the commit of the flush
    failing, the Publications rebuild and the Grants rebuild both return 1
    while no row of the institution has reached the table: the count returned
    is the count of the rows read, not of the rows committed. *)
Theorem rebuild_count_ignores_failed_flush :
  (forall (bulk : list WorkCache) w text rest,
      bulk <> [] -> commits w = Failed text :: rest ->
      fst (fst (_flush_bulk insert_works bulk w)) = 0
      /\ db (snd (_flush_bulk insert_works bulk w)) = db w)
  /\ (exists w',
        build_works_cache_for_ror 1 sample_env "02ap3w078" None failing_flush_world
        = Some (Ok 1, w')
        /\ works_of "02ap3w078" (db w') = [])
  /\ (exists w',
        build_fundings_cache_for_ror 1 sample_env "02ap3w078" None failing_flush_world
        = Some (Ok 1, w')
        /\ fundings_of "02ap3w078" (db w') = []).
Proof.
  split; [|split].
  - intros bulk w text rest Hne Hc. unfold _flush_bulk, commit.
    destruct bulk; [contradiction|]. rewrite Hc. now split.
  - eexists. split; [vm_compute; reflexivity|reflexivity].
  - eexists. split; [vm_compute; reflexivity|reflexivity].
Qed.

(** C9.  When the search finds nobody, the Publications rebuild and the
    Grants rebuild both return 0 in the state the healer left: no purge has
    run, no commit of theirs was attempted, and the Publication, Grant and
    affiliation-status tables hold exactly the rows they held. *)
Theorem empty_population_keeps_cache fuel env ror_id base_url w :
  list_orcids_for_institution fuel env ror_id
    (fst (ensure_and_heal_grid_for_ror env ror_id w)) base_url default_rows
  = Some [] ->
  build_works_cache_for_ror fuel env ror_id base_url w
  = Some (Ok 0, snd (ensure_and_heal_grid_for_ror env ror_id w))
  /\ build_fundings_cache_for_ror fuel env ror_id base_url w
     = Some (Ok 0, snd (ensure_and_heal_grid_for_ror env ror_id w))
  /\ caches_of (snd (ensure_and_heal_grid_for_ror env ror_id w)) = caches_of w.
Proof.
  intros Hsearch.
  unfold build_works_cache_for_ror, build_fundings_cache_for_ror.
  destruct (ensure_frame env ror_id w) as [_ [Hcaches _]].
  destruct (ensure_and_heal_grid_for_ror env ror_id w) as [g wa].
  cbn [fst snd] in *. rewrite Hsearch. now repeat split.
Qed.

Lemma empty_population_keeps_cache_witness :
  build_works_cache_for_ror 1 silent_env "02ap3w078" None stocked_world
  = Some (Ok 0, stocked_world)
  /\ build_fundings_cache_for_ror 1 silent_env "02ap3w078" None stocked_world
     = Some (Ok 0, stocked_world)
  /\ caches_of stocked_world = ([old_work], [old_status], [old_funding]).
Proof.
  destruct (empty_population_keeps_cache 1 silent_env "02ap3w078" None stocked_world
              eq_refl) as [Hworks [Hfundings Hcaches]].
  split; [exact Hworks|]. split; [exact Hfundings|]. reflexivity.
Defined.

(** ** The healer and the search *)

Section ExtFacts.








End ExtFacts.



(** ** The run log *)

Section RunLogFacts.

Lemma purge_works_runs ror_id w : runs_of (snd (purge_works ror_id w)) = runs_of w.
Proof.
  unfold purge_works, runs_of. destruct (commit_frame w) as [Hdb _].
  destruct (commit w) as [[|text] w1]; cbn [snd] in *; cbn; now rewrite Hdb.
Qed.

Lemma purge_fundings_runs ror_id w :
  runs_of (snd (purge_fundings ror_id w)) = runs_of w.
Proof.
  unfold purge_fundings, runs_of. destruct (commit_frame w) as [Hdb _].
  destruct (commit w) as [[|text] w1]; cbn [snd] in *; cbn; now rewrite Hdb.
Qed.

Lemma next_schedule_runs w : runs_of (snd (next_schedule w)) = runs_of w.
Proof.
  unfold next_schedule. destruct (schedules w); reflexivity.
Qed.

(** The rebuilds never write to the run log. *)
Lemma build_works_runs fuel env ror_id base_url w r w' :
  build_works_cache_for_ror fuel env ror_id base_url w = Some (r, w') ->
  runs_of w' = runs_of w.
Proof.
  unfold build_works_cache_for_ror.
  destruct (ensure_frame env ror_id w) as [Hruns _].
  destruct (ensure_and_heal_grid_for_ror env ror_id w) as [g wa]. cbn [snd] in Hruns.
  destruct (list_orcids_for_institution fuel env ror_id g base_url default_rows)
    as [[|x researchers]|]; [now intros [= <- <-]| |discriminate].
  pose proof (purge_works_runs ror_id wa) as Hpurge.
  destruct (purge_works ror_id wa) as [[[]|e] wb]; cbn [snd] in Hpurge;
    [|intros [= <- <-]; congruence].
  pose proof (next_schedule_runs wb) as Hnext.
  destruct (next_schedule wb) as [picks wc]. cbn [snd] in Hnext.
  destruct (get_all_profiles_concurrently env picks _ 10) as [profiles|e];
    [|intros [= <- <-]; congruence].
  match goal with |- context [process_works ?a ?b ?c ?d ?e] =>
    pose proof (process_works_runs a b c d e) as Hloop;
    destruct (process_works a b c d e) as [[st|e'] wd] end;
    cbn [snd] in Hloop; [|intros [= <- <-]; congruence].
  pose proof (flush_runs insert_works (works_buffer st) wd insert_works_runs) as H1.
  destruct (_flush_bulk insert_works (works_buffer st) wd) as [[c1 b1] we].
  pose proof (flush_runs insert_statuses (status_buffer st) we insert_statuses_runs) as H2.
  destruct (_flush_bulk insert_statuses (status_buffer st) we) as [[c2 b2] wf].
  cbn [snd] in *. intros [= <- <-]. congruence.
Qed.

Lemma build_fundings_runs fuel env ror_id base_url w r w' :
  build_fundings_cache_for_ror fuel env ror_id base_url w = Some (r, w') ->
  runs_of w' = runs_of w.
Proof.
  unfold build_fundings_cache_for_ror.
  destruct (ensure_frame env ror_id w) as [Hruns _].
  destruct (ensure_and_heal_grid_for_ror env ror_id w) as [g wa]. cbn [snd] in Hruns.
  destruct (list_orcids_for_institution fuel env ror_id g base_url default_rows)
    as [[|x researchers]|]; [now intros [= <- <-]| |discriminate].
  pose proof (purge_fundings_runs ror_id wa) as Hpurge.
  destruct (purge_fundings ror_id wa) as [[[]|e] wb]; cbn [snd] in Hpurge;
    [|intros [= <- <-]; congruence].
  pose proof (next_schedule_runs wb) as Hnext.
  destruct (next_schedule wb) as [picks wc]. cbn [snd] in Hnext.
  destruct (get_all_profiles_concurrently env picks _ 10) as [profiles|e];
    [|intros [= <- <-]; congruence].
  match goal with |- context [process_fundings ?a ?b ?c ?d] =>
    pose proof (process_fundings_runs a b c d) as Hloop;
    destruct (process_fundings a b c d) as [[st|e'] wd] end;
    cbn [snd] in Hloop; [|intros [= <- <-]; congruence].
  pose proof (flush_runs insert_fundings (funding_buffer st) wd insert_fundings_runs) as H1.
  destruct (_flush_bulk insert_fundings (funding_buffer st) wd) as [[c1 b1] we].
  cbn [snd] in *. intros [= <- <-]. congruence.
Qed.

(** What the web writer leaves: the row, if its commit goes through. *)
Lemma log_run_web_table m ror_id status count error_msg w :
  let row := mkCacheRun ror_id status count error_msg
                        (Some (clock w)) (Some (clock w)) in
  let w' := _log_run_web m ror_id status count error_msg w in
  match hd Committed (commits w) with
  | Committed =>
    run_table m (db w') = run_table m (db w) ++ [row]
    /\ (forall m', m' <> m -> run_table m' (db w') = run_table m' (db w))
  | Failed _ => runs_of w' = runs_of w
  end.
Proof.
  unfold _log_run_web, utcnow, commit, runs_of. cbn [commits db schedules clock].
  destruct (commits w) as [|[|text] rest]; cbn [hd with_db db];
    try reflexivity;
    (split; [destruct m; reflexivity|];
     intros m' Hne; destruct m, m'; try contradiction; reflexivity).
Qed.

Lemma log_execution_run_table m ror_id status count error_msg w :
  str_truthy ror_id = true ->
  _log_execution_run m ror_id status count error_msg w
  = _log_run_web m ror_id status count error_msg w.
Proof.
  intros Hror. unfold _log_execution_run, _log_run_web. now rewrite Hror.
Qed.

(** Without an institution the rebuilds return 0 at once. *)
Lemma build_works_no_ror fuel env ror_id base_url w :
  str_truthy ror_id = false ->
  build_works_cache_for_ror fuel env ror_id base_url w = Some (Ok 0, w).
Proof.
  intros Hror. unfold build_works_cache_for_ror, ensure_and_heal_grid_for_ror,
    list_orcids_for_institution, build_query.
  rewrite Hror. cbn [negb truthy app].
  destruct (if opt_truthy (config_search_url env) then config_search_url env
            else base_url) as [url|]; [|reflexivity].
  destruct (negb (str_truthy url)); reflexivity.
Qed.

Lemma build_fundings_no_ror fuel env ror_id base_url w :
  str_truthy ror_id = false ->
  build_fundings_cache_for_ror fuel env ror_id base_url w = Some (Ok 0, w).
Proof.
  intros Hror. unfold build_fundings_cache_for_ror, ensure_and_heal_grid_for_ror,
    list_orcids_for_institution, build_query.
  rewrite Hror. cbn [negb truthy app].
  destruct (if opt_truthy (config_search_url env) then config_search_url env
            else base_url) as [url|]; [|reflexivity].
  destruct (negb (str_truthy url)); reflexivity.
Qed.

End RunLogFacts.

(** C8 (as amended).  When a Publications or Grants rebuild raises, the writer
    makes exactly one row for it, with status ['failed'], the text of the
    exception, a count of 0 and one reading of the clock as start and finish;
    the row is appended to the run log of the target, and nothing else in the
    run log changes, however far the rebuild had got, provided the commit of
    that row goes through.  When that commit fails, the writer gives the row
    up: the request or the command goes on and both run logs are as they
    were. *)
Theorem failed_rebuild_is_logged :
  (forall fuel env session target w ror_id base_url exc w1,
      web_context env session = Some (ror_id, base_url) ->
      (target = "works"
       /\ build_works_cache_for_ror fuel env ror_id (Some base_url) w
          = Some (Raise exc, w1))
      \/ (target = "fundings"
          /\ build_fundings_cache_for_ror fuel env ror_id (Some base_url) w
             = Some (Raise exc, w1)) ->
      hd Committed (commits w1) = Committed ->
      exists w2,
        rebuild_cache fuel env session target w = Some w2
        /\ let m := if String.eqb target "works" then WorkCacheRun
                    else FundingCacheRun in
           run_table m (db w2)
           = run_table m (db w) ++ [failed_run ror_id exc (clock w1)]
           /\ forall m', m' <> m -> run_table m' (db w2) = run_table m' (db w))
  /\ (forall fuel env current_ror base_url w exc w1,
      build_works_cache_for_ror fuel env current_ror base_url w
      = Some (Raise exc, w1) ->
      hd Committed (commits w1) = Committed ->
      exists w2,
        logged_rebuild_cli WorkCacheRun
          (build_works_cache_for_ror fuel env current_ror base_url) current_ror w
        = Some w2
        /\ work_cache_run (db w2)
           = work_cache_run (db w) ++ [failed_run current_ror exc (clock w1)]
        /\ funding_cache_run (db w2) = funding_cache_run (db w))
  /\ (forall fuel env current_ror base_url w exc w1,
      build_fundings_cache_for_ror fuel env current_ror base_url w
      = Some (Raise exc, w1) ->
      hd Committed (commits w1) = Committed ->
      exists w2,
        logged_rebuild_cli FundingCacheRun
          (build_fundings_cache_for_ror fuel env current_ror base_url) current_ror w
        = Some w2
        /\ funding_cache_run (db w2)
           = funding_cache_run (db w) ++ [failed_run current_ror exc (clock w1)]
        /\ work_cache_run (db w2) = work_cache_run (db w))
  /\ (forall fuel env session target w ror_id base_url exc w1 text,
      web_context env session = Some (ror_id, base_url) ->
      (target = "works"
       /\ build_works_cache_for_ror fuel env ror_id (Some base_url) w
          = Some (Raise exc, w1))
      \/ (target = "fundings"
          /\ build_fundings_cache_for_ror fuel env ror_id (Some base_url) w
             = Some (Raise exc, w1)) ->
      hd Committed (commits w1) = Failed text ->
      exists w2,
        rebuild_cache fuel env session target w = Some w2
        /\ runs_of w2 = runs_of w)
  /\ (forall fuel env current_ror base_url w exc w1 text,
      build_works_cache_for_ror fuel env current_ror base_url w
      = Some (Raise exc, w1) ->
      hd Committed (commits w1) = Failed text ->
      exists w2,
        logged_rebuild_cli WorkCacheRun
          (build_works_cache_for_ror fuel env current_ror base_url) current_ror w
        = Some w2
        /\ runs_of w2 = runs_of w)
  /\ (forall fuel env current_ror base_url w exc w1 text,
      build_fundings_cache_for_ror fuel env current_ror base_url w
      = Some (Raise exc, w1) ->
      hd Committed (commits w1) = Failed text ->
      exists w2,
        logged_rebuild_cli FundingCacheRun
          (build_fundings_cache_for_ror fuel env current_ror base_url) current_ror w
        = Some w2
        /\ runs_of w2 = runs_of w).
Proof.
  split; [|split; [|split; [|split; [|split]]]].
  - intros fuel env session target w ror_id base_url exc w1 Hctx Hraise Hcommit.
    unfold rebuild_cache. unfold web_context in Hctx.
    destruct (negb (is_admin session || is_manager session)); [discriminate|].
    destruct (if opt_truthy (admin_selected_ror session)
              then admin_selected_ror session else session_ror_id session)
      as [ror|]; [|discriminate].
    destruct (negb (str_truthy ror)); [discriminate|].
    destruct (_get_api_context env) as [base|]; [|discriminate].
    injection Hctx as -> ->.
    pose proof (log_run_web_table
                  (if String.eqb target "works" then WorkCacheRun else FundingCacheRun)
                  ror_id "failed" 0 (Some (str_exn exc)) w1) as Hlog.
    cbv zeta in Hlog. rewrite Hcommit in Hlog.
    destruct Hraise as [[-> Hraise]|[-> Hraise]]; cbn [String.eqb Ascii.eqb Bool.eqb] in *;
      rewrite Hraise; eexists; (split; [reflexivity|]);
      [apply build_works_runs in Hraise|apply build_fundings_runs in Hraise];
      injection Hraise as Hw Hf; destruct Hlog as [Hrow Hother]; cbn [run_table] in *;
      (split; [unfold failed_run; congruence|]);
      intros m' Hne; rewrite (Hother m' Hne); destruct m'; cbn [run_table];
      congruence.
  - intros fuel env current_ror base_url w exc w1 Hraise Hcommit.
    unfold logged_rebuild_cli. rewrite Hraise. eexists. split; [reflexivity|].
    destruct (str_truthy current_ror) eqn:Hror;
      [|rewrite (build_works_no_ror _ _ _ _ _ Hror) in Hraise; discriminate].
    rewrite (log_execution_run_table _ _ _ _ _ _ Hror).
    pose proof (log_run_web_table WorkCacheRun current_ror "failed" 0
                  (Some (str_exn exc)) w1) as Hlog.
    cbv zeta in Hlog. rewrite Hcommit in Hlog. destruct Hlog as [Hrow Hother].
    apply build_works_runs in Hraise. injection Hraise as Hw Hf.
    specialize (Hother FundingCacheRun ltac:(discriminate)). cbn [run_table] in *.
    unfold failed_run. split; congruence.
  - intros fuel env current_ror base_url w exc w1 Hraise Hcommit.
    unfold logged_rebuild_cli. rewrite Hraise. eexists. split; [reflexivity|].
    destruct (str_truthy current_ror) eqn:Hror;
      [|rewrite (build_fundings_no_ror _ _ _ _ _ Hror) in Hraise; discriminate].
    rewrite (log_execution_run_table _ _ _ _ _ _ Hror).
    pose proof (log_run_web_table FundingCacheRun current_ror "failed" 0
                  (Some (str_exn exc)) w1) as Hlog.
    cbv zeta in Hlog. rewrite Hcommit in Hlog. destruct Hlog as [Hrow Hother].
    apply build_fundings_runs in Hraise. injection Hraise as Hw Hf.
    specialize (Hother WorkCacheRun ltac:(discriminate)). cbn [run_table] in *.
    unfold failed_run. split; congruence.
  - intros fuel env session target w ror_id base_url exc w1 text Hctx Hraise Hcommit.
    unfold rebuild_cache. unfold web_context in Hctx.
    destruct (negb (is_admin session || is_manager session)); [discriminate|].
    destruct (if opt_truthy (admin_selected_ror session)
              then admin_selected_ror session else session_ror_id session)
      as [ror|]; [|discriminate].
    destruct (negb (str_truthy ror)); [discriminate|].
    destruct (_get_api_context env) as [base|]; [|discriminate].
    injection Hctx as -> ->.
    pose proof (log_run_web_table
                  (if String.eqb target "works" then WorkCacheRun else FundingCacheRun)
                  ror_id "failed" 0 (Some (str_exn exc)) w1) as Hlog.
    cbv zeta in Hlog. rewrite Hcommit in Hlog.
    destruct Hraise as [[-> Hraise]|[-> Hraise]]; cbn [String.eqb Ascii.eqb Bool.eqb] in *;
      rewrite Hraise; eexists; (split; [reflexivity|]);
      [apply build_works_runs in Hraise|apply build_fundings_runs in Hraise];
      congruence.
  - intros fuel env current_ror base_url w exc w1 text Hraise Hcommit.
    unfold logged_rebuild_cli. rewrite Hraise. eexists. split; [reflexivity|].
    destruct (str_truthy current_ror) eqn:Hror;
      [|rewrite (build_works_no_ror _ _ _ _ _ Hror) in Hraise; discriminate].
    rewrite (log_execution_run_table _ _ _ _ _ _ Hror).
    pose proof (log_run_web_table WorkCacheRun current_ror "failed" 0
                  (Some (str_exn exc)) w1) as Hlog.
    cbv zeta in Hlog. rewrite Hcommit in Hlog.
    apply build_works_runs in Hraise. congruence.
  - intros fuel env current_ror base_url w exc w1 text Hraise Hcommit.
    unfold logged_rebuild_cli. rewrite Hraise. eexists. split; [reflexivity|].
    destruct (str_truthy current_ror) eqn:Hror;
      [|rewrite (build_fundings_no_ror _ _ _ _ _ Hror) in Hraise; discriminate].
    rewrite (log_execution_run_table _ _ _ _ _ _ Hror).
    pose proof (log_run_web_table FundingCacheRun current_ror "failed" 0
                  (Some (str_exn exc)) w1) as Hlog.
    cbv zeta in Hlog. rewrite Hcommit in Hlog.
    apply build_fundings_runs in Hraise. congruence.
Qed.

(** The reading of C8 on which every failing rebuild leaves a row fails: in
    [failing_log_world] the Publications rebuild raises on [broken_profile]
    after its purge, the commit of the run-log row fails in its turn, and both
    writers swallow that failure, so the run log stays empty. *)
Lemma failed_rebuild_can_go_unlogged :
  build_works_cache_for_ror 1 broken_env "02ap3w078"
    (Some "https://api.orcid.org/v3.0/") failing_log_world
  = Some (Raise (TypeError "'NoneType' object is not iterable"),
          mkWorld empty_db [Failed "database is locked"] [] 7)
  /\ (exists w2,
        rebuild_cache 1 broken_env admin_session "works" failing_log_world = Some w2
        /\ work_cache_run (db w2) = []
        /\ funding_cache_run (db w2) = [])
  /\ (exists w2,
        sync_institution 1 broken_env TargetWorks "https://api.orcid.org/v3.0/"
          "02ap3w078" failing_log_world = Some w2
        /\ work_cache_run (db w2) = []
        /\ funding_cache_run (db w2) = []).
Proof.
  split; [vm_compute; reflexivity|].
  split; eexists; (split; [vm_compute; reflexivity|]); split; reflexivity.
Qed.

Lemma failed_rebuild_is_logged_witness :
  exists w2,
    rebuild_cache 1 broken_env admin_session "works" fresh_world = Some w2
    /\ work_cache_run (db w2)
       = [failed_run "02ap3w078" (TypeError "'NoneType' object is not iterable") 0]
    /\ funding_cache_run (db w2) = [].
Proof.
  destruct (proj1 failed_rebuild_is_logged 1 broken_env admin_session "works"
              fresh_world "02ap3w078" "https://api.orcid.org/v3.0/"
              (TypeError "'NoneType' object is not iterable") fresh_world
              eq_refl (or_introl (conj eq_refl eq_refl)) eq_refl)
    as [w2 [Hrun [Hrow Hother]]].
  exists w2. split; [exact Hrun|]. split; [exact Hrow|].
  apply (Hother FundingCacheRun). discriminate.
Defined.

(** ** Closed runs *)

Section ClosedRunFacts.

Lemma logged_closed_runs_same w w' : runs_of w' = runs_of w -> logged_closed_runs w w'.
Proof.
  unfold runs_of. intros [= Hw Hf]. exists [], [].
  rewrite !app_nil_r. repeat split; auto.
Qed.

Lemma logged_closed_runs_trans w1 w2 w3 :
  logged_closed_runs w1 w2 -> logged_closed_runs w2 w3 -> logged_closed_runs w1 w3.
Proof.
  intros [a [b [Ha [Hb [Hca Hcb]]]]] [c [d [Hc [Hd [Hcc Hcd]]]]].
  exists (a ++ c), (b ++ d). rewrite Hc, Hd, Ha, Hb, <- !app_assoc.
  repeat split; apply Forall_app; now split.
Qed.

Lemma log_run_web_closed m ror_id status count error_msg w :
  status = "success" \/ status = "failed" ->
  logged_closed_runs w (_log_run_web m ror_id status count error_msg w).
Proof.
  intros Hstatus.
  pose proof (log_run_web_table m ror_id status count error_msg w) as Hlog.
  cbv zeta in Hlog. destruct (hd Committed (commits w)).
  - destruct Hlog as [Hrow Hother].
    assert (Hclosed : closed_run (mkCacheRun ror_id status count error_msg
                                    (Some (clock w)) (Some (clock w))))
      by (split; [reflexivity|exact Hstatus]).
    destruct m; cbn [run_table] in Hrow.
    + specialize (Hother FundingCacheRun ltac:(discriminate)). cbn [run_table] in Hother.
      exists [mkCacheRun ror_id status count error_msg
                         (Some (clock w)) (Some (clock w))], [].
      rewrite app_nil_r.
      split; [exact Hrow|]. split; [exact Hother|].
      split; repeat first [exact Hclosed|apply Forall_cons|apply Forall_nil].
    + specialize (Hother WorkCacheRun ltac:(discriminate)). cbn [run_table] in Hother.
      exists [], [mkCacheRun ror_id status count error_msg
                             (Some (clock w)) (Some (clock w))].
      rewrite app_nil_r.
      split; [exact Hother|]. split; [exact Hrow|].
      split; repeat first [exact Hclosed|apply Forall_cons|apply Forall_nil].
  - now apply logged_closed_runs_same.
Qed.

Lemma log_execution_run_closed m ror_id status count error_msg w :
  status = "success" \/ status = "failed" ->
  logged_closed_runs w (_log_execution_run m ror_id status count error_msg w).
Proof.
  intros Hstatus. destruct (str_truthy ror_id) eqn:Hror.
  - rewrite log_execution_run_table by exact Hror. now apply log_run_web_closed.
  - unfold _log_execution_run. rewrite Hror. now apply logged_closed_runs_same.
Qed.

Lemma logged_rebuild_cli_closed m build current_ror w w' :
  (forall r w1, build w = Some (r, w1) -> runs_of w1 = runs_of w) ->
  logged_rebuild_cli m build current_ror w = Some w' ->
  logged_closed_runs w w'.
Proof.
  intros Hbuild. unfold logged_rebuild_cli.
  destruct (build w) as [[[count|exc] w1]|] eqn:Hb; [| |discriminate];
    intros [= <-];
    (eapply logged_closed_runs_trans;
     [apply logged_closed_runs_same, (Hbuild _ _ eq_refl)|]);
    apply log_execution_run_closed; auto.
Qed.

Lemma sync_institution_closed fuel env target member_url ror w w' :
  sync_institution fuel env target member_url ror w = Some w' ->
  logged_closed_runs w w'.
Proof.
  unfold sync_institution.
  destruct (if wants_works target then _ else Some w) as [w1|] eqn:Hworks;
    [|discriminate].
  assert (H1 : logged_closed_runs w w1).
  { destruct (wants_works target).
    - eapply logged_rebuild_cli_closed; [|exact Hworks].
      intros r w2. apply build_works_runs.
    - injection Hworks as <-. now apply logged_closed_runs_same. }
  destruct (wants_fundings target).
  - intros Hf. eapply logged_closed_runs_trans; [exact H1|].
    eapply logged_rebuild_cli_closed; [|exact Hf].
    intros r w2. apply build_fundings_runs.
  - now intros [= <-].
Qed.

Lemma sync_institutions_closed fuel env target member_url ror_list :
  forall w w',
    sync_institutions fuel env target member_url ror_list w = Some w' ->
    logged_closed_runs w w'.
Proof.
  induction ror_list as [|ror rest IH]; intros w w'; cbn [sync_institutions].
  - intros [= <-]. now apply logged_closed_runs_same.
  - destruct (sync_institution fuel env target member_url ror w) as [w1|] eqn:H1;
      [|discriminate].
    intros Hrest. eapply logged_closed_runs_trans.
    + eapply sync_institution_closed, H1.
    + now apply IH.
Qed.

End ClosedRunFacts.

(** C10.  Whatever the [rebuild-caches] command and the cache-control route
    do to the run log, they only append rows to it, and every row they append
    has its start equal to its finish and ['success'] or ['failed'] as its
    status; so no row of theirs says ['running']. *)
Theorem run_log_rows_are_closed :
  (forall fuel env ror target w w',
      rebuild_caches fuel env ror target w = Some w' -> logged_closed_runs w w')
  /\ (forall fuel env session target w w',
      rebuild_cache fuel env session target w = Some w' -> logged_closed_runs w w')
  /\ (forall r, closed_run r ->
      r_started_at r = r_finished_at r /\ r_status r <> "running").
Proof.
  split; [|split].
  - intros fuel env ror target w w'. unfold rebuild_caches.
    assert (Hsame : Some w = Some w' -> logged_closed_runs w w')
      by (intros [= <-]; now apply logged_closed_runs_same).
    destruct (config_member_url env) as [member_url|]; [|exact Hsame].
    destruct (negb (str_truthy member_url)); [exact Hsame|].
    destruct (negb (opt_truthy (token env))); [exact Hsame|].
    apply sync_institutions_closed.
  - intros fuel env session target w w'. unfold rebuild_cache.
    assert (Hsame : Some w = Some w' -> logged_closed_runs w w')
      by (intros [= <-]; now apply logged_closed_runs_same).
    destruct (negb (is_admin session || is_manager session)); [exact Hsame|].
    destruct (if opt_truthy (admin_selected_ror session)
              then admin_selected_ror session else session_ror_id session)
      as [ror_id|]; [|exact Hsame].
    destruct (negb (str_truthy ror_id)); [exact Hsame|].
    destruct (_get_api_context env) as [base_url|]; [|exact Hsame].
    destruct (String.eqb target "works").
    + destruct (build_works_cache_for_ror fuel env ror_id (Some base_url) w)
        as [[[count|exc] w1]|] eqn:Hb; [| |discriminate]; intros [= <-];
        (eapply logged_closed_runs_trans;
         [eapply logged_closed_runs_same, build_works_runs, Hb|]);
        apply log_run_web_closed; auto.
    + destruct (String.eqb target "fundings"); [|exact Hsame].
      destruct (build_fundings_cache_for_ror fuel env ror_id (Some base_url) w)
        as [[[count|exc] w1]|] eqn:Hb; [| |discriminate]; intros [= <-];
        (eapply logged_closed_runs_trans;
         [eapply logged_closed_runs_same, build_fundings_runs, Hb|]);
        apply log_run_web_closed; auto.
  - intros r [Htimes Hstatus]. split; [exact Htimes|].
    destruct Hstatus as [-> | ->]; discriminate.
Qed.

Lemma run_log_rows_are_closed_witness :
  exists w',
    rebuild_caches 1 sample_env (Some "02ap3w078") TargetBoth fresh_world = Some w'
    /\ logged_closed_runs fresh_world w'
    /\ List.length (work_cache_run (db w')) = 1
    /\ List.length (funding_cache_run (db w')) = 1.
Proof.
  eexists. split; [vm_compute; reflexivity|]. split.
  - apply (proj1 run_log_rows_are_closed 1 sample_env (Some "02ap3w078") TargetBoth).
    vm_compute. reflexivity.
  - split; reflexivity.
Defined.

(** ** The properties at concrete inputs *)


Lemma search_population_deduplicated_witness :
  exists population,
    list_orcids_for_institution 3 paged_env "02ap3w078" JNull None 2 = Some population
    /\ population
       = [search_record " 0000-0001" "Ada L."; search_record "0000-0002" "Bob"]
    /\ population
       = merged_population (search_entries 3 paged_env "02ap3w078" JNull None 2)
    /\ exists ids,
        Forall2 (fun r k => record_key r = Ok k) population ids /\ NoDup ids.
Proof.
  destruct (proj2 (search_population_deduplicated paged_env "02ap3w078" JNull None 2)
              1 3 ltac:(repeat constructor) eq_refl) as [population Hsearch].
  exists population. split; [exact Hsearch|]. split.
  - assert (Hrun : list_orcids_for_institution 3 paged_env "02ap3w078" JNull None 2
                   = Some [search_record " 0000-0001" "Ada L.";
                           search_record "0000-0002" "Bob"])
      by (vm_compute; reflexivity).
    rewrite Hrun in Hsearch. now injection Hsearch as <-.
  - apply (proj1 (search_population_deduplicated paged_env "02ap3w078" JNull None 2)
             3 population Hsearch).
Defined.

Lemma profiles_map_unless_token_call_raises_witness :
  exists results,
    get_all_profiles_concurrently sample_env [1; 0] ["0000-0404"; "0000-0001"] 10
    = Ok results
    /\ (In "0000-0001" (keys results) /\ ~ In "0000-0404" (keys results)).
Proof.
  destruct profiles_map_unless_token_call_raises as [_ [_ Hmap]].
  destruct (Hmap sample_env [1; 0] ["0000-0404"; "0000-0001"] 10 _ eq_refl
              ltac:(repeat constructor)) as [results [Hrun [_ Hkeys]]].
  exists results. split; [exact Hrun|].
  change (pool_url sample_env) with (Some "https://api.orcid.org/v3.0") in Hkeys.
  destruct Hkeys as [Hkeys _]. split.
  - apply Hkeys. split; [right; now left|reflexivity].
  - intros Hin. apply Hkeys in Hin. destruct Hin as [_ Hfetched]. discriminate.
Defined.

(* ================================================================= *)
(** * Further properties *)

(** ** What the rebuild loops write, whatever the commits *)

Section AnyCommitFacts.

Variable ror_id : string.

(** A flush, due or not, either moves the whole buffer into its table or
    leaves both as they are; it touches no other table. *)
Lemma flush_works_moves (due : bool) bulk w :
  let r := if due then _flush_bulk insert_works bulk w else (0, bulk, w) in
  users (db (snd r)) = users (db w)
  /\ researcher_status (db (snd r)) = researcher_status (db w)
  /\ funding_cache (db (snd r)) = funding_cache (db w)
  /\ ((work_cache (db (snd r)) = work_cache (db w) /\ snd (fst r) = bulk)
      \/ (work_cache (db (snd r)) = work_cache (db w) ++ bulk /\ snd (fst r) = [])).
Proof.
  destruct due; cbn zeta; [|now auto 10].
  unfold _flush_bulk. destruct bulk as [|x bulk]; [cbn; now auto 10|].
  destruct (commit_frame w) as [Hdb _].
  destruct (commit w) as [[|text] w1]; cbn [fst snd] in *; cbn; rewrite Hdb;
    auto 10.
Qed.

Lemma flush_statuses_moves (due : bool) bulk w :
  let r := if due then _flush_bulk insert_statuses bulk w else (0, bulk, w) in
  users (db (snd r)) = users (db w)
  /\ work_cache (db (snd r)) = work_cache (db w)
  /\ funding_cache (db (snd r)) = funding_cache (db w)
  /\ ((researcher_status (db (snd r)) = researcher_status (db w)
       /\ snd (fst r) = bulk)
      \/ (researcher_status (db (snd r)) = researcher_status (db w) ++ bulk
          /\ snd (fst r) = [])).
Proof.
  destruct due; cbn zeta; [|now auto 10].
  unfold _flush_bulk. destruct bulk as [|x bulk]; [cbn; now auto 10|].
  destruct (commit_frame w) as [Hdb _].
  destruct (commit w) as [[|text] w1]; cbn [fst snd] in *; cbn; rewrite Hdb;
    auto 10.
Qed.

Lemma flush_fundings_moves (due : bool) bulk w :
  let r := if due then _flush_bulk insert_fundings bulk w else (0, bulk, w) in
  users (db (snd r)) = users (db w)
  /\ work_cache (db (snd r)) = work_cache (db w)
  /\ researcher_status (db (snd r)) = researcher_status (db w)
  /\ ((funding_cache (db (snd r)) = funding_cache (db w) /\ snd (fst r) = bulk)
      \/ (funding_cache (db (snd r)) = funding_cache (db w) ++ bulk
          /\ snd (fst r) = [])).
Proof.
  destruct due; cbn zeta; [|now auto 10].
  unfold _flush_bulk. destruct bulk as [|x bulk]; [cbn; now auto 10|].
  destruct (commit_frame w) as [Hdb _].
  destruct (commit w) as [[|text] w1]; cbn [fst snd] in *; cbn; rewrite Hdb;
    auto 10.
Qed.

Lemma status_row_ror profile orcid trusted_ids status :
  _extract_status_from_profile profile ror_id orcid trusted_ids = Ok status ->
  s_ror_id status = ror_id /\ s_orcid status = orcid.
Proof.
  unfold _extract_status_from_profile. intros H.
  apply bind_ok in H. destruct H as [b [_ [= <-]]]. now split.
Qed.

Lemma funding_row_ror orcid_id summary row :
  funding_row ror_id orcid_id summary = Ok row -> f_ror_id row = ror_id.
Proof.
  unfold funding_row. intros H.
  repeat (apply bind_ok in H; destruct H as [? [_ H]]).
  injection H as <-. reflexivity.
Qed.

Lemma profile_fundings_ror orcid_id profile rows :
  profile_fundings ror_id orcid_id profile = Ok rows ->
  Forall (fun row => f_ror_id row = ror_id) rows.
Proof.
  unfold profile_fundings. intros H.
  do 4 (apply bind_ok in H; destruct H as [? [_ H]]).
  apply bind_ok in H. destruct H as [groups [Hgroups [= <-]]].
  apply Forall_concat.
  eapply map_res_Forall; [|exact Hgroups].
  intros group rows H. cbv beta in H.
  do 2 (apply bind_ok in H; destruct H as [? [_ H]]).
  eapply map_res_Forall; [|exact H].
  intros summary row. apply funding_row_ror.
Qed.

(** Whatever the commits and however the loop ends, the Publications loop
    only appends to the two tables of its own, and what it appends and what
    it still buffers are rows of the institution. *)
Lemma process_works_appends trusted_ids items : forall st w,
  Forall (fun row => w_ror_id row = ror_id) (works_buffer st) ->
  Forall (fun row => s_ror_id row = ror_id) (status_buffer st) ->
  let r := process_works ror_id trusted_ids items st w in
  users (db (snd r)) = users (db w)
  /\ funding_cache (db (snd r)) = funding_cache (db w)
  /\ (forall st', fst r = Ok st' ->
        Forall (fun row => w_ror_id row = ror_id) (works_buffer st')
        /\ Forall (fun row => s_ror_id row = ror_id) (status_buffer st'))
  /\ exists added_works added_statuses,
      work_cache (db (snd r)) = work_cache (db w) ++ added_works
      /\ researcher_status (db (snd r)) = researcher_status (db w) ++ added_statuses
      /\ Forall (fun row => w_ror_id row = ror_id) added_works
      /\ Forall (fun row => s_ror_id row = ror_id) added_statuses.
Proof.
  induction items as [|[orcid_id profile] items IH]; intros st w Hwb Hsb;
    cbn [process_works]; cbn zeta.
  - split; [reflexivity|]. split; [reflexivity|].
    split; [intros st' [= <-]; now split|].
    exists [], []. rewrite !app_nil_r. now repeat split.
  - destruct (negb (truthy profile)); [now apply IH|].
    destruct (_extract_status_from_profile profile ror_id orcid_id trusted_ids)
      as [status|e] eqn:Hstatus;
      [|split; [reflexivity|]; split; [reflexivity|]; split; [discriminate|];
        exists [], []; rewrite !app_nil_r; now repeat split].
    destruct (profile_works ror_id orcid_id profile) as [rows|e] eqn:Hrows;
      [|split; [reflexivity|]; split; [reflexivity|]; split; [discriminate|];
        exists [], []; rewrite !app_nil_r; now repeat split].
    apply status_row_ror in Hstatus. destruct Hstatus as [Hstatus _].
    apply profile_works_ror in Hrows.
    assert (Hworks : Forall (fun row => w_ror_id row = ror_id) (works_buffer st ++ rows))
      by (apply Forall_app; now split).
    assert (Hstatuses : Forall (fun row => s_ror_id row = ror_id)
                          (status_buffer st ++ [status]))
      by (apply Forall_app; split; [assumption|now repeat constructor]).
    match goal with |- context [if ?b then _flush_bulk insert_works ?bulk w else _] =>
      pose proof (flush_works_moves b bulk w) as H1;
      destruct (if b then _flush_bulk insert_works bulk w else (0, bulk, w))
        as [[c1 works] w1] end.
    cbn [fst snd] in H1. destruct H1 as [Hu1 [Hs1 [Hf1 Hmove1]]].
    match goal with |- context [if ?b then _flush_bulk insert_statuses ?bulk w1 else _] =>
      pose proof (flush_statuses_moves b bulk w1) as H2;
      destruct (if b then _flush_bulk insert_statuses bulk w1 else (0, bulk, w1))
        as [[c2 statuses] w2] end.
    cbn [fst snd] in H2. destruct H2 as [Hu2 [Hw2 [Hf2 Hmove2]]].
    assert (Hwb' : Forall (fun row => w_ror_id row = ror_id) works)
      by (destruct Hmove1 as [[_ ->]|[_ ->]]; [assumption|constructor]).
    assert (Hsb' : Forall (fun row => s_ror_id row = ror_id) statuses)
      by (destruct Hmove2 as [[_ ->]|[_ ->]]; [assumption|constructor]).
    destruct (IH (mkWorksState (total_works_cached st + List.length rows) works statuses)
                 w2 Hwb' Hsb')
      as [Hu [Hf [Hbuf [aw [asx [Hw [Hs [Haw Has]]]]]]]].
    split; [congruence|]. split; [congruence|]. split; [exact Hbuf|].
    assert (Hw12 : exists a, work_cache (db w2) = work_cache (db w) ++ a
                             /\ Forall (fun row => w_ror_id row = ror_id) a).
    { rewrite Hw2. destruct Hmove1 as [[-> _]|[-> _]].
      - exists []. rewrite app_nil_r. now split.
      - eexists. split; [reflexivity|assumption]. }
    assert (Hs12 : exists a, researcher_status (db w2) = researcher_status (db w) ++ a
                             /\ Forall (fun row => s_ror_id row = ror_id) a).
    { destruct Hmove2 as [[-> _]|[-> _]]; rewrite Hs1.
      - exists []. rewrite app_nil_r. now split.
      - eexists. split; [reflexivity|assumption]. }
    destruct Hw12 as [a1 [Ha1 Hpa1]]. destruct Hs12 as [a2 [Ha2 Hpa2]].
    exists (a1 ++ aw), (a2 ++ asx).
    rewrite Hw, Hs, Ha1, Ha2, <- !app_assoc.
    repeat split; try reflexivity; apply Forall_app; now split.
Qed.

(** When every item can be read the Publications loop ends without raising,
    whatever the commits, with the count of the rows read; table and buffer
    together hold what they held plus those rows, in order. *)
Lemma process_works_any trusted_ids items : forall results st w,
  map_res (profile_rows ror_id trusted_ids) items = Ok results ->
  exists st' w',
    process_works ror_id trusted_ids items st w = (Ok st', w')
    /\ total_works_cached st'
       = total_works_cached st + List.length (List.concat (map snd results))
    /\ work_cache (db w') ++ works_buffer st'
       = work_cache (db w) ++ works_buffer st ++ List.concat (map snd results)
    /\ researcher_status (db w') ++ status_buffer st'
       = researcher_status (db w) ++ status_buffer st
         ++ List.concat (map fst results).
Proof.
  induction items as [|[orcid_id profile] items IH]; intros results st w Hread;
    cbn [process_works map_res profile_rows] in *.
  - injection Hread as <-. exists st, w. cbn. rewrite !app_nil_r, Nat.add_0_r.
    now repeat split.
  - destruct (negb (truthy profile)).
    + cbn [bind] in Hread. apply bind_ok in Hread.
      destruct Hread as [rest [Hrest [= <-]]].
      destruct (IH rest st w Hrest) as [st' [w' H]].
      exists st', w'. cbn [map fst snd List.concat app]. exact H.
    + destruct (_extract_status_from_profile profile ror_id orcid_id trusted_ids)
        as [status|e]; [|discriminate].
      destruct (profile_works ror_id orcid_id profile) as [rows|e]; [|discriminate].
      cbn [bind] in Hread. apply bind_ok in Hread.
      destruct Hread as [rest [Hrest [= <-]]].
      match goal with |- context [if ?b then _flush_bulk insert_works ?bulk w else _] =>
        pose proof (flush_works_moves b bulk w) as H1;
        destruct (if b then _flush_bulk insert_works bulk w else (0, bulk, w))
          as [[c1 works] w1] end.
      cbn [fst snd] in H1. destruct H1 as [_ [Hs1 [_ Hmove1]]].
      match goal with |- context [if ?b then _flush_bulk insert_statuses ?bulk w1 else _] =>
        pose proof (flush_statuses_moves b bulk w1) as H2;
        destruct (if b then _flush_bulk insert_statuses bulk w1 else (0, bulk, w1))
          as [[c2 statuses] w2] end.
      cbn [fst snd] in H2. destruct H2 as [_ [Hw2 [_ Hmove2]]].
      destruct (IH rest (mkWorksState
                           (total_works_cached st + List.length rows) works statuses)
                   w2 Hrest)
        as [st' [w' [Hrun [Ht' [Hw' Hs']]]]].
      exists st', w'. cbn [total_works_cached works_buffer status_buffer] in *.
      cbn [map fst snd List.concat].
      split; [exact Hrun|]. split; [rewrite Ht', length_app; lia|]. split.
      * rewrite Hw', Hw2.
        destruct Hmove1 as [[-> ->]|[-> ->]]; rewrite <- ?app_assoc; reflexivity.
      * rewrite Hs'.
        destruct Hmove2 as [[-> ->]|[-> ->]]; rewrite Hs1, <- ?app_assoc;
          reflexivity.
Qed.

Lemma process_fundings_appends items : forall st w,
  Forall (fun row => f_ror_id row = ror_id) (funding_buffer st) ->
  let r := process_fundings ror_id items st w in
  users (db (snd r)) = users (db w)
  /\ work_cache (db (snd r)) = work_cache (db w)
  /\ researcher_status (db (snd r)) = researcher_status (db w)
  /\ (forall st', fst r = Ok st' ->
        Forall (fun row => f_ror_id row = ror_id) (funding_buffer st'))
  /\ exists added,
      funding_cache (db (snd r)) = funding_cache (db w) ++ added
      /\ Forall (fun row => f_ror_id row = ror_id) added.
Proof.
  induction items as [|[orcid_id profile] items IH]; intros st w Hfb;
    cbn [process_fundings]; cbn zeta.
  - do 3 (split; [reflexivity|]).
    split; [intros st' [= <-]; assumption|].
    exists []. rewrite app_nil_r. now split.
  - destruct (negb (truthy profile)); [now apply IH|].
    destruct (profile_fundings ror_id orcid_id profile) as [rows|e] eqn:Hrows;
      [|do 3 (split; [reflexivity|]); split; [discriminate|];
        exists []; rewrite app_nil_r; now split].
    apply profile_fundings_ror in Hrows.
    assert (Hall : Forall (fun row => f_ror_id row = ror_id) (funding_buffer st ++ rows))
      by (apply Forall_app; now split).
    match goal with |- context [if ?b then _flush_bulk insert_fundings ?bulk w else _] =>
      pose proof (flush_fundings_moves b bulk w) as H1;
      destruct (if b then _flush_bulk insert_fundings bulk w else (0, bulk, w))
        as [[c1 fundings] w1] end.
    cbn [fst snd] in H1. destruct H1 as [Hu1 [Hw1 [Hs1 Hmove1]]].
    assert (Hfb' : Forall (fun row => f_ror_id row = ror_id) fundings)
      by (destruct Hmove1 as [[_ ->]|[_ ->]]; [assumption|constructor]).
    destruct (IH (mkFundingsState (total_fundings_cached st + List.length rows) fundings)
                 w1 Hfb')
      as [Hu [Hw [Hs [Hbuf [added [Hf Hadded]]]]]].
    split; [congruence|]. split; [congruence|]. split; [congruence|].
    split; [exact Hbuf|].
    destruct Hmove1 as [[Hsame _]|[Hmoved _]].
    + exists added. rewrite Hf, Hsame. now split.
    + exists ((funding_buffer st ++ rows) ++ added).
      rewrite Hf, Hmoved, <- app_assoc. split; [reflexivity|].
      apply Forall_app. now split.
Qed.

Lemma process_fundings_read items : forall st w st' w',
  process_fundings ror_id items st w = (Ok st', w') ->
  exists results, map_res (profile_grants ror_id) items = Ok results.
Proof.
  induction items as [|[orcid_id profile] items IH]; intros st w st' w' Hrun;
    cbn [process_fundings map_res profile_grants] in *; [now eexists|].
  destruct (negb (truthy profile)).
  - destruct (IH _ _ _ _ Hrun) as [results ->]. now eexists.
  - destruct (profile_fundings ror_id orcid_id profile) as [rows|e]; [|discriminate].
    cbn [bind].
    match type of Hrun with context [if ?b then _flush_bulk insert_fundings ?bulk w else _] =>
      destruct (if b then _flush_bulk insert_fundings bulk w else (0, bulk, w))
        as [[c1 fundings] w1] end.
    destruct (IH _ _ _ _ Hrun) as [results ->]. now eexists.
Qed.

Lemma process_fundings_any items : forall results st w,
  map_res (profile_grants ror_id) items = Ok results ->
  exists st' w',
    process_fundings ror_id items st w = (Ok st', w')
    /\ total_fundings_cached st'
       = total_fundings_cached st + List.length (List.concat results)
    /\ funding_cache (db w') ++ funding_buffer st'
       = funding_cache (db w) ++ funding_buffer st ++ List.concat results.
Proof.
  induction items as [|[orcid_id profile] items IH]; intros results st w Hread;
    cbn [process_fundings map_res profile_grants] in *.
  - injection Hread as <-. exists st, w. cbn. rewrite !app_nil_r, Nat.add_0_r.
    now repeat split.
  - destruct (negb (truthy profile)).
    + cbn [bind] in Hread. apply bind_ok in Hread.
      destruct Hread as [rest [Hrest [= <-]]].
      destruct (IH rest st w Hrest) as [st' [w' H]].
      exists st', w'. cbn [List.concat app]. exact H.
    + destruct (profile_fundings ror_id orcid_id profile) as [rows|e]; [|discriminate].
      cbn [bind] in Hread. apply bind_ok in Hread.
      destruct Hread as [rest [Hrest [= <-]]].
      match goal with |- context [if ?b then _flush_bulk insert_fundings ?bulk w else _] =>
        pose proof (flush_fundings_moves b bulk w) as H1;
        destruct (if b then _flush_bulk insert_fundings bulk w else (0, bulk, w))
          as [[c1 fundings] w1] end.
      cbn [fst snd] in H1. destruct H1 as [_ [_ [_ Hmove1]]].
      destruct (IH rest (mkFundingsState
                           (total_fundings_cached st + List.length rows) fundings)
                   w1 Hrest)
        as [st' [w' [Hrun [Ht' Hf']]]].
      exists st', w'. cbn [total_fundings_cached funding_buffer] in *.
      cbn [List.concat].
      split; [exact Hrun|]. split; [rewrite Ht', length_app; lia|].
      rewrite Hf'.
      destruct Hmove1 as [[-> ->]|[-> ->]]; rewrite <- ?app_assoc; reflexivity.
Qed.

End AnyCommitFacts.

(** ** What a rebuild touches *)

Section ScopeFacts.

Lemma filter_other_purged {A} (key : A -> string) ror_id other l :
  other <> ror_id ->
  filter (fun r => String.eqb (key r) other)
         (filter (fun r => negb (String.eqb (key r) ror_id)) l)
  = filter (fun r => String.eqb (key r) other) l.
Proof.
  intros Hne. induction l as [|x l IH]; [reflexivity|]. cbn [filter].
  destruct (String.eqb_spec (key x) ror_id) as [Hx|Hx]; cbn [negb filter].
  - destruct (String.eqb_spec (key x) other) as [Ho|Ho]; [congruence|exact IH].
  - destruct (String.eqb (key x) other); [now rewrite IH|exact IH].
Qed.

Lemma filter_other_added {A} (key : A -> string) ror_id other l added :
  other <> ror_id ->
  Forall (fun r => key r = ror_id) added ->
  filter (fun r => String.eqb (key r) other) (l ++ added)
  = filter (fun r => String.eqb (key r) other) l.
Proof.
  intros Hne Hadded. rewrite filter_app, (filter_none _ added), app_nil_r;
    [reflexivity|].
  eapply Forall_impl; [|exact Hadded]. intros r ->.
  destruct (String.eqb_spec ror_id other); congruence.
Qed.

Lemma purge_works_cases ror_id w :
  let r := purge_works ror_id w in
  users (db (snd r)) = users (db w)
  /\ funding_cache (db (snd r)) = funding_cache (db w)
  /\ schedules (snd r) = schedules w
  /\ ((fst r = Ok tt
       /\ work_cache (db (snd r))
          = filter (fun x => negb (String.eqb (w_ror_id x) ror_id)) (work_cache (db w))
       /\ researcher_status (db (snd r))
          = filter (fun x => negb (String.eqb (s_ror_id x) ror_id))
                   (researcher_status (db w)))
      \/ ((exists e, fst r = Raise e) /\ db (snd r) = db w)).
Proof.
  unfold purge_works. destruct (commit_frame w) as [Hdb [Hs _]].
  destruct (commit w) as [[|text] w1]; cbn [fst snd] in *; cbn; rewrite ?Hdb.
  - repeat split; try assumption. left. now repeat split.
  - repeat split; try assumption. right. split; [now eexists|reflexivity].
Qed.

Lemma purge_fundings_cases ror_id w :
  let r := purge_fundings ror_id w in
  users (db (snd r)) = users (db w)
  /\ work_cache (db (snd r)) = work_cache (db w)
  /\ researcher_status (db (snd r)) = researcher_status (db w)
  /\ schedules (snd r) = schedules w
  /\ ((fst r = Ok tt
       /\ funding_cache (db (snd r))
          = filter (fun x => negb (String.eqb (f_ror_id x) ror_id))
                   (funding_cache (db w)))
      \/ ((exists e, fst r = Raise e) /\ db (snd r) = db w)).
Proof.
  unfold purge_fundings. destruct (commit_frame w) as [Hdb [Hs _]].
  destruct (commit w) as [[|text] w1]; cbn [fst snd] in *; cbn; rewrite ?Hdb.
  - repeat split; try assumption. left. now split.
  - repeat split; try assumption. right. split; [now eexists|reflexivity].
Qed.

Lemma next_schedule_frame w :
  fst (next_schedule w) = hd [] (schedules w)
  /\ db (snd (next_schedule w)) = db w
  /\ commits (snd (next_schedule w)) = commits w.
Proof.
  unfold next_schedule. destruct (schedules w); now repeat split.
Qed.

End ScopeFacts.

(** A Publications rebuild, however it ends and whatever its commits meet,
    leaves the Grant table as it was and leaves the Publication and
    affiliation-status rows of every other institution as they were. *)
Lemma build_works_scope fuel env ror_id base_url w r w' :
  build_works_cache_for_ror fuel env ror_id base_url w = Some (r, w') ->
  funding_cache (db w') = funding_cache (db w)
  /\ forall other, other <> ror_id ->
       works_of other (db w') = works_of other (db w)
       /\ statuses_of other (db w') = statuses_of other (db w).
Proof.
  unfold build_works_cache_for_ror.
  destruct (ensure_frame env ror_id w) as [_ [Hcaches _]].
  destruct (ensure_and_heal_grid_for_ror env ror_id w) as [g wa].
  cbn [snd] in Hcaches. unfold caches_of in Hcaches. injection Hcaches as Hw0 Hs0 Hf0.
  assert (Hsame : forall w1,
             work_cache (db w1) = work_cache (db wa) ->
             researcher_status (db w1) = researcher_status (db wa) ->
             funding_cache (db w1) = funding_cache (db wa) ->
             funding_cache (db w1) = funding_cache (db w)
             /\ forall other, other <> ror_id ->
                  works_of other (db w1) = works_of other (db w)
                  /\ statuses_of other (db w1) = statuses_of other (db w)).
  { intros w1 H1 H2 H3. unfold works_of, statuses_of.
    rewrite H1, H2, H3, Hw0, Hs0, Hf0. now repeat split. }
  destruct (list_orcids_for_institution fuel env ror_id g base_url default_rows)
    as [[|x researchers]|]; [intros [= <- <-]; now apply Hsame| |discriminate].
  pose proof (purge_works_cases ror_id wa) as Hpurge. cbv zeta in Hpurge.
  destruct (purge_works ror_id wa) as [[[]|e] wb]; cbn [fst snd] in Hpurge;
    destruct Hpurge as [_ [Hfb [_ [[Hok [Hwb Hsb]]|[[e' He'] Hdb]]]]];
    try discriminate;
    [|intros [= <- <-]; apply Hsame; now rewrite Hdb].
  destruct (next_schedule_frame wb) as [_ [Hdbc _]].
  destruct (next_schedule wb) as [picks wc]. cbn [snd] in Hdbc.
  assert (Hscoped : forall w1 added_works added_statuses,
             funding_cache (db w1) = funding_cache (db wc) ->
             work_cache (db w1) = work_cache (db wc) ++ added_works ->
             researcher_status (db w1) = researcher_status (db wc) ++ added_statuses ->
             Forall (fun row => w_ror_id row = ror_id) added_works ->
             Forall (fun row => s_ror_id row = ror_id) added_statuses ->
             funding_cache (db w1) = funding_cache (db w)
             /\ forall other, other <> ror_id ->
                  works_of other (db w1) = works_of other (db w)
                  /\ statuses_of other (db w1) = statuses_of other (db w)).
  { intros w1 aw asx H3 H1 H2 Haw Has. split; [congruence|].
    intros other Hne. unfold works_of, statuses_of.
    rewrite H1, H2, Hdbc, Hwb, Hsb, Hw0, Hs0.
    rewrite (filter_other_added w_ror_id ror_id other _ aw Hne Haw).
    rewrite (filter_other_added s_ror_id ror_id other _ asx Hne Has).
    rewrite (filter_other_purged w_ror_id ror_id other _ Hne).
    rewrite (filter_other_purged s_ror_id ror_id other _ Hne).
    now split. }
  destruct (get_all_profiles_concurrently env picks _ 10) as [profiles|e].
  2:{ intros [= <- <-]. apply (Hscoped wc [] []); rewrite ?app_nil_r; auto. }
  match goal with |- context [process_works ?a ?b ?c ?d ?e] =>
    pose proof (process_works_appends a b c d e (Forall_nil _) (Forall_nil _)) as Hloop;
    destruct (process_works a b c d e) as [[st|e'] wd] end;
    cbv zeta in Hloop; cbn [fst snd] in Hloop;
    destruct Hloop as [_ [Hfd [Hbuf [aw [asx [Hwd [Hsd [Haw Has]]]]]]]].
  2:{ intros [= <- <-]. now apply (Hscoped wd aw asx). }
  destruct (Hbuf st eq_refl) as [Hbw Hbs].
  pose proof (flush_works_moves true (works_buffer st) wd) as H1. cbv zeta iota in H1.
  destruct (_flush_bulk insert_works (works_buffer st) wd) as [[c1 b1] we].
  cbn [fst snd] in H1. destruct H1 as [_ [Hs1 [Hf1 Hmove1]]].
  pose proof (flush_statuses_moves true (status_buffer st) we) as H2.
  cbv zeta iota in H2.
  destruct (_flush_bulk insert_statuses (status_buffer st) we) as [[c2 b2] wf].
  cbn [fst snd] in H2. destruct H2 as [_ [Hw2 [Hf2 Hmove2]]].
  intros [= <- <-].
  assert (Hwf : exists a, work_cache (db wf) = work_cache (db wc) ++ a
                          /\ Forall (fun row => w_ror_id row = ror_id) a).
  { rewrite Hw2. destruct Hmove1 as [[-> _]|[-> _]]; rewrite Hwd.
    - now exists aw.
    - exists (aw ++ works_buffer st). rewrite <- app_assoc.
      split; [reflexivity|]. apply Forall_app. now split. }
  assert (Hsf : exists a, researcher_status (db wf) = researcher_status (db wc) ++ a
                          /\ Forall (fun row => s_ror_id row = ror_id) a).
  { destruct Hmove2 as [[-> _]|[-> _]]; rewrite Hs1, Hsd.
    - now exists asx.
    - exists (asx ++ status_buffer st). rewrite <- app_assoc.
      split; [reflexivity|]. apply Forall_app. now split. }
  destruct Hwf as [a1 [Ha1 Hpa1]]. destruct Hsf as [a2 [Ha2 Hpa2]].
  apply (Hscoped wf a1 a2); try assumption. congruence.
Qed.
(** The Grants rebuild never touches the Publication and affiliation-status
    tables, and leaves the Grant rows of every other institution as they
    were. *)
Lemma build_fundings_scope fuel env ror_id base_url w r w' :
  build_fundings_cache_for_ror fuel env ror_id base_url w = Some (r, w') ->
  work_cache (db w') = work_cache (db w)
  /\ researcher_status (db w') = researcher_status (db w)
  /\ forall other, other <> ror_id ->
       fundings_of other (db w') = fundings_of other (db w).
Proof.
  unfold build_fundings_cache_for_ror.
  destruct (ensure_frame env ror_id w) as [_ [Hcaches _]].
  destruct (ensure_and_heal_grid_for_ror env ror_id w) as [g wa].
  cbn [snd] in Hcaches. unfold caches_of in Hcaches. injection Hcaches as Hw0 Hs0 Hf0.
  assert (Hsame : forall w1,
             db w1 = db wa ->
             work_cache (db w1) = work_cache (db w)
             /\ researcher_status (db w1) = researcher_status (db w)
             /\ forall other, other <> ror_id ->
                  fundings_of other (db w1) = fundings_of other (db w)).
  { intros w1 H1. unfold fundings_of. rewrite H1, Hw0, Hs0, Hf0. now repeat split. }
  destruct (list_orcids_for_institution fuel env ror_id g base_url default_rows)
    as [[|x researchers]|]; [intros [= <- <-]; now apply Hsame| |discriminate].
  pose proof (purge_fundings_cases ror_id wa) as Hpurge. cbv zeta in Hpurge.
  destruct (purge_fundings ror_id wa) as [[[]|e] wb]; cbn [fst snd] in Hpurge;
    destruct Hpurge as [_ [Hwb [Hsb [_ [[Hok Hfb]|[[e' He'] Hdb]]]]]];
    try discriminate;
    [|intros [= <- <-]; now apply Hsame].
  destruct (next_schedule_frame wb) as [_ [Hdbc _]].
  destruct (next_schedule wb) as [picks wc]. cbn [snd] in Hdbc.
  assert (Hscoped : forall w1 added,
             work_cache (db w1) = work_cache (db wc) ->
             researcher_status (db w1) = researcher_status (db wc) ->
             funding_cache (db w1) = funding_cache (db wc) ++ added ->
             Forall (fun row => f_ror_id row = ror_id) added ->
             work_cache (db w1) = work_cache (db w)
             /\ researcher_status (db w1) = researcher_status (db w)
             /\ forall other, other <> ror_id ->
                  fundings_of other (db w1) = fundings_of other (db w)).
  { intros w1 added H1 H2 H3 Hadded.
    split; [congruence|]. split; [congruence|].
    intros other Hne. unfold fundings_of.
    rewrite H3, Hdbc, Hfb, Hf0.
    rewrite (filter_other_added f_ror_id ror_id other _ added Hne Hadded).
    now rewrite (filter_other_purged f_ror_id ror_id other _ Hne). }
  destruct (get_all_profiles_concurrently env picks _ 10) as [profiles|e].
  2:{ intros [= <- <-]. apply (Hscoped wc []); rewrite ?app_nil_r; auto. }
  match goal with |- context [process_fundings ?a ?c ?d ?e] =>
    pose proof (process_fundings_appends a c d e (Forall_nil _)) as Hloop;
    destruct (process_fundings a c d e) as [[st|e'] wd] end;
    cbv zeta in Hloop; cbn [fst snd] in Hloop;
    destruct Hloop as [_ [Hwd [Hsd [Hbuf [added [Hfd Hadded]]]]]].
  2:{ intros [= <- <-]. now apply (Hscoped wd added). }
  pose proof (Hbuf st eq_refl) as Hb.
  pose proof (flush_fundings_moves true (funding_buffer st) wd) as H1.
  cbv zeta iota in H1.
  destruct (_flush_bulk insert_fundings (funding_buffer st) wd) as [[c1 b1] we].
  cbn [fst snd] in H1. destruct H1 as [_ [Hw1 [Hs1 Hmove1]]].
  intros [= <- <-].
  destruct Hmove1 as [[Hm _]|[Hm _]].
  - apply (Hscoped we added); congruence.
  - apply (Hscoped we (added ++ funding_buffer st)); try congruence.
    + rewrite Hm, Hfd. now rewrite app_assoc.
    + apply Forall_app. now split.
Qed.
(** ** What a rebuild stores, whatever the commits *)

Lemma filter_purged_added {A} (key : A -> string) ror_id l added :
  Forall (fun r => key r = ror_id) added ->
  filter (fun r => String.eqb (key r) ror_id)
         (filter (fun r => negb (String.eqb (key r) ror_id)) l ++ added)
  = added.
Proof.
  intros Hadded. rewrite filter_app, filter_negb_filter. cbn [app].
  apply filter_all. eapply Forall_impl; [|exact Hadded].
  intros r ->. apply String.eqb_refl.
Qed.

Lemma profile_statuses_ror ror_id trusted_ids results :
  forall items,
    map_res (profile_rows ror_id trusted_ids) items = Ok results ->
    Forall (fun row => s_ror_id row = ror_id) (List.concat (map fst results)).
Proof.
  induction results as [|[ss ws] results IH]; intros items H; [constructor|].
  destruct items as [|[orcid_id profile] items]; [discriminate|].
  cbn [map_res] in H.
  apply bind_ok in H. destruct H as [y [Hy H]].
  apply bind_ok in H. destruct H as [ys [Hys [= -> ->]]].
  cbn [map fst List.concat]. apply Forall_app. split; [|now apply (IH items)].
  unfold profile_rows in Hy. destruct (negb (truthy profile)).
  - injection Hy as <- _. constructor.
  - apply bind_ok in Hy. destruct Hy as [status [Hstatus Hy]].
    apply bind_ok in Hy. destruct Hy as [rows [_ [= <- _]]].
    constructor; [|constructor]. eapply status_row_ror. exact Hstatus.
Qed.

(** A Publications rebuild that returns a count after a search that found
    somebody: the count is the number of rows read from the fetched
    profiles, and what the two tables hold of the institution is a leading
    part of the rows read, whatever the commits of the flushes met. *)
Lemma build_works_stored fuel env ror_id base_url w n w' :
  build_works_cache_for_ror fuel env ror_id base_url w = Some (Ok n, w') ->
  list_orcids_for_institution fuel env ror_id
    (fst (ensure_and_heal_grid_for_ror env ror_id w)) base_url default_rows
  <> Some [] ->
  exists researchers results unsaved_works unsaved_statuses,
    list_orcids_for_institution fuel env ror_id
      (fst (ensure_and_heal_grid_for_ror env ror_id w)) base_url default_rows
    = Some researchers
    /\ map_res (profile_rows ror_id
                  (trusted_ids_for env ror_id
                     (db (snd (ensure_and_heal_grid_for_ror env ror_id w)))))
               (profiles_map env (hd [] (schedules w)) (orcid_ids_of researchers))
       = Ok results
    /\ n = List.length (List.concat (map snd results))
    /\ works_of ror_id (db w') ++ unsaved_works = List.concat (map snd results)
    /\ statuses_of ror_id (db w') ++ unsaved_statuses
       = List.concat (map fst results).
Proof.
  unfold build_works_cache_for_ror.
  destruct (ensure_frame env ror_id w) as [_ [_ [Hsched _]]].
  destruct (ensure_and_heal_grid_for_ror env ror_id w) as [g wa].
  cbn [fst snd] in *.
  destruct (list_orcids_for_institution fuel env ror_id g base_url default_rows)
    as [[|x researchers]|]; [intros _ H; now destruct H| |discriminate].
  intros Hrun _. exists (x :: researchers). revert Hrun.
  set (trusted_ids := trusted_ids_for env ror_id (db wa)).
  pose proof (purge_works_cases ror_id wa) as Hpurge. cbv zeta in Hpurge.
  destruct (purge_works ror_id wa) as [[[]|e] wb]; cbn [fst snd] in Hpurge;
    [|discriminate].
  destruct Hpurge as [_ [_ [Hsb [[_ [Hwb Hstb]]|[[e' He'] _]]]]]; [|discriminate].
  destruct (next_schedule_frame wb) as [Hpicks [Hdbc _]].
  destruct (next_schedule wb) as [picks wc]. cbn [fst snd] in Hpicks, Hdbc.
  destruct (token_failure env) as [e0|] eqn:Htoken;
    [rewrite (get_all_profiles_raised _ _ _ _ _ Htoken); discriminate|].
  rewrite (get_all_profiles_pool _ _ _ _ Htoken) by lia.
  rewrite Hpicks, Hsb, Hsched.
  set (items := profiles_map env (hd [] (schedules w)) (orcid_ids_of (x :: researchers))).
  destruct (process_works ror_id trusted_ids items (mkWorksState 0 [] []) wc)
    as [[st|e'] wd] eqn:Hloop; [|discriminate].
  destruct (process_works_read ror_id trusted_ids items _ _ _ _ Hloop)
    as [results Hread].
  destruct (process_works_any ror_id trusted_ids items results
              (mkWorksState 0 [] []) wc Hread)
    as [st2 [wd2 [Hloop2 [Htotal [Hworks Hstatuses]]]]].
  rewrite Hloop in Hloop2. injection Hloop2 as <- <-.
  cbn [total_works_cached works_buffer status_buffer app] in Htotal, Hworks, Hstatuses.
  pose proof (process_works_appends ror_id trusted_ids items (mkWorksState 0 [] []) wc
                (Forall_nil _) (Forall_nil _)) as Happ.
  cbv zeta in Happ. rewrite Hloop in Happ. cbn [fst snd] in Happ.
  destruct Happ as [_ [_ [_ [aw [asx [Hwd [Hsd _]]]]]]].
  assert (Haw : aw ++ works_buffer st = List.concat (map snd results)).
  { rewrite Hwd, <- app_assoc in Hworks. now apply app_inv_head in Hworks. }
  assert (Has : asx ++ status_buffer st = List.concat (map fst results)).
  { rewrite Hsd, <- app_assoc in Hstatuses. now apply app_inv_head in Hstatuses. }
  pose proof (profile_rows_ror ror_id trusted_ids results items Hread) as Hrw.
  pose proof (profile_statuses_ror ror_id trusted_ids results items Hread) as Hrs.
  pose proof (flush_works_moves true (works_buffer st) wd) as H1. cbv zeta iota in H1.
  destruct (_flush_bulk insert_works (works_buffer st) wd) as [[c1 b1] we].
  cbn [fst snd] in H1. destruct H1 as [_ [Hs1 [_ Hmove1]]].
  pose proof (flush_statuses_moves true (status_buffer st) we) as H2.
  cbv zeta iota in H2.
  destruct (_flush_bulk insert_statuses (status_buffer st) we) as [[c2 b2] wf].
  cbn [fst snd] in H2. destruct H2 as [_ [Hw2 [_ Hmove2]]].
  intros [= <- <-]. exists results.
  assert (Hwf : exists stored unsaved,
             work_cache (db wf)
             = filter (fun r => negb (String.eqb (w_ror_id r) ror_id))
                      (work_cache (db wa)) ++ stored
             /\ stored ++ unsaved = List.concat (map snd results)).
  { rewrite Hw2. destruct Hmove1 as [[-> _]|[-> _]]; rewrite Hwd, Hdbc, Hwb.
    - now exists aw, (works_buffer st).
    - exists (aw ++ works_buffer st), []. rewrite <- app_assoc, app_nil_r.
      now split. }
  assert (Hsf : exists stored unsaved,
             researcher_status (db wf)
             = filter (fun r => negb (String.eqb (s_ror_id r) ror_id))
                      (researcher_status (db wa)) ++ stored
             /\ stored ++ unsaved = List.concat (map fst results)).
  { destruct Hmove2 as [[-> _]|[-> _]]; rewrite Hs1, Hsd, Hdbc, Hstb.
    - now exists asx, (status_buffer st).
    - exists (asx ++ status_buffer st), []. rewrite <- app_assoc, app_nil_r.
      now split. }
  destruct Hwf as [sw [uw [Hwf Hsw]]]. destruct Hsf as [ss [us [Hsf Hss]]].
  exists uw, us. split; [reflexivity|]. split; [exact Hread|].
  split; [exact Htotal|].
  unfold works_of, statuses_of. rewrite Hwf, Hsf.
  rewrite (filter_purged_added w_ror_id), (filter_purged_added s_ror_id).
  - now split.
  - rewrite <- Hss in Hrs. now apply Forall_app in Hrs.
  - rewrite <- Hsw in Hrw. now apply Forall_app in Hrw.
Qed.
(** The profile map holds non-empty documents only, under distinct keys
    taken from the identifiers submitted. *)
Lemma profiles_map_items env picks orcid_ids :
  Forall (fun item => truthy (snd item) = true) (profiles_map env picks orcid_ids)
  /\ NoDup (keys (profiles_map env picks orcid_ids))
  /\ incl (keys (profiles_map env picks orcid_ids)) orcid_ids.
Proof.
  unfold profiles_map. destruct (pool_url env) as [url|].
  2:{ split; [constructor|]. split; [constructor|]. intros x []. }
  split; [|split].
  - apply Forall_forall. intros [oid profile] Hin.
    eapply (collected_values env url _ []); [intros ? ? []|exact Hin].
  - apply collected_NoDup. constructor.
  - intros oid Hin. apply collected_keys in Hin.
    destruct Hin as [[]|[Hin _]].
    eapply Permutation_in; [|exact Hin].
    apply Permutation_sym, as_completed_perm. reflexivity.
Qed.

(** Every non-empty document of the map gives one status row, under the
    key of the document. *)
Lemma profile_rows_persons ror_id trusted_ids : forall items results,
  Forall (fun item => truthy (snd item) = true) items ->
  map_res (profile_rows ror_id trusted_ids) items = Ok results ->
  map s_orcid (List.concat (map fst results)) = keys items.
Proof.
  induction items as [|[orcid_id profile] items IH]; intros results Hitems H.
  - injection H as <-. reflexivity.
  - cbn [map_res] in H.
    apply bind_ok in H. destruct H as [y [Hy H]].
    apply bind_ok in H. destruct H as [ys [Hys [= <-]]].
    inversion Hitems as [|? ? Htruthy Hrest]; subst. cbn [snd] in Htruthy.
    cbn [map fst List.concat]. rewrite map_app, (IH ys Hrest Hys).
    unfold profile_rows in Hy. rewrite Htruthy in Hy. cbn [negb] in Hy.
    apply bind_ok in Hy. destruct Hy as [status [Hstatus Hy]].
    apply bind_ok in Hy. destruct Hy as [rows [_ [= <-]]].
    cbn [fst map app keys]. f_equal.
    now destruct (status_row_ror _ _ _ _ _ Hstatus).
Qed.
Lemma profile_grants_ror ror_id results :
  forall items,
    map_res (profile_grants ror_id) items = Ok results ->
    Forall (fun row => f_ror_id row = ror_id) (List.concat results).
Proof.
  induction results as [|rows results IH]; intros items H; [constructor|].
  destruct items as [|[orcid_id profile] items]; [discriminate|].
  cbn [map_res] in H.
  apply bind_ok in H. destruct H as [y [Hy H]].
  apply bind_ok in H. destruct H as [ys [Hys [= -> ->]]].
  cbn [List.concat]. apply Forall_app. split; [|now apply (IH items)].
  unfold profile_grants in Hy. destruct (negb (truthy profile)).
  - injection Hy as <-. constructor.
  - eapply profile_fundings_ror. exact Hy.
Qed.

(** The same for a Grants rebuild. *)
Lemma build_fundings_stored fuel env ror_id base_url w n w' :
  build_fundings_cache_for_ror fuel env ror_id base_url w = Some (Ok n, w') ->
  list_orcids_for_institution fuel env ror_id
    (fst (ensure_and_heal_grid_for_ror env ror_id w)) base_url default_rows
  <> Some [] ->
  exists researchers results unsaved,
    list_orcids_for_institution fuel env ror_id
      (fst (ensure_and_heal_grid_for_ror env ror_id w)) base_url default_rows
    = Some researchers
    /\ map_res (profile_grants ror_id)
               (profiles_map env (hd [] (schedules w)) (orcid_ids_of researchers))
       = Ok results
    /\ n = List.length (List.concat results)
    /\ fundings_of ror_id (db w') ++ unsaved = List.concat results.
Proof.
  unfold build_fundings_cache_for_ror.
  destruct (ensure_frame env ror_id w) as [_ [_ [Hsched _]]].
  destruct (ensure_and_heal_grid_for_ror env ror_id w) as [g wa].
  cbn [fst snd] in *.
  destruct (list_orcids_for_institution fuel env ror_id g base_url default_rows)
    as [[|x researchers]|]; [intros _ H; now destruct H| |discriminate].
  intros Hrun _. exists (x :: researchers). revert Hrun.
  pose proof (purge_fundings_cases ror_id wa) as Hpurge. cbv zeta in Hpurge.
  destruct (purge_fundings ror_id wa) as [[[]|e] wb]; cbn [fst snd] in Hpurge;
    [|discriminate].
  destruct Hpurge as [_ [_ [_ [Hsb [[_ Hfb]|[[e' He'] _]]]]]]; [|discriminate].
  destruct (next_schedule_frame wb) as [Hpicks [Hdbc _]].
  destruct (next_schedule wb) as [picks wc]. cbn [fst snd] in Hpicks, Hdbc.
  destruct (token_failure env) as [e0|] eqn:Htoken;
    [rewrite (get_all_profiles_raised _ _ _ _ _ Htoken); discriminate|].
  rewrite (get_all_profiles_pool _ _ _ _ Htoken) by lia.
  rewrite Hpicks, Hsb, Hsched.
  set (items := profiles_map env (hd [] (schedules w)) (orcid_ids_of (x :: researchers))).
  destruct (process_fundings ror_id items (mkFundingsState 0 []) wc)
    as [[st|e'] wd] eqn:Hloop; [|discriminate].
  destruct (process_fundings_read ror_id items _ _ _ _ Hloop) as [results Hread].
  destruct (process_fundings_any ror_id items results (mkFundingsState 0 []) wc Hread)
    as [st2 [wd2 [Hloop2 [Htotal Hrows]]]].
  rewrite Hloop in Hloop2. injection Hloop2 as <- <-.
  cbn [total_fundings_cached funding_buffer app] in Htotal, Hrows.
  pose proof (process_fundings_appends ror_id items (mkFundingsState 0 []) wc
                (Forall_nil _)) as Happ.
  cbv zeta in Happ. rewrite Hloop in Happ. cbn [fst snd] in Happ.
  destruct Happ as [_ [_ [_ [_ [added [Hfd _]]]]]].
  assert (Hadded : added ++ funding_buffer st = List.concat results).
  { rewrite Hfd, <- app_assoc in Hrows. now apply app_inv_head in Hrows. }
  pose proof (profile_grants_ror ror_id results items Hread) as Hror.
  pose proof (flush_fundings_moves true (funding_buffer st) wd) as H1.
  cbv zeta iota in H1.
  destruct (_flush_bulk insert_fundings (funding_buffer st) wd) as [[c1 b1] we].
  cbn [fst snd] in H1. destruct H1 as [_ [_ [_ Hmove1]]].
  intros [= <- <-]. exists results.
  assert (Hwf : exists stored unsaved,
             funding_cache (db we)
             = filter (fun r => negb (String.eqb (f_ror_id r) ror_id))
                      (funding_cache (db wa)) ++ stored
             /\ stored ++ unsaved = List.concat results).
  { destruct Hmove1 as [[-> _]|[-> _]]; rewrite Hfd, Hdbc, Hfb.
    - now exists added, (funding_buffer st).
    - exists (added ++ funding_buffer st), []. rewrite <- app_assoc, app_nil_r.
      now split. }
  destruct Hwf as [stored [unsaved [Hwf Hstored]]].
  exists unsaved. split; [reflexivity|]. split; [exact Hread|].
  split; [exact Htotal|].
  unfold fundings_of. rewrite Hwf, (filter_purged_added f_ror_id); [exact Hstored|].
  rewrite <- Hstored in Hror. now apply Forall_app in Hror.
Qed.
Lemma Forall2_same {A} (R : A -> A -> Prop) l :
  (forall x, R x x) -> Forall2 R l l.
Proof. intros H. induction l; constructor; auto. Qed.

Lemma healed_accounts ror_id g l :
  truthy g = true ->
  Forall2 (fun u u' =>
             u' = u
             \/ (of_ror ror_id u = true /\ lacks_grid u = true
                 /\ truthy g = true /\ u' = set_grid g u))
          l (map (fun u => if of_ror ror_id u && lacks_grid u
                           then set_grid g u else u) l).
Proof.
  intros Hg. induction l as [|u l IH]; constructor; [|exact IH].
  destruct (of_ror ror_id u) eqn:Hror; [|now left].
  destruct (lacks_grid u) eqn:Hl; [|now left].
  cbn [andb]. right. now repeat split.
Qed.

(** The accounts after the healer: each as it was, or an account of the
    institution that had no legacy identifier, now with the one found. *)
Lemma ensure_accounts env ror_id w :
  Forall2 (fun u u' =>
             u' = u
             \/ (of_ror ror_id u = true /\ lacks_grid u = true
                 /\ truthy (fst (ensure_and_heal_grid_for_ror env ror_id w)) = true
                 /\ u' = set_grid (fst (ensure_and_heal_grid_for_ror env ror_id w)) u))
          (users (db w))
          (users (db (snd (ensure_and_heal_grid_for_ror env ror_id w)))).
Proof.
  unfold ensure_and_heal_grid_for_ror.
  destruct (negb (str_truthy ror_id)); [apply Forall2_same; now left|].
  set (local := match find _ (users (db w)) with
                | Some u => u_grid_id u
                | None => JNull
                end).
  set (g := if negb (truthy local) then fetch_grid_from_ror env ror_id else local).
  destruct (truthy g) eqn:Hg; [|apply Forall2_same; now left].
  destruct (filter _ (users (db w))) as [|u0 us]; [apply Forall2_same; now left|].
  unfold commit. destruct (commits w) as [|[|text] rest];
    cbn [fst snd with_db db users set_users].
  - now apply healed_accounts.
  - now apply healed_accounts.
  - apply Forall2_same. now left.
Qed.

(** Past the healer, a Publications rebuild leaves the accounts alone. *)
Lemma build_works_users fuel env ror_id base_url w r w' :
  build_works_cache_for_ror fuel env ror_id base_url w = Some (r, w') ->
  users (db w') = users (db (snd (ensure_and_heal_grid_for_ror env ror_id w))).
Proof.
  unfold build_works_cache_for_ror.
  destruct (ensure_and_heal_grid_for_ror env ror_id w) as [g wa]. cbn [snd].
  destruct (list_orcids_for_institution fuel env ror_id g base_url default_rows)
    as [[|x researchers]|]; [intros [= <- <-]; reflexivity| |discriminate].
  pose proof (purge_works_cases ror_id wa) as Hpurge. cbv zeta in Hpurge.
  destruct Hpurge as [Hub _].
  destruct (purge_works ror_id wa) as [[[]|e] wb]; cbn [fst snd] in Hub;
    [|intros [= <- <-]; exact Hub].
  destruct (next_schedule_frame wb) as [_ [Hdbc _]].
  destruct (next_schedule wb) as [picks wc]. cbn [snd] in Hdbc.
  destruct (get_all_profiles_concurrently env picks _ 10) as [profiles|e];
    [|intros [= <- <-]; now rewrite Hdbc].
  match goal with |- context [process_works ?a ?b ?c ?d ?e] =>
    pose proof (process_works_appends a b c d e (Forall_nil _) (Forall_nil _)) as Hloop;
    destruct (process_works a b c d e) as [[st|e'] wd] end;
    cbv zeta in Hloop; cbn [fst snd] in Hloop; destruct Hloop as [Hud _];
    [|intros [= <- <-]; congruence].
  pose proof (flush_works_moves true (works_buffer st) wd) as H1. cbv zeta iota in H1.
  destruct (_flush_bulk insert_works (works_buffer st) wd) as [[c1 b1] we].
  cbn [fst snd] in H1. destruct H1 as [Hue _].
  pose proof (flush_statuses_moves true (status_buffer st) we) as H2.
  cbv zeta iota in H2.
  destruct (_flush_bulk insert_statuses (status_buffer st) we) as [[c2 b2] wf].
  cbn [fst snd] in H2. destruct H2 as [Huf _].
  intros [= <- <-]. congruence.
Qed.

(** The same for a Grants rebuild. *)
Lemma build_fundings_users fuel env ror_id base_url w r w' :
  build_fundings_cache_for_ror fuel env ror_id base_url w = Some (r, w') ->
  users (db w') = users (db (snd (ensure_and_heal_grid_for_ror env ror_id w))).
Proof.
  unfold build_fundings_cache_for_ror.
  destruct (ensure_and_heal_grid_for_ror env ror_id w) as [g wa]. cbn [snd].
  destruct (list_orcids_for_institution fuel env ror_id g base_url default_rows)
    as [[|x researchers]|]; [intros [= <- <-]; reflexivity| |discriminate].
  pose proof (purge_fundings_cases ror_id wa) as Hpurge. cbv zeta in Hpurge.
  destruct Hpurge as [Hub _].
  destruct (purge_fundings ror_id wa) as [[[]|e] wb]; cbn [fst snd] in Hub;
    [|intros [= <- <-]; exact Hub].
  destruct (next_schedule_frame wb) as [_ [Hdbc _]].
  destruct (next_schedule wb) as [picks wc]. cbn [snd] in Hdbc.
  destruct (get_all_profiles_concurrently env picks _ 10) as [profiles|e];
    [|intros [= <- <-]; now rewrite Hdbc].
  match goal with |- context [process_fundings ?a ?c ?d ?e] =>
    pose proof (process_fundings_appends a c d e (Forall_nil _)) as Hloop;
    destruct (process_fundings a c d e) as [[st|e'] wd] end;
    cbv zeta in Hloop; cbn [fst snd] in Hloop; destruct Hloop as [Hud _];
    [|intros [= <- <-]; congruence].
  pose proof (flush_fundings_moves true (funding_buffer st) wd) as H1.
  cbv zeta iota in H1.
  destruct (_flush_bulk insert_fundings (funding_buffer st) wd) as [[c1 b1] we].
  cbn [fst snd] in H1. destruct H1 as [Hue _].
  intros [= <- <-]. congruence.
Qed.

(** X1.  A Publications rebuild, however it ends and whatever its commits
    meet, writes to nothing but the Publication and affiliation-status rows
    of its own institution and, through the healer it calls first, the
    legacy identifier of the accounts of that institution that had none:
    the Grant table and both run logs are as they were, so are the
    Publication and affiliation-status rows of every other institution, and
    the accounts are as the healer left them, each one as it was or an
    account of the institution given the identifier found, be the count
    returned 0. *)
Theorem works_rebuild_is_scoped fuel env ror_id base_url w r w' :
  build_works_cache_for_ror fuel env ror_id base_url w = Some (r, w') ->
  funding_cache (db w') = funding_cache (db w)
  /\ runs_of w' = runs_of w
  /\ (forall other, other <> ror_id ->
        works_of other (db w') = works_of other (db w)
        /\ statuses_of other (db w') = statuses_of other (db w))
  /\ users (db w') = users (db (snd (ensure_and_heal_grid_for_ror env ror_id w)))
  /\ Forall2 (fun u u' =>
                u' = u
                \/ (of_ror ror_id u = true /\ lacks_grid u = true
                    /\ truthy (fst (ensure_and_heal_grid_for_ror env ror_id w)) = true
                    /\ u' = set_grid
                              (fst (ensure_and_heal_grid_for_ror env ror_id w)) u))
             (users (db w)) (users (db w')).
Proof.
  intros Hrun.
  destruct (build_works_scope _ _ _ _ _ _ _ Hrun) as [Hfundings Hothers].
  pose proof (build_works_users _ _ _ _ _ _ _ Hrun) as Husers.
  split; [exact Hfundings|]. split; [eapply build_works_runs; exact Hrun|].
  split; [exact Hothers|]. split; [exact Husers|].
  rewrite Husers. apply ensure_accounts.
Qed.

Lemma works_rebuild_is_scoped_witness :
  (exists r w',
      build_works_cache_for_ror 1 sample_env "02ap3w078" None shared_failing_world
      = Some (r, w')
      /\ funding_cache (db w') = [old_funding; other_funding]
      /\ works_of "05abc1234" (db w') = [other_work]
      /\ statuses_of "05abc1234" (db w') = [other_status])
  /\ (exists w',
        build_works_cache_for_ror 1 ror_env "02ap3w078" None staffed_world
        = Some (Ok 0, w')
        /\ map u_grid_id (users (db w'))
           = [JStr "grid.424112.0"; JStr "grid.424112.0"; JNull]
        /\ Forall2 (fun u u' => u' = u \/ of_ror "02ap3w078" u = true)
                   staff (users (db w'))).
Proof.
  split.
  - destruct (build_works_cache_for_ror 1 sample_env "02ap3w078" None
                shared_failing_world) as [[r w']|] eqn:Hrun;
      [|vm_compute in Hrun; discriminate].
    exists r, w'. split; [reflexivity|].
    destruct (works_rebuild_is_scoped _ _ _ _ _ _ _ Hrun) as [Hfundings [_ [Hothers _]]].
    split; [exact Hfundings|].
    apply (Hothers "05abc1234"). discriminate.
  - destruct (build_works_cache_for_ror 1 ror_env "02ap3w078" None staffed_world)
      as [[r w']|] eqn:Hrun; [|vm_compute in Hrun; discriminate].
    assert (Hr : r = Ok 0) by (vm_compute in Hrun; congruence). subst r.
    exists w'. split; [reflexivity|].
    destruct (works_rebuild_is_scoped _ _ _ _ _ _ _ Hrun)
      as [_ [_ [_ [Husers Hhealed]]]].
    split; [rewrite Husers; reflexivity|].
    eapply Forall2_impl; [|exact Hhealed]. cbn beta.
    intros u u' [Hsame|[Hror _]]; [now left|now right].
Defined.

(** X2.  A Grants rebuild, however it ends and whatever its commits meet,
    writes to nothing but the Grant rows of its own institution and,
    through the healer it calls first, the legacy identifier of the accounts
    of that institution that had none: the Publication table, the
    affiliation-status table and both run logs are as they were, so are the
    Grant rows of every other institution, and the accounts are as the
    healer left them, each one as it was or an account of the institution
    given the identifier found, be the count returned 0. *)
Theorem fundings_rebuild_is_scoped fuel env ror_id base_url w r w' :
  build_fundings_cache_for_ror fuel env ror_id base_url w = Some (r, w') ->
  work_cache (db w') = work_cache (db w)
  /\ researcher_status (db w') = researcher_status (db w)
  /\ runs_of w' = runs_of w
  /\ (forall other, other <> ror_id ->
        fundings_of other (db w') = fundings_of other (db w))
  /\ users (db w') = users (db (snd (ensure_and_heal_grid_for_ror env ror_id w)))
  /\ Forall2 (fun u u' =>
                u' = u
                \/ (of_ror ror_id u = true /\ lacks_grid u = true
                    /\ truthy (fst (ensure_and_heal_grid_for_ror env ror_id w)) = true
                    /\ u' = set_grid
                              (fst (ensure_and_heal_grid_for_ror env ror_id w)) u))
             (users (db w)) (users (db w')).
Proof.
  intros Hrun.
  destruct (build_fundings_scope _ _ _ _ _ _ _ Hrun) as [Hworks [Hstatuses Hothers]].
  pose proof (build_fundings_users _ _ _ _ _ _ _ Hrun) as Husers.
  split; [exact Hworks|]. split; [exact Hstatuses|].
  split; [eapply build_fundings_runs; exact Hrun|].
  split; [exact Hothers|]. split; [exact Husers|].
  rewrite Husers. apply ensure_accounts.
Qed.

Lemma fundings_rebuild_is_scoped_witness :
  (exists r w',
      build_fundings_cache_for_ror 1 sample_env "02ap3w078" None shared_world
      = Some (r, w')
      /\ work_cache (db w') = [old_work; other_work]
      /\ researcher_status (db w') = [old_status; other_status]
      /\ fundings_of "05abc1234" (db w') = [other_funding])
  /\ (exists w',
        build_fundings_cache_for_ror 1 ror_env "02ap3w078" None staffed_world
        = Some (Ok 0, w')
        /\ map u_grid_id (users (db w'))
           = [JStr "grid.424112.0"; JStr "grid.424112.0"; JNull]
        /\ Forall2 (fun u u' => u' = u \/ of_ror "02ap3w078" u = true)
                   staff (users (db w'))).
Proof.
  split.
  - destruct (build_fundings_cache_for_ror 1 sample_env "02ap3w078" None
                shared_world) as [[r w']|] eqn:Hrun;
      [|vm_compute in Hrun; discriminate].
    exists r, w'. split; [reflexivity|].
    destruct (fundings_rebuild_is_scoped _ _ _ _ _ _ _ Hrun)
      as [Hworks [Hstatuses [_ [Hothers _]]]].
    split; [exact Hworks|]. split; [exact Hstatuses|].
    apply (Hothers "05abc1234"). discriminate.
  - destruct (build_fundings_cache_for_ror 1 ror_env "02ap3w078" None staffed_world)
      as [[r w']|] eqn:Hrun; [|vm_compute in Hrun; discriminate].
    assert (Hr : r = Ok 0) by (vm_compute in Hrun; congruence). subst r.
    exists w'. split; [reflexivity|].
    destruct (fundings_rebuild_is_scoped _ _ _ _ _ _ _ Hrun)
      as [_ [_ [_ [_ [Husers Hhealed]]]]].
    split; [rewrite Husers; reflexivity|].
    eapply Forall2_impl; [|exact Hhealed]. cbn beta.
    intros u u' [Hsame|[Hror _]]; [now left|now right].
Defined.

(** X3.  When a Publications rebuild returns a count after a search that
    found somebody, the count is the number of rows read from the fetched
    profiles, and the Publication rows the institution has afterwards are a
    leading part of those rows, in the order they were read: whatever the
    commits of the flushes met, nothing is stored twice, nothing of an
    earlier rebuild is left, and the count is never below the number of
    rows stored. *)
Theorem works_count_bounds_stored_rows fuel env ror_id base_url w n w' :
  build_works_cache_for_ror fuel env ror_id base_url w = Some (Ok n, w') ->
  list_orcids_for_institution fuel env ror_id
    (fst (ensure_and_heal_grid_for_ror env ror_id w)) base_url default_rows
  <> Some [] ->
  exists researchers results unsaved,
    list_orcids_for_institution fuel env ror_id
      (fst (ensure_and_heal_grid_for_ror env ror_id w)) base_url default_rows
    = Some researchers
    /\ map_res (profile_rows ror_id
                  (trusted_ids_for env ror_id
                     (db (snd (ensure_and_heal_grid_for_ror env ror_id w)))))
               (profiles_map env (hd [] (schedules w)) (orcid_ids_of researchers))
       = Ok results
    /\ works_of ror_id (db w') ++ unsaved = List.concat (map snd results)
    /\ n = List.length (List.concat (map snd results))
    /\ List.length (works_of ror_id (db w')) <= n.
Proof.
  intros Hrun Hfound.
  destruct (build_works_stored _ _ _ _ _ _ _ Hrun Hfound)
    as [researchers [results [unsaved [_ [Hlist [Hread [Hn [Hworks _]]]]]]]].
  exists researchers, results, unsaved.
  split; [exact Hlist|]. split; [exact Hread|]. split; [exact Hworks|].
  split; [exact Hn|].
  rewrite Hn, <- Hworks, length_app. lia.
Qed.

Lemma works_count_bounds_stored_rows_witness :
  exists w',
    build_works_cache_for_ror 1 sample_env "02ap3w078" None shared_failing_world
    = Some (Ok 1, w')
    /\ List.length (works_of "02ap3w078" (db w')) <= 1.
Proof.
  destruct (build_works_cache_for_ror 1 sample_env "02ap3w078" None
              shared_failing_world) as [[[n|e] w']|] eqn:Hrun;
    try (vm_compute in Hrun; discriminate).
  assert (Hn : n = 1) by (vm_compute in Hrun; congruence). subst n.
  exists w'. split; [reflexivity|].
  destruct (works_count_bounds_stored_rows _ _ _ _ _ _ _ Hrun)
    as [researchers [results [unsaved [_ [_ [_ [_ Hle]]]]]]];
    [vm_compute; discriminate|exact Hle].
Defined.

(** X4.  When a Publications rebuild returns a count after a search that
    found somebody, the institution has at most one affiliation-status row
    per person afterwards, each for an identifier the search found, and no
    more rows than the search found people, whatever the commits met and in
    whatever order the workers finished. *)
Theorem affiliation_status_one_row_per_person fuel env ror_id base_url w n w' :
  build_works_cache_for_ror fuel env ror_id base_url w = Some (Ok n, w') ->
  list_orcids_for_institution fuel env ror_id
    (fst (ensure_and_heal_grid_for_ror env ror_id w)) base_url default_rows
  <> Some [] ->
  exists researchers,
    list_orcids_for_institution fuel env ror_id
      (fst (ensure_and_heal_grid_for_ror env ror_id w)) base_url default_rows
    = Some researchers
    /\ NoDup (map s_orcid (statuses_of ror_id (db w')))
    /\ incl (map s_orcid (statuses_of ror_id (db w'))) (orcid_ids_of researchers)
    /\ List.length (statuses_of ror_id (db w')) <= List.length researchers.
Proof.
  intros Hrun Hfound.
  destruct (build_works_stored _ _ _ _ _ _ _ Hrun Hfound)
    as [researchers [results [_ [unsaved [Hlist [Hread [_ [_ Hstatuses]]]]]]]].
  exists researchers. split; [exact Hlist|].
  destruct (profiles_map_items env (hd [] (schedules w)) (orcid_ids_of researchers))
    as [Htruthy [Hnodup Hincl]].
  pose proof (profile_rows_persons _ _ _ _ Htruthy Hread) as Hkeys.
  rewrite <- Hstatuses, map_app in Hkeys.
  assert (Hsub : incl (map s_orcid (statuses_of ror_id (db w')))
                      (orcid_ids_of researchers)).
  { intros x Hx. apply Hincl. rewrite <- Hkeys. apply in_or_app. now left. }
  assert (Hnd : NoDup (map s_orcid (statuses_of ror_id (db w')))).
  { rewrite <- Hkeys in Hnodup. eapply NoDup_app_remove_r. exact Hnodup. }
  split; [exact Hnd|]. split; [exact Hsub|].
  destruct (search_population_ids _ _ _ _ _ _ _ Hlist) as [Hlen _].
  rewrite <- Hlen, <- (length_map s_orcid).
  now apply NoDup_incl_length.
Qed.

Lemma affiliation_status_one_row_per_person_witness :
  exists w',
    build_works_cache_for_ror 1 sample_env "02ap3w078" None shared_world
    = Some (Ok 1, w')
    /\ NoDup (map s_orcid (statuses_of "02ap3w078" (db w')))
    /\ List.length (statuses_of "02ap3w078" (db w')) <= 1.
Proof.
  destruct (build_works_cache_for_ror 1 sample_env "02ap3w078" None shared_world)
    as [[[n|e] w']|] eqn:Hrun; try (vm_compute in Hrun; discriminate).
  assert (Hn : n = 1) by (vm_compute in Hrun; congruence). subst n.
  exists w'. split; [reflexivity|].
  destruct (affiliation_status_one_row_per_person _ _ _ _ _ _ _ Hrun)
    as [researchers [Hlist [Hnd [_ Hle]]]]; [vm_compute; discriminate|].
  split; [exact Hnd|].
  assert (Hone : List.length researchers = 1)
    by (vm_compute in Hlist; injection Hlist as <-; reflexivity).
  now rewrite Hone in Hle.
Defined.

(** X5.  When a Grants rebuild returns a count after a search that found
    somebody, the count is the number of rows read from the fetched
    profiles, and the Grant rows the institution has afterwards are a
    leading part of those rows: nothing is stored twice, nothing of an
    earlier rebuild is left, and the count is never below the number of
    rows stored. *)
Theorem fundings_count_bounds_stored_rows fuel env ror_id base_url w n w' :
  build_fundings_cache_for_ror fuel env ror_id base_url w = Some (Ok n, w') ->
  list_orcids_for_institution fuel env ror_id
    (fst (ensure_and_heal_grid_for_ror env ror_id w)) base_url default_rows
  <> Some [] ->
  exists researchers results unsaved,
    list_orcids_for_institution fuel env ror_id
      (fst (ensure_and_heal_grid_for_ror env ror_id w)) base_url default_rows
    = Some researchers
    /\ map_res (profile_grants ror_id)
               (profiles_map env (hd [] (schedules w)) (orcid_ids_of researchers))
       = Ok results
    /\ fundings_of ror_id (db w') ++ unsaved = List.concat results
    /\ n = List.length (List.concat results)
    /\ List.length (fundings_of ror_id (db w')) <= n.
Proof.
  intros Hrun Hfound.
  destruct (build_fundings_stored _ _ _ _ _ _ _ Hrun Hfound)
    as [researchers [results [unsaved [Hlist [Hread [Hn Hrows]]]]]].
  exists researchers, results, unsaved.
  split; [exact Hlist|]. split; [exact Hread|]. split; [exact Hrows|].
  split; [exact Hn|].
  rewrite Hn, <- Hrows, length_app. lia.
Qed.

Lemma fundings_count_bounds_stored_rows_witness :
  exists w',
    build_fundings_cache_for_ror 1 sample_env "02ap3w078" None shared_failing_world
    = Some (Ok 1, w')
    /\ List.length (fundings_of "02ap3w078" (db w')) <= 1.
Proof.
  destruct (build_fundings_cache_for_ror 1 sample_env "02ap3w078" None
              shared_failing_world) as [[[n|e] w']|] eqn:Hrun;
    try (vm_compute in Hrun; discriminate).
  assert (Hn : n = 1) by (vm_compute in Hrun; congruence). subst n.
  exists w'. split; [reflexivity|].
  destruct (fundings_count_bounds_stored_rows _ _ _ _ _ _ _ Hrun)
    as [researchers [results [unsaved [_ [_ [_ [_ Hle]]]]]]];
    [vm_compute; discriminate|exact Hle].
Defined.
(** ** The healer *)

(** X6.  The healer writes to nothing but the legacy identifier of the
    accounts of its institution that had none: every other account, the
    three caches and both run logs are as they were, an identifier that is
    there is never replaced, and when the commit fails nothing is written
    at all. *)
Theorem healer_fills_only_missing_ids env ror_id w :
  let g := fst (ensure_and_heal_grid_for_ror env ror_id w) in
  let w' := snd (ensure_and_heal_grid_for_ror env ror_id w) in
  caches_of w' = caches_of w
  /\ runs_of w' = runs_of w
  /\ Forall2 (fun u u' =>
                u' = u
                \/ (of_ror ror_id u = true /\ lacks_grid u = true
                    /\ truthy g = true /\ u' = set_grid g u))
             (users (db w)) (users (db w'))
  /\ (forall text rest, commits w = Failed text :: rest -> db w' = db w).
Proof.
  cbv zeta. destruct (ensure_frame env ror_id w) as [Hruns [Hcaches _]].
  split; [exact Hcaches|]. split; [exact Hruns|].
  unfold ensure_and_heal_grid_for_ror.
  destruct (negb (str_truthy ror_id)).
  { split; [apply Forall2_same; now left|reflexivity]. }
  set (local := match find _ (users (db w)) with
                | Some u => u_grid_id u
                | None => JNull
                end).
  set (g := if negb (truthy local) then fetch_grid_from_ror env ror_id else local).
  destruct (truthy g) eqn:Hg;
    [|split; [apply Forall2_same; now left|reflexivity]].
  destruct (filter _ (users (db w))) as [|u0 us];
    [split; [apply Forall2_same; now left|reflexivity]|].
  unfold commit. destruct (commits w) as [|[|text] rest] eqn:Hcommits;
    cbn [fst snd with_db db users set_users].
  - split; [|discriminate]. now apply healed_accounts.
  - split; [|discriminate]. now apply healed_accounts.
  - split; [apply Forall2_same; now left|reflexivity].
Qed.

(** X7.  When an account of the institution already has a legacy
    identifier, the healer returns the identifier of the first such account
    and asks the registry of institutions nothing: whatever the upstream
    would have answered, the result and the state are the same. *)
Theorem healer_prefers_local_id env env' ror_id w u :
  str_truthy ror_id = true ->
  find (fun u => of_ror ror_id u && negb (lacks_grid u)) (users (db w)) = Some u ->
  truthy (u_grid_id u) = true ->
  fst (ensure_and_heal_grid_for_ror env ror_id w) = u_grid_id u
  /\ ensure_and_heal_grid_for_ror env' ror_id w
     = ensure_and_heal_grid_for_ror env ror_id w.
Proof.
  intros Hror Hfind Hu. unfold ensure_and_heal_grid_for_ror.
  rewrite Hror, Hfind, Hu. cbn [negb]. rewrite Hu. split; [|reflexivity].
  destruct (filter _ (users (db w))); [reflexivity|].
  now destruct (commit w) as [[|text] w1].
Qed.

Lemma healer_prefers_local_id_witness :
  fst (ensure_and_heal_grid_for_ror silent_env "02ap3w078" staffed_world)
  = JStr "grid.424112.0"
  /\ ensure_and_heal_grid_for_ror ror_env "02ap3w078" staffed_world
     = ensure_and_heal_grid_for_ror silent_env "02ap3w078" staffed_world.
Proof.
  apply (healer_prefers_local_id silent_env ror_env "02ap3w078" staffed_world
           (mkUser (Some "02ap3w078") (JStr "grid.424112.0") (Some "APP-MANAGER")));
    reflexivity.
Defined.

(** X8.  When the healer returns an identifier and its commit goes through,
    no account of the institution is left without a legacy identifier, and
    calling the healer again returns the same identifier and writes
    nothing. *)
Theorem healer_completes_institution env ror_id w :
  truthy (fst (ensure_and_heal_grid_for_ror env ror_id w)) = true ->
  hd Committed (commits w) = Committed ->
  let w' := snd (ensure_and_heal_grid_for_ror env ror_id w) in
  Forall (fun u => of_ror ror_id u = true -> lacks_grid u = false) (users (db w'))
  /\ ensure_and_heal_grid_for_ror env ror_id w'
     = (fst (ensure_and_heal_grid_for_ror env ror_id w), w').
Proof.
  cbv zeta. unfold ensure_and_heal_grid_for_ror.
  destruct (negb (str_truthy ror_id)) eqn:Hror; [discriminate|].
  set (has_grid := fun u => of_ror ror_id u && negb (lacks_grid u)).
  set (needs := fun u => of_ror ror_id u && lacks_grid u).
  set (local := match find has_grid (users (db w)) with
                | Some u => u_grid_id u
                | None => JNull
                end).
  set (g := if negb (truthy local) then fetch_grid_from_ror env ror_id else local).
  destruct (truthy g) eqn:Hg; [|cbn [fst]; congruence].
  intros _ Hcommit.
  destruct (filter needs (users (db w))) as [|u0 us] eqn:Hneeds.
  - cbn [fst snd]. fold has_grid. fold local. fold g. rewrite Hg.
    fold needs. rewrite Hneeds. split; [|reflexivity].
    apply Forall_forall. intros u Hin Hu.
    destruct (lacks_grid u) eqn:Hl; [|reflexivity].
    assert (Hf : In u (filter needs (users (db w)))).
    { apply filter_In. split; [exact Hin|]. subst needs. cbv beta.
      now rewrite Hu, Hl. }
    rewrite Hneeds in Hf. destruct Hf.
  - assert (Hw1 : exists w1, commit w = (Committed, w1) /\ db w1 = db w).
    { unfold commit. destruct (commits w) as [|o rest]; [now eexists|].
      cbn [hd] in Hcommit. subst o. now eexists. }
    destruct Hw1 as [w1 [-> Hdb]].
    cbn [fst snd with_db db users set_users]. rewrite Hdb.
    pose proof (heal_local_grid ror_id g Hg (users (db w))) as Hlocal.
    pose proof (heal_needs_nothing ror_id g Hg (users (db w))) as Hnone.
    subst needs has_grid. cbv beta in *. rewrite Hnone. split.
    + apply Forall_forall. intros u Hin Hu.
      apply in_map_iff in Hin. destruct Hin as [u1 [<- _]].
      destruct (of_ror ror_id u1 && lacks_grid u1) eqn:Hn.
      * apply (healed_has_grid g Hg).
      * destruct (of_ror ror_id u1); [exact Hn|discriminate].
    + destruct Hlocal as [->| ->].
      * rewrite Hg. cbn [negb]. now rewrite Hg.
      * fold local. fold g. now rewrite Hg.
Qed.

Lemma healer_completes_institution_witness :
  Forall (fun u => of_ror "05abc1234" u = true -> lacks_grid u = false)
         (users (db (snd (ensure_and_heal_grid_for_ror ror_env "05abc1234"
                            staffed_world))))
  /\ fst (ensure_and_heal_grid_for_ror ror_env "05abc1234" staffed_world)
     = JStr "grid.7.1".
Proof.
  destruct (healer_completes_institution ror_env "05abc1234" staffed_world
              eq_refl eq_refl) as [Hall _].
  split; [exact Hall|reflexivity].
Defined.
(** ** The registry of institutions *)

Lemma first_grid_skips before entry after :
  Forall (fun e => exists t, py_get e "type" = Ok t /\ eq_str t "grid" = false)
         before ->
  py_get entry "type" = Ok (JStr "grid") ->
  first_grid (before ++ entry :: after) = preferred_or_first entry.
Proof.
  intros Hbefore Hentry. induction Hbefore as [|e before [t [Ht Hne]] _ IH].
  - cbn [app first_grid]. rewrite Hentry. reflexivity.
  - cbn [app first_grid]. rewrite Ht. cbn [bind]. rewrite Hne. exact IH.
Qed.

(** X9.  The lookup of the legacy identifier reads both schemas of the
    registry alike: with the modern list the first entry of type grid
    decides, whatever follows it, and the answer is what the legacy
    dictionary gives for the same entry; the preferred identifier wins, and
    the first of all identifiers stands in when there is none. *)
Theorem ror_schemas_agree env1 env2 ror_id data1 data2 before entry after ids :
  str_truthy ror_id = true ->
  http env1 (RorRequest ror_id) 1 = Resp (mkResponse 200 (Some (JDict data1))) ->
  assoc "external_ids" data1 = Some (JList (before ++ entry :: after)) ->
  Forall (fun e => exists t, py_get e "type" = Ok t /\ eq_str t "grid" = false)
         before ->
  py_get entry "type" = Ok (JStr "grid") ->
  http env2 (RorRequest ror_id) 1 = Resp (mkResponse 200 (Some (JDict data2))) ->
  assoc "external_ids" data2 = Some (JDict ids) ->
  assoc "GRID" ids = Some entry ->
  fetch_grid_from_ror env1 ror_id = fetch_grid_from_ror env2 ror_id
  /\ (forall e preferred,
        entry = JDict e -> assoc "preferred" e = Some preferred ->
        truthy preferred = true ->
        fetch_grid_from_ror env1 ror_id = preferred)
  /\ (forall e first others,
        entry = JDict e ->
        match assoc "preferred" e with
        | Some preferred => truthy preferred = false
        | None => True
        end ->
        assoc "all" e = Some (JList (first :: others)) ->
        fetch_grid_from_ror env1 ror_id = first).
Proof.
  intros Hror H1 Hids1 Hbefore Hentry H2 Hids2 Hgrid.
  assert (Hfetch1 : fetch_grid_from_ror env1 ror_id
                    = match preferred_or_first entry with
                      | Ok grid => grid
                      | Raise _ => JNull
                      end).
  { unfold fetch_grid_from_ror. rewrite Hror, H1. cbn [negb status_code body Nat.eqb].
    unfold parse_grid, py_get_or. rewrite Hids1. cbn [bind].
    now rewrite (first_grid_skips before entry after Hbefore Hentry). }
  assert (Hfetch2 : fetch_grid_from_ror env2 ror_id
                    = match preferred_or_first entry with
                      | Ok grid => grid
                      | Raise _ => JNull
                      end).
  { unfold fetch_grid_from_ror. rewrite Hror, H2. cbn [negb status_code body Nat.eqb].
    unfold parse_grid. cbn [py_get_or]. rewrite Hids2. cbn [bind py_get_or].
    now rewrite Hgrid. }
  split; [congruence|]. rewrite Hfetch1. split.
  - intros e preferred -> Hp Htruthy.
    unfold preferred_or_first, py_get, py_get_or. rewrite Hp. cbn [bind].
    now rewrite Htruthy.
  - intros e first others -> Hp Hall.
    unfold preferred_or_first, py_get, py_get_or, py_item. rewrite Hall.
    destruct (assoc "preferred" e) as [preferred|]; cbn [bind].
    + rewrite Hp. reflexivity.
    + reflexivity.
Qed.

Lemma ror_schemas_agree_witness :
  fetch_grid_from_ror ror_env "05abc1234" = JStr "grid.7.1"
  /\ fetch_grid_from_ror ror_env "05abc1234"
     = fetch_grid_from_ror legacy_ror_env "05abc1234".
Proof.
  assert (Hbefore : Forall (fun e => exists t, py_get e "type" = Ok t
                                               /\ eq_str t "grid" = false)
                           [isni_entry]).
  { constructor; [|constructor]. exists (JStr "isni"). split; reflexivity. }
  destruct (ror_schemas_agree ror_env legacy_ror_env "05abc1234"
              [("id", JStr "https://ror.org/05abc1234");
               ("external_ids", JList [isni_entry; grid_entry])]
              [("external_ids", JDict [("GRID", grid_entry)])]
              [isni_entry] grid_entry [] [("GRID", grid_entry)]
              eq_refl eq_refl eq_refl Hbefore
              eq_refl eq_refl eq_refl eq_refl) as [Hsame [_ Hfirst]].
  split; [|exact Hsame].
  apply (Hfirst [("type", JStr "grid"); ("preferred", JNull);
                 ("all", JList [JStr "grid.7.1"; JStr "grid.7.2"])]
                (JStr "grid.7.1") [JStr "grid.7.2"]); reflexivity.
Defined.
Section RorAddressFacts.

Local Open Scope string_scope.

Lemma lstrip_slash p x :
  exists q, lstrip (p ++ String "/" x) = q ++ String "/" x.
Proof.
  induction p as [|c p IH].
  - exists EmptyString. reflexivity.
  - cbn [append lstrip]. destruct (is_space c); [exact IH|].
    now exists (String c p).
Qed.

Lemma rstrip_app a b :
  rstrip b <> EmptyString -> rstrip (a ++ b) = a ++ rstrip b.
Proof.
  intros Hb. induction a as [|c a IH]; [reflexivity|].
  cbn [append rstrip]. rewrite IH.
  destruct (a ++ rstrip b) eqn:Hab; [|reflexivity].
  destruct a; [cbn in Hab; contradiction|discriminate].
Qed.

Lemma rstrip_slashes_app a b :
  rstrip_slashes b <> EmptyString ->
  rstrip_slashes (a ++ b) = a ++ rstrip_slashes b.
Proof.
  intros Hb. induction a as [|c a IH]; [reflexivity|].
  cbn [append rstrip_slashes]. rewrite IH.
  destruct (a ++ rstrip_slashes b) eqn:Hab; [|reflexivity].
  destruct a; [cbn in Hab; contradiction|discriminate].
Qed.

Lemma rstrip_slashes_plain s : has_slash s = false -> rstrip_slashes s = s.
Proof.
  induction s as [|c s IH]; [reflexivity|]. cbn [has_slash rstrip_slashes].
  intros H. apply orb_false_iff in H. destruct H as [Hc Hs].
  rewrite (IH Hs), Hc. now destruct s.
Qed.

Lemma rstrip_slashes_trailing s :
  has_slash s = false -> rstrip_slashes (s ++ "/") = s.
Proof.
  induction s as [|c s IH]; [reflexivity|]. cbn [has_slash append rstrip_slashes].
  intros H. apply orb_false_iff in H. destruct H as [Hc Hs].
  rewrite (IH Hs), Hc. now destruct s.
Qed.

Lemma last_segment_plain s : has_slash s = false -> last_segment s = s.
Proof.
  destruct s as [|c s]; [reflexivity|]. cbn [has_slash last_segment].
  intros H. apply orb_false_iff in H. destruct H as [Hc Hs].
  now rewrite Hs, Hc.
Qed.

Lemma has_slash_app a b : has_slash (a ++ b) = has_slash a || has_slash b.
Proof.
  induction a as [|c a IH]; [reflexivity|]. cbn [append has_slash].
  now rewrite IH, orb_assoc.
Qed.

Lemma last_segment_app q x :
  has_slash x = false -> last_segment (q ++ String "/" x) = x.
Proof.
  intros Hx. induction q as [|c q IH].
  - cbn [append last_segment]. rewrite Hx. reflexivity.
  - cbn [append last_segment]. rewrite has_slash_app. cbn [has_slash].
    cbn [Ascii.eqb Bool.eqb]. now rewrite orb_true_r.
Qed.

Lemma last_segment_no_slash s : has_slash (last_segment s) = false.
Proof.
  induction s as [|c s IH]; [reflexivity|]. cbn [last_segment].
  destruct (has_slash s) eqn:Hs; [exact IH|].
  destruct (Ascii.eqb c "/") eqn:Hc; [exact Hs|].
  cbn [has_slash]. now rewrite Hc, Hs.
Qed.

End RorAddressFacts.

(** X10.  The lookup asks the same address for an identifier given bare,
    given as a URL, or given as a URL with a closing slash, and the part of
    the identifier that goes into the address never holds a slash. *)
Theorem ror_address_normal_form id prefix :
  id <> EmptyString -> has_slash id = false ->
  lstrip id = id -> rstrip id = id ->
  clean_ror id = id
  /\ clean_ror (prefix ++ String "/" id)%string = id
  /\ clean_ror (prefix ++ String "/" (id ++ "/"))%string = id
  /\ api_url (prefix ++ String "/" id)%string = api_url id
  /\ forall s, has_slash (clean_ror s) = false.
Proof.
  intros Hid Hplain Hl Hr.
  assert (Hbare : clean_ror id = id).
  { unfold clean_ror, strip. rewrite Hl, Hr, (rstrip_slashes_plain _ Hplain).
    now apply last_segment_plain. }
  assert (Hurl : clean_ror (prefix ++ String "/" id)%string = id).
  { unfold clean_ror, strip.
    destruct (lstrip_slash prefix id) as [q ->].
    rewrite (rstrip_app q (String "/" id)).
    - change (rstrip (String "/" id))
        with (match rstrip id with
              | EmptyString => String "/" EmptyString
              | r' => String "/" r'
              end).
      rewrite Hr. destruct id as [|c id]; [contradiction|].
      rewrite (rstrip_slashes_app q).
      + change (rstrip_slashes (String "/" (String c id)))
          with (match rstrip_slashes (String c id) with
                | EmptyString => EmptyString
                | r' => String "/" r'
                end).
        rewrite (rstrip_slashes_plain _ Hplain). now apply last_segment_app.
      + change (rstrip_slashes (String "/" (String c id)))
          with (match rstrip_slashes (String c id) with
                | EmptyString => EmptyString
                | r' => String "/" r'
                end).
        rewrite (rstrip_slashes_plain _ Hplain). discriminate.
    - change (rstrip (String "/" id))
        with (match rstrip id with
              | EmptyString => String "/" EmptyString
              | r' => String "/" r'
              end).
      destruct (rstrip id); discriminate. }
  split; [exact Hbare|]. split; [exact Hurl|]. split.
  - unfold clean_ror, strip.
    destruct (lstrip_slash prefix (id ++ "/")) as [q ->].
    assert (Hlast : rstrip (id ++ "/") = (id ++ "/")%string).
    { rewrite rstrip_app; [reflexivity|]. discriminate. }
    rewrite (rstrip_app q (String "/" (id ++ "/"))).
    + change (rstrip (String "/" (id ++ "/")))
        with (match rstrip (id ++ "/") with
              | EmptyString => String "/" EmptyString
              | r' => String "/" r'
              end).
      rewrite Hlast. destruct id as [|c id]; [contradiction|].
      cbn [append].
      rewrite (rstrip_slashes_app q).
      * change (rstrip_slashes (String "/" (String c (id ++ "/"))))
          with (match rstrip_slashes (String c id ++ "/") with
                | EmptyString => EmptyString
                | r' => String "/" r'
                end).
        rewrite (rstrip_slashes_trailing _ Hplain). now apply last_segment_app.
      * change (rstrip_slashes (String "/" (String c (id ++ "/"))))
          with (match rstrip_slashes (String c id ++ "/") with
                | EmptyString => EmptyString
                | r' => String "/" r'
                end).
        rewrite (rstrip_slashes_trailing _ Hplain). discriminate.
    + change (rstrip (String "/" (id ++ "/")))
        with (match rstrip (id ++ "/") with
              | EmptyString => String "/" EmptyString
              | r' => String "/" r'
              end).
      destruct (rstrip (id ++ "/")); discriminate.
  - split; [unfold api_url; now rewrite Hurl, Hbare|].
    intros s. apply last_segment_no_slash.
Qed.

Lemma ror_address_normal_form_witness :
  clean_ror "https://ror.org/02ap3w078" = "02ap3w078"
  /\ clean_ror "https://ror.org/02ap3w078/" = "02ap3w078"
  /\ api_url "https://ror.org/02ap3w078" = api_url "02ap3w078".
Proof.
  destruct (ror_address_normal_form "02ap3w078" "https://ror.org")
    as [_ [Hurl [Hslash [Haddress _]]]];
    [discriminate|reflexivity|reflexivity|reflexivity|].
  split; [exact Hurl|]. split; [exact Hslash|exact Haddress].
Defined.
(** ** The fetcher, whatever the server answers *)

Lemma slept_app t1 t2 : slept (t1 ++ t2) = slept t1 + slept t2.
Proof.
  induction t1 as [|[a|m] t1 IH]; cbn [app slept]; [reflexivity|exact IH|].
  rewrite IH. lia.
Qed.

Lemma attempts_app t1 t2 : attempts (t1 ++ t2) = attempts t1 ++ attempts t2.
Proof.
  induction t1 as [|[a|m] t1 IH]; cbn [app attempts]; [reflexivity| |exact IH].
  now rewrite IH.
Qed.

Lemma last_behind {A} (l t : list A) e d : last (l ++ e :: t) d = last (e :: t) d.
Proof.
  induction l as [|x l IH]; [reflexivity|].
  cbn [app]. change (last (x :: l ++ e :: t) d)
    with (match l ++ e :: t with [] => x | _ => last (l ++ e :: t) d end).
  rewrite IH. now destruct l.
Qed.

Lemma safe_get_loop_bounds server retries remaining : forall attempt,
  let r := safe_get_loop server retries remaining attempt in
  (exists k, k <= remaining /\ attempts (snd r) = seq attempt k)
  /\ slept (snd r) + 1000 * remaining <= 1000 * remaining * (2 * attempt + remaining)
  /\ (forall response, fst r = Some response ->
        (status_code response = 200 \/ status_code response = 404)
        /\ exists a, attempt <= a < attempt + remaining
                     /\ server a = Resp response
                     /\ last (snd r) (Sleep 0) = Get a).
Proof.
  induction remaining as [|remaining IH]; intros attempt; cbv zeta.
  - cbn [safe_get_loop fst snd]. split; [exists 0; split; [lia|reflexivity]|].
    split; [cbn; lia|discriminate].
  - specialize (IH (S attempt)). cbv zeta in IH.
    destruct IH as [[k [Hk Hseq]] [Hslept Hsome]].
    assert (Hpause : forall pause,
               pause = [] \/ pause = [Sleep (500 * attempt)]
               \/ pause = [Sleep (2 * attempt * 1000)] ->
               let t := Get attempt :: pause
                        ++ snd (safe_get_loop server retries remaining (S attempt)) in
               (exists k, k <= S remaining /\ attempts t = seq attempt k)
               /\ slept t + 1000 * S remaining
                  <= 1000 * S remaining * (2 * attempt + S remaining)).
    { intros pause Hp. cbv zeta. split.
      - exists (S k). split; [lia|]. cbn [attempts seq]. rewrite attempts_app, Hseq.
        now destruct Hp as [->|[->| ->]].
      - cbn [slept]. rewrite slept_app.
        assert (slept pause <= 2000 * attempt)
          by (destruct Hp as [->|[->| ->]]; cbn [slept]; lia).
        nia. }
    assert (Hnext : forall response pause,
               fst (safe_get_loop server retries remaining (S attempt)) = Some response ->
               (status_code response = 200 \/ status_code response = 404)
               /\ exists a, attempt <= a < attempt + S remaining
                            /\ server a = Resp response
                            /\ last (Get attempt :: pause
                                     ++ snd (safe_get_loop server retries remaining
                                               (S attempt))) (Sleep 0) = Get a).
    { intros response pause Hr.
      destruct (Hsome response Hr) as [Hstatus [a [Ha [Hserver Hlast]]]].
      split; [exact Hstatus|]. exists a. split; [lia|]. split; [exact Hserver|].
      destruct (snd (safe_get_loop server retries remaining (S attempt)))
        as [|e t] eqn:Ht; [discriminate|].
      change (Get attempt :: pause ++ e :: t)
        with ((Get attempt :: pause) ++ e :: t).
      rewrite last_behind. exact Hlast. }
    assert (Hone : (exists k, k <= S remaining /\ attempts [Get attempt] = seq attempt k)
                   /\ slept [Get attempt] + 1000 * S remaining
                      <= 1000 * S remaining * (2 * attempt + S remaining)).
    { split; [exists 1; split; [lia|reflexivity]|]. cbn [slept]. nia. }
    cbn [safe_get_loop].
    destruct (server attempt) as [response|text] eqn:Hserver.
    + destruct (status_code response =? 200) eqn:H200; cbn [fst snd].
      { destruct Hone as [H1 H2]. split; [exact H1|]. split; [exact H2|].
        intros response' [= <-]. apply Nat.eqb_eq in H200.
        split; [now left|]. exists attempt. split; [lia|]. now split. }
      destruct (status_code response =? 429) eqn:H429; cbn [fst snd].
      { destruct (Hpause [Sleep (2 * attempt * 1000)]) as [H1 H2]; [auto|].
        split; [exact H1|]. split; [exact H2|].
        intros response' Hr. exact (Hnext response' [Sleep (2 * attempt * 1000)] Hr). }
      destruct (status_code response =? 404) eqn:H404; cbn [fst snd].
      { destruct Hone as [H1 H2]. split; [exact H1|]. split; [exact H2|].
        intros response' [= <-]. apply Nat.eqb_eq in H404.
        split; [now right|]. exists attempt. split; [lia|]. now split. }
      destruct ((status_code response =? 401) || (status_code response =? 403));
        cbn [fst snd].
      { destruct Hone as [H1 H2]. split; [exact H1|]. split; [exact H2|].
        discriminate. }
      destruct (Hpause (if attempt <? retries then [Sleep (500 * attempt)] else []))
        as [H1 H2]; [destruct (attempt <? retries); auto|].
      split; [exact H1|]. split; [exact H2|].
      intros response' Hr. exact (Hnext response' _ Hr).
    + cbn [fst snd].
      destruct (Hpause (if attempt <? retries then [Sleep (500 * attempt)] else []))
        as [H1 H2]; [destruct (attempt <? retries); auto|].
      split; [exact H1|]. split; [exact H2|].
      intros response' Hr. exact (Hnext response' _ Hr).
Qed.

(** X11.  Whatever the server answers, one fetch issues at most [retries]
    requests, numbered 1, 2, ... in order, and pauses no longer than
    [retries * (retries + 1)] seconds in all; a response it hands back has
    status 200 or 404 and is the answer to the last request it issued. *)
Theorem safe_get_bounds server retries :
  requests (snd (safe_get server retries)) <= retries
  /\ attempts (snd (safe_get server retries))
     = seq 1 (requests (snd (safe_get server retries)))
  /\ slept (snd (safe_get server retries)) <= 1000 * retries * (retries + 1)
  /\ (forall response,
        fst (safe_get server retries) = Some response ->
        (status_code response = 200 \/ status_code response = 404)
        /\ exists attempt,
            1 <= attempt <= retries
            /\ server attempt = Resp response
            /\ last (snd (safe_get server retries)) (Sleep 0) = Get attempt).
Proof.
  unfold safe_get.
  pose proof (safe_get_loop_bounds server retries retries 1) as H.
  cbv zeta in H. destruct H as [[k [Hk Hseq]] [Hslept Hsome]].
  assert (Hreq : forall t, requests t = List.length (attempts t)).
  { induction t as [|[a|m] t IH]; cbn; [reflexivity| |exact IH].
    unfold requests in IH. now rewrite IH. }
  rewrite !Hreq, Hseq, length_seq.
  split; [exact Hk|]. split; [reflexivity|]. split; [nia|].
  intros response Hr. destruct (Hsome response Hr) as [Hstatus [a [Ha Hrest]]].
  split; [exact Hstatus|]. exists a. split; [lia|exact Hrest].
Qed.
(** ** The headers of a fetch *)

Section HeaderFacts.

Local Open Scope string_scope.

Lemma header_set_header k k' v h :
  header k (set_header k' v h) = if String.eqb k k' then Some v else header k h.
Proof.
  induction h as [|[k0 v0] h IH]; cbn [set_header header].
  - reflexivity.
  - destruct (String.eqb_spec k' k0) as [->|Hne]; cbn [header].
    + now destruct (String.eqb k k0).
    + rewrite IH. destruct (String.eqb_spec k k0) as [->|Hne'].
      * destruct (String.eqb_spec k0 k'); [congruence|reflexivity].
      * reflexivity.
Qed.

Lemma set_header_same k v h : header k h = Some v -> set_header k v h = h.
Proof.
  induction h as [|[k0 v0] h IH]; cbn [set_header header]; [discriminate|].
  destruct (String.eqb_spec k k0) as [->|Hne].
  - now intros [= ->].
  - intros H. now rewrite (IH H).
Qed.

Lemma rstrip_rstrip s : rstrip (rstrip s) = rstrip s.
Proof.
  induction s as [|c s IH]; [reflexivity|]. cbn [rstrip].
  destruct (rstrip s) as [|c' s'] eqn:Hs.
  - destruct (is_space c) eqn:Hc; [reflexivity|]. cbn [rstrip]. now rewrite Hc.
  - cbn [rstrip] in IH |- *. cbn [rstrip]. now rewrite IH.
Qed.

Lemma strip_bearer a :
  rstrip a = a -> a <> EmptyString -> strip ("Bearer " ++ a) = "Bearer " ++ a.
Proof.
  intros Ha Hne. unfold strip.
  change (lstrip ("Bearer " ++ a)) with ("Bearer " ++ a).
  rewrite rstrip_app; rewrite Ha; [reflexivity|exact Hne].
Qed.

End HeaderFacts.

(** X12.  The header preparation of the fetcher keeps every header of the
    caller but [Authorization], names the registry's media type only when
    the caller names none, and leaves an [Authorization] value that is not
    blank beginning with the scheme, either untouched or with the scheme put
    before its stripped text; preparing twice is then the same as preparing
    once.  A blank value becomes the bare scheme.  The headers the profile
    worker builds from a token that is not blank are sent as built. *)
Theorem prepared_headers hdrs :
  (forall k v, k <> "Authorization" ->
      header k (copy_or_empty hdrs) = Some v ->
      header k (prepare_headers hdrs) = Some v)
  /\ (header "Accept" (copy_or_empty hdrs) = None ->
      header "Accept" (prepare_headers hdrs) = Some "application/vnd.orcid+json")
  /\ (header "Authorization" (copy_or_empty hdrs) = None ->
      header "Authorization" (prepare_headers hdrs) = None)
  /\ (forall v, header "Authorization" (copy_or_empty hdrs) = Some v ->
      if String.eqb (strip v) EmptyString
      then header "Authorization" (prepare_headers hdrs) = Some "Bearer "
      else exists sent,
          header "Authorization" (prepare_headers hdrs) = Some sent
          /\ starts_with "bearer " (lower (strip sent)) = true
          /\ (sent = v \/ sent = ("Bearer " ++ strip v)%string)
          /\ prepare_headers (Some (prepare_headers hdrs)) = prepare_headers hdrs)
  /\ (header "Authorization" (copy_or_empty hdrs) = None ->
      prepare_headers (Some (prepare_headers hdrs)) = prepare_headers hdrs)
  /\ (forall token, rstrip token <> EmptyString ->
      prepare_headers (Some (profile_headers token)) = profile_headers token).
Proof.
  unfold prepare_headers. set (h := copy_or_empty hdrs).
  set (h1 := match header "Accept" h with
             | None => set_header "Accept" "application/vnd.orcid+json" h
             | Some _ => h
             end).
  assert (Hkeep : forall k v, header k h = Some v -> header k h1 = Some v).
  { intros k v Hk. subst h1. destruct (header "Accept" h) eqn:Ha; [exact Hk|].
    rewrite header_set_header. destruct (String.eqb_spec k "Accept"); [congruence|].
    exact Hk. }
  assert (Hauth : header "Authorization" h1 = header "Authorization" h).
  { subst h1. destruct (header "Accept" h); [reflexivity|].
    now rewrite header_set_header. }
  assert (Haccept : exists a, header "Accept" h1 = Some a).
  { subst h1. destruct (header "Accept" h) as [a|] eqn:Ha; [now exists a|].
    rewrite header_set_header. now eexists. }
  assert (Hagain : forall h2,
             (exists a, header "Accept" h2 = Some a) ->
             match header "Authorization" h2 with
             | Some sent => starts_with "bearer " (lower (strip sent)) = true
             | None => True
             end ->
             (let req := copy_or_empty (Some h2) in
              let req := match header "Accept" req with
                         | None => set_header "Accept" "application/vnd.orcid+json" req
                         | Some _ => req
                         end in
              match header "Authorization" req with
              | Some v =>
                if negb (starts_with "bearer " (lower (strip v)))
                then set_header "Authorization" ("Bearer " ++ strip v)%string req
                else req
              | None => req
              end) = h2).
  { intros h2 [a Ha] Hs. cbv zeta. cbn [copy_or_empty]. rewrite Ha.
    destruct (header "Authorization" h2); [|reflexivity].
    rewrite Hs. reflexivity. }
  split; [|split; [|split; [|split; [|split]]]].
  - intros k v Hne Hk. apply Hkeep in Hk.
    destruct (header "Authorization" h1) as [v0|]; [|exact Hk]. cbv zeta.
    destruct (negb _); [|exact Hk].
    rewrite header_set_header.
    destruct (String.eqb_spec k "Authorization"); [contradiction|exact Hk].
  - intros Hnone. assert (Ha : header "Accept" h1 = Some "application/vnd.orcid+json").
    { subst h1. rewrite Hnone. now rewrite header_set_header. }
    destruct (header "Authorization" h1) as [v0|]; [|exact Ha]. cbv zeta.
    destruct (negb _); [|exact Ha]. now rewrite header_set_header.
  - intros Hnone. rewrite Hauth, Hnone. now rewrite Hauth.
  - intros v Hv. rewrite Hauth, Hv. cbv zeta.
    destruct (String.eqb_spec (strip v) EmptyString) as [Hblank|Hblank].
    + rewrite Hblank. cbn [lower starts_with negb].
      now rewrite header_set_header.
    + destruct (starts_with "bearer " (lower (strip v))) eqn:Hs; cbn [negb].
      * exists v. rewrite Hauth. split; [exact Hv|]. split; [exact Hs|].
        split; [now left|]. apply Hagain; [exact Haccept|].
        now rewrite Hauth, Hv.
      * exists ("Bearer " ++ strip v)%string. rewrite header_set_header.
        cbn [String.eqb Ascii.eqb Bool.eqb andb].
        assert (Hsent : starts_with "bearer "
                          (lower (strip ("Bearer " ++ strip v)%string)) = true).
        { rewrite strip_bearer; [reflexivity| |exact Hblank].
          unfold strip. apply rstrip_rstrip. }
        split; [reflexivity|]. split; [exact Hsent|]. split; [now right|].
        apply Hagain.
        -- destruct Haccept as [a Ha]. exists a. now rewrite header_set_header.
        -- now rewrite header_set_header.
  - intros Hnone. rewrite Hauth, Hnone. apply Hagain; [exact Haccept|].
    now rewrite Hauth, Hnone.
  - intros token Htoken. apply Hagain; [now eexists|].
    cbn [profile_headers header String.eqb Ascii.eqb Bool.eqb andb].
    unfold strip. change (lstrip ("Bearer " ++ token)) with ("Bearer " ++ token)%string.
    now rewrite rstrip_app.
Qed.
(** ** The token cache *)

(** X13.  A token obtained from an exchange is handed out again, with no
    exchange asked for and whatever the configuration has become, by every
    call whose clock reads earlier than sixty seconds before the token runs
    out; a lifetime of sixty seconds or less is never reused; and a call
    that asks for no exchange hands out either nothing or a cached token
    that one of its readings found not yet expired. *)
Theorem token_is_reused_until_expiry :
  (forall conf data token lifetime t1 t2 t3 st r st',
      get_client_credentials_token conf (Answer data) t1 t2 t3 st
      = (Ok r, st', true) ->
      py_get data "access_token" = Ok token -> truthy token = true ->
      py_get_or data "expires_in" (JNum 6300) = Ok (JNum lifetime) ->
      r = token
      /\ st' = mkTokenState token (t3 + lifetime * second - 60 * second)%Z
      /\ (forall conf' post now now2 now3,
             (now < t3 + (lifetime - 60) * second)%Z ->
             get_client_credentials_token conf' post now now2 now3 st'
             = (Ok token, st', false))
      /\ ((lifetime <= 60)%Z ->
          forall now, (t3 <= now)%Z -> fresh st' now = false))
  /\ (forall conf post t1 t2 t3 st r st',
      get_client_credentials_token conf post t1 t2 t3 st = (r, st', false) ->
      st' = st
      /\ (r = Ok JNull
          \/ (r = Ok (cached_token st) /\ truthy (cached_token st) = true
              /\ ((t1 < token_expiry st)%Z \/ (t2 < token_expiry st)%Z)))).
Proof.
  split.
  - intros conf data token lifetime t1 t2 t3 st r st' Hrun Htoken Htruthy Hlife.
    unfold get_client_credentials_token in Hrun.
    destruct (fresh st t1); [discriminate|].
    destruct (fresh st t2); [discriminate|].
    destruct (negb _); [discriminate|].
    rewrite Htoken, Hlife, Htruthy in Hrun. unfold expiry_after in Hrun.
    injection Hrun as <- <-.
    split; [reflexivity|]. split; [reflexivity|]. split.
    + intros conf' post now now2 now3 Hnow. unfold get_client_credentials_token, fresh.
      cbn [cached_token token_expiry]. rewrite Htruthy. cbn [andb].
      match goal with |- context [(now <? ?e)%Z] =>
        assert (Hlt : (now <? e)%Z = true)
          by (apply Z.ltb_lt; unfold second in *; lia);
        now rewrite Hlt
      end.
    + intros Hshort now Hnow. unfold fresh. cbn [cached_token token_expiry].
      match goal with |- context [(now <? ?e)%Z] =>
        assert (Hge : (now <? e)%Z = false)
          by (apply Z.ltb_ge; unfold second in *; lia);
        rewrite Hge
      end.
      apply andb_false_r.
  - intros conf post t1 t2 t3 st r st' Hrun.
    unfold get_client_credentials_token in Hrun.
    destruct (fresh st t1) eqn:H1.
    { injection Hrun as <- <-. split; [reflexivity|]. right.
      unfold fresh in H1. apply andb_prop in H1. destruct H1 as [Ht Hlt].
      apply Z.ltb_lt in Hlt. auto. }
    destruct (fresh st t2) eqn:H2.
    { injection Hrun as <- <-. split; [reflexivity|]. right.
      unfold fresh in H2. apply andb_prop in H2. destruct H2 as [Ht Hlt].
      apply Z.ltb_lt in Hlt. auto. }
    destruct (negb _).
    { injection Hrun as <- <-. split; [reflexivity|]. now left. }
    destruct post as [data|text|e]; try discriminate.
    destruct (py_get data "access_token") as [token|e]; [|discriminate].
    destruct (py_get_or data "expires_in" (JNum 6300)) as [expires_in|e];
      [|discriminate].
    destruct (truthy token); [|discriminate].
    destruct (expiry_after t3 expires_in); discriminate.
Qed.

Lemma token_is_reused_until_expiry_witness :
  get_client_credentials_token sample_credentials token_answer 5 6 7 no_token
  = (Ok (JStr "abc"), mkTokenState (JStr "abc") 3540000007, true)
  /\ get_client_credentials_token (mkCredentials None None None)
       (RequestFailure "down") 3540000006 3540000008 3540000009
       (mkTokenState (JStr "abc") 3540000007)
     = (Ok (JStr "abc"), mkTokenState (JStr "abc") 3540000007, false).
Proof.
  destruct token_is_reused_until_expiry as [Hreuse _].
  destruct (Hreuse sample_credentials
              (JDict [("access_token", JStr "abc"); ("expires_in", JNum 3600)])
              (JStr "abc") 3600%Z 5%Z 6%Z 7%Z no_token (JStr "abc")
              (mkTokenState (JStr "abc") 3540000007) eq_refl eq_refl eq_refl eq_refl)
    as [_ [_ [Hlater _]]].
  split; [reflexivity|].
  apply Hlater. reflexivity.
Defined.

(** X14.  An exchange that fails, or that answers without a token, leaves
    the cache as it was and nothing is handed out, even when a stale token
    is cached; without one of the three settings no exchange is asked for;
    and a lifetime that is not a number raises after the new token has been
    cached under the old expiry. *)
Theorem failed_exchange_keeps_cache conf t1 t2 t3 st :
  fresh st t1 = false -> fresh st t2 = false ->
  (opt_truthy (token_url conf) && opt_truthy (client_id conf)
   && opt_truthy (client_secret conf) = false ->
   forall post,
     get_client_credentials_token conf post t1 t2 t3 st = (Ok JNull, st, false))
  /\ (opt_truthy (token_url conf) && opt_truthy (client_id conf)
      && opt_truthy (client_secret conf) = true ->
      (forall text,
          get_client_credentials_token conf (RequestFailure text) t1 t2 t3 st
          = (Ok JNull, st, true))
      /\ (forall e,
          get_client_credentials_token conf (OtherFailure e) t1 t2 t3 st
          = (Raise e, st, true))
      /\ (forall d,
          truthy (match assoc "access_token" d with Some v => v | None => JNull end)
          = false ->
          get_client_credentials_token conf (Answer (JDict d)) t1 t2 t3 st
          = (Ok JNull, st, true))
      /\ (forall d token lifetime,
          assoc "access_token" d = Some token -> truthy token = true ->
          assoc "expires_in" d = Some lifetime ->
          (forall n, lifetime <> JNum n) -> (forall b, lifetime <> JBool b) ->
          exists e,
            get_client_credentials_token conf (Answer (JDict d)) t1 t2 t3 st
            = (Raise e, mkTokenState token (token_expiry st), true))).
Proof.
  intros H1 H2. unfold get_client_credentials_token. rewrite H1, H2. split.
  - intros ->. reflexivity.
  - intros ->. cbn [negb]. split; [reflexivity|]. split; [reflexivity|]. split.
    + intros d Hfalsy. unfold py_get. cbn [py_get_or]. now rewrite Hfalsy.
    + intros d token lifetime Htoken Htruthy Hlife Hnum Hbool.
      unfold py_get. cbn [py_get_or]. rewrite Htoken, Hlife, Htruthy.
      destruct lifetime as [|b|n|s|l|d']; cbn [expiry_after];
        try (now eexists).
      * now destruct (Hbool b).
      * now destruct (Hnum n).
Qed.

Lemma failed_exchange_keeps_cache_witness :
  get_client_credentials_token sample_credentials (RequestFailure "timed out")
    10 11 12 (mkTokenState (JStr "old") 9)
  = (Ok JNull, mkTokenState (JStr "old") 9, true)
  /\ get_client_credentials_token (mkCredentials None (Some "APP-TRUSTED") (Some "s"))
       token_answer 10 11 12 (mkTokenState (JStr "old") 9)
     = (Ok JNull, mkTokenState (JStr "old") 9, false).
Proof.
  destruct (failed_exchange_keeps_cache sample_credentials 10 11 12
              (mkTokenState (JStr "old") 9) eq_refl eq_refl) as [_ Hset].
  destruct (Hset eq_refl) as [Hfail _].
  split; [apply Hfail|reflexivity].
Defined.
(** ** The profile worker *)

(** X15.  When the registry answers a record request with a document, the
    profile worker returns that document with every key as it came, adding
    only a copy of the activities summary under the key [activities]; the
    rows and the affiliation status the rebuilds read from what the worker
    returns are those of the document as the registry sent it. *)
Theorem fetched_profile_keeps_document env orcid_id base_url response d :
  fst (safe_get (http env (RecordRequest base_url orcid_id)) default_retries)
  = Some response ->
  status_code response = 200 ->
  body response = Some (JDict d) ->
  exists d',
    fetch_single_profile env orcid_id base_url = Ok (JDict d')
    /\ (forall k, k <> "activities" -> assoc k d' = assoc k d)
    /\ assoc "activities" d'
       = match assoc "activities-summary" d with
         | Some a => Some a
         | None => assoc "activities" d
         end
    /\ truthy (JDict d') = truthy (JDict d)
    /\ (forall ror_id oid trusted_ids,
          profile_works ror_id oid (JDict d') = profile_works ror_id oid (JDict d)
          /\ profile_fundings ror_id oid (JDict d')
             = profile_fundings ror_id oid (JDict d)
          /\ _extract_status_from_profile (JDict d') ror_id oid trusted_ids
             = _extract_status_from_profile (JDict d) ror_id oid trusted_ids).
Proof.
  intros Hget Hstatus Hbody. unfold fetch_single_profile.
  rewrite Hget, Hstatus, Hbody. cbn [Nat.eqb py_contains bind]. unfold has_key.
  destruct (assoc "activities-summary" d) as [a|] eqn:Ha.
  - cbn [py_item]. rewrite Ha. cbn [bind py_setitem].
    exists (dict_set "activities" a d). split; [reflexivity|].
    assert (Hkeep : forall k, k <> "activities" ->
                      assoc k (dict_set "activities" a d) = assoc k d).
    { intros k Hk. rewrite assoc_dict_set.
      destruct (String.eqb_spec k "activities"); [contradiction|reflexivity]. }
    split; [exact Hkeep|]. split; [now rewrite assoc_dict_set|]. split.
    + destruct d as [|[k v] d]; [discriminate|]. cbn [dict_set].
      now destruct (String.eqb "activities" k).
    + intros ror_id oid trusted_ids.
      unfold profile_works, profile_fundings, _extract_status_from_profile,
        is_managed, py_get, py_get_or.
      rewrite (Hkeep "activities-summary") by discriminate.
      now repeat split.
  - exists d. split; [reflexivity|]. split; [reflexivity|]. split; [reflexivity|].
    split; [reflexivity|]. now repeat split.
Qed.

Lemma fetched_profile_keeps_document_witness :
  exists d',
    fetch_single_profile sample_env "0000-0001" "https://api.orcid.org/v3.0"
    = Ok (JDict d')
    /\ assoc "activities" d' = assoc "activities-summary" d'
    /\ profile_works "02ap3w078" "0000-0001" (JDict d')
       = profile_works "02ap3w078" "0000-0001" one_work_profile.
Proof.
  destruct (fetched_profile_keeps_document sample_env "0000-0001"
              "https://api.orcid.org/v3.0" (mkResponse 200 (Some one_work_profile))
              _ eq_refl eq_refl eq_refl)
    as [d' [Hfetch [Hkeep [Hcopy [_ Hrows]]]]].
  exists d'. split; [exact Hfetch|]. split.
  - rewrite Hcopy, (Hkeep "activities-summary"); [reflexivity|discriminate].
  - apply (Hrows "02ap3w078" "0000-0001" []).
Defined.
(** ** The search, page by page *)



(** X17.  Every record the search returns carries an identifier that is a
    string and is not blank, so the list of identifiers the rebuilds hand to
    the profile workers has one identifier per record found, and these are
    pairwise distinct even after stripping: nobody the search found is left
    out of the fetch and nobody is fetched twice. *)
Theorem found_records_are_all_fetched fuel env ror_id grid_id base_url rows population :
  list_orcids_for_institution fuel env ror_id grid_id base_url rows = Some population ->
  Forall (fun r => exists s, orcid_id_of r = Some s /\ str_truthy (strip s) = true)
         population
  /\ List.length (orcid_ids_of population) = List.length population
  /\ NoDup (map strip (orcid_ids_of population))
  /\ forall picks,
       incl (keys (profiles_map env picks (orcid_ids_of population)))
            (orcid_ids_of population).
Proof.
  intros Hlist.
  assert (Hgoal : Forall (fun r => exists s, orcid_id_of r = Some s
                                             /\ str_truthy (strip s) = true)
                         population
                  /\ NoDup (map strip (orcid_ids_of population))).
  { revert Hlist. unfold list_orcids_for_institution.
    assert (Hnil : Forall (fun r => exists s, orcid_id_of r = Some s
                                              /\ str_truthy (strip s) = true) []
                   /\ NoDup (map strip (orcid_ids_of [])))
      by (split; constructor).
    destruct (if opt_truthy (config_search_url env) then config_search_url env
              else base_url) as [url|]; [|now intros [= <-]].
    destruct (negb (str_truthy url)); [now intros [= <-]|].
    destruct (build_query ror_id grid_id) as [|c query]; [now intros [= <-]|].
    destruct (paginate fuel env url (c :: query) rows 0 []) as [d|] eqn:Hp;
      [|discriminate].
    intros [= <-]. apply paginate_entries in Hp.
    assert (Hfiled : Forall filed d)
      by (subst d; apply upserts_filed; [apply visited_entries_filed|constructor]).
    assert (Hnd : NoDup (keys d))
      by (subst d; apply NoDup_keys_upserts; constructor).
    split.
    - unfold values. apply Forall_map. eapply Forall_impl; [|exact Hfiled].
      intros e He. destruct (filed_has_id e He) as [s [Hs Hstrip]].
      exists s. split; [exact Hs|]. rewrite Hstrip. apply He.
    - now rewrite (stored_ids d Hfiled). }
  destruct Hgoal as [Hids Hnodup].
  split; [exact Hids|].
  split; [apply (search_population_ids _ _ _ _ _ _ _ Hlist)|].
  split; [exact Hnodup|].
  intros picks. apply profiles_map_items.
Qed.

Lemma found_records_are_all_fetched_witness :
  exists population,
    list_orcids_for_institution 3 paged_env "02ap3w078" JNull None 2 = Some population
    /\ List.length (orcid_ids_of population) = List.length population
    /\ NoDup (map strip (orcid_ids_of population)).
Proof.
  eexists. split; [reflexivity|].
  destruct (found_records_are_all_fetched 3 paged_env "02ap3w078" JNull None 2 _
              eq_refl) as [_ [Hlen [Hnodup _]]].
  split; [exact Hlen|exact Hnodup].
Defined.
(** ** The classifier and the trusted credentials *)

Section TrustFacts.

Variables trusted_ids more : list string.
Hypothesis more_trusted : incl trusted_ids more.

Local Abbreviation grows f g :=
  (forall (x : json) b, f x = Ok b ->
     exists b', g x = Ok b' /\ (b = true -> b' = true)).

Lemma in_strs_grows path : in_strs path trusted_ids = true -> in_strs path more = true.
Proof.
  unfold in_strs. rewrite !existsb_exists. intros [x [Hin Hx]].
  exists x. split; [now apply more_trusted|exact Hx].
Qed.

Lemma any_res_grows (f g : json -> res bool) l :
  grows f g ->
  forall b, any_res f l = Ok b ->
    exists b', any_res g l = Ok b' /\ (b = true -> b' = true).
Proof.
  intros Hfg. induction l as [|x l IH]; intros b H.
  - exists false. split; [reflexivity|]. now injection H as <-.
  - cbn [any_res] in *. apply bind_ok in H. destruct H as [hit [Hx H]].
    destruct (Hfg x hit Hx) as [hit' [Hx' Hhit]]. rewrite Hx'. cbn [bind].
    destruct hit.
    + rewrite (Hhit eq_refl). now exists true.
    + destruct hit'; [now exists true|]. now apply IH.
Qed.

Lemma summary_grows :
  grows (summary_is_managed trusted_ids) (summary_is_managed more).
Proof.
  intros summary b H. unfold summary_is_managed in *.
  apply bind_ok in H. destruct H as [item [Hitem H]]. rewrite Hitem. cbn [bind].
  destruct (negb (truthy item)); [now exists b|].
  apply bind_ok in H. destruct H as [path [Hpath [= <-]]]. rewrite Hpath. cbn [bind].
  eexists. split; [reflexivity|].
  intros H. apply andb_prop in H. destruct H as [Ht Hin].
  now rewrite Ht, (in_strs_grows path Hin).
Qed.

Lemma group_grows : grows (group_is_managed trusted_ids) (group_is_managed more).
Proof.
  intros group b H. unfold group_is_managed in *.
  apply bind_ok in H. destruct H as [v [Hv H]]. rewrite Hv. cbn [bind].
  apply bind_ok in H. destruct H as [summaries [Hs H]]. rewrite Hs. cbn [bind].
  eapply any_res_grows; [exact summary_grows|exact H].
Qed.

Lemma is_managed_grows profile b :
  is_managed profile trusted_ids = Ok b ->
  exists b', is_managed profile more = Ok b' /\ (b = true -> b' = true).
Proof.
  unfold is_managed. intros H.
  apply bind_ok in H. destruct H as [a [Ha H]]. rewrite Ha. cbn [bind].
  revert b H. induction sections_to_check as [|section sections IH]; intros b H.
  - exists false. split; [reflexivity|]. now injection H as <-.
  - cbn [any_res] in *. apply bind_ok in H. destruct H as [hit [Hx H]].
    assert (Hsection : exists hit',
               section_is_managed more (py_or a (JDict [])) section = Ok hit'
               /\ (hit = true -> hit' = true)).
    { unfold section_is_managed in *.
      apply bind_ok in Hx. destruct Hx as [sd [Hsd Hx]]. rewrite Hsd. cbn [bind].
      apply bind_ok in Hx. destruct Hx as [g [Hg Hx]]. rewrite Hg. cbn [bind].
      apply bind_ok in Hx. destruct Hx as [groups [Hgroups Hx]].
      rewrite Hgroups. cbn [bind].
      eapply any_res_grows; [exact group_grows|exact Hx]. }
    destruct Hsection as [hit' [Hx' Hhit]]. rewrite Hx'. cbn [bind].
    destruct hit.
    + rewrite (Hhit eq_refl). now exists true.
    + destruct hit'; [now exists true|]. now apply IH.
Qed.

End TrustFacts.

Lemma any_res_never {A} (f : A -> res bool) l :
  (forall x b, f x = Ok b -> b = false) ->
  forall b, any_res f l = Ok b -> b = false.
Proof.
  intros Hf. induction l as [|x l IH]; intros b H.
  - now injection H as <-.
  - cbn [any_res] in H. apply bind_ok in H. destruct H as [hit [Hx H]].
    rewrite (Hf x hit Hx) in H. now apply IH.
Qed.

(** X18.  Trusting more credentials never takes the managed mark away: when
    the classifier returns for a list of trusted credentials it returns for
    every longer list, and whoever is managed for the shorter list is
    managed for the longer.  With no trusted credential at all nobody is
    managed. *)
Theorem trusted_ids_only_add profile ror_id orcid trusted_ids status :
  _extract_status_from_profile profile ror_id orcid trusted_ids = Ok status ->
  (forall more,
      incl trusted_ids more ->
      exists status',
        _extract_status_from_profile profile ror_id orcid more = Ok status'
        /\ (s_is_managed_by_am status = true -> s_is_managed_by_am status' = true))
  /\ (trusted_ids = [] -> s_is_managed_by_am status = false).
Proof.
  unfold _extract_status_from_profile. intros H.
  apply bind_ok in H. destruct H as [managed [Hmanaged [= <-]]]. split.
  - intros more Hincl.
    destruct (is_managed_grows trusted_ids more Hincl profile managed Hmanaged)
      as [managed' [Hmanaged' Hgrows]].
    rewrite Hmanaged'. cbn [bind]. eexists. split; [reflexivity|exact Hgrows].
  - intros ->. cbn [s_is_managed_by_am]. revert Hmanaged. unfold is_managed.
    intros H. apply bind_ok in H. destruct H as [a [_ H]].
    revert managed H. apply any_res_never. intros section b H.
    unfold section_is_managed in H.
    do 3 (apply bind_ok in H; destruct H as [? [_ H]]).
    revert b H. apply any_res_never. intros group b H.
    unfold group_is_managed in H.
    do 2 (apply bind_ok in H; destruct H as [? [_ H]]).
    revert b H. apply any_res_never. intros summary b H.
    unfold summary_is_managed in H.
    apply bind_ok in H. destruct H as [item [_ H]].
    destruct (negb (truthy item)); [now injection H as <-|].
    apply bind_ok in H. destruct H as [path [_ [= <-]]].
    apply andb_false_r.
Qed.

Lemma trusted_ids_only_add_witness :
  _extract_status_from_profile managed_profile "02ap3w078" "0000-0001" []
  = Ok (mkResearcherStatus "02ap3w078" "0000-0001" false)
  /\ exists status',
      _extract_status_from_profile managed_profile "02ap3w078" "0000-0001"
        ["APP-TRUSTED"] = Ok status'.
Proof.
  destruct (trusted_ids_only_add managed_profile "02ap3w078" "0000-0001" []
              (mkResearcherStatus "02ap3w078" "0000-0001" false) eq_refl)
    as [Hmore _].
  split; [reflexivity|].
  destruct (Hmore ["APP-TRUSTED"]) as [status' [Hstatus' _]]; [intros x []|].
  now exists status'.
Defined.
(** ** The run log of the command *)

Section CommittedFacts.

Lemma flush_keeps_committed {R} (insert : list R -> Db -> Db) bulk w :
  all_committed w -> all_committed (snd (_flush_bulk insert bulk w)).
Proof.
  intros Hall. unfold _flush_bulk. destruct bulk as [|x bulk]; [exact Hall|].
  destruct (commit_all_committed w Hall) as [_ Hafter].
  destruct (commit w) as [[|text] w1]; exact Hafter.
Qed.

Lemma due_flush_keeps_committed {R} (insert : list R -> Db -> Db) (due : bool) bulk w :
  all_committed w ->
  all_committed (snd (if due then _flush_bulk insert bulk w else (0, bulk, w))).
Proof.
  intros Hall. destruct due; [now apply flush_keeps_committed|exact Hall].
Qed.

Lemma process_works_keeps_committed ror_id trusted_ids items : forall st w,
  all_committed w ->
  all_committed (snd (process_works ror_id trusted_ids items st w)).
Proof.
  induction items as [|[orcid_id profile] items IH]; intros st w Hall;
    cbn [process_works]; [exact Hall|].
  destruct (negb (truthy profile)); [now apply IH|].
  destruct (_extract_status_from_profile profile ror_id orcid_id trusted_ids);
    [|exact Hall].
  destruct (profile_works ror_id orcid_id profile) as [rows|e]; [|exact Hall].
  cbv zeta.
  match goal with |- context [if ?due then _flush_bulk insert_works ?b w else _] =>
    pose proof (due_flush_keeps_committed insert_works due b w Hall) as H1;
    destruct (if due then _flush_bulk insert_works b w else (0, b, w))
      as [[c1 b1] w1]
  end.
  cbn [snd] in H1.
  match goal with |- context [if ?due then _flush_bulk insert_statuses ?b w1 else _] =>
    pose proof (due_flush_keeps_committed insert_statuses due b w1 H1) as H2;
    destruct (if due then _flush_bulk insert_statuses b w1 else (0, b, w1))
      as [[c2 b2] w2]
  end.
  cbn [snd] in H2. now apply IH.
Qed.

Lemma process_fundings_keeps_committed ror_id items : forall st w,
  all_committed w ->
  all_committed (snd (process_fundings ror_id items st w)).
Proof.
  induction items as [|[orcid_id profile] items IH]; intros st w Hall;
    cbn [process_fundings]; [exact Hall|].
  destruct (negb (truthy profile)); [now apply IH|].
  destruct (profile_fundings ror_id orcid_id profile) as [rows|e]; [|exact Hall].
  cbv zeta.
  match goal with |- context [if ?due then _flush_bulk insert_fundings ?b w else _] =>
    pose proof (due_flush_keeps_committed insert_fundings due b w Hall) as H1;
    destruct (if due then _flush_bulk insert_fundings b w else (0, b, w))
      as [[c1 b1] w1]
  end.
  cbn [snd] in H1. now apply IH.
Qed.

Lemma next_schedule_keeps_committed w :
  all_committed w -> all_committed (snd (next_schedule w)).
Proof.
  unfold all_committed. now rewrite (proj2 (proj2 (next_schedule_frame w))).
Qed.

Lemma build_works_keeps_committed fuel env ror_id base_url w r w' :
  all_committed w ->
  build_works_cache_for_ror fuel env ror_id base_url w = Some (r, w') ->
  all_committed w'.
Proof.
  intros Hall. unfold build_works_cache_for_ror.
  pose proof (ensure_committed env ror_id w Hall) as Ha.
  destruct (ensure_and_heal_grid_for_ror env ror_id w) as [g wa]. cbn [snd] in Ha.
  destruct (list_orcids_for_institution fuel env ror_id g base_url default_rows)
    as [[|x researchers]|]; [now intros [= <- <-]| |discriminate].
  assert (Hb : all_committed (snd (purge_works ror_id wa))).
  { unfold purge_works. destruct (commit_all_committed wa Ha) as [_ Hafter].
    destruct (commit wa) as [[|text] w1]; exact Hafter. }
  destruct (purge_works ror_id wa) as [[[]|e] wb]; cbn [snd] in Hb;
    [|now intros [= <- <-]].
  pose proof (next_schedule_keeps_committed wb Hb) as Hc.
  destruct (next_schedule wb) as [picks wc]. cbn [snd] in Hc.
  destruct (get_all_profiles_concurrently env picks _ 10) as [profiles|e];
    [|now intros [= <- <-]].
  match goal with |- context [process_works ?a ?b ?c ?d ?e] =>
    pose proof (process_works_keeps_committed a b c d e Hc) as Hd;
    destruct (process_works a b c d e) as [[st|e'] wd] end;
    cbn [snd] in Hd; [|now intros [= <- <-]].
  pose proof (flush_keeps_committed insert_works (works_buffer st) wd Hd) as He.
  destruct (_flush_bulk insert_works (works_buffer st) wd) as [[c1 b1] we].
  cbn [snd] in He.
  pose proof (flush_keeps_committed insert_statuses (status_buffer st) we He) as Hf.
  destruct (_flush_bulk insert_statuses (status_buffer st) we) as [[c2 b2] wf].
  now intros [= <- <-].
Qed.

Lemma build_fundings_keeps_committed fuel env ror_id base_url w r w' :
  all_committed w ->
  build_fundings_cache_for_ror fuel env ror_id base_url w = Some (r, w') ->
  all_committed w'.
Proof.
  intros Hall. unfold build_fundings_cache_for_ror.
  pose proof (ensure_committed env ror_id w Hall) as Ha.
  destruct (ensure_and_heal_grid_for_ror env ror_id w) as [g wa]. cbn [snd] in Ha.
  destruct (list_orcids_for_institution fuel env ror_id g base_url default_rows)
    as [[|x researchers]|]; [now intros [= <- <-]| |discriminate].
  assert (Hb : all_committed (snd (purge_fundings ror_id wa))).
  { unfold purge_fundings. destruct (commit_all_committed wa Ha) as [_ Hafter].
    destruct (commit wa) as [[|text] w1]; exact Hafter. }
  destruct (purge_fundings ror_id wa) as [[[]|e] wb]; cbn [snd] in Hb;
    [|now intros [= <- <-]].
  pose proof (next_schedule_keeps_committed wb Hb) as Hc.
  destruct (next_schedule wb) as [picks wc]. cbn [snd] in Hc.
  destruct (get_all_profiles_concurrently env picks _ 10) as [profiles|e];
    [|now intros [= <- <-]].
  match goal with |- context [process_fundings ?a ?c ?d ?e] =>
    pose proof (process_fundings_keeps_committed a c d e Hc) as Hd;
    destruct (process_fundings a c d e) as [[st|e'] wd] end;
    cbn [snd] in Hd; [|now intros [= <- <-]].
  pose proof (flush_keeps_committed insert_fundings (funding_buffer st) wd Hd) as He.
  destruct (_flush_bulk insert_fundings (funding_buffer st) wd) as [[c1 b1] we].
  now intros [= <- <-].
Qed.

End CommittedFacts.
Section AuditFacts.

Lemma log_execution_run_committed m ror_id status count error_msg w :
  all_committed w ->
  let w' := _log_execution_run m ror_id status count error_msg w in
  all_committed w'
  /\ run_table m (db w')
     = run_table m (db w)
       ++ (if str_truthy ror_id
           then [mkCacheRun ror_id status count error_msg
                            (Some (clock w)) (Some (clock w))]
           else [])
  /\ forall m', m' <> m -> run_table m' (db w') = run_table m' (db w).
Proof.
  intros Hall. cbv zeta. unfold _log_execution_run.
  destruct (str_truthy ror_id); cbn [negb].
  2:{ split; [exact Hall|]. rewrite app_nil_r. now split. }
  unfold utcnow, commit. cbn [commits db schedules clock].
  destruct (commits w) as [|o rest] eqn:Hcommits.
  - split; [unfold all_committed; cbn; constructor|].
    destruct m; cbn; split; try reflexivity; intros [] H; cbn; congruence.
  - unfold all_committed in Hall. rewrite Hcommits in Hall.
    inversion Hall as [|? ? Ho Hrest]; subst.
    split; [exact Hrest|].
    destruct m; cbn; split; try reflexivity; intros [] H; cbn; congruence.
Qed.

Lemma logged_rebuild_cli_row m build current_ror w w' :
  all_committed w ->
  (forall r w1, build w = Some (r, w1) -> all_committed w1 /\ runs_of w1 = runs_of w) ->
  logged_rebuild_cli m build current_ror w = Some w' ->
  all_committed w'
  /\ (exists rows,
         run_table m (db w') = run_table m (db w) ++ rows
         /\ map r_ror_id rows = filter str_truthy [current_ror]
         /\ Forall audit_row rows)
  /\ forall m', m' <> m -> run_table m' (db w') = run_table m' (db w).
Proof.
  intros Hall Hbuild. unfold logged_rebuild_cli.
  assert (Hrow : forall status count error_msg w1,
             all_committed w1 -> runs_of w1 = runs_of w ->
             (forall t, audit_row (mkCacheRun current_ror status count error_msg
                                              (Some t) (Some t))) ->
             let w2 := _log_execution_run m current_ror status count error_msg w1 in
             all_committed w2
             /\ (exists rows,
                    run_table m (db w2) = run_table m (db w) ++ rows
                    /\ map r_ror_id rows = filter str_truthy [current_ror]
                    /\ Forall audit_row rows)
             /\ forall m', m' <> m -> run_table m' (db w2) = run_table m' (db w)).
  { intros status count error_msg w1 H1 Hruns Haudit. cbv zeta.
    destruct (log_execution_run_committed m current_ror status count error_msg w1 H1)
      as [Hc [Hrows Hother]].
    assert (Htables : forall m0, run_table m0 (db w1) = run_table m0 (db w))
      by (intros []; unfold runs_of in Hruns; cbn [run_table]; congruence).
    split; [exact Hc|]. split.
    - rewrite Hrows, Htables. eexists. split; [reflexivity|].
      cbn [filter]. destruct (str_truthy current_ror); cbn [map].
      + split; [reflexivity|]. constructor; [apply Haudit|constructor].
      + split; [reflexivity|constructor].
    - intros m' Hm. rewrite (Hother m' Hm). apply Htables. }
  destruct (build w) as [[[count|exc] w1]|] eqn:Hrun; [| |discriminate];
    destruct (Hbuild _ _ eq_refl) as [H1 Hruns]; intros [= <-];
    apply Hrow; try assumption; intros t; split; try reflexivity.
  - left. now split.
  - right. split; [reflexivity|]. split; [reflexivity|]. now eexists.
Qed.

Lemma sync_institution_rows fuel env target member_url ror w w' :
  all_committed w ->
  sync_institution fuel env target member_url ror w = Some w' ->
  all_committed w'
  /\ exists new_works new_fundings,
      work_cache_run (db w') = work_cache_run (db w) ++ new_works
      /\ funding_cache_run (db w') = funding_cache_run (db w) ++ new_fundings
      /\ map r_ror_id new_works
         = (if wants_works target then filter str_truthy [strip ror] else [])
      /\ map r_ror_id new_fundings
         = (if wants_fundings target then filter str_truthy [strip ror] else [])
      /\ Forall audit_row new_works
      /\ Forall audit_row new_fundings.
Proof.
  intros Hall. unfold sync_institution.
  assert (Hfirst : forall w1,
             (if wants_works target then
                logged_rebuild_cli WorkCacheRun
                  (build_works_cache_for_ror fuel env (strip ror) (Some member_url))
                  (strip ror) w
              else Some w) = Some w1 ->
             all_committed w1
             /\ funding_cache_run (db w1) = funding_cache_run (db w)
             /\ exists new_works,
                 work_cache_run (db w1) = work_cache_run (db w) ++ new_works
                 /\ map r_ror_id new_works
                    = (if wants_works target then filter str_truthy [strip ror]
                       else [])
                 /\ Forall audit_row new_works).
  { intros w1. destruct (wants_works target).
    - intros Hrun.
      destruct (logged_rebuild_cli_row WorkCacheRun
                  (build_works_cache_for_ror fuel env (strip ror) (Some member_url))
                  (strip ror) w w1 Hall) as [H1 [Hrows Hother]];
        [|exact Hrun|].
      + intros r w2 Hb. split; [eapply build_works_keeps_committed; eassumption|].
        eapply build_works_runs. exact Hb.
      + split; [exact H1|]. split; [apply (Hother FundingCacheRun); discriminate|].
        exact Hrows.
    - intros [= <-]. split; [exact Hall|]. split; [reflexivity|].
      exists []. rewrite app_nil_r. now repeat split. }
  destruct (if wants_works target then _ else Some w) as [w1|]; [|discriminate].
  destruct (Hfirst w1 eq_refl) as [H1 [Hf1 [new_works [Hw1 [Hids Haudit]]]]].
  intros Hsecond. destruct (wants_fundings target).
  - destruct (logged_rebuild_cli_row FundingCacheRun
                (build_fundings_cache_for_ror fuel env (strip ror) (Some member_url))
                (strip ror) w1 w' H1)
      as [H2 [[new_fundings [Hrows [Hids2 Haudit2]]] Hother]]; [|exact Hsecond|].
    + intros r w2 Hb. split; [eapply build_fundings_keeps_committed; eassumption|].
      eapply build_fundings_runs. exact Hb.
    + split; [exact H2|]. exists new_works, new_fundings.
      cbn [run_table] in Hrows.
      pose proof (Hother WorkCacheRun) as Hw. cbn [run_table] in Hw.
      rewrite Hw by discriminate. rewrite Hrows, Hf1. now repeat split.
  - injection Hsecond as <-. split; [exact H1|].
    exists new_works, []. rewrite app_nil_r. now repeat split.
Qed.

Lemma sync_institutions_rows fuel env target member_url ror_list : forall w w',
  all_committed w ->
  sync_institutions fuel env target member_url ror_list w = Some w' ->
  all_committed w'
  /\ exists new_works new_fundings,
      work_cache_run (db w') = work_cache_run (db w) ++ new_works
      /\ funding_cache_run (db w') = funding_cache_run (db w) ++ new_fundings
      /\ map r_ror_id new_works
         = (if wants_works target then filter str_truthy (map strip ror_list)
            else [])
      /\ map r_ror_id new_fundings
         = (if wants_fundings target then filter str_truthy (map strip ror_list)
            else [])
      /\ Forall audit_row new_works
      /\ Forall audit_row new_fundings.
Proof.
  induction ror_list as [|ror ror_list IH]; intros w w' Hall; cbn [sync_institutions].
  - intros [= <-]. split; [exact Hall|]. exists [], []. rewrite !app_nil_r.
    cbn [map filter]. destruct (wants_works target), (wants_fundings target);
      now repeat split.
  - destruct (sync_institution fuel env target member_url ror w) as [w1|] eqn:Hone;
      [|discriminate].
    destruct (sync_institution_rows _ _ _ _ _ _ _ Hall Hone)
      as [H1 [nw1 [nf1 [Hw1 [Hf1 [Hiw1 [Hif1 [Haw1 Haf1]]]]]]]].
    intros Hrest.
    destruct (IH w1 w' H1 Hrest)
      as [H2 [nw2 [nf2 [Hw2 [Hf2 [Hiw2 [Hif2 [Haw2 Haf2]]]]]]]].
    split; [exact H2|]. exists (nw1 ++ nw2), (nf1 ++ nf2).
    rewrite Hw2, Hw1, Hf2, Hf1, !app_assoc, !map_app, Hiw1, Hiw2, Hif1, Hif2.
    split; [reflexivity|]. split; [reflexivity|].
    cbn [map]. change (strip ror :: map strip ror_list)
      with ([strip ror] ++ map strip ror_list). rewrite filter_app.
    split; [now destruct (wants_works target)|].
    split; [now destruct (wants_fundings target)|].
    split; apply Forall_app; now split.
Qed.

End AuditFacts.

(** X19.  With the member address and a token at hand and every commit
    going through, the command [rebuild-caches] is its loop over a list of
    institutions: the one given, or else the rows of the query over the
    accounts, in one of the orders the database may hand them.  Over any
    list of institutions the loop leaves, for each institution of the list
    whose name is not blank and for each cache asked for, exactly one new
    row in the run log of that cache, in the order of the list, whether the
    rebuild returned or raised: a success row carries no error text, a
    failure row carries one and a count of zero. *)
Theorem cli_logs_every_rebuild fuel env ror target member_url w :
  all_committed w ->
  config_member_url env = Some member_url -> str_truthy member_url = true ->
  opt_truthy (token env) = true ->
  (exists ror_list,
      cli_order ror (db w) ror_list
      /\ rebuild_caches fuel env ror target w
         = sync_institutions fuel env target member_url ror_list w)
  /\ (forall ror_list w',
        sync_institutions fuel env target member_url ror_list w = Some w' ->
        exists new_works new_fundings,
          work_cache_run (db w') = work_cache_run (db w) ++ new_works
          /\ funding_cache_run (db w') = funding_cache_run (db w) ++ new_fundings
          /\ map r_ror_id new_works
             = (if wants_works target
                then filter str_truthy (map strip ror_list) else [])
          /\ map r_ror_id new_fundings
             = (if wants_fundings target
                then filter str_truthy (map strip ror_list) else [])
          /\ Forall audit_row new_works
          /\ Forall audit_row new_fundings).
Proof.
  intros Hall Hurl Htruthy Htoken. split.
  - exists (cli_ror_list ror (db w)). split.
    + unfold cli_order, cli_ror_list. destruct ror as [r|]; [|reflexivity].
      now destruct (str_truthy r).
    + unfold rebuild_caches, cli_ror_list. rewrite Hurl, Htruthy, Htoken. reflexivity.
  - intros ror_list w' Hrun.
    now destruct (sync_institutions_rows _ _ _ _ _ _ _ Hall Hrun) as [_ Hrows].
Qed.

Lemma cli_logs_every_rebuild_witness :
  (exists w',
      rebuild_caches 1 broken_env (Some "02ap3w078 ") TargetBoth fresh_world = Some w'
      /\ map r_ror_id (work_cache_run (db w')) = ["02ap3w078"]
      /\ map r_status (work_cache_run (db w')) = ["failed"]
      /\ map r_ror_id (funding_cache_run (db w')) = ["02ap3w078"])
  /\ (exists w',
        sync_institutions 1 sample_env TargetWorks "https://api.orcid.org/v3.0"
          ["05abc1234"; "02ap3w078"] staffed_world = Some w'
        /\ map r_ror_id (work_cache_run (db w')) = ["05abc1234"; "02ap3w078"]
        /\ funding_cache_run (db w') = []).
Proof.
  split.
  - destruct (rebuild_caches 1 broken_env (Some "02ap3w078 ") TargetBoth fresh_world)
      as [w'|] eqn:Hrun; [|vm_compute in Hrun; discriminate].
    exists w'. split; [reflexivity|].
    destruct (cli_logs_every_rebuild 1 broken_env (Some "02ap3w078 ") TargetBoth
                "https://api.orcid.org/v3.0" fresh_world
                (Forall_nil _) eq_refl eq_refl eq_refl)
      as [[ror_list [Horder Hloop]] Hrows].
    cbn in Horder. subst ror_list. rewrite Hloop in Hrun.
    destruct (Hrows _ w' Hrun)
      as [new_works [new_fundings [Hw [Hf [Hiw [Hif _]]]]]].
    split; [rewrite Hw, map_app, Hiw; reflexivity|].
    split; [vm_compute in Hrun; injection Hrun as <-; reflexivity|].
    rewrite Hf, map_app, Hif. reflexivity.
  - destruct (sync_institutions 1 sample_env TargetWorks "https://api.orcid.org/v3.0"
                ["05abc1234"; "02ap3w078"] staffed_world)
      as [w'|] eqn:Hrun; [|vm_compute in Hrun; discriminate].
    exists w'. split; [reflexivity|].
    destruct (cli_logs_every_rebuild 1 sample_env None TargetWorks
                "https://api.orcid.org/v3.0" staffed_world
                (Forall_nil _) eq_refl eq_refl eq_refl)
      as [_ Hrows].
    destruct (Hrows ["05abc1234"; "02ap3w078"] w' Hrun)
      as [new_works [new_fundings [Hw [Hf [Hiw [Hif _]]]]]].
    split; [rewrite Hw, map_app, Hiw; reflexivity|].
    rewrite Hf. cbn [wants_fundings] in Hif.
    destruct new_fundings; [reflexivity|discriminate].
Defined.
(** ** The rebuild route *)

Lemma log_run_web_caches m ror_id status count error_msg w :
  caches_of (_log_run_web m ror_id status count error_msg w) = caches_of w
  /\ users (db (_log_run_web m ror_id status count error_msg w)) = users (db w)
  /\ forall m', m' <> m ->
       run_table m' (db (_log_run_web m ror_id status count error_msg w))
       = run_table m' (db w).
Proof.
  unfold _log_run_web, utcnow, commit, caches_of. cbn [commits db schedules clock].
  destruct (commits w) as [|[|text] rest];
    (split; [now destruct m|]); (split; [now destruct m|]);
    intros [] H; destruct m; cbn; congruence.
Qed.

(** X20.  The rebuild route changes nothing for a session that is neither
    admin nor manager, has no institution, or gets no token, and nothing for
    a target other than the two caches; otherwise it leaves the cached rows
    of every institution but the active one as they were, and a request for
    one cache leaves the other cache and the other run log as they were. *)
Theorem web_rebuild_is_confined fuel env session target w w' :
  rebuild_cache fuel env session target w = Some w' ->
  (web_context env session = None -> w' = w)
  /\ (target <> "works" -> target <> "fundings" -> w' = w)
  /\ (forall ror_id base_url other,
        web_context env session = Some (ror_id, base_url) ->
        other <> ror_id ->
        works_of other (db w') = works_of other (db w)
        /\ statuses_of other (db w') = statuses_of other (db w)
        /\ fundings_of other (db w') = fundings_of other (db w))
  /\ (target = "works" ->
      funding_cache (db w') = funding_cache (db w)
      /\ funding_cache_run (db w') = funding_cache_run (db w))
  /\ (target = "fundings" ->
      work_cache (db w') = work_cache (db w)
      /\ researcher_status (db w') = researcher_status (db w)
      /\ work_cache_run (db w') = work_cache_run (db w)).
Proof.
  unfold rebuild_cache, web_context.
  assert (Hsame : w = w ->
            (forall ror_id base_url other,
                @None (string * string) = Some (ror_id, base_url) ->
                other <> ror_id ->
                works_of other (db w) = works_of other (db w)
                /\ statuses_of other (db w) = statuses_of other (db w)
                /\ fundings_of other (db w) = fundings_of other (db w))
            /\ (target = "works" ->
                funding_cache (db w) = funding_cache (db w)
                /\ funding_cache_run (db w) = funding_cache_run (db w))
            /\ (target = "fundings" ->
                work_cache (db w) = work_cache (db w)
                /\ researcher_status (db w) = researcher_status (db w)
                /\ work_cache_run (db w) = work_cache_run (db w)))
    by (intros _; split; [discriminate|now split]).
  destruct (negb (is_admin session || is_manager session));
    [intros [= <-]; split; [reflexivity|]; split; [reflexivity|]; now apply Hsame|].
  destruct (if opt_truthy (admin_selected_ror session) then admin_selected_ror session
            else session_ror_id session) as [ror_id|];
    [|intros [= <-]; split; [reflexivity|]; split; [reflexivity|]; now apply Hsame].
  destruct (negb (str_truthy ror_id));
    [intros [= <-]; split; [reflexivity|]; split; [reflexivity|]; now apply Hsame|].
  destruct (_get_api_context env) as [base_url|];
    [|intros [= <-]; split; [reflexivity|]; split; [reflexivity|]; now apply Hsame].
  clear Hsame.
  destruct (String.eqb_spec target "works") as [->|Hworks].
  - destruct (build_works_cache_for_ror fuel env ror_id (Some base_url) w)
      as [[r w1]|] eqn:Hrun; [|discriminate].
    destruct (build_works_scope _ _ _ _ _ _ _ Hrun) as [Hfunding Hothers].
    pose proof (build_works_runs _ _ _ _ _ _ _ Hrun) as Hruns.
    intros Hlog.
    assert (Hw' : exists status count error_msg,
               w' = _log_run_web WorkCacheRun ror_id status count error_msg w1).
    { destruct r; injection Hlog as <-; now eexists _, _, _. }
    destruct Hw' as [status [count [error_msg ->]]].
    destruct (log_run_web_caches WorkCacheRun ror_id status count error_msg w1)
      as [Hcaches [_ Hother]].
    unfold caches_of in Hcaches. injection Hcaches as Hc1 Hc2 Hc3.
    split; [discriminate|]. split; [congruence|]. split; [|split].
    + intros ror_id' base_url' other [= <- <-] Hne.
      unfold works_of, statuses_of, fundings_of. rewrite Hc1, Hc2, Hc3, Hfunding.
      destruct (Hothers other Hne) as [H1 H2]. unfold works_of, statuses_of in H1, H2.
      now rewrite H1, H2.
    + intros _. split; [congruence|].
      pose proof (Hother FundingCacheRun) as H. cbn [run_table] in H.
      rewrite H by discriminate. unfold runs_of in Hruns. congruence.
    + discriminate.
  - destruct (String.eqb_spec target "fundings") as [->|Hfundings].
    + destruct (build_fundings_cache_for_ror fuel env ror_id (Some base_url) w)
        as [[r w1]|] eqn:Hrun; [|discriminate].
      destruct (build_fundings_scope _ _ _ _ _ _ _ Hrun) as [Hw1 [Hs1 Hothers]].
      pose proof (build_fundings_runs _ _ _ _ _ _ _ Hrun) as Hruns.
      intros Hlog.
      assert (Hw' : exists status count error_msg,
                 w' = _log_run_web FundingCacheRun ror_id status count error_msg w1).
      { destruct r; injection Hlog as <-; now eexists _, _, _. }
      destruct Hw' as [status [count [error_msg ->]]].
      destruct (log_run_web_caches FundingCacheRun ror_id status count error_msg w1)
        as [Hcaches [_ Hother]].
      unfold caches_of in Hcaches. injection Hcaches as Hc1 Hc2 Hc3.
      split; [discriminate|]. split; [congruence|]. split; [|split].
      * intros ror_id' base_url' other [= <- <-] Hne.
        unfold works_of, statuses_of, fundings_of. rewrite Hc1, Hc2, Hc3, Hw1, Hs1.
        pose proof (Hothers other Hne) as H. unfold fundings_of in H.
        now rewrite H.
      * discriminate.
      * intros _. split; [congruence|]. split; [congruence|].
        pose proof (Hother WorkCacheRun) as H. cbn [run_table] in H.
        rewrite H by discriminate. unfold runs_of in Hruns. congruence.
    + intros [= <-]. split; [discriminate|]. split; [reflexivity|].
      split; [now repeat split|]. split; [contradiction|contradiction].
Qed.

Lemma web_rebuild_is_confined_witness :
  rebuild_cache 1 sample_env (mkSession false false None (Some "02ap3w078"))
    "works" shared_world = Some shared_world
  /\ exists w',
      rebuild_cache 1 sample_env admin_session "fundings" shared_world = Some w'
      /\ work_cache (db w') = [old_work; other_work]
      /\ fundings_of "05abc1234" (db w') = [other_funding].
Proof.
  split; [reflexivity|].
  destruct (rebuild_cache 1 sample_env admin_session "fundings" shared_world)
    as [w'|] eqn:Hrun; [|vm_compute in Hrun; discriminate].
  exists w'. split; [reflexivity|].
  destruct (web_rebuild_is_confined _ _ _ _ _ _ Hrun)
    as [_ [_ [Hothers [_ Hfundings]]]].
  destruct (Hfundings eq_refl) as [Hworks _]. split; [exact Hworks|].
  apply (Hothers "02ap3w078" "https://api.orcid.org/v3.0/" "05abc1234");
    [reflexivity|discriminate].
Defined.
(** ** The identifiers of a work *)

Section ExternalIdFacts.

Local Abbreviation kept acc :=
  (filter truthy [fst (fst acc); snd (fst acc)] ++ map snd (snd acc)).

Lemma scan_external_ids_kept external_ids : forall acc acc',
  fold_res scan_external_id external_ids acc = Ok acc' ->
  exists vals,
    map_res (fun eid => py_get eid "external-id-value") external_ids = Ok vals
    /\ Permutation (filter truthy vals ++ kept acc) (kept acc').
Proof.
  induction external_ids as [|eid external_ids IH]; intros acc acc' H.
  - injection H as <-. exists []. split; [reflexivity|apply Permutation_refl].
  - cbn [fold_res] in H. apply bind_ok in H. destruct H as [acc1 [Hstep H]].
    destruct (IH acc1 acc' H) as [vals [Hvals Hperm]].
    destruct acc as [[doi issn] others]. unfold scan_external_id in Hstep.
    apply bind_ok in Hstep. destruct Hstep as [t [Ht Hstep]].
    apply bind_ok in Hstep. destruct Hstep as [id_type [Htype Hstep]].
    apply bind_ok in Hstep. destruct Hstep as [id_val [Hval Hstep]].
    exists (id_val :: vals). split; [cbn [map_res]; now rewrite Hval, Hvals|].
    eapply Permutation_trans; [|exact Hperm].
    change (id_val :: vals) with ([id_val] ++ vals).
    rewrite filter_app, <- app_assoc.
    eapply Permutation_trans; [apply Permutation_app_swap_app|].
    apply Permutation_app_head. cbn [fst snd].
    destruct (String.eqb id_type "doi" && negb (truthy doi)) eqn:Hdoi.
    { injection Hstep as <-. cbn [fst snd].
      apply andb_prop in Hdoi. destruct Hdoi as [_ Hdoi].
      apply negb_true_iff in Hdoi. cbn [filter]. rewrite Hdoi.
      destruct (truthy id_val); apply Permutation_refl. }
    destruct (String.eqb id_type "issn" && negb (truthy issn)) eqn:Hissn.
    { injection Hstep as <-. cbn [fst snd].
      apply andb_prop in Hissn. destruct Hissn as [_ Hissn].
      apply negb_true_iff in Hissn. cbn [filter]. rewrite Hissn.
      destruct (truthy id_val), (truthy doi); cbn [app];
        try apply Permutation_refl.
      apply perm_swap. }
    destruct (truthy id_val) eqn:Hv; injection Hstep as <-; cbn [fst snd filter];
      rewrite Hv; [|apply Permutation_refl].
    rewrite map_app. cbn [map snd app].
    destruct (truthy doi), (truthy issn); cbn [app];
      rewrite ?app_comm_cons; apply Permutation_cons_append.
Qed.

End ExternalIdFacts.

(** X21.  No identifier of a work is lost in its row: the identifier values
    of the work that are not empty are, up to their order, the DOI and the
    ISSN of the row, when it has them, together with the values set aside
    under its other identifiers. *)
Theorem work_row_keeps_identifiers ror_id orcid_id work row :
  work_row ror_id orcid_id work = Ok row ->
  exists external_ids vals,
    external_ids_of work = Ok external_ids
    /\ map_res (fun eid => py_get eid "external-id-value") external_ids = Ok vals
    /\ Permutation
         (filter truthy vals)
         (filter truthy [w_doi row; w_issn row]
          ++ map snd (match w_other_external_ids row with
                      | Some others => others
                      | None => []
                      end))
    /\ w_other_external_ids row <> Some [].
Proof.
  unfold work_row. intros H.
  apply bind_ok in H. destruct H as [t [_ H]].
  apply bind_ok in H. destruct H as [p [_ H]].
  apply bind_ok in H. destruct H as [external_ids [Hids H]].
  apply bind_ok in H. destruct H as [[[doi issn] others] [Hscan H]].
  do 11 (apply bind_ok in H; destruct H as [? [_ H]]).
  injection H as <-. cbn [w_doi w_issn w_other_external_ids].
  destruct (scan_external_ids_kept _ _ _ Hscan) as [vals [Hvals Hperm]].
  exists external_ids, vals. split; [exact Hids|]. split; [exact Hvals|].
  cbn [fst snd filter truthy map app] in Hperm. rewrite app_nil_r in Hperm.
  split; [|now destruct others].
  now destruct others.
Qed.

Lemma work_row_keeps_identifiers_witness :
  exists row,
    work_row "02ap3w078" "0000-0001" sample_work = Ok row
    /\ w_doi row = JStr "10.1000/1"
    /\ w_other_external_ids row <> Some [].
Proof.
  destruct (work_row "02ap3w078" "0000-0001" sample_work) as [row|e] eqn:Hrow;
    [|vm_compute in Hrow; discriminate].
  exists row. split; [reflexivity|].
  destruct (work_row_keeps_identifiers _ _ _ _ Hrow)
    as [external_ids [vals [_ [_ [_ Hsome]]]]].
  split; [|exact Hsome].
  vm_compute in Hrow. injection Hrow as <-. reflexivity.
Defined.
(** ** The cache of names *)

Section NamesFacts.

Local Abbreviation same_person touched_ids :=
  (fun r r1 : ResearcherCache =>
     c_orcid r1 = c_orcid r /\ c_email r1 = c_email r
     /\ (In (c_orcid r) touched_ids \/ r1 = r)).

Lemma Forall2_app_split {A B} (R : A -> B -> Prop) l1 l2 l :
  Forall2 R (l1 ++ l2) l ->
  exists k1 k2, l = k1 ++ k2 /\ Forall2 R l1 k1 /\ Forall2 R l2 k2.
Proof.
  revert l. induction l1 as [|x l1 IH]; intros l H.
  - exists [], l. now repeat split.
  - inversion H as [|? y ? k Hxy Hrest]; subst.
    destruct (IH k Hrest) as [k1 [k2 [-> [H1 H2]]]].
    exists (y :: k1), k2. repeat split; [now constructor|exact H2].
Qed.

(** Applying changes to a table keeps every row in its place, with its
    identifier and its address, rewrites only the rows the changes are
    about, and adds rows at the end, each about an identifier of a
    change. *)
Lemma applied_changes cs : forall rows,
  exists kept added,
    fold_left apply_change cs rows = kept ++ added
    /\ Forall2 (same_person (map touched cs)) rows kept
    /\ incl (map c_orcid added) (map touched cs).
Proof.
  induction cs as [|c cs IH]; intros rows; cbn [fold_left].
  - exists rows, []. rewrite app_nil_r. split; [reflexivity|]. split.
    + apply Forall2_same. intros r. now repeat split; try right.
    + intros x [].
  - destruct (IH (apply_change rows c)) as [kept [added [Hfold [Hkept Hadded]]]].
    destruct c as [row|orcid given family credit]; cbn [apply_change] in *.
    + apply Forall2_app_split in Hkept.
      destruct Hkept as [k1 [k2 [-> [H1 H2]]]].
      exists k1, (k2 ++ added). rewrite Hfold, <- app_assoc.
      split; [reflexivity|]. split.
      * eapply Forall2_impl; [|exact H1]. cbn beta.
        intros r r1 [Ho [He [Hin| ->]]]; repeat split; auto.
        left. cbn [map]. now right.
      * inversion H2 as [|? row1 ? ? [Ho _] Hnil]; subst.
        inversion Hnil; subst. cbn [map app touched].
        intros x [<-|Hx]; [left; now rewrite Ho|right; now apply Hadded].
    + exists kept, added. split; [exact Hfold|]. split.
      * clear Hfold. revert kept Hkept.
        induction rows as [|r rows IHr]; intros kept Hkept; cbn [map] in Hkept.
        -- inversion Hkept; subst. constructor.
        -- inversion Hkept as [|? r1 ? k [Ho [He Hin]] Hrest]; subst.
           constructor; [|now apply IHr].
           destruct (String.eqb_spec (c_orcid r) orcid) as [Heq|Hne].
           ++ cbn [set_names c_orcid c_email] in *. repeat split; try assumption.
              left. cbn [map touched]. now left.
           ++ repeat split; try assumption.
              destruct Hin as [Hin| ->]; [left; cbn [map]; now right|now right].
      * intros x Hx. cbn [map]. right. now apply Hadded.
Qed.

Lemma touched_change_for existing orcid names :
  touched (change_for existing orcid names) = orcid.
Proof.
  unfold change_for. destruct names as [[given family] credit].
  now destruct (existsb (String.eqb orcid) existing).
Qed.

Lemma commit_names_cases w n :
  db (fst (commit_names w n)) = db w
  /\ schedules (fst (commit_names w n)) = schedules w
  /\ pending (snd (commit_names w n)) = []
  /\ (researcher_cache (snd (commit_names w n)) = visible n
      \/ researcher_cache (snd (commit_names w n)) = researcher_cache n).
Proof.
  unfold commit_names. destruct (commit_frame w) as [Hdb [Hs _]].
  destruct (commit w) as [[|text] w1]; cbn [fst snd] in *.
  - repeat split; try assumption. now left.
  - repeat split; try assumption. now right.
Qed.

(** The loop, whatever the commits and however it ends: the table it leaves
    is the table it found with some changes applied, and these changes and
    the ones still pending are about identifiers that were pending before or
    are keys of the profile map. *)
Lemma process_names_applied existing items : forall count w n,
  let r := process_names existing items count w n in
  db (snd (fst r)) = db w
  /\ exists cs,
      researcher_cache (snd r) = fold_left apply_change cs (researcher_cache n)
      /\ incl (map touched (cs ++ pending (snd r)))
              (map touched (pending n) ++ keys items).
Proof.
  induction items as [|[orcid profile] items IH]; intros count w n;
    cbn [process_names]; cbv zeta.
  - cbn [fst snd]. split; [reflexivity|]. exists []. split; [reflexivity|].
    cbn [app keys map]. rewrite app_nil_r. apply incl_refl.
  - destruct (negb (truthy profile)).
    { specialize (IH count w n). cbv zeta in IH. destruct IH as [Hdb [cs [Hcs Hincl]]].
      split; [exact Hdb|]. exists cs. split; [exact Hcs|].
      intros x Hx. apply Hincl in Hx. apply in_app_or in Hx. apply in_or_app.
      cbn [keys map]. destruct Hx; [now left|right; now right]. }
    destruct (names_of profile) as [names|e].
    2:{ cbn [fst snd]. split; [reflexivity|]. exists []. split; [reflexivity|].
        cbn [app]. intros x Hx. apply in_or_app. now left. }
    set (n1 := mkNames (researcher_cache n)
                       (pending n ++ [change_for existing orcid names])).
    assert (Hstep : forall w2 n2,
               db w2 = db w ->
               (exists cs0,
                   researcher_cache n2 = fold_left apply_change cs0 (researcher_cache n)
                   /\ incl (map touched (cs0 ++ pending n2))
                           (map touched (pending n) ++ [orcid])) ->
               let r := process_names existing items (S count) w2 n2 in
               db (snd (fst r)) = db w
               /\ exists cs,
                   researcher_cache (snd r)
                   = fold_left apply_change cs (researcher_cache n)
                   /\ incl (map touched (cs ++ pending (snd r)))
                           (map touched (pending n) ++ keys ((orcid, profile) :: items))).
    { intros w2 n2 Hdb2 [cs0 [Hcs0 Hincl0]]. specialize (IH (S count) w2 n2).
      cbv zeta in *. destruct IH as [Hdb [cs [Hcs Hincl]]].
      split; [congruence|]. exists (cs0 ++ cs).
      split; [now rewrite fold_left_app, <- Hcs0|].
      intros x Hx. rewrite <- app_assoc, map_app in Hx. apply in_app_or in Hx.
      cbn [keys map]. destruct Hx as [Hx|Hx].
      - assert (Hx0 : In x (map touched (cs0 ++ pending n2)))
          by (rewrite map_app; apply in_or_app; now left).
        apply Hincl0 in Hx0. apply in_app_or in Hx0. apply in_or_app.
        destruct Hx0 as [Hx0|[<-|[]]]; [now left|right; now left].
      - apply Hincl in Hx. apply in_app_or in Hx.
        destruct Hx as [Hx|Hx].
        + assert (Hx0 : In x (map touched (cs0 ++ pending n2)))
            by (rewrite map_app; apply in_or_app; now right).
          apply Hincl0 in Hx0. apply in_app_or in Hx0. apply in_or_app.
          destruct Hx0 as [Hx0|[<-|[]]]; [now left|right; now left].
        + apply in_or_app. right. now right. }
    assert (Hpending1 : map touched (pending n1) = map touched (pending n) ++ [orcid]).
    { subst n1. cbn [pending]. rewrite map_app. cbn [map].
      now rewrite touched_change_for. }
    destruct (Nat.modulo (S count) 500 =? 0).
    + destruct (commit_names_cases w n1) as [Hdb1 [_ [Hp [Hvis|Hkeep]]]].
      * destruct (commit_names w n1) as [w2 n2]. cbn [fst snd] in *.
        apply Hstep; [exact Hdb1|]. exists (pending n1).
        split; [exact Hvis|]. rewrite Hp, app_nil_r, Hpending1. apply incl_refl.
      * destruct (commit_names w n1) as [w2 n2]. cbn [fst snd] in *.
        apply Hstep; [exact Hdb1|]. exists [].
        split; [exact Hkeep|]. rewrite Hp. intros x [].
    + apply Hstep; [reflexivity|]. exists [].
      split; [reflexivity|]. cbn [app]. rewrite Hpending1. apply incl_refl.
Qed.

End NamesFacts.
Lemma applied_within cs scope rows :
  incl (map touched cs) scope ->
  exists kept added,
    fold_left apply_change cs rows = kept ++ added
    /\ Forall2 (fun r r1 => c_orcid r1 = c_orcid r /\ c_email r1 = c_email r
                            /\ (In (c_orcid r) scope \/ r1 = r)) rows kept
    /\ incl (map c_orcid added) scope.
Proof.
  intros Hscope. destruct (applied_changes cs rows) as [kept [added [Hfold [Hkept Hadded]]]].
  exists kept, added. split; [exact Hfold|]. split.
  - eapply Forall2_impl; [|exact Hkept]. cbn beta.
    intros r r1 [Ho [He [Hin|Heq]]]; repeat split; auto.
  - intros x Hx. auto.
Qed.

(** One synchronisation of names, whatever the commits and however it
    ends: the table it leaves is the table it found with changes applied
    that are about identifiers pending before or identifiers of the
    institution. *)
Lemma build_names_applied env ror_id w n :
  let r := build_researcher_names_cache env ror_id w n in
  db (snd (fst r)) = db w
  /\ exists cs,
      researcher_cache (snd r) = fold_left apply_change cs (researcher_cache n)
      /\ incl (map touched (cs ++ pending (snd r)))
              (map touched (pending n) ++ all_orcids ror_id (db w)).
Proof.
  cbv zeta. unfold build_researcher_names_cache.
  set (orcids := all_orcids ror_id (db w)).
  destruct (List.length orcids =? 0).
  { cbn [fst snd]. split; [reflexivity|]. exists []. split; [reflexivity|].
    cbn [app]. intros x Hx. apply in_or_app. now left. }
  destruct (next_schedule_frame w) as [_ [Hdb1 _]].
  destruct (next_schedule w) as [picks w1]. cbn [snd] in Hdb1.
  destruct (token_failure env) as [e0|] eqn:Htoken.
  { rewrite (get_all_profiles_raised _ _ _ _ _ Htoken). cbn [fst snd].
    split; [exact Hdb1|]. exists []. split; [reflexivity|].
    cbn [app]. intros x Hx. apply in_or_app. now left. }
  rewrite (get_all_profiles_pool _ _ _ _ Htoken) by lia.
  destruct (profiles_map_items env picks orcids) as [_ [_ Hkeys]].
  pose proof (process_names_applied (prefetched orcids n)
                (profiles_map env picks orcids) 0 w1 n) as Hloop.
  cbv zeta in Hloop.
  destruct (process_names (prefetched orcids n) (profiles_map env picks orcids) 0 w1 n)
    as [[[count|e] w2] n2]; cbn [fst snd] in Hloop;
    destruct Hloop as [Hdb2 [cs [Hcs Hincl]]].
  - assert (Hscope : incl (map touched (cs ++ pending n2))
                          (map touched (pending n) ++ orcids)).
    { intros x Hx. apply Hincl in Hx. apply in_app_or in Hx. apply in_or_app.
      destruct Hx; [now left|right; now apply Hkeys]. }
    destruct (commit_names_cases w2 n2) as [Hdb3 [_ [Hp [Hvis|Hkeep]]]];
      destruct (commit_names w2 n2) as [w3 n3]; cbn [fst snd] in *;
      (split; [congruence|]).
    + exists (cs ++ pending n2). rewrite Hp, app_nil_r.
      split; [|exact Hscope].
      rewrite Hvis. unfold visible. now rewrite fold_left_app, Hcs.
    + exists cs. rewrite Hp, app_nil_r. split; [congruence|].
      intros x Hx. apply Hscope. rewrite map_app. apply in_or_app. now left.
  - cbn [fst snd]. split; [congruence|]. exists cs. split; [exact Hcs|].
    intros x Hx. apply Hincl in Hx. apply in_app_or in Hx. apply in_or_app.
    destruct Hx; [now left|right; now apply Hkeys].
Qed.

(** X22.  A synchronisation of names, whatever its commits meet and however
    it ends, removes no row of the table of names and moves none: every row
    keeps its identifier and its address, a row is rewritten only if its
    identifier is one of the institution's in the two caches (or was pending
    in the session), new rows come at the end and are about such
    identifiers, and the caches themselves are not written to. *)
Theorem names_sync_keeps_rows env ror_id w n :
  let r := build_researcher_names_cache env ror_id w n in
  let scope := map touched (pending n) ++ all_orcids ror_id (db w) in
  db (snd (fst r)) = db w
  /\ exists kept added,
      researcher_cache (snd r) = kept ++ added
      /\ Forall2 (fun row row1 =>
                    c_orcid row1 = c_orcid row /\ c_email row1 = c_email row
                    /\ (In (c_orcid row) scope \/ row1 = row))
                 (researcher_cache n) kept
      /\ incl (map c_orcid added) scope.
Proof.
  cbv zeta. destruct (build_names_applied env ror_id w n) as [Hdb [cs [Hcs Hincl]]].
  split; [exact Hdb|]. rewrite Hcs. apply applied_within.
  intros x Hx. apply Hincl. rewrite map_app. apply in_or_app. now left.
Qed.
Section NamesCommittedFacts.

Variable existing : list string.

Local Abbreviation stored orcid names row :=
  (c_orcid row = orcid
   /\ (c_given_names row, c_family_name row, c_credit_name row) = names).

Lemma visible_after_change n c :
  visible (mkNames (researcher_cache n) (pending n ++ [c]))
  = apply_change (visible n) c.
Proof. unfold visible. cbn [pending researcher_cache]. now rewrite fold_left_app. Qed.

(** What one change does to a table without two rows of one person, when
    the change is an update exactly if the table has the person. *)
Lemma apply_change_for rows orcid names :
  NoDup (map c_orcid rows) ->
  (existsb (String.eqb orcid) existing = true <-> In orcid (map c_orcid rows)) ->
  let rows' := apply_change rows (change_for existing orcid names) in
  NoDup (map c_orcid rows')
  /\ (exists row, In row rows' /\ stored orcid names row)
  /\ (forall row, In row rows -> c_orcid row <> orcid -> In row rows')
  /\ (forall o, o <> orcid -> In o (map c_orcid rows') <-> In o (map c_orcid rows)).
Proof.
  intros Hnodup Hexisting. cbv zeta. unfold change_for.
  destruct names as [[given family] credit].
  destruct (existsb (String.eqb orcid) existing) eqn:Hex; cbn [apply_change].
  - assert (Hin : In orcid (map c_orcid rows)) by now apply Hexisting.
    assert (Hids : map c_orcid
                     (map (fun r => if String.eqb (c_orcid r) orcid
                                    then set_names given family credit r else r) rows)
                   = map c_orcid rows).
    { rewrite map_map. apply map_ext. intros r.
      now destruct (String.eqb (c_orcid r) orcid). }
    rewrite Hids. split; [exact Hnodup|]. split; [|split].
    + apply in_map_iff in Hin. destruct Hin as [r [Hr Hin]].
      exists (set_names given family credit r). split; [|now split].
      apply in_map_iff. exists r. split; [|exact Hin].
      rewrite Hr, String.eqb_refl. reflexivity.
    + intros row Hin' Hne. apply in_map_iff. exists row. split; [|exact Hin'].
      destruct (String.eqb_spec (c_orcid row) orcid); [contradiction|reflexivity].
    + intros o _. reflexivity.
  - assert (Hout : ~ In orcid (map c_orcid rows)).
    { intros Hin. apply Hexisting in Hin. discriminate. }
    rewrite map_app. cbn [map c_orcid]. split; [|split; [|split]].
    + apply NoDup_app; [exact Hnodup|constructor; [intros []|constructor]|].
      intros x Hx [<-|[]]. contradiction.
    + eexists. split; [apply in_or_app; right; now left|now split].
    + intros row Hin _. apply in_or_app. now left.
    + intros o Hne. split.
      * intros Hin. apply in_app_or in Hin. destruct Hin as [Hin|[Heq|[]]];
          [exact Hin|congruence].
      * intros Hin. apply in_or_app. now left.
Qed.

Lemma process_names_committed items : forall count w n k w' n',
  all_committed w ->
  NoDup (keys items) ->
  Forall (fun item => truthy (snd item) = true) items ->
  NoDup (map c_orcid (visible n)) ->
  (forall o, In o (keys items) ->
     (existsb (String.eqb o) existing = true <-> In o (map c_orcid (visible n)))) ->
  process_names existing items count w n = (Ok k, w', n') ->
  k = count + List.length items
  /\ all_committed w'
  /\ NoDup (map c_orcid (visible n'))
  /\ (forall row, In row (visible n) -> ~ In (c_orcid row) (keys items) ->
        In row (visible n'))
  /\ (forall orcid profile, In (orcid, profile) items ->
        exists names row,
          names_of profile = Ok names /\ In row (visible n')
          /\ stored orcid names row).
Proof.
  induction items as [|[orcid profile] items IH];
    intros count w n k w' n' Hall Hkeys Htruthy Hnodup Hexisting;
    cbn [process_names].
  - intros [= <- <- <-]. split; [cbn; lia|]. split; [exact Hall|].
    split; [exact Hnodup|]. split; [auto|]. intros ? ? [].
  - inversion Htruthy as [|? ? Hp Hrest]; subst. cbn [snd] in Hp.
    rewrite Hp. cbn [negb].
    cbn [keys map fst] in Hkeys. inversion Hkeys as [|? ? Hfresh Hkeys']; subst.
    destruct (names_of profile) as [names|e] eqn:Hnames; [|discriminate].
    cbv zeta.
    set (n1 := mkNames (researcher_cache n)
                       (pending n ++ [change_for existing orcid names])).
    destruct (apply_change_for (visible n) orcid names Hnodup)
      as [Hnd1 [[row1 [Hrow1 Hstored1]] [Hframe1 Hids1]]].
    { apply Hexisting. cbn [keys map fst]. now left. }
    rewrite <- (visible_after_change n) in Hnd1, Hrow1, Hframe1, Hids1.
    fold n1 in Hnd1, Hrow1, Hframe1, Hids1.
    assert (Hnext : exists w2 n2,
               (if Nat.modulo (S count) 500 =? 0 then commit_names w n1 else (w, n1))
               = (w2, n2)
               /\ all_committed w2 /\ visible n2 = visible n1).
    { destruct (Nat.modulo (S count) 500 =? 0); [|now exists w, n1].
      unfold commit_names. destruct (commit_all_committed w Hall) as [Hok Hafter].
      destruct (commit w) as [o w2]. cbn [fst snd] in *. subst o.
      exists w2, (mkNames (visible n1) []). now repeat split. }
    destruct Hnext as [w2 [n2 [-> [Hall2 Hvis2]]]].
    intros Hrun.
    destruct (IH (S count) w2 n2 k w' n' Hall2 Hkeys' Hrest) as
      [Hk [Hall' [Hnd' [Hframe' Hstored']]]]; [now rewrite Hvis2| |exact Hrun|].
    { intros o Ho. rewrite Hvis2, Hids1; [|intros ->; contradiction].
      apply Hexisting. cbn [keys map fst]. now right. }
    split; [cbn [List.length]; lia|]. split; [exact Hall'|]. split; [exact Hnd'|].
    split; [|].
    + intros row Hin Hout. apply Hframe'.
      * rewrite Hvis2. apply Hframe1; [exact Hin|].
        intros Heq. apply Hout. cbn [keys map fst]. now left.
      * intros Hin'. apply Hout. cbn [keys map fst]. now right.
    + intros orcid' profile' [[= <- <-]|Hin].
      * exists names, row1. split; [exact Hnames|]. split; [|exact Hstored1].
        apply Hframe'; [now rewrite Hvis2|].
        destruct Hstored1 as [-> _]. exact Hfresh.
      * now apply Hstored'.
Qed.

End NamesCommittedFacts.

(** X23.  When every commit goes through, a synchronisation of names that
    returns, started with nothing pending on a table without two rows of one
    person, returns the number of profiles fetched, leaves nothing pending,
    leaves the table without two rows of one person, and leaves every
    fetched profile a row under its identifier with the three names read
    from the profile. *)
Theorem names_sync_stores_every_profile env ror_id w n count w' n' :
  all_committed w ->
  pending n = [] ->
  NoDup (map c_orcid (researcher_cache n)) ->
  build_researcher_names_cache env ror_id w n = (Ok count, w', n') ->
  let items := profiles_map env (hd [] (schedules w)) (all_orcids ror_id (db w)) in
  (all_orcids ror_id (db w) = [] -> count = 0 /\ n' = n)
  /\ (all_orcids ror_id (db w) <> [] ->
      count = List.length items
      /\ pending n' = []
      /\ NoDup (map c_orcid (researcher_cache n'))
      /\ forall orcid profile,
          In (orcid, profile) items ->
          exists names row,
            names_of profile = Ok names
            /\ In row (researcher_cache n')
            /\ c_orcid row = orcid
            /\ (c_given_names row, c_family_name row, c_credit_name row) = names).
Proof.
  intros Hall Hpending Hnodup. cbv zeta. unfold build_researcher_names_cache.
  destruct (all_orcids ror_id (db w)) as [|o orcids'] eqn:Horcids;
    cbn [List.length Nat.eqb].
  { intros [= <- <- <-]. split; [now split|]. intros H. now destruct H. }
  rewrite <- Horcids. set (orcids := all_orcids ror_id (db w)).
  assert (Hsome : orcids <> []) by (subst orcids; rewrite Horcids; discriminate).
  clear Horcids.
  destruct (next_schedule_frame w) as [Hpicks [_ Hcommits]].
  pose proof (next_schedule_keeps_committed w Hall) as Hall1.
  destruct (next_schedule w) as [picks w1]. cbn [fst snd] in *. subst picks.
  destruct (token_failure env) as [e0|] eqn:Htoken;
    [rewrite (get_all_profiles_raised _ _ _ _ _ Htoken); discriminate|].
  rewrite (get_all_profiles_pool _ _ _ _ Htoken) by lia.
  set (items := profiles_map env (hd [] (schedules w)) orcids).
  destruct (profiles_map_items env (hd [] (schedules w)) orcids)
    as [Htruthy [Hkeys Hincl]].
  fold items in Htruthy, Hkeys, Hincl.
  assert (Hvisible : visible n = researcher_cache n)
    by (unfold visible; now rewrite Hpending).
  destruct (process_names (prefetched orcids n) items 0 w1 n)
    as [[[k|e] w2] n2] eqn:Hloop; [|discriminate].
  destruct (process_names_committed (prefetched orcids n) items 0 w1 n k w2 n2
              Hall1 Hkeys Htruthy) as [Hk [Hall2 [Hnd2 [_ Hstored]]]];
    [now rewrite Hvisible| |exact Hloop|].
  { intros x Hx. rewrite existsb_eqb_In. unfold prefetched.
    rewrite !in_map_iff. split.
    - intros [r [Hr Hin]]. apply filter_In in Hin. exists r. now split.
    - intros [r [Hr Hin]]. exists r. split; [exact Hr|].
      apply filter_In. split; [exact Hin|].
      apply existsb_eqb_In. rewrite Hr. now apply Hincl. }
  unfold commit_names. destruct (commit_all_committed w2 Hall2) as [Hok _].
  destruct (commit w2) as [outcome w3]. cbn [fst] in Hok. subst outcome.
  intros [= <- <- <-]. split; [intros H; now destruct Hsome|]. intros _.
  cbn [pending researcher_cache]. split; [exact Hk|]. split; [reflexivity|].
  split; [exact Hnd2|]. intros orcid profile Hin.
  destruct (Hstored orcid profile Hin) as [names [row [Hnames [Hrow [Ho Hn]]]]].
  exists names, row. now repeat split.
Qed.

Lemma names_sync_stores_every_profile_witness :
  exists n',
    build_researcher_names_cache names_env "02ap3w078" shared_world sample_names
    = (Ok 1, shared_world, n')
    /\ pending n' = []
    /\ exists row,
        In row (researcher_cache n') /\ c_orcid row = "0000-0009"
        /\ c_given_names row = JStr "Ada".
Proof.
  destruct (build_researcher_names_cache names_env "02ap3w078" shared_world
              sample_names) as [[r w'] n'] eqn:Hrun.
  assert (Hr : r = Ok 1) by (vm_compute in Hrun; congruence).
  assert (Hw : w' = shared_world)
    by (vm_compute in Hrun; injection Hrun as _ <- _; reflexivity).
  subst r w'. exists n'. split; [reflexivity|].
  destruct (names_sync_stores_every_profile names_env "02ap3w078" shared_world
              sample_names 1 shared_world n') as [_ Hstored];
    [constructor|reflexivity| |exact Hrun|].
  { constructor; [intros [H|[]]; discriminate|].
    constructor; [intros []|constructor]. }
  destruct Hstored as [_ [Hpending [_ Hrows]]]; [vm_compute; discriminate|].
  split; [exact Hpending|].
  destruct (Hrows "0000-0009" (named_profile "Ada" "Lovelace"))
    as [names [row [Hnames [Hin [Horcid Hstored]]]]];
    [vm_compute; left; reflexivity|].
  exists row. split; [exact Hin|]. split; [exact Horcid|].
  vm_compute in Hnames. injection Hnames as <-. now injection Hstored.
Defined.
Lemma process_names_count existing items : forall count w n k w' n',
  Forall (fun item => truthy (snd item) = true) items ->
  process_names existing items count w n = (Ok k, w', n') ->
  k = count + List.length items.
Proof.
  induction items as [|[orcid profile] items IH]; intros count w n k w' n' Htruthy;
    cbn [process_names].
  - intros [= <- _ _]. cbn. lia.
  - inversion Htruthy as [|? ? Hp Hrest]; subst. cbn [snd] in Hp.
    rewrite Hp. cbn [negb].
    destruct (names_of profile) as [names|e]; [|discriminate]. cbv zeta.
    destruct (if Nat.modulo (S count) 500 =? 0 then _ else _) as [w2 n2].
    intros Hrun. apply (IH _ _ _ _ _ _ Hrest) in Hrun. cbn [List.length]. lia.
Qed.

Lemma process_names_small existing items : forall count w n r w' n',
  count + List.length items < 500 ->
  process_names existing items count w n = (r, w', n') ->
  w' = w /\ researcher_cache n' = researcher_cache n.
Proof.
  induction items as [|[orcid profile] items IH]; intros count w n r w' n' Hsmall;
    cbn [process_names].
  - now intros [= _ <- <-].
  - cbn [List.length] in Hsmall.
    destruct (negb (truthy profile)); [apply IH; lia|].
    destruct (names_of profile) as [names|e]; [|now intros [= _ <- <-]].
    cbv zeta.
    assert (Hmod : (Nat.modulo (S count) 500 =? 0) = false).
    { apply Nat.eqb_neq. rewrite Nat.mod_small; lia. }
    rewrite Hmod. intros Hrun. apply IH in Hrun; [exact Hrun|lia].
Qed.

(** X24.  A synchronisation of names that returns, returns the number of
    profiles fetched whatever its commits met: when fewer than five hundred
    profiles were fetched and the one commit fails, the table of names is
    left as it was found and nothing stays pending, and the count returned
    is still the number of profiles fetched. *)
Theorem names_sync_counts_unsaved env ror_id w n count w' n' :
  build_researcher_names_cache env ror_id w n = (Ok count, w', n') ->
  let items := profiles_map env (hd [] (schedules w)) (all_orcids ror_id (db w)) in
  count = List.length items
  /\ (List.length items < 500 ->
      forall text rest,
        commits w = Failed text :: rest ->
        all_orcids ror_id (db w) <> [] ->
        researcher_cache n' = researcher_cache n /\ pending n' = []
        /\ commits w' = rest).
Proof.
  cbv zeta. unfold build_researcher_names_cache.
  destruct (all_orcids ror_id (db w)) as [|o orcids'] eqn:Horcids;
    cbn [List.length Nat.eqb].
  { intros [= <- <- <-]. split; [|intros _ text rest _ H; now destruct H].
    unfold profiles_map. now destruct (pool_url env). }
  rewrite <- Horcids. set (orcids := all_orcids ror_id (db w)). clear Horcids.
  destruct (next_schedule_frame w) as [Hpicks [_ Hcommits]].
  destruct (next_schedule w) as [picks w1]. cbn [fst snd] in *. subst picks.
  destruct (token_failure env) as [e0|] eqn:Htoken;
    [rewrite (get_all_profiles_raised _ _ _ _ _ Htoken); discriminate|].
  rewrite (get_all_profiles_pool _ _ _ _ Htoken) by lia.
  set (items := profiles_map env (hd [] (schedules w)) orcids).
  destruct (profiles_map_items env (hd [] (schedules w)) orcids) as [Htruthy _].
  fold items in Htruthy.
  destruct (process_names (prefetched orcids n) items 0 w1 n)
    as [[[k|e] w2] n2] eqn:Hloop; [|discriminate].
  pose proof (process_names_count _ _ _ _ _ _ _ _ Htruthy Hloop) as Hk.
  destruct (commit_names w2 n2) as [w3 n3] eqn:Hcommit.
  intros [= <- <- <-]. split; [exact Hk|].
  intros Hsmall text rest Hfailed _.
  destruct (process_names_small _ items 0 _ _ _ _ _ Hsmall Hloop) as [-> Hsame].
  unfold commit_names, commit in Hcommit. rewrite Hcommits, Hfailed in Hcommit.
  injection Hcommit as <- <-. cbn [researcher_cache pending commits].
  now repeat split.
Qed.

Lemma names_sync_counts_unsaved_witness :
  exists w' n',
    build_researcher_names_cache names_env "02ap3w078" stocked_world sample_names
    = (Ok 1, w', n')
    /\ researcher_cache n' = researcher_cache sample_names.
Proof.
  destruct (build_researcher_names_cache names_env "02ap3w078" stocked_world
              sample_names) as [[r w'] n'] eqn:Hrun.
  assert (Hr : r = Ok 1) by (vm_compute in Hrun; congruence).
  subst r. exists w', n'. split; [reflexivity|].
  destruct (names_sync_counts_unsaved _ _ _ _ _ _ _ Hrun) as [_ Hfailed].
  destruct (Hfailed ltac:(vm_compute; lia) "database is locked" [] eq_refl)
    as [Hsame _]; [vm_compute; discriminate|exact Hsame].
Defined.
Lemma sync_names_applied env ror_list : forall w n,
  let r := sync_names env ror_list w n in
  db (fst r) = db w
  /\ exists cs,
      researcher_cache (snd r) = fold_left apply_change cs (researcher_cache n)
      /\ incl (map touched (cs ++ pending (snd r)))
              (map touched (pending n)
               ++ flat_map (fun ror => all_orcids ror (db w)) ror_list).
Proof.
  induction ror_list as [|ror ror_list IH]; intros w n; cbn [sync_names]; cbv zeta.
  - cbn [fst snd flat_map]. split; [reflexivity|]. exists [].
    split; [reflexivity|]. cbn [app]. rewrite app_nil_r. apply incl_refl.
  - pose proof (build_names_applied env ror w n) as Hone. cbv zeta in Hone.
    destruct (build_researcher_names_cache env ror w n) as [[r w1] n1].
    cbn [fst snd] in Hone. destruct Hone as [Hdb1 [cs1 [Hcs1 Hincl1]]].
    specialize (IH w1 n1). cbv zeta in IH. destruct IH as [Hdb [cs [Hcs Hincl]]].
    split; [congruence|]. exists (cs1 ++ cs).
    split; [now rewrite fold_left_app, <- Hcs1|].
    rewrite Hdb1 in Hincl. cbn [flat_map].
    intros x Hx. rewrite <- app_assoc, map_app in Hx. apply in_app_or in Hx.
    assert (Hfirst : forall y, In y (map touched (cs1 ++ pending n1)) ->
                In y (map touched (pending n)
                      ++ all_orcids ror (db w)
                      ++ flat_map (fun ror => all_orcids ror (db w)) ror_list)).
    { intros y Hy. apply Hincl1 in Hy. apply in_app_or in Hy. apply in_or_app.
      destruct Hy; [now left|right; apply in_or_app; now left]. }
    destruct Hx as [Hx|Hx].
    + apply Hfirst. rewrite map_app. apply in_or_app. now left.
    + apply Hincl in Hx. apply in_app_or in Hx. destruct Hx as [Hx|Hx].
      * apply Hfirst. rewrite map_app. apply in_or_app. now right.
      * apply in_or_app. right. apply in_or_app. now right.
Qed.

Lemma same_person_columns scope rows kept :
  Forall2 (fun r r1 : ResearcherCache =>
             c_orcid r1 = c_orcid r /\ c_email r1 = c_email r
             /\ (In (c_orcid r) scope \/ r1 = r)) rows kept ->
  map c_orcid kept = map c_orcid rows /\ map c_email kept = map c_email rows.
Proof.
  induction 1 as [|r r1 rows kept [Ho [He _]] _ [IH1 IH2]]; [now split|].
  cbn [map]. now rewrite Ho, He, IH1, IH2.
Qed.

(** X25.  The command that synchronises names, over however many
    institutions, with whatever its commits meet and whichever
    synchronisations raise, writes to no cache, removes no row of the table
    of names and moves none, keeps every identifier and every address, and
    rewrites or adds rows only for identifiers that some institution it runs
    through has in its caches (or that were pending in the session). *)
Theorem names_command_keeps_rows env ror w n :
  let r := sync_researcher_names env ror w n in
  let scope :=
    map touched (pending n)
    ++ flat_map (fun ror => all_orcids ror (db w)) (cli_ror_list ror (db w)) in
  db (fst r) = db w
  /\ exists kept added,
      researcher_cache (snd r) = kept ++ added
      /\ map c_orcid kept = map c_orcid (researcher_cache n)
      /\ map c_email kept = map c_email (researcher_cache n)
      /\ Forall2 (fun row row1 => In (c_orcid row) scope \/ row1 = row)
                 (researcher_cache n) kept
      /\ incl (map c_orcid added) scope.
Proof.
  cbv zeta. unfold sync_researcher_names.
  destruct (sync_names_applied env (cli_ror_list ror (db w)) w n)
    as [Hdb [cs [Hcs Hincl]]].
  split; [exact Hdb|]. rewrite Hcs.
  destruct (applied_within cs
              (map touched (pending n)
               ++ flat_map (fun ror => all_orcids ror (db w))
                           (cli_ror_list ror (db w)))
              (researcher_cache n)) as [kept [added [Hfold [Hkept Hadded]]]].
  { intros x Hx. apply Hincl. rewrite map_app. apply in_or_app. now left. }
  exists kept, added. split; [exact Hfold|].
  destruct (same_person_columns _ _ _ Hkept) as [Hids Hemails].
  split; [exact Hids|]. split; [exact Hemails|]. split; [|exact Hadded].
  eapply Forall2_impl; [|exact Hkept]. cbn beta. now intros r r1 [_ [_ H]].
Qed.
(** ** The Grants build view *)

Section ClockFacts.





End ClockFacts.


(** ** The Grants rebuild, run again *)

Lemma build_fundings_asks_token fuel env ror_id base_url w r rs n w' :
  list_orcids_for_institution fuel env ror_id
    (fst (ensure_and_heal_grid_for_ror env ror_id w)) base_url default_rows
  = Some (r :: rs) ->
  build_fundings_cache_for_ror fuel env ror_id base_url w = Some (Ok n, w') ->
  token_failure env = None.
Proof.
  intros Hsearch Hrun. destruct (token_failure env) as [e|] eqn:Htoken; [|reflexivity].
  exfalso. revert Hrun. unfold build_fundings_cache_for_ror.
  destruct (ensure_and_heal_grid_for_ror env ror_id w) as [g wa].
  cbn [fst] in Hsearch. rewrite Hsearch.
  destruct (purge_fundings ror_id wa) as [[?|?] wb]; [|discriminate].
  destruct (next_schedule wb) as [picks wc].
  rewrite (get_all_profiles_raised _ _ _ _ _ Htoken). discriminate.
Qed.

Lemma build_fundings_committed fuel env ror_id base_url w r rs :
  all_committed w ->
  token_failure env = None ->
  list_orcids_for_institution fuel env ror_id
    (fst (ensure_and_heal_grid_for_ror env ror_id w)) base_url default_rows
  = Some (r :: rs) ->
  match map_res (profile_grants ror_id)
                (profiles_map env (hd [] (schedules w)) (orcid_ids_of (r :: rs)))
  with
  | Ok results =>
    exists w',
      build_fundings_cache_for_ror fuel env ror_id base_url w
      = Some (Ok (List.length (List.concat results)), w')
      /\ all_committed w'
      /\ users (db w')
         = users (db (snd (ensure_and_heal_grid_for_ror env ror_id w)))
      /\ fundings_of ror_id (db w') = List.concat results
  | Raise _ =>
    exists e w',
      build_fundings_cache_for_ror fuel env ror_id base_url w = Some (Raise e, w')
  end.
Proof.
  intros Hall Htoken Hsearch. unfold build_fundings_cache_for_ror.
  pose proof (ensure_committed env ror_id w Hall) as Halla.
  destruct (ensure_frame env ror_id w) as [_ [_ [Hsched _]]].
  destruct (ensure_and_heal_grid_for_ror env ror_id w) as [g wa].
  cbn [fst snd] in *. rewrite Hsearch.
  pose proof (purge_fundings_cases ror_id wa) as Hpurge. cbv zeta in Hpurge.
  assert (Hpurged : fst (purge_fundings ror_id wa) = Ok tt
                    /\ all_committed (snd (purge_fundings ror_id wa))).
  { unfold purge_fundings. destruct (commit_all_committed wa Halla) as [Hok Hafter].
    destruct (commit wa) as [o w1]. cbn [fst snd] in *. subst o. now split. }
  destruct (purge_fundings ror_id wa) as [pr wb]. cbn [fst snd] in *.
  destruct Hpurged as [-> Hallb].
  destruct Hpurge as [Hub [_ [_ [Hsb [[_ Hfb]|[[e He] _]]]]]]; [|discriminate].
  destruct (next_schedule_frame wb) as [Hpicks [Hdbc Hcc]].
  pose proof (next_schedule_keeps_committed wb Hallb) as Hallc.
  destruct (next_schedule wb) as [picks wc]. cbn [fst snd] in *. subst picks.
  rewrite (get_all_profiles_pool _ _ _ _ Htoken) by lia. rewrite Hsb, Hsched.
  set (items := profiles_map env (hd [] (schedules w)) (orcid_ids_of (r :: rs))).
  destruct (map_res (profile_grants ror_id) items) as [results|e] eqn:Hread.
  - destruct (process_fundings_any ror_id items results (mkFundingsState 0 []) wc Hread)
      as [st [wd [Hloop [Htotal Hrows]]]].
    pose proof (process_fundings_keeps_committed ror_id items (mkFundingsState 0 []) wc
                  Hallc) as Halld.
    pose proof (process_fundings_appends ror_id items (mkFundingsState 0 []) wc
                  (Forall_nil _)) as Happ.
    cbv zeta in Happ. rewrite Hloop in Halld, Happ |- *. cbn [fst snd] in *.
    destruct Happ as [Hud _].
    cbn [total_fundings_cached funding_buffer app] in Htotal, Hrows.
    assert (Hflush : exists we,
               _flush_bulk insert_fundings (funding_buffer st) wd
               = (List.length (funding_buffer st), [], we)
               /\ all_committed we /\ users (db we) = users (db wd)
               /\ funding_cache (db we) = funding_cache (db wd) ++ funding_buffer st).
    { unfold _flush_bulk. destruct (funding_buffer st) as [|x buffer].
      - exists wd. rewrite app_nil_r. now repeat split.
      - destruct (commit_all_committed wd Halld) as [Hok Hafter].
        destruct (commit_frame wd) as [Hdb _].
        destruct (commit wd) as [o we]. cbn [fst snd] in *. subst o.
        eexists. split; [reflexivity|]. cbn [with_db db]. rewrite Hdb.
        now repeat split. }
    destruct Hflush as [we [-> [Halle [Hue Hfe]]]].
    exists we. rewrite Htotal. split; [reflexivity|]. split; [exact Halle|].
    split; [congruence|].
    unfold fundings_of. rewrite Hfe, Hrows, Hdbc, Hfb.
    apply (filter_purged_added f_ror_id).
    eapply profile_grants_ror. exact Hread.
  - assert (Hraise : exists e' w',
               process_fundings ror_id items (mkFundingsState 0 []) wc = (Raise e', w')).
    { destruct (process_fundings ror_id items (mkFundingsState 0 []) wc)
        as [[st|e'] wd] eqn:Hloop; [|now eexists _, _].
      destruct (process_fundings_read ror_id items _ _ _ _ Hloop) as [results Hok].
      congruence. }
    destruct Hraise as [e' [w' ->]]. now exists e', w'.
Qed.

(** X27.  With every commit going through and the upstream answering the
    same, a Grants rebuild run again from the state the first run left
    returns the same count, in whatever order the workers finish, and after
    each run the institution has exactly that many Grant rows when the
    search found somebody. *)
Theorem fundings_rebuild_twice fuel env ror_id base_url w0 n w1 :
  all_committed w0 ->
  build_fundings_cache_for_ror fuel env ror_id base_url w0 = Some (Ok n, w1) ->
  exists w2,
    build_fundings_cache_for_ror fuel env ror_id base_url w1 = Some (Ok n, w2)
    /\ (list_orcids_for_institution fuel env ror_id
          (fst (ensure_and_heal_grid_for_ror env ror_id w0)) base_url default_rows
        <> Some [] ->
        List.length (fundings_of ror_id (db w1)) = n
        /\ List.length (fundings_of ror_id (db w2)) = n).
Proof.
  intros Hall Hrun1.
  destruct (list_orcids_for_institution fuel env ror_id
              (fst (ensure_and_heal_grid_for_ror env ror_id w0)) base_url default_rows)
    as [[|r rs]|] eqn:Hsearch.
  - unfold build_fundings_cache_for_ror in Hrun1 |- *.
    assert (Hstable := ensure_stable env ror_id w0 w1 Hall).
    destruct (ensure_and_heal_grid_for_ror env ror_id w0) as [g wa].
    cbn [fst snd] in *. rewrite Hsearch in Hrun1. injection Hrun1 as <- <-.
    rewrite (Hstable eq_refl), Hsearch.
    exists wa. split; [reflexivity|]. intros Hne. now contradiction Hne.
  - pose proof (build_fundings_asks_token _ _ _ _ _ _ _ _ _ Hsearch Hrun1) as Htoken.
    pose proof (build_fundings_committed fuel env ror_id base_url w0 r rs Hall Htoken Hsearch)
      as Hfirst.
    destruct (map_res _ (profiles_map env (hd [] (schedules w0)) (orcid_ids_of (r :: rs))))
      as [results1|e] eqn:Hread1.
    + destruct Hfirst as [w1' [Hrun1' [Hall1 [Hu1 Hw1]]]].
      rewrite Hrun1 in Hrun1'. injection Hrun1' as -> <-.
      pose proof (ensure_stable env ror_id w0 w1 Hall Hu1) as Hstable.
      assert (Hsearch2 :
                list_orcids_for_institution fuel env ror_id
                  (fst (ensure_and_heal_grid_for_ror env ror_id w1)) base_url
                  default_rows = Some (r :: rs))
        by (rewrite Hstable; exact Hsearch).
      pose proof (build_fundings_committed fuel env ror_id base_url w1 r rs Hall1
                    Htoken Hsearch2) as Hsecond.
      destruct (map_res_perm _ _ _
                  (profiles_map_perm env (hd [] (schedules w0)) (hd [] (schedules w1))
                     (orcid_ids_of (r :: rs))) _ Hread1)
        as [results2 [Hread2 Hperm]].
      rewrite Hread2 in Hsecond.
      destruct Hsecond as [w2 [Hrun2 [_ [_ Hw2]]]].
      assert (Hlen : List.length (List.concat results1)
                     = List.length (List.concat results2)).
      { pose proof (concat_length_perm (fun rows : list FundingCache => rows) _ _ Hperm)
          as H. now rewrite !map_id in H. }
      rewrite <- Hlen in Hrun2.
      exists w2. split; [exact Hrun2|]. intros _.
      rewrite Hw1, Hw2. split; [reflexivity|]. now symmetry.
    + destruct Hfirst as [e' [w' Hraise]]. congruence.
  - unfold build_fundings_cache_for_ror in Hrun1.
    destruct (ensure_and_heal_grid_for_ror env ror_id w0) as [g wa].
    cbn [fst] in Hsearch. rewrite Hsearch in Hrun1. discriminate.
Qed.

Lemma fundings_rebuild_twice_witness :
  exists w1 w2,
    build_fundings_cache_for_ror 1 sample_env "02ap3w078" None shared_world
    = Some (Ok 1, w1)
    /\ build_fundings_cache_for_ror 1 sample_env "02ap3w078" None w1 = Some (Ok 1, w2)
    /\ List.length (fundings_of "02ap3w078" (db w1)) = 1
    /\ List.length (fundings_of "02ap3w078" (db w2)) = 1.
Proof.
  eexists.
  destruct (fundings_rebuild_twice 1 sample_env "02ap3w078" None shared_world 1 _
              (Forall_nil _) eq_refl) as [w2 [Hrun2 Hrows]].
  exists w2. split; [reflexivity|]. split; [exact Hrun2|].
  apply Hrows. vm_compute. discriminate.
Defined.
(** ** One record and many *)

(** ** The headers of a search *)

Lemma prepare_headers_settled h :
  (exists a, header "Accept" h = Some a) ->
  match header "Authorization" h with
  | Some sent => starts_with "bearer " (lower (strip sent)) = true
  | None => True
  end ->
  prepare_headers (Some h) = h.
Proof.
  intros [a Ha] Hs. unfold prepare_headers. cbn [copy_or_empty]. rewrite Ha.
  destruct (header "Authorization" h); [|reflexivity].
  cbv zeta. rewrite Hs. reflexivity.
Qed.

Lemma bearer_is_settled token :
  rstrip token <> EmptyString ->
  starts_with "bearer " (lower (strip ("Bearer " ++ token)%string)) = true.
Proof.
  intros Htoken. unfold strip.
  change (lstrip ("Bearer " ++ token)%string) with ("Bearer " ++ token)%string.
  now rewrite rstrip_app.
Qed.

Lemma header_absent k (h : headers) : ~ In k (map fst h) -> header k h = None.
Proof.
  induction h as [|[k0 v0] h IH]; [reflexivity|]. cbn [map fst In header].
  intros Hout. destruct (String.eqb_spec k k0) as [->|Hne].
  - exfalso. apply Hout. now left.
  - apply IH. intros Hin. apply Hout. now right.
Qed.

Lemma header_update_headers k extra : forall h,
  NoDup (map fst extra) ->
  header k (update_headers extra h)
  = match header k extra with
    | Some v => Some v
    | None => header k h
    end.
Proof.
  unfold update_headers.
  induction extra as [|[k0 v0] extra IH]; intros h Hnodup; [reflexivity|].
  cbn [map fst] in Hnodup. inversion Hnodup as [|? ? Hout Hrest]; subst.
  cbn [fold_left fst snd header]. rewrite (IH _ Hrest), header_set_header.
  destruct (String.eqb_spec k k0) as [->|Hne]; [|reflexivity].
  now rewrite (header_absent _ _ Hout).
Qed.

(** X29.  The credentials a caller of the search builds from a token that
    is not blank reach the registry as built, with the media type the search
    names: so for the headers of the rebuild route, for those of the
    command, and for a caller that gives no credentials, in whose place the
    search puts the cached token.  A caller's credentials are never replaced
    by the cached token. *)
Theorem search_headers_reach_registry token :
  rstrip token <> EmptyString ->
  (forall cached,
      starts_with "Bearer " token = false ->
      prepare_headers (Some (search_headers (Some (context_headers token)) cached))
      = [("Accept", "application/json");
         ("Authorization", ("Bearer " ++ token)%string)])
  /\ (forall cached,
      prepare_headers (Some (search_headers (Some (profile_headers token)) cached))
      = profile_headers token)
  /\ prepare_headers
       (Some (search_headers (Some [("Accept", "application/json")]) (Some token)))
     = profile_headers token
  /\ (forall hdrs cached sent,
      NoDup (map fst (copy_or_empty hdrs)) ->
      header "Authorization" (copy_or_empty hdrs) = Some sent ->
      header "Authorization" (search_headers hdrs cached) = Some sent).
Proof.
  intros Htoken.
  assert (Hsent : forall cached,
             search_headers (Some (profile_headers token)) cached
             = profile_headers token)
    by (intros [tok|]; [cbn; now rewrite andb_false_r|reflexivity]).
  assert (Hfixed : prepare_headers (Some (profile_headers token))
                   = profile_headers token).
  { apply prepare_headers_settled; [now eexists|].
    cbn [profile_headers header String.eqb Ascii.eqb Bool.eqb andb].
    now apply bearer_is_settled. }
  split; [|split; [|split]].
  - intros cached Hplain. unfold context_headers. rewrite Hplain.
    fold (profile_headers token). now rewrite Hsent.
  - intros cached. now rewrite Hsent.
  - assert (Htruthy : str_truthy token = true).
    { destruct token; [now destruct Htoken|reflexivity]. }
    unfold search_headers. cbn [update_headers fold_left set_header fst snd
                                  String.eqb Ascii.eqb Bool.eqb andb header].
    rewrite Htruthy. cbn [andb negb set_header String.eqb Ascii.eqb Bool.eqb].
    exact Hfixed.
  - intros hdrs cached sent Hnodup Hgiven.
    destruct hdrs as [[|kv extra]|]; try discriminate.
    cbn [copy_or_empty] in *.
    assert (Hkept : header "Authorization"
                      (update_headers (kv :: extra) [("Accept", "application/json")])
                    = Some sent)
      by now rewrite header_update_headers, Hgiven.
    unfold search_headers. cbv zeta. rewrite Hkept.
    destruct cached as [tok|]; [|exact Hkept].
    cbn [negb]. rewrite andb_false_r. exact Hkept.
Qed.

Lemma search_headers_reach_registry_witness :
  prepare_headers (Some (search_headers (Some (context_headers "abc")) (Some "old")))
  = [("Accept", "application/json"); ("Authorization", "Bearer abc")]
  /\ prepare_headers
       (Some (search_headers (Some [("Accept", "application/json")]) (Some "abc")))
     = [("Accept", "application/json"); ("Authorization", "Bearer abc")].
Proof.
  destruct (search_headers_reach_registry "abc") as [Hroute [_ [Hcached _]]];
    [discriminate|].
  split; [apply Hroute; reflexivity|exact Hcached].
Defined.
